(** * xpanel node agent: reconciliation, activity tracking, key management
      and start-up configuration

    A shallow embedding of the agent control loop of xpanel-agent (package
    internal/agent: [syncUsers], [trackActivity], [reportActivity],
    [cleanupActivityCache], [reportTraffic], [LoadOrCreateRealityKeys] and
    [Agent.Start], with the structures of internal/models, internal/panel
    and config they use), and the properties of the specification proved
    against it.

    Conventions of the embedding
    - Go [string] and [[]byte] are Rocq [string] and [list ascii]: sequences
      of 8-bit bytes.
    - Go [int64] is [Z]; the one place where the source does arithmetic that
      can leave the range (the counter deltas of [trackActivity]) wraps
      explicitly through [wrap64].
    - Go maps are stdpp [gmap]s.  A [range] over a map visits the keys in an
      order chosen by the runtime: the order is drawn from an oracle.
    - Every interaction with the outside (controller, proxy engine, clock,
      entropy source, operating system) emits an [Event]; its answer is given
      by an oracle of the environment that sees the whole history, so that
      nothing is assumed about the collaborators.
    - Each function is run alone, from its first statement to its return;
      interleavings of the four loops are not part of the model.
    - Logger calls do not influence state or results and are left out;
      counters that only feed log lines ([added], [removed]) go with them. *)

From Stdlib Require Import ZArith Ascii String List Lia.
From Stdlib Require DecimalString.
From stdpp Require Import base tactics option list sorting gmap strings.

Local Open Scope Z_scope.

(** ** Bytes *)

Definition byte := ascii.

Definition Z_of_byte (c : byte) : Z := Z.of_N (N_of_ascii c).

(** Go's conversion [byte(v)] of an unsigned integer: truncation to 8 bits. *)
Definition byte_of_Z (z : Z) : byte := ascii_of_N (Z.to_N (Z.land z 255)).

(** ** encoding/base64, [RawURLEncoding]

    The Go standard library's unpadded URL-safe alphabet (RFC 4648, section 5),
    as used by reality.go.  The encoder and the (non-strict) decoder follow
    the library's loops: three bytes are packed into a 24-bit value that is
    cut into four 6-bit digits, and back. *)

Module Base64.

Definition encodeURL : list byte :=
  list_ascii_of_string
    "ABCDEFGHIJKLMNOPQRSTUVWXYZabcdefghijklmnopqrstuvwxyz0123456789-_".

(** [enc.encode[d]] *)
Definition encodeDigit (d : Z) : byte :=
  nth (Z.to_nat d) encodeURL "A"%char.

Fixpoint index_of (c : byte) (l : list byte) (i : Z) : option Z :=
  match l with
  | [] => None
  | x :: l' => if Ascii.eqb x c then Some i else index_of c l' (i + 1)
  end.

(** [enc.decodeMap[c]], [None] standing for the invalid marker 0xFF. *)
Definition decodeDigit (c : byte) : option Z := index_of c encodeURL 0.

Fixpoint Encode (src : list byte) : list byte :=
  match src with
  | a :: b :: c :: rest =>
      let val := Z.lor (Z.lor (Z.shiftl (Z_of_byte a) 16)
                              (Z.shiftl (Z_of_byte b) 8)) (Z_of_byte c) in
      encodeDigit (Z.land (Z.shiftr val 18) 63)
        :: encodeDigit (Z.land (Z.shiftr val 12) 63)
        :: encodeDigit (Z.land (Z.shiftr val 6) 63)
        :: encodeDigit (Z.land val 63)
        :: Encode rest
  | [a; b] =>
      let val := Z.lor (Z.shiftl (Z_of_byte a) 16) (Z.shiftl (Z_of_byte b) 8) in
      [encodeDigit (Z.land (Z.shiftr val 18) 63);
       encodeDigit (Z.land (Z.shiftr val 12) 63);
       encodeDigit (Z.land (Z.shiftr val 6) 63)]
  | [a] =>
      let val := Z.shiftl (Z_of_byte a) 16 in
      [encodeDigit (Z.land (Z.shiftr val 18) 63);
       encodeDigit (Z.land (Z.shiftr val 12) 63)]
  | [] => []
  end.

Definition EncodeToString (src : list byte) : string :=
  string_of_list_ascii (Encode src).

(** The decoder skips carriage returns and line feeds. *)
Definition is_newline (c : byte) : bool :=
  Ascii.eqb c "010"%char || Ascii.eqb c "013"%char.

(** Digits of the input, [None] on a byte outside the alphabet. *)
Fixpoint digits (s : list byte) : option (list Z) :=
  match s with
  | [] => Some []
  | c :: s' =>
      if is_newline c then digits s'
      else match decodeDigit c, digits s' with
           | Some d, Some ds => Some (d :: ds)
           | _, _ => None
           end
  end.

(** One quantum of four digits gives three bytes; without padding a final
    group of two or three digits gives one or two bytes, and a single
    left-over digit is corrupt input. *)
Fixpoint decodeQuanta (ds : list Z) : option (list byte) :=
  match ds with
  | d0 :: d1 :: d2 :: d3 :: rest =>
      let val := Z.lor (Z.lor (Z.lor (Z.shiftl d0 18) (Z.shiftl d1 12))
                              (Z.shiftl d2 6)) d3 in
      match decodeQuanta rest with
      | Some bs => Some (byte_of_Z (Z.shiftr val 16)
                           :: byte_of_Z (Z.shiftr val 8)
                           :: byte_of_Z val :: bs)
      | None => None
      end
  | [d0; d1; d2] =>
      let val := Z.lor (Z.lor (Z.shiftl d0 18) (Z.shiftl d1 12)) (Z.shiftl d2 6) in
      Some [byte_of_Z (Z.shiftr val 16); byte_of_Z (Z.shiftr val 8)]
  | [d0; d1] =>
      let val := Z.lor (Z.shiftl d0 18) (Z.shiftl d1 12) in
      Some [byte_of_Z (Z.shiftr val 16)]
  | [_] => None
  | [] => Some []
  end.

Definition DecodeString (s : string) : option (list byte) :=
  match digits (list_ascii_of_string s) with
  | Some ds => decodeQuanta ds
  | None => None
  end.

End Base64.

(** ** internal/models *)

(** Go [error] values, by their message. *)
Abbreviation error := string (only parsing).

(** A Go result pair [(value, err)]. *)
Inductive result (A : Type) : Type :=
| Ok (a : A)
| Err (e : error).
Arguments Ok {A} a.
Arguments Err {A} e.

(** Instants in nanoseconds from Go's zero [time.Time], so that
    [t.IsZero()] is [t = 0]; durations in nanoseconds. *)
Definition Time := Z.
Definition Duration := Z.
Definition Second : Duration := 1000000000.
Definition Minute : Duration := 60 * Second.

Definition minInt64 : Z := - 2 ^ 63.
Definition maxInt64 : Z := 2 ^ 63 - 1.

(** Two's-complement wrap of an [int64] result. *)
Definition wrap64 (z : Z) : Z := (z + 2 ^ 63) mod 2 ^ 64 - 2 ^ 63.

(** [t.Sub(u)] saturates at the ends of the [Duration] range. *)
Definition Sub (t u : Time) : Duration :=
  if t - u <? minInt64 then minInt64
  else if maxInt64 <? t - u then maxInt64
  else t - u.

Record UserConfig := {
  uc_UserID : N;
  uc_Email : string;
  uc_UUID : string;
  uc_Status : string;
  uc_DataLimit : Z;
  uc_DataUsed : Z
}.

Record XrayUser := {
  xu_Email : string;
  xu_UUID : string;
  xu_Level : Z;
  xu_Protocol : string;
  xu_Flow : string
}.

Record XrayStats := {
  UploadBytes : Z;
  DownloadBytes : Z
}.

Record UserTrafficReport := {
  tr_UserEmail : string;
  tr_UploadBytes : Z;
  tr_DownloadBytes : Z
}.

Record TrafficReportRequest := {
  trr_NodeID : N;
  trr_Traffic : list UserTrafficReport;
  trr_Timestamp : Time
}.

Record UserActivityReport := {
  ar_Email : string;
  ar_LastSeen : Time;
  ar_IsOnline : bool;
  ar_DeviceCount : Z;
  ar_DeviceIPs : list string
}.

Record ActivityReportRequest := {
  arr_NodeID : N;
  arr_Users : list UserActivityReport;
  arr_Timestamp : Time
}.

(** ** internal/panel: the node configuration served by the controller *)

Record NodeConfig := {
  nc_ID : N;
  nc_Name : string;
  nc_Address : string;
  nc_Port : Z;
  nc_Protocol : string;
  nc_TLSEnabled : bool;
  nc_SNI : string;
  nc_InboundTag : string;
  nc_APIEndpoint : string;
  nc_APIPort : Z;
  nc_RealityEnabled : bool;
  nc_RealityDest : string;
  nc_RealityServerNames : string;
  nc_RealityPrivateKey : string;
  nc_RealityPublicKey : string;
  nc_RealityShortIds : string
}.

(** ** config *)

(** [XrayConfig].  Only [APIAddress] and [APIPort] are read from the local
    file; the other fields carry the tag [yaml:"-"]: they are filled by
    [config.Load] from the file paths, or by [Agent.Start] from the
    controller, and are empty until then. *)
Record XrayConfig := {
  APIAddress : string;
  APIPort : Z;
  Protocol : string;
  ListenAddress : string;
  ListenPort : Z;
  TLSEnabled : bool;
  CertFile : string;
  KeyFile : string;
  SNI : string;
  InboundTag : string;
  GeoIPPath : string;
  GeoSitePath : string;
  ConfigPath : string;
  RealityEnabled : bool;
  RealityDest : string;
  RealityServerNames : string;
  RealityPrivateKey : string;
  RealityPublicKey : string;
  RealityShortIds : string;
  RealityKeyPath : string
}.

(** [Config], with the sections the agent logic reads: [Node] and [Xray]
    (the controller address, the file paths and the intervals configure the
    collaborators and the timers). *)
Record Config := {
  Node_ID : N;
  Node_Name : string;
  Xray : XrayConfig
}.

(** Field assignments [cfg.Xray.F = v]. *)
Definition set_APIPort (v : Z) (c : XrayConfig) : XrayConfig :=
  Build_XrayConfig (APIAddress c) v (Protocol c) (ListenAddress c) (ListenPort c)
    (TLSEnabled c) (CertFile c) (KeyFile c) (SNI c) (InboundTag c) (GeoIPPath c)
    (GeoSitePath c) (ConfigPath c) (RealityEnabled c) (RealityDest c)
    (RealityServerNames c) (RealityPrivateKey c) (RealityPublicKey c)
    (RealityShortIds c) (RealityKeyPath c).
Definition set_Protocol (v : string) (c : XrayConfig) : XrayConfig :=
  Build_XrayConfig (APIAddress c) (APIPort c) v (ListenAddress c) (ListenPort c)
    (TLSEnabled c) (CertFile c) (KeyFile c) (SNI c) (InboundTag c) (GeoIPPath c)
    (GeoSitePath c) (ConfigPath c) (RealityEnabled c) (RealityDest c)
    (RealityServerNames c) (RealityPrivateKey c) (RealityPublicKey c)
    (RealityShortIds c) (RealityKeyPath c).
Definition set_ListenPort (v : Z) (c : XrayConfig) : XrayConfig :=
  Build_XrayConfig (APIAddress c) (APIPort c) (Protocol c) (ListenAddress c) v
    (TLSEnabled c) (CertFile c) (KeyFile c) (SNI c) (InboundTag c) (GeoIPPath c)
    (GeoSitePath c) (ConfigPath c) (RealityEnabled c) (RealityDest c)
    (RealityServerNames c) (RealityPrivateKey c) (RealityPublicKey c)
    (RealityShortIds c) (RealityKeyPath c).
Definition set_TLSEnabled (v : bool) (c : XrayConfig) : XrayConfig :=
  Build_XrayConfig (APIAddress c) (APIPort c) (Protocol c) (ListenAddress c)
    (ListenPort c) v (CertFile c) (KeyFile c) (SNI c) (InboundTag c) (GeoIPPath c)
    (GeoSitePath c) (ConfigPath c) (RealityEnabled c) (RealityDest c)
    (RealityServerNames c) (RealityPrivateKey c) (RealityPublicKey c)
    (RealityShortIds c) (RealityKeyPath c).
Definition set_SNI (v : string) (c : XrayConfig) : XrayConfig :=
  Build_XrayConfig (APIAddress c) (APIPort c) (Protocol c) (ListenAddress c)
    (ListenPort c) (TLSEnabled c) (CertFile c) (KeyFile c) v (InboundTag c)
    (GeoIPPath c) (GeoSitePath c) (ConfigPath c) (RealityEnabled c) (RealityDest c)
    (RealityServerNames c) (RealityPrivateKey c) (RealityPublicKey c)
    (RealityShortIds c) (RealityKeyPath c).
Definition set_InboundTag (v : string) (c : XrayConfig) : XrayConfig :=
  Build_XrayConfig (APIAddress c) (APIPort c) (Protocol c) (ListenAddress c)
    (ListenPort c) (TLSEnabled c) (CertFile c) (KeyFile c) (SNI c) v
    (GeoIPPath c) (GeoSitePath c) (ConfigPath c) (RealityEnabled c) (RealityDest c)
    (RealityServerNames c) (RealityPrivateKey c) (RealityPublicKey c)
    (RealityShortIds c) (RealityKeyPath c).
Definition set_RealityEnabled (v : bool) (c : XrayConfig) : XrayConfig :=
  Build_XrayConfig (APIAddress c) (APIPort c) (Protocol c) (ListenAddress c)
    (ListenPort c) (TLSEnabled c) (CertFile c) (KeyFile c) (SNI c) (InboundTag c)
    (GeoIPPath c) (GeoSitePath c) (ConfigPath c) v (RealityDest c)
    (RealityServerNames c) (RealityPrivateKey c) (RealityPublicKey c)
    (RealityShortIds c) (RealityKeyPath c).
Definition set_RealityDest (v : string) (c : XrayConfig) : XrayConfig :=
  Build_XrayConfig (APIAddress c) (APIPort c) (Protocol c) (ListenAddress c)
    (ListenPort c) (TLSEnabled c) (CertFile c) (KeyFile c) (SNI c) (InboundTag c)
    (GeoIPPath c) (GeoSitePath c) (ConfigPath c) (RealityEnabled c) v
    (RealityServerNames c) (RealityPrivateKey c) (RealityPublicKey c)
    (RealityShortIds c) (RealityKeyPath c).
Definition set_RealityServerNames (v : string) (c : XrayConfig) : XrayConfig :=
  Build_XrayConfig (APIAddress c) (APIPort c) (Protocol c) (ListenAddress c)
    (ListenPort c) (TLSEnabled c) (CertFile c) (KeyFile c) (SNI c) (InboundTag c)
    (GeoIPPath c) (GeoSitePath c) (ConfigPath c) (RealityEnabled c) (RealityDest c)
    v (RealityPrivateKey c) (RealityPublicKey c)
    (RealityShortIds c) (RealityKeyPath c).
Definition set_RealityPrivateKey (v : string) (c : XrayConfig) : XrayConfig :=
  Build_XrayConfig (APIAddress c) (APIPort c) (Protocol c) (ListenAddress c)
    (ListenPort c) (TLSEnabled c) (CertFile c) (KeyFile c) (SNI c) (InboundTag c)
    (GeoIPPath c) (GeoSitePath c) (ConfigPath c) (RealityEnabled c) (RealityDest c)
    (RealityServerNames c) v (RealityPublicKey c)
    (RealityShortIds c) (RealityKeyPath c).
Definition set_RealityPublicKey (v : string) (c : XrayConfig) : XrayConfig :=
  Build_XrayConfig (APIAddress c) (APIPort c) (Protocol c) (ListenAddress c)
    (ListenPort c) (TLSEnabled c) (CertFile c) (KeyFile c) (SNI c) (InboundTag c)
    (GeoIPPath c) (GeoSitePath c) (ConfigPath c) (RealityEnabled c) (RealityDest c)
    (RealityServerNames c) (RealityPrivateKey c) v
    (RealityShortIds c) (RealityKeyPath c).
Definition set_RealityShortIds (v : string) (c : XrayConfig) : XrayConfig :=
  Build_XrayConfig (APIAddress c) (APIPort c) (Protocol c) (ListenAddress c)
    (ListenPort c) (TLSEnabled c) (CertFile c) (KeyFile c) (SNI c) (InboundTag c)
    (GeoIPPath c) (GeoSitePath c) (ConfigPath c) (RealityEnabled c) (RealityDest c)
    (RealityServerNames c) (RealityPrivateKey c) (RealityPublicKey c)
    v (RealityKeyPath c).

(** ** internal/agent: state *)

Record UserActivityState := {
  Email : string;
  LastSeen : Time;
  LastUplink : Z;
  LastDownlink : Z;
  IsActive : bool
}.

Record RealityKeys := {
  PrivateKey : string;
  PublicKey : string
}.

(** [xray.APIClient] as built by [NewAPIClient]. *)
Record APIClient := {
  apiAddress : string;
  apiPort : Z;
  inboundTag : string
}.

(** The [Agent] struct: its configuration and its mutable state.  The
    controller client, the engine API and the engine manager answer through
    [Env] below; the logger, the lock and the context are not represented.
    The values of [activityCache] are pointers in the source; each is
    reachable only through its key, so updating the entry is the in-place
    mutation. *)
Record Agent := {
  cfg : Config;
  xrayAPI : option APIClient;
  currentUsers : gmap string UserConfig;
  activityCache : gmap string UserActivityState;
  realityKeys : option RealityKeys
}.

(** The part of the file system the key manager touches: regular files the
    agent can read, and directories known to exist. *)
Record FileSystem := {
  files : gmap string string;
  dirs : gset string
}.

Record World := {
  agent : Agent;
  fs : FileSystem
}.

Definition set_currentUsers (m : gmap string UserConfig) (a : Agent) : Agent :=
  {| cfg := cfg a; xrayAPI := xrayAPI a; currentUsers := m;
     activityCache := activityCache a; realityKeys := realityKeys a |}.
Definition set_activityCache (m : gmap string UserActivityState) (a : Agent) : Agent :=
  {| cfg := cfg a; xrayAPI := xrayAPI a; currentUsers := currentUsers a;
     activityCache := m; realityKeys := realityKeys a |}.
Definition set_realityKeys (k : option RealityKeys) (a : Agent) : Agent :=
  {| cfg := cfg a; xrayAPI := xrayAPI a; currentUsers := currentUsers a;
     activityCache := activityCache a; realityKeys := k |}.
Definition set_xrayAPI (c : option APIClient) (a : Agent) : Agent :=
  {| cfg := cfg a; xrayAPI := c; currentUsers := currentUsers a;
     activityCache := activityCache a; realityKeys := realityKeys a |}.
Definition set_Xray (x : XrayConfig) (a : Agent) : Agent :=
  {| cfg := {| Node_ID := Node_ID (cfg a); Node_Name := Node_Name (cfg a); Xray := x |};
     xrayAPI := xrayAPI a; currentUsers := currentUsers a;
     activityCache := activityCache a; realityKeys := realityKeys a |}.

(** ** The outside world *)

(** One entry per call that leaves the agent, with the answer it got. *)
Inductive Event : Type :=
| EvFetchNodeConfig (nodeID : N) (r : result NodeConfig)
| EvFetchUserSync (nodeID : N) (r : result (list UserConfig))
| EvReportTraffic (req : TrafficReportRequest) (r : option error)
| EvReportActivity (req : ActivityReportRequest) (r : option error)
| EvAddUser (u : XrayUser) (r : option error)
| EvRemoveUser (email : string) (r : option error)
| EvGetUserStats (email : string) (r : result XrayStats)
| EvResetUserStats (email : string) (r : option error)
| EvGetOnlineIPs (email : string) (r : result (gmap string Z))
| EvManagerStart (c : XrayConfig) (r : option error)
| EvEnsureDataFiles (r : option error)
| EvStartAutoUpdate
| EvNow (t : Time)
| EvSleep (d : Duration)
| EvRandRead (r : result (list byte))
| EvMkdirAll (dir : string) (r : option error)
| EvWriteFile (path : string) (data : string) (r : option error)
| EvGo (loop : string).

Definition Trace := list Event.

(** The collaborators.  An answer may depend on everything that happened
    before; [error] results are [Some e] for a failure and [None] for [nil].
    [range_rank] orders the keys of a map for one [range] loop, identified
    by the history at its start and by its place in the source, and the two
    library functions at the end are pure. *)
Record Env := {
  panel_FetchNodeConfig : Trace -> N -> result NodeConfig;
  panel_FetchUserSync : Trace -> N -> result (list UserConfig);
  panel_ReportTraffic : Trace -> TrafficReportRequest -> option error;
  panel_ReportActivity : Trace -> ActivityReportRequest -> option error;
  xray_AddUser : Trace -> XrayUser -> option error;
  xray_RemoveUser : Trace -> string -> option error;
  xray_GetUserStats : Trace -> string -> result XrayStats;
  xray_ResetUserStats : Trace -> string -> option error;
  xray_GetOnlineIPs : Trace -> string -> result (gmap string Z);
  manager_Start : Trace -> XrayConfig -> option error;
  geo_EnsureDataFiles : Trace -> option error;
  time_Now : Trace -> Time;
  rand_Read : Trace -> result (list byte);
  os_MkdirAll : Trace -> string -> option error;
  os_WriteFile : Trace -> string -> option error;
  range_rank : Trace -> nat -> string -> nat;
  curve25519_ScalarBaseMult : list byte -> list byte;
  filepath_Dir : string -> string
}.

(** ** Computations of the agent

    A computation reads the world and the history so far, and returns its
    value, the new world and the events it added. *)

Definition M (A : Type) : Type := World -> Trace -> A * World * list Event.

#[global] Instance M_ret : MRet M := fun A a w h => (a, w, []).

#[global] Instance M_bind : MBind M := fun A B k m w h =>
  let '(a, w1, e1) := m w h in
  let '(b, w2, e2) := k a w1 (h ++ e1) in
  (b, w2, e1 ++ e2).

Definition getAgent : M Agent := fun w h => (agent w, w, []).
Definition setAgent (a : Agent) : M unit :=
  fun w h => (tt, {| agent := a; fs := fs w |}, []).
Definition getFS : M FileSystem := fun w h => (fs w, w, []).
Definition setFS (f : FileSystem) : M unit :=
  fun w h => (tt, {| agent := agent w; fs := f |}, []).

(** A call to a collaborator: ask the oracle, record the exchange. *)
Definition call {R : Type} (oracle : Trace -> R) (ev : R -> Event) : M R :=
  fun w h => (oracle h, w, [ev (oracle h)]).

Definition emit (e : Event) : M unit := fun w h => (tt, w, [e]).

Fixpoint forM_ {A : Type} (l : list A) (body : A -> M unit) : M unit :=
  match l with
  | [] => mret tt
  | x :: l' => body x ;; forM_ l' body
  end.

Fixpoint foldM {A B : Type} (body : B -> A -> M B) (acc : B) (l : list A) : M B :=
  match l with
  | [] => mret acc
  | x :: l' => acc' ← body acc x; foldM body acc' l'
  end.

Section Program.

Context (env : Env).

(** [for k, v := range m]: the entries of the map, each once, in the order
    the runtime picks this time.  [site] numbers the [range] statements of
    the source, so that two loops started on the same history are ordered
    independently. *)
Definition rank_le {V : Type} (h : Trace) (site : nat) (x y : string * V) : Prop :=
  (range_rank env h site x.1 <= range_rank env h site y.1)%nat.

#[local] Instance rank_le_dec {V : Type} (h : Trace) (site : nat)
    (x y : string * V) : Decision (rank_le h site x y) := le_dec _ _.

Definition rangeMap {V : Type} (site : nat) (m : gmap string V)
  : M (list (string * V)) :=
  fun w h => (merge_sort (rank_le h site) (map_to_list m), w, []).

Definition FetchNodeConfig (nodeID : N) : M (result NodeConfig) :=
  call (fun h => panel_FetchNodeConfig env h nodeID) (EvFetchNodeConfig nodeID).
Definition FetchUserSync (nodeID : N) : M (result (list UserConfig)) :=
  call (fun h => panel_FetchUserSync env h nodeID) (EvFetchUserSync nodeID).
Definition ReportTraffic (req : TrafficReportRequest) : M (option error) :=
  call (fun h => panel_ReportTraffic env h req) (EvReportTraffic req).
Definition ReportActivity (req : ActivityReportRequest) : M (option error) :=
  call (fun h => panel_ReportActivity env h req) (EvReportActivity req).
Definition AddUser (u : XrayUser) : M (option error) :=
  call (fun h => xray_AddUser env h u) (EvAddUser u).
Definition RemoveUser (email : string) : M (option error) :=
  call (fun h => xray_RemoveUser env h email) (EvRemoveUser email).
Definition GetUserStats (email : string) : M (result XrayStats) :=
  call (fun h => xray_GetUserStats env h email) (EvGetUserStats email).
Definition ResetUserStats (email : string) : M (option error) :=
  call (fun h => xray_ResetUserStats env h email) (EvResetUserStats email).
Definition GetOnlineIPs (email : string) : M (result (gmap string Z)) :=
  call (fun h => xray_GetOnlineIPs env h email) (EvGetOnlineIPs email).
Definition Now : M Time := call (time_Now env) EvNow.

(** *** [syncUsers] *)

(** [panelUsers]: the fetched list keyed by identifier; a later entry
    replaces an earlier one with the same identifier. *)
Definition panelUsersOf (users : list UserConfig) : gmap string UserConfig :=
  foldl (fun m u => <[uc_Email u := u]> m) ∅ users.

(** Body of the first loop of [syncUsers]. *)
Definition addMissing (p : string * UserConfig) : M unit :=
  a ← getAgent;
  match currentUsers a !! p.1 with
  | Some _ => mret tt
  | None =>
      let xrayUser :=
        {| xu_Email := uc_Email p.2;
           xu_UUID := uc_UUID p.2;
           xu_Level := 0;
           xu_Protocol := Protocol (Xray (cfg a));
           xu_Flow := if RealityEnabled (Xray (cfg a))
                      then "xtls-rprx-vision"%string else ""%string |} in
      r ← AddUser xrayUser;
      match r with
      | Some _ => mret tt
      | None => setAgent (set_currentUsers (<[p.1 := p.2]> (currentUsers a)) a)
      end
  end.

(** Body of the second loop of [syncUsers]. *)
Definition removeStale (panelUsers : gmap string UserConfig)
    (p : string * UserConfig) : M unit :=
  match panelUsers !! p.1 with
  | Some _ => mret tt
  | None =>
      r ← RemoveUser p.1;
      match r with
      | Some _ => mret tt
      | None =>
          a ← getAgent;
          setAgent (set_currentUsers (delete p.1 (currentUsers a)) a)
      end
  end.

Definition syncUsers : M (option error) :=
  a ← getAgent;
  r ← FetchUserSync (Node_ID (cfg a));
  match r with
  | Err e => mret (Some e)
  | Ok users =>
      let panelUsers := panelUsersOf users in
      entries ← rangeMap 1%nat panelUsers;
      forM_ entries addMissing;;
      a ← getAgent;
      current ← rangeMap 2%nat (currentUsers a);
      forM_ current (removeStale panelUsers);;
      mret None
  end.

(** *** [trackActivity], [reportActivity], [cleanupActivityCache] *)

(** One iteration of the loop of [trackActivity] for an identity whose
    counters were read: the state is fetched or created, the deltas are
    taken in [int64], and the baseline is overwritten.  The result is the
    updated state and whether it joins [activeUsers]. *)
Definition observe (now : Time) (email : string) (stats : XrayStats)
    (cached : option UserActivityState) : UserActivityState * bool :=
  let currentUplink := UploadBytes stats in
  let currentDownlink := DownloadBytes stats in
  let state :=
    match cached with
    | Some st => st
    | None => {| Email := email; LastSeen := 0;
                 LastUplink := currentUplink; LastDownlink := currentDownlink;
                 IsActive := false |}
    end in
  let uplinkDelta := wrap64 (currentUplink - LastUplink state) in
  let downlinkDelta := wrap64 (currentDownlink - LastDownlink state) in
  if (0 <? uplinkDelta) || (0 <? downlinkDelta)
  then ({| Email := Email state; LastSeen := now;
           LastUplink := currentUplink; LastDownlink := currentDownlink;
           IsActive := true |}, true)
  else ({| Email := Email state; LastSeen := LastSeen state;
           LastUplink := currentUplink; LastDownlink := currentDownlink;
           IsActive := false |}, false).

Definition trackUser (now : Time) (activeUsers : gset string)
    (p : string * UserConfig) : M (gset string) :=
  r ← GetUserStats p.1;
  match r with
  | Err _ => mret activeUsers
  | Ok stats =>
      a ← getAgent;
      let '(state, active) := observe now p.1 stats (activityCache a !! p.1) in
      setAgent (set_activityCache (<[p.1 := state]> (activityCache a)) a);;
      mret (if active then {[ p.1 ]} ∪ activeUsers else activeUsers)
  end.

(** [trackActivity]; the returned map is used for its size only and is
    given by its key set. *)
Definition trackActivity : M (gset string) :=
  a ← getAgent;
  if decide (size (currentUsers a) = 0%nat) then mret ∅
  else
    now ← Now;
    entries ← rangeMap 3%nat (currentUsers a);
    foldM (trackUser now) ∅ entries.

(** [state.IsActive || time.Since(state.LastSeen) < 2*time.Minute], with
    [now] the clock reading [time.Since] takes; [reportUser] reads the clock
    only when the left operand is false. *)
Definition isOnline (now : Time) (state : UserActivityState) : bool :=
  IsActive state || (Sub now (LastSeen state) <? 2 * Minute).

Definition reportUser (activities : list UserActivityReport)
    (p : string * UserActivityState) : M (list UserActivityReport) :=
  let state := p.2 in
  if decide (LastSeen state = 0) then mret activities
  else
    online ← (if IsActive state then mret true
              else now ← Now; mret (isOnline now state));
    let report :=
      {| ar_Email := Email state; ar_LastSeen := LastSeen state;
         ar_IsOnline := online;
         ar_DeviceCount := 0; ar_DeviceIPs := [] |} in
    if ar_IsOnline report then
      r ← GetOnlineIPs (Email state);
      match r with
      | Err _ => mret (activities ++ [report])
      | Ok ips =>
          if decide (0 < size ips)%nat then
            entries ← rangeMap 5%nat ips;
            let ipList := entries.*1 in
            mret (activities ++
                  [ {| ar_Email := Email state; ar_LastSeen := LastSeen state;
                       ar_IsOnline := ar_IsOnline report;
                       ar_DeviceCount := Z.of_nat (length ipList);
                       ar_DeviceIPs := ipList |} ])
          else mret (activities ++ [report])
      end
    else mret (activities ++ [report]).

Definition reportActivity : M (option error) :=
  activeUsers ← trackActivity;
  a ← getAgent;
  entries ← rangeMap 4%nat (activityCache a);
  activities ← foldM reportUser [] entries;
  match activities with
  | [] => mret None
  | _ :: _ =>
      now ← Now;
      ReportActivity {| arr_NodeID := Node_ID (cfg a); arr_Users := activities;
                        arr_Timestamp := now |}
  end.

Definition dropIfGone (p : string * UserActivityState) : M unit :=
  a ← getAgent;
  match currentUsers a !! p.1 with
  | Some _ => mret tt
  | None => setAgent (set_activityCache (delete p.1 (activityCache a)) a)
  end.

Definition cleanupActivityCache : M unit :=
  a ← getAgent;
  entries ← rangeMap 6%nat (activityCache a);
  forM_ entries dropIfGone.

(** *** [reportTraffic] *)

Definition collectUser (traffic : list UserTrafficReport)
    (p : string * UserConfig) : M (list UserTrafficReport) :=
  r ← GetUserStats p.1;
  match r with
  | Err _ => mret traffic
  | Ok stats =>
      if (0 <? UploadBytes stats) || (0 <? DownloadBytes stats) then
        ResetUserStats p.1;;
        mret (traffic ++ [ {| tr_UserEmail := p.1;
                              tr_UploadBytes := UploadBytes stats;
                              tr_DownloadBytes := DownloadBytes stats |} ])
      else mret traffic
  end.

(** The collecting loop of [reportTraffic]. *)
Definition collectTraffic : M (list UserTrafficReport) :=
  a ← getAgent;
  entries ← rangeMap 7%nat (currentUsers a);
  foldM collectUser [] entries.

Definition reportTraffic : M (option error) :=
  a ← getAgent;
  if decide (size (currentUsers a) = 0%nat) then mret None
  else
    traffic ← collectTraffic;
    match traffic with
    | [] => mret None
    | _ :: _ =>
        now ← Now;
        ReportTraffic {| trr_NodeID := Node_ID (cfg a); trr_Traffic := traffic;
                         trr_Timestamp := now |}
    end.

(** *** Reality keys *)

Definition zero_byte : byte := "000"%char.

Definition band (mask : Z) (b : byte) : byte := byte_of_Z (Z.land (Z_of_byte b) mask).
Definition bor (mask : Z) (b : byte) : byte := byte_of_Z (Z.lor (Z_of_byte b) mask).

(** [var a [32]byte; copy(a[:], src)] *)
Definition array32 (src : list byte) : list byte := resize 32 zero_byte src.

(** [curve25519.ScalarBaseMult(&publicKey, &privateKey)] *)
Definition ScalarBaseMult (privateKey : list byte) : list byte :=
  array32 (curve25519_ScalarBaseMult env privateKey).

Definition GenerateRealityKeypair : M (result RealityKeys) :=
  r ← call (rand_Read env) EvRandRead;
  match r with
  | Err e => mret (Err ("failed to generate random bytes: " +:+ e))
  | Ok bytes =>
      let privateKey := array32 bytes in
      let privateKey := alter (band 248) 0%nat privateKey in
      let privateKey := alter (band 127) 31%nat privateKey in
      let privateKey := alter (bor 64) 31%nat privateKey in
      let publicKey := ScalarBaseMult privateKey in
      mret (Ok {| PrivateKey := Base64.EncodeToString privateKey;
                  PublicKey := Base64.EncodeToString publicKey |})
  end.

(** [os.MkdirAll]: nothing to do for a directory that exists. *)
Definition MkdirAll (dir : string) : M (option error) :=
  f ← getFS;
  if decide (dir ∈ dirs f) then mret None
  else
    r ← call (fun h => os_MkdirAll env h dir) (EvMkdirAll dir);
    match r with
    | Some e => mret (Some e)
    | None => setFS {| files := files f; dirs := {[ dir ]} ∪ dirs f |};; mret None
    end.

Definition ReadFile (path : string) : M (option string) :=
  f ← getFS; mret (files f !! path).

Definition WriteFile (path data : string) : M (option error) :=
  r ← call (fun h => os_WriteFile env h path) (EvWriteFile path data);
  match r with
  | Some e => mret (Some e)
  | None =>
      f ← getFS;
      setFS {| files := <[path := data]> (files f); dirs := dirs f |};;
      mret None
  end.

Definition generateAndSaveKeys (keyPath : string)
  : M (option RealityKeys * bool * option error) :=
  r ← GenerateRealityKeypair;
  match r with
  | Err e => mret (None, true, Some ("failed to generate Reality keypair: " +:+ e))
  | Ok keys =>
      w ← WriteFile keyPath (PrivateKey keys);
      match w with
      | Some e => mret (None, true, Some ("failed to save private key: " +:+ e))
      | None => mret (Some keys, true, None)
      end
  end.

Definition LoadOrCreateRealityKeys (keyPath : string)
  : M (option RealityKeys * bool * option error) :=
  let dir := filepath_Dir env keyPath in
  d ← MkdirAll dir;
  match d with
  | Some e => mret (None, false, Some ("failed to create key directory: " +:+ e))
  | None =>
      privateKeyBytes ← ReadFile keyPath;
      match privateKeyBytes with
      | Some privateKeyStr =>
          match Base64.DecodeString privateKeyStr with
          | Some privateKey =>
              if decide (length privateKey = 32%nat) then
                let privKeyArray := array32 privateKey in
                let publicKey := ScalarBaseMult privKeyArray in
                mret (Some {| PrivateKey := privateKeyStr;
                              PublicKey := Base64.EncodeToString publicKey |},
                      false, None)
              else generateAndSaveKeys keyPath
          | None => generateAndSaveKeys keyPath
          end
      | None => generateAndSaveKeys keyPath
      end
  end.

(** *** [Agent.Start] and its helpers *)

Definition initRealityKeys : M (option error) :=
  a ← getAgent;
  let keyPath := if decide (RealityKeyPath (Xray (cfg a)) = ""%string)
                 then "reality_private.key"%string
                 else RealityKeyPath (Xray (cfg a)) in
  res ← LoadOrCreateRealityKeys keyPath;
  match res.2 with
  | Some e => mret (Some e)
  | None => setAgent (set_realityKeys res.1.1 a);; mret None
  end.

(** [a.cfg.Xray.F = v] *)
Definition assign (f : XrayConfig -> XrayConfig) : M unit :=
  a ← getAgent; setAgent (set_Xray (f (Xray (cfg a))) a).

Definition err_RealityDest : error :=
  "Reality protocol is enabled but Target Destination is not configured in the panel. Please configure it in the admin panel".
Definition err_RealityServerNames : error :=
  "Reality protocol is enabled but Server Names is not configured in the panel. Please configure it in the admin panel".
Definition err_RealityShortIds : error :=
  "Reality protocol is enabled but Short IDs is not configured in the panel. Please configure it in the admin panel".

(** The Reality block of [Start].  [Some e] is an early [return] of [Start]
    with that error. *)
Definition applyReality (nodeConfig : NodeConfig) : M (option error) :=
  if nc_RealityEnabled nodeConfig then
    if decide (nc_RealityDest nodeConfig = ""%string) then
      mret (Some err_RealityDest)
    else if decide (nc_RealityServerNames nodeConfig = ""%string) then
      mret (Some err_RealityServerNames)
    else if decide (nc_RealityShortIds nodeConfig = ""%string) then
      mret (Some err_RealityShortIds)
    else
      assign (set_RealityEnabled true);;
      assign (set_RealityDest (nc_RealityDest nodeConfig));;
      assign (set_RealityServerNames (nc_RealityServerNames nodeConfig));;
      a ← getAgent;
      match realityKeys a with
      | Some keys =>
          assign (set_RealityPrivateKey (PrivateKey keys));;
          assign (set_RealityPublicKey (PublicKey keys))
      | None =>
          assign (set_RealityPrivateKey (nc_RealityPrivateKey nodeConfig));;
          assign (set_RealityPublicKey (nc_RealityPublicKey nodeConfig))
      end;;
      assign (set_RealityShortIds (nc_RealityShortIds nodeConfig));;
      mret None
  else
    assign (set_RealityEnabled false);;
    mret None.

(** The configuration block of [Start], from the answer of the controller
    to the last assignment before the API client is built. *)
Definition resolveConfig (fetched : result NodeConfig) : M (option error) :=
  match fetched with
  | Err _ =>
      a ← getAgent;
      (if decide (InboundTag (Xray (cfg a)) = ""%string)
       then assign (set_InboundTag "inbound-vless")
       else mret tt);;
      mret None
  | Ok nodeConfig =>
      assign (set_Protocol (nc_Protocol nodeConfig));;
      assign (set_ListenPort (nc_Port nodeConfig));;
      assign (set_TLSEnabled (nc_TLSEnabled nodeConfig));;
      assign (set_SNI (nc_SNI nodeConfig));;
      assign (set_InboundTag (nc_InboundTag nodeConfig));;
      a ← getAgent;
      (if decide (InboundTag (Xray (cfg a)) = ""%string)
       then assign (set_InboundTag "proxy")
       else mret tt);;
      reality ← applyReality nodeConfig;
      match reality with
      | Some e => mret (Some e)
      | None =>
          (if 0 <? nc_APIPort nodeConfig
           then assign (set_APIPort (nc_APIPort nodeConfig))
           else mret tt);;
          mret None
      end
  end.

(** [a.xrayManager.Start()]: the manager holds a pointer to [a.cfg.Xray] and
    starts the engine with the configuration as it is at the call. *)
Definition xrayManager_Start : M (option error) :=
  a ← getAgent;
  call (fun h => manager_Start env h (Xray (cfg a))) (EvManagerStart (Xray (cfg a))).

(** The rest of [Start] once the configuration is resolved: the API
    client, the geo data files, the engine, the first reconciliation and the
    four loops. *)
Definition launch : M (option error) :=
  a ← getAgent;
  setAgent (set_xrayAPI
              (Some {| apiAddress := APIAddress (Xray (cfg a));
                       apiPort := APIPort (Xray (cfg a));
                       inboundTag := InboundTag (Xray (cfg a)) |}) a);;
  (if decide (GeoIPPath (Xray (cfg a)) ≠ ""%string
              ∧ GeoSitePath (Xray (cfg a)) ≠ ""%string)
   then
     g ← call (geo_EnsureDataFiles env) EvEnsureDataFiles;
     match g with
     | Some _ => mret tt
     | None => emit EvStartAutoUpdate
     end
   else mret tt);;
  started ← xrayManager_Start;
  match started with
  | Some e => mret (Some e)
  | None =>
      emit (EvSleep (2 * Second));;
      syncUsers;;
      emit (EvGo "heartbeatLoop");;
      emit (EvGo "userSyncLoop");;
      emit (EvGo "trafficReportLoop");;
      emit (EvGo "activityLoop");;
      mret None
  end.

Definition Start : M (option error) :=
  initRealityKeys;;
  a ← getAgent;
  nodeConfig ← FetchNodeConfig (Node_ID (cfg a));
  resolved ← resolveConfig nodeConfig;
  match resolved with
  | Some e => mret (Some e)
  | None => launch
  end.

End Program.

(** ** Reading the outcome of a run *)

Definition out_value {A : Type} (o : A * World * list Event) : A := o.1.1.
Definition out_world {A : Type} (o : A * World * list Event) : World := o.1.2.
Definition out_events {A : Type} (o : A * World * list Event) : list Event := o.2.

(** Engine calls of the reconciler, and those that failed. *)
Definition is_engine_call (e : Event) : bool :=
  match e with
  | EvAddUser _ _ | EvRemoveUser _ _ => true
  | _ => false
  end.

Definition add_failed (e : Event) : bool :=
  match e with
  | EvAddUser _ (Some _) => true
  | _ => false
  end.

Definition remove_failed (e : Event) : bool :=
  match e with
  | EvRemoveUser _ (Some _) => true
  | _ => false
  end.

(** The identifiers of a fetched list. *)
Definition identifiers (users : list UserConfig) : gset string :=
  list_to_set (uc_Email <$> users).

(** Calls to the controller. *)
Definition is_panel_call (e : Event) : bool :=
  match e with
  | EvFetchNodeConfig _ _ | EvFetchUserSync _ _
  | EvReportTraffic _ _ | EvReportActivity _ _ => true
  | _ => false
  end.

(** Reading a trace of the traffic loop: the identity of a counter query,
    the identity of a counter reset, and the report entry of a query that
    succeeded with a strictly positive upload or download counter. *)
Definition queried (e : Event) : option string :=
  match e with
  | EvGetUserStats email _ => Some email
  | _ => None
  end.

Definition was_reset (e : Event) : option string :=
  match e with
  | EvResetUserStats email _ => Some email
  | _ => None
  end.

Definition qualifies (e : Event) : option UserTrafficReport :=
  match e with
  | EvGetUserStats email (Ok stats) =>
      if (0 <? UploadBytes stats) || (0 <? DownloadBytes stats)
      then Some {| tr_UserEmail := email;
                   tr_UploadBytes := UploadBytes stats;
                   tr_DownloadBytes := DownloadBytes stats |}
      else None
  | _ => None
  end.

(** The counters a trace shows for an identity: those of its first
    successful counter query. *)
Fixpoint sampled (email : string) (evs : list Event) : option XrayStats :=
  match evs with
  | [] => None
  | EvGetUserStats m (Ok stats) :: evs' =>
      if decide (m = email) then Some stats else sampled email evs'
  | _ :: evs' => sampled email evs'
  end.

(** Cumulative byte counters: non-negative [int64] values. *)
Definition is_counter (z : Z) : Prop := 0 <= z <= maxInt64.

(** Events of the key manager, and the fetch of the node configuration. *)
Definition is_key_event (e : Event) : bool :=
  match e with
  | EvMkdirAll _ _ | EvRandRead _ | EvWriteFile _ _ _ => true
  | _ => false
  end.

Definition is_config_fetch (e : Event) : bool :=
  match e with
  | EvFetchNodeConfig _ _ => true
  | _ => false
  end.

Definition is_engine_start (e : Event) : bool :=
  match e with
  | EvManagerStart _ _ => true
  | _ => false
  end.

(** Events that are neither the configuration fetch nor the engine start. *)
Definition quiet (e : Event) : Prop :=
  is_config_fetch e = false /\ is_engine_start e = false.

(** The entry [reportUser] appends for a record, read at clock value [now]. *)
Definition reports (now : Time) (st : UserActivityState)
    (report : UserActivityReport) : Prop :=
  ar_Email report = Email st
  /\ ar_LastSeen report = LastSeen st
  /\ ar_IsOnline report = isOnline now st.

(** Computations that leave the world as it is. *)
Definition readonly {A : Type} (m : M A) : Prop :=
  forall w h, out_world (m w h) = w.

(** Computations whose events all satisfy [P]. *)
Definition emits {A : Type} (P : Event -> Prop) (m : M A) : Prop :=
  forall w h, Forall P (out_events (m w h)).

(** ** Sample worlds and environments

    Concrete inputs on which the theorems below are exercised. *)

Definition alice : UserConfig :=
  {| uc_UserID := 1; uc_Email := "alice@example.com"; uc_UUID := "uuid-alice";
     uc_Status := "active"; uc_DataLimit := 0; uc_DataUsed := 0 |}.
Definition bob : UserConfig :=
  {| uc_UserID := 2; uc_Email := "bob@example.com"; uc_UUID := "uuid-bob";
     uc_Status := "active"; uc_DataLimit := 1000; uc_DataUsed := 10 |}.
Definition carol : UserConfig :=
  {| uc_UserID := 3; uc_Email := "carol@example.com"; uc_UUID := "uuid-carol";
     uc_Status := "active"; uc_DataLimit := 0; uc_DataUsed := 0 |}.

(** The configuration [config.Load] leaves in [cfg.Xray] for a file that
    sets the API address and port: the fields the panel owns are zero. *)
Definition localXray : XrayConfig :=
  {| APIAddress := "127.0.0.1"; APIPort := 10085; Protocol := "";
     ListenAddress := "0.0.0.0"; ListenPort := 0; TLSEnabled := false;
     CertFile := ""; KeyFile := ""; SNI := ""; InboundTag := "";
     GeoIPPath := ""; GeoSitePath := ""; ConfigPath := "";
     RealityEnabled := false; RealityDest := ""; RealityServerNames := "";
     RealityPrivateKey := ""; RealityPublicKey := ""; RealityShortIds := "";
     RealityKeyPath := "reality_private.key" |}.

(** [NewAgent]: empty maps, no API client, no keys. *)
Definition newAgent : Agent :=
  {| cfg := {| Node_ID := 1; Node_Name := "node-1"; Xray := localXray |};
     xrayAPI := None; currentUsers := ∅; activityCache := ∅;
     realityKeys := None |}.

Definition newWorld : World :=
  {| agent := newAgent; fs := {| files := ∅; dirs := ∅ |} |}.

(** An agent that has [carol] provisioned. *)
Definition carolWorld : World :=
  {| agent := set_currentUsers {[ "carol@example.com"%string := carol ]} newAgent;
     fs := {| files := ∅; dirs := ∅ |} |}.

Definition aliceBaseline : UserActivityState :=
  {| Email := "alice@example.com"; LastSeen := 5 * Second;
     LastUplink := 100; LastDownlink := 50; IsActive := false |}.
Definition bobBaseline : UserActivityState :=
  {| Email := "bob@example.com"; LastSeen := 7 * Second;
     LastUplink := 10; LastDownlink := 20; IsActive := false |}.

(** [alice] provisioned and tracked, with baseline counters (100, 50). *)
Definition trackedWorld : World :=
  {| agent := set_activityCache {[ "alice@example.com"%string := aliceBaseline ]}
                (set_currentUsers {[ "alice@example.com"%string := alice ]} newAgent);
     fs := {| files := ∅; dirs := ∅ |} |}.

(** [alice] has left [currentUsers] (a reconciliation pass removed her);
    her record is still in the cache, next to the record of [bob]. *)
Definition staleWorld : World :=
  {| agent := set_activityCache
                {[ "alice@example.com"%string := aliceBaseline;
                   "bob@example.com"%string := bobBaseline ]}
                (set_currentUsers {[ "bob@example.com"%string := bob ]} newAgent);
     fs := {| files := ∅; dirs := ∅ |} |}.

Definition realityNodeConfig (dest : string) : NodeConfig :=
  {| nc_ID := 1; nc_Name := "node-1"; nc_Address := "203.0.113.7"; nc_Port := 443;
     nc_Protocol := "vless"; nc_TLSEnabled := false; nc_SNI := "";
     nc_InboundTag := "proxy"; nc_APIEndpoint := ""; nc_APIPort := 0;
     nc_RealityEnabled := true; nc_RealityDest := dest;
     nc_RealityServerNames := "www.example.com"; nc_RealityPrivateKey := "";
     nc_RealityPublicKey := ""; nc_RealityShortIds := "0123abcd" |}.

(** An environment with simple answers: what the controller returns for the
    node configuration, what it returns for the user list (a second fetch
    may answer differently from the first), what the engine start returns,
    and the counters of every identity.  Everything else succeeds; the clock
    shows 1000 seconds plus one nanosecond for each event so far. *)
Definition sampleEnv (nodeConfig : result NodeConfig)
    (users : Trace -> result (list UserConfig)) (engine : option error)
    (stats : XrayStats) : Env :=
  {| panel_FetchNodeConfig := fun _ _ => nodeConfig;
     panel_FetchUserSync := fun h _ => users h;
     panel_ReportTraffic := fun _ _ => None;
     panel_ReportActivity := fun _ _ => None;
     xray_AddUser := fun _ _ => None;
     xray_RemoveUser := fun _ _ => None;
     xray_GetUserStats := fun _ _ => Ok stats;
     xray_ResetUserStats := fun _ _ => None;
     xray_GetOnlineIPs := fun _ _ => Ok ∅;
     manager_Start := fun _ _ => engine;
     geo_EnsureDataFiles := fun _ => None;
     time_Now := fun h => 1000 * Second + Z.of_nat (length h);
     rand_Read := fun _ => Ok (replicate 32 "a"%char);
     os_MkdirAll := fun _ _ => None;
     os_WriteFile := fun _ _ => None;
     range_rank := fun _ _ _ => 0%nat;
     curve25519_ScalarBaseMult := fun k => rev k;
     filepath_Dir := fun _ => "."%string |}.

(** The controller lists [alice] and [bob], in one order on the first fetch
    and in the other order afterwards. *)
Definition aliceAndBob (h : Trace) : result (list UserConfig) :=
  match h with
  | [] => Ok [alice; bob]
  | _ :: _ => Ok [bob; alice]
  end.

Definition onlineEnv : Env :=
  sampleEnv (Err "controller unreachable") aliceAndBob None
    {| UploadBytes := 150; DownloadBytes := 50 |}.

Definition syncDownEnv : Env :=
  sampleEnv (Err "controller unreachable") (fun _ => Err "sync request failed") None
    {| UploadBytes := 0; DownloadBytes := 0 |}.


Definition realityEnv : Env :=
  sampleEnv (Ok (realityNodeConfig "")) aliceAndBob None
    {| UploadBytes := 0; DownloadBytes := 0 |}.

(** * Reading the traces of the loops, and more sample worlds *)

(** ** Reconciliation *)

(** Reading a trace of a reconciliation pass: the account of an add
    request, the identifier of an add that succeeded, the identifier of a
    remove request, and the identifier of a removal that succeeded. *)
Definition add_request (e : Event) : option XrayUser :=
  match e with
  | EvAddUser u _ => Some u
  | _ => None
  end.

Definition added (e : Event) : option string :=
  match e with
  | EvAddUser u None => Some (xu_Email u)
  | _ => None
  end.

Definition remove_request (e : Event) : option string :=
  match e with
  | EvRemoveUser email _ => Some email
  | _ => None
  end.

Definition removed (e : Event) : option string :=
  match e with
  | EvRemoveUser email None => Some email
  | _ => None
  end.

(** The last entry of a fetched list with a given identifier. *)
Definition last_entry (email : string) (users : list UserConfig) : option UserConfig :=
  last (filter (fun u => uc_Email u = email) users).

(** An add request as [syncUsers] builds it from the fetched list [users]
    under the configuration [c]. *)
Definition is_add_for (c : XrayConfig) (users : list UserConfig) (e : Event) : Prop :=
  exists u r v,
    e = EvAddUser u r
    /\ last_entry (xu_Email u) users = Some v
    /\ xu_UUID u = uc_UUID v
    /\ xu_Level u = 0
    /\ xu_Protocol u = Protocol c
    /\ xu_Flow u = (if RealityEnabled c then "xtls-rprx-vision" else "")%string.

(** A remove request. *)
Definition is_remove (e : Event) : Prop := exists email r, e = EvRemoveUser email r.

(** The engine rejects every account of [bob]; everything else is as in
    [onlineEnv]. *)
Definition rejectBobEnv : Env :=
  {| panel_FetchNodeConfig := panel_FetchNodeConfig onlineEnv;
     panel_FetchUserSync := panel_FetchUserSync onlineEnv;
     panel_ReportTraffic := panel_ReportTraffic onlineEnv;
     panel_ReportActivity := panel_ReportActivity onlineEnv;
     xray_AddUser := fun _ u =>
       if decide (xu_Email u = "bob@example.com"%string)
       then Some "failed to add user: rejected"%string else None;
     xray_RemoveUser := fun _ _ => Some "failed to remove user: unavailable"%string;
     xray_GetUserStats := xray_GetUserStats onlineEnv;
     xray_ResetUserStats := xray_ResetUserStats onlineEnv;
     xray_GetOnlineIPs := xray_GetOnlineIPs onlineEnv;
     manager_Start := manager_Start onlineEnv;
     geo_EnsureDataFiles := geo_EnsureDataFiles onlineEnv;
     time_Now := time_Now onlineEnv;
     rand_Read := rand_Read onlineEnv;
     os_MkdirAll := os_MkdirAll onlineEnv;
     os_WriteFile := os_WriteFile onlineEnv;
     range_rank := range_rank onlineEnv;
     curve25519_ScalarBaseMult := curve25519_ScalarBaseMult onlineEnv;
     filepath_Dir := filepath_Dir onlineEnv |}.

(** ** Activity *)

(** The device list of a report entry, against the trace of the tick: its
    count is the length of the list; an entry that is not online has none; an
    online entry went with a query of the engine, and lists the addresses of
    the answer, each once. *)
Definition devices_of (evs : list Event) (report : UserActivityReport) : Prop :=
  ar_DeviceCount report = Z.of_nat (length (ar_DeviceIPs report))
  /\ NoDup (ar_DeviceIPs report)
  /\ if ar_IsOnline report
     then exists r,
            EvGetOnlineIPs (ar_Email report) r ∈ evs
            /\ match r with
               | Ok ips => forall ip, ip ∈ ar_DeviceIPs report <-> is_Some (ips !! ip)
               | Err _ => ar_DeviceIPs report = []
               end
     else ar_DeviceIPs report = [].

(** The identity of a query for online addresses. *)
Definition is_ip_query (e : Event) : option string :=
  match e with
  | EvGetOnlineIPs email _ => Some email
  | _ => None
  end.

(** The engine lists two addresses for every identity; everything else is
    as in [onlineEnv]. *)
Definition devicesEnv : Env :=
  {| panel_FetchNodeConfig := panel_FetchNodeConfig onlineEnv;
     panel_FetchUserSync := panel_FetchUserSync onlineEnv;
     panel_ReportTraffic := panel_ReportTraffic onlineEnv;
     panel_ReportActivity := fun _ _ => Some "request failed: timeout"%string;
     xray_AddUser := xray_AddUser onlineEnv;
     xray_RemoveUser := xray_RemoveUser onlineEnv;
     xray_GetUserStats := xray_GetUserStats onlineEnv;
     xray_ResetUserStats := xray_ResetUserStats onlineEnv;
     xray_GetOnlineIPs := fun _ _ =>
       Ok {[ "198.51.100.7"%string := 1700000000; "203.0.113.9"%string := 1700000005 ]};
     manager_Start := manager_Start onlineEnv;
     geo_EnsureDataFiles := geo_EnsureDataFiles onlineEnv;
     time_Now := time_Now onlineEnv;
     rand_Read := rand_Read onlineEnv;
     os_MkdirAll := os_MkdirAll onlineEnv;
     os_WriteFile := os_WriteFile onlineEnv;
     range_rank := range_rank onlineEnv;
     curve25519_ScalarBaseMult := curve25519_ScalarBaseMult onlineEnv;
     filepath_Dir := filepath_Dir onlineEnv |}.

(** The request of a tick of [devicesEnv] on [trackedWorld]. *)
Definition aliceOnTwoDevices : ActivityReportRequest :=
  {| arr_NodeID := 1;
     arr_Users :=
       [ {| ar_Email := "alice@example.com"; ar_LastSeen := 1000 * Second;
            ar_IsOnline := true; ar_DeviceCount := 2;
            ar_DeviceIPs := ["198.51.100.7"; "203.0.113.9"]%string |} ];
     arr_Timestamp := 1000 * Second + 3 |}.

(** The counters of every identity stand at (100, 50) and the clock shows
    1000 seconds at every reading; everything else is as in [onlineEnv]. *)
Definition idleEnv : Env :=
  {| panel_FetchNodeConfig := panel_FetchNodeConfig onlineEnv;
     panel_FetchUserSync := panel_FetchUserSync onlineEnv;
     panel_ReportTraffic := panel_ReportTraffic onlineEnv;
     panel_ReportActivity := panel_ReportActivity onlineEnv;
     xray_AddUser := xray_AddUser onlineEnv;
     xray_RemoveUser := xray_RemoveUser onlineEnv;
     xray_GetUserStats := fun _ _ => Ok {| UploadBytes := 100; DownloadBytes := 50 |};
     xray_ResetUserStats := xray_ResetUserStats onlineEnv;
     xray_GetOnlineIPs := xray_GetOnlineIPs onlineEnv;
     manager_Start := manager_Start onlineEnv;
     geo_EnsureDataFiles := geo_EnsureDataFiles onlineEnv;
     time_Now := fun _ => 1000 * Second;
     rand_Read := rand_Read onlineEnv;
     os_MkdirAll := os_MkdirAll onlineEnv;
     os_WriteFile := os_WriteFile onlineEnv;
     range_rank := range_rank onlineEnv;
     curve25519_ScalarBaseMult := curve25519_ScalarBaseMult onlineEnv;
     filepath_Dir := filepath_Dir onlineEnv |}.

(** [alice] and [bob] provisioned and tracked with counters (100, 50), both
    idle: [alice] was last seen at 910 seconds, [bob] at 850 seconds. *)
Definition idleWorld : World :=
  {| agent :=
       set_activityCache
         {[ "alice@example.com"%string :=
              {| Email := "alice@example.com"; LastSeen := 910 * Second;
                 LastUplink := 100; LastDownlink := 50; IsActive := false |};
            "bob@example.com"%string :=
              {| Email := "bob@example.com"; LastSeen := 850 * Second;
                 LastUplink := 100; LastDownlink := 50; IsActive := false |} ]}
         (set_currentUsers {[ "alice@example.com"%string := alice;
                              "bob@example.com"%string := bob ]} newAgent);
     fs := {| files := ∅; dirs := ∅ |} |}.

(** The request of a tick of [idleEnv] on [idleWorld]: [alice], last seen
    90 seconds before the clock reading, is online; [bob], last seen 150
    seconds before it, is not. *)
Definition idleReport : ActivityReportRequest :=
  {| arr_NodeID := 1;
     arr_Users :=
       [ {| ar_Email := "alice@example.com"; ar_LastSeen := 910 * Second;
            ar_IsOnline := true; ar_DeviceCount := 0; ar_DeviceIPs := [] |};
         {| ar_Email := "bob@example.com"; ar_LastSeen := 850 * Second;
            ar_IsOnline := false; ar_DeviceCount := 0; ar_DeviceIPs := [] |} ];
     arr_Timestamp := 1000 * Second |}.

(** ** Keys *)

(** [k[0] &= 248; k[31] &= 127; k[31] |= 64]: the clamping of an X25519
    scalar, read on the bytes. *)
Definition clamped (k : list byte) : Prop :=
  exists b0 b31,
    k !! 0%nat = Some b0 /\ k !! 31%nat = Some b31
    /\ Z.land (Z_of_byte b0) 7 = 0
    /\ Z.land (Z_of_byte b31) 128 = 0
    /\ Z.land (Z_of_byte b31) 64 = 64.

(** The creation of a directory. *)
Definition is_mkdir (e : Event) : Prop := exists dir r, e = EvMkdirAll dir r.

(** A key file written by hand, with a line feed after the key. *)
Definition keyFileWorld : World :=
  {| agent := newAgent;
     fs := {| files := {[ "reality_private.key"%string :=
                            String.append
                              (Base64.EncodeToString (replicate 32 "k"%char))
                              (String "010"%char EmptyString) ]};
              dirs := {[ "."%string ]} |} |}.

(** The key file holds something that is not a key. *)
Definition badKeyWorld : World :=
  {| agent := newAgent;
     fs := {| files := {[ "reality_private.key"%string := "not-a-key"%string ]};
              dirs := {[ "."%string ]} |} |}.

(** ** Start-up *)

(** The four background loops, in the order [Start] launches them. *)
Definition loops : list Event :=
  [EvGo "heartbeatLoop"; EvGo "userSyncLoop"; EvGo "trafficReportLoop";
   EvGo "activityLoop"].

(** The key path [initRealityKeys] uses. *)
Definition effectiveKeyPath (c : XrayConfig) : string :=
  if decide (RealityKeyPath c = ""%string) then "reality_private.key"%string
  else RealityKeyPath c.

(** The API client [Start] builds from a configuration. *)
Definition apiClientOf (c : XrayConfig) : APIClient :=
  {| apiAddress := APIAddress c; apiPort := APIPort c; inboundTag := InboundTag c |}.

(** Events of the geo data step. *)
Definition is_geo_event (e : Event) : bool :=
  match e with
  | EvEnsureDataFiles _ | EvStartAutoUpdate => true
  | _ => false
  end.

(** Events [Start] emits only after the engine has started. *)
Definition after_engine (e : Event) : bool :=
  match e with
  | EvSleep _ | EvGo _ | EvFetchUserSync _ _ | EvAddUser _ _ | EvRemoveUser _ _ => true
  | _ => false
  end.

(** Fields of the configuration that no step of [Start] assigns. *)
Definition same_local_fields (x x' : XrayConfig) : Prop :=
  APIAddress x' = APIAddress x /\ ListenAddress x' = ListenAddress x
  /\ CertFile x' = CertFile x /\ KeyFile x' = KeyFile x
  /\ GeoIPPath x' = GeoIPPath x /\ GeoSitePath x' = GeoSitePath x
  /\ ConfigPath x' = ConfigPath x /\ RealityKeyPath x' = RealityKeyPath x.

(** The five fields [Start] copies from the controller before the Reality
    block. *)
Definition panel_fields (nc : NodeConfig) (x' : XrayConfig) : Prop :=
  Protocol x' = nc_Protocol nc /\ ListenPort x' = nc_Port nc
  /\ TLSEnabled x' = nc_TLSEnabled nc /\ SNI x' = nc_SNI nc
  /\ InboundTag x' = (if decide (nc_InboundTag nc = ""%string) then "proxy"%string
                      else nc_InboundTag nc).

(** The Reality fields of the configuration are those of [x]. *)
Definition same_reality_fields (x x' : XrayConfig) : Prop :=
  RealityEnabled x' = RealityEnabled x /\ RealityDest x' = RealityDest x
  /\ RealityServerNames x' = RealityServerNames x
  /\ RealityPrivateKey x' = RealityPrivateKey x
  /\ RealityPublicKey x' = RealityPublicKey x
  /\ RealityShortIds x' = RealityShortIds x.

(** The Reality settings are complete. *)
Definition reality_complete (nc : NodeConfig) : Prop :=
  nc_RealityDest nc <> ""%string /\ nc_RealityServerNames nc <> ""%string
  /\ nc_RealityShortIds nc <> ""%string.

#[global] Instance reality_complete_dec nc : Decision (reality_complete nc).
Proof. unfold reality_complete. apply _. Defined.

(** The controller serves a complete Reality configuration. *)
Definition panelEnv : Env :=
  sampleEnv (Ok (realityNodeConfig "www.example.com:443")) aliceAndBob None
    {| UploadBytes := 0; DownloadBytes := 0 |}.

(** * The collaborators

    The agent reaches the proxy engine, the geo data files and the
    controller through code of its own repository.  These functions are
    embedded below, each package over its own state and its own events, in
    computations of the same shape as [M]. *)

(** A computation over a state [S] that records events [E]. *)
Definition Prog (S E A : Type) : Type := S -> list E -> A * S * list E.

Definition prog_ret {S E A : Type} (a : A) : Prog S E A :=
  fun s h => (a, s, []).

Definition prog_bind {S E A B : Type} (k : A -> Prog S E B) (m : Prog S E A)
    : Prog S E B :=
  fun s h =>
    let '(a, s1, e1) := m s h in
    let '(b, s2, e2) := k a s1 (h ++ e1) in
    (b, s2, e1 ++ e2).

Definition prog_get {S E : Type} : Prog S E S := fun s h => (s, s, []).
Definition prog_put {S E : Type} (s : S) : Prog S E unit := fun _ h => (tt, s, []).

(** A call that leaves the program: ask the oracle, record the exchange. *)
Definition prog_call {S E R : Type} (oracle : list E -> R) (ev : R -> E)
    : Prog S E R :=
  fun s h => (oracle h, s, [ev (oracle h)]).

Definition prog_emit {S E : Type} (e : E) : Prog S E unit :=
  fun s h => (tt, s, [e]).

Definition prog_value {S E A : Type} (o : A * S * list E) : A := o.1.1.
Definition prog_state {S E A : Type} (o : A * S * list E) : S := o.1.2.
Definition prog_events {S E A : Type} (o : A * S * list E) : list E := o.2.

(** [fmt.Sprintf("%d", n)] for a signed and for an unsigned integer. *)
Definition itoa (z : Z) : string :=
  DecimalString.NilZero.string_of_int (Z.to_int z).
Definition utoa (n : N) : string :=
  DecimalString.NilZero.string_of_uint (N.to_uint n).

(** ** internal/xray: the engine API client (api.go) *)

Module XrayAPI.

(** A [*grpc.ClientConn], by the handle the library gave. *)
Definition ClientConn := N.

(** [serial.ToTypedMessage] of a [vless.Account] or a [vmess.Account]. *)
Inductive Account : Type :=
| VlessAccount (Id : string) (Flow : string)
| VmessAccount (Id : string).

(** [protocol.User]; [Account] is a pointer that may be nil. *)
Record User := {
  Level : Z;
  Email : string;
  Account_ : option Account
}.

Inductive Operation : Type :=
| AddUserOperation (user : User)
| RemoveUserOperation (email : string).

Record AlterInboundRequest := {
  Tag : string;
  Operation_ : Operation
}.

Record QueryStatsRequest := {
  Pattern : string;
  Reset_ : bool
}.

Record GetStatsRequest := {
  Name : string;
  gs_Reset_ : bool
}.

Record Stat := {
  st_Name : string;
  Value : Z
}.

(** The [APIClient] struct. *)
Record APIClient := {
  apiAddress : string;
  apiPort : Z;
  inboundTag : string;
  conn : option ClientConn
}.

Definition set_conn (v : option ClientConn) (c : APIClient) : APIClient :=
  {| apiAddress := apiAddress c; apiPort := apiPort c;
     inboundTag := inboundTag c; conn := v |}.

(** The gRPC calls, with the connection pointer they were given. *)
Inductive Event : Type :=
| EvNewClient (target : string) (r : result ClientConn)
| EvConnClose (cc : ClientConn) (r : option error)
| EvAlterInbound (cc : option ClientConn) (req : AlterInboundRequest)
    (r : option error)
| EvQueryStats (cc : option ClientConn) (req : QueryStatsRequest)
    (r : result (list Stat))
| EvGetStatsOnlineIpList (cc : option ClientConn) (req : GetStatsRequest)
    (r : result (gmap string Z))
| EvGetAllOnlineUsers (cc : option ClientConn) (r : result (list string)).

Record Env := {
  grpc_NewClient : list Event -> string -> result ClientConn;
  conn_Close : list Event -> ClientConn -> option error;
  handler_AlterInbound :
    list Event -> option ClientConn -> AlterInboundRequest -> option error;
  stats_QueryStats :
    list Event -> option ClientConn -> QueryStatsRequest -> result (list Stat);
  stats_GetStatsOnlineIpList :
    list Event -> option ClientConn -> GetStatsRequest -> result (gmap string Z);
  stats_GetAllOnlineUsers :
    list Event -> option ClientConn -> result (list string)
}.

Definition P (A : Type) : Type := Prog APIClient Event A.

#[local] Instance P_ret : MRet P := @prog_ret APIClient Event.
#[local] Instance P_bind : MBind P := @prog_bind APIClient Event.


(** [uint32(v)] of an [int]. *)
Definition uint32 (v : Z) : Z := v mod 2 ^ 32.

Section Program.

Context (env : Env).

Definition Connect : P (option error) :=
  c ← prog_get;
  let target := (apiAddress c +:+ ":" +:+ itoa (apiPort c))%string in
  r ← prog_call (fun h => grpc_NewClient env h target) (EvNewClient target);
  match r with
  | Err err => mret (Some ("failed to connect to xray API: " +:+ err)%string)
  | Ok conn => prog_put (set_conn (Some conn) c);; mret None
  end.

Definition Close : P (option error) :=
  c ← prog_get;
  match conn c with
  | Some cc => prog_call (fun h => conn_Close env h cc) (EvConnClose cc)
  | None => mret None
  end.

(** The opening of every method:
    [if c.conn == nil { if err := c.Connect(); err != nil { return err } }]. *)
Definition dial : P (option error) :=
  c ← prog_get;
  match conn c with
  | None => Connect
  | Some _ => mret None
  end.

Definition AddUser (user : XrayUser) : P (option error) :=
  err ← dial;
  match err with
  | Some err => mret (Some err)
  | None =>
      c ← prog_get;
      let account :=
        if bool_decide (xu_Protocol user = "vless"%string
                        \/ xu_Protocol user = ""%string) then
          let vlessAccount := VlessAccount (xu_UUID user) "" in
          let vlessAccount :=
            if bool_decide (xu_Flow user <> ""%string)
            then VlessAccount (xu_UUID user) (xu_Flow user)
            else vlessAccount in
          Some vlessAccount
        else if bool_decide (xu_Protocol user = "vmess"%string) then
          Some (VmessAccount (xu_UUID user))
        else None in
      let protoUser :=
        {| Level := uint32 (xu_Level user);
           Email := xu_Email user;
           Account_ := account |} in
      let req :=
        {| Tag := inboundTag c;
           Operation_ := AddUserOperation protoUser |} in
      r ← prog_call (fun h => handler_AlterInbound env h (conn c) req)
                    (EvAlterInbound (conn c) req);
      match r with
      | Some err => mret (Some ("failed to add user: " +:+ err)%string)
      | None => mret None
      end
  end.

Definition RemoveUser (email : string) : P (option error) :=
  err ← dial;
  match err with
  | Some err => mret (Some err)
  | None =>
      c ← prog_get;
      let req :=
        {| Tag := inboundTag c;
           Operation_ := RemoveUserOperation email |} in
      r ← prog_call (fun h => handler_AlterInbound env h (conn c) req)
                    (EvAlterInbound (conn c) req);
      match r with
      | Some err => mret (Some ("failed to remove user: " +:+ err)%string)
      | None => mret None
      end
  end.

Definition uplink (email : string) : string :=
  ("user>>>" +:+ email +:+ ">>>traffic>>>uplink")%string.
Definition downlink (email : string) : string :=
  ("user>>>" +:+ email +:+ ">>>traffic>>>downlink")%string.

(** [if err == nil && len(resp.Stat) > 0 { field = resp.Stat[0].Value }],
    over the zero value of the field. *)
Definition firstValue (resp : result (list Stat)) : Z :=
  match resp with
  | Ok (s :: _) => Value s
  | _ => 0
  end.

Definition GetUserStats (email : string) : P (result XrayStats) :=
  err ← dial;
  match err with
  | Some err => mret (Err err)
  | None =>
      c ← prog_get;
      let uploadReq := {| Pattern := uplink email; Reset_ := false |} in
      uploadResp ← prog_call (fun h => stats_QueryStats env h (conn c) uploadReq)
                             (EvQueryStats (conn c) uploadReq);
      let downloadReq := {| Pattern := downlink email; Reset_ := false |} in
      downloadResp ← prog_call
                       (fun h => stats_QueryStats env h (conn c) downloadReq)
                       (EvQueryStats (conn c) downloadReq);
      mret (Ok {| UploadBytes := firstValue uploadResp;
                  DownloadBytes := firstValue downloadResp |})
  end.

Definition ResetUserStats (email : string) : P (option error) :=
  err ← dial;
  match err with
  | Some err => mret (Some err)
  | None =>
      c ← prog_get;
      let uploadReq := {| Pattern := uplink email; Reset_ := true |} in
      _ ← prog_call (fun h => stats_QueryStats env h (conn c) uploadReq)
                    (EvQueryStats (conn c) uploadReq);
      let downloadReq := {| Pattern := downlink email; Reset_ := true |} in
      r ← prog_call (fun h => stats_QueryStats env h (conn c) downloadReq)
                    (EvQueryStats (conn c) downloadReq);
      match r with
      | Err err => mret (Some err)
      | Ok _ => mret None
      end
  end.

Definition GetOnlineIPs (email : string) : P (result (gmap string Z)) :=
  err ← dial;
  match err with
  | Some err => mret (Err err)
  | None =>
      c ← prog_get;
      let req := {| Name := ("user>>>" +:+ email +:+ ">>>online")%string;
                    gs_Reset_ := false |} in
      r ← prog_call (fun h => stats_GetStatsOnlineIpList env h (conn c) req)
                    (EvGetStatsOnlineIpList (conn c) req);
      match r with
      | Err err => mret (Err ("failed to get online IPs: " +:+ err)%string)
      | Ok ips => mret (Ok ips)
      end
  end.

Definition GetAllOnlineUsers : P (result (list string)) :=
  err ← dial;
  match err with
  | Some err => mret (Err err)
  | None =>
      c ← prog_get;
      r ← prog_call (fun h => stats_GetAllOnlineUsers env h (conn c))
                    (EvGetAllOnlineUsers (conn c));
      match r with
      | Err err => mret (Err ("failed to get online users: " +:+ err)%string)
      | Ok users => mret (Ok users)
      end
  end.




End Program.

(** The address the client dials. *)
Definition target (c : APIClient) : string :=
  (apiAddress c +:+ ":" +:+ itoa (apiPort c))%string.


(** The two counter queries of [GetUserStats] and [ResetUserStats]. *)
Definition queries (cc : ClientConn) (email : string) (reset : bool)
    (up down : result (list Stat)) : list Event :=
  [EvQueryStats (Some cc) {| Pattern := uplink email; Reset_ := reset |} up;
   EvQueryStats (Some cc) {| Pattern := downlink email; Reset_ := reset |} down].

(** The dial a method starts with, if there is one. *)
Definition dialed (c : APIClient) (cc : ClientConn) (pre : list Event) : Prop :=
  (conn c = Some cc /\ pre = [])
  \/ (conn c = None /\ pre = [EvNewClient (target c) (Ok cc)]).

End XrayAPI.

(** ** The library functions of package strings that manager.go uses *)

Module Strings.

(** [strings.Split(s, sep)] for a separator of one byte: the substrings
    between the separators, so that a string without separator, the empty
    string included, gives one element. *)
Fixpoint Split (s : string) (sep : ascii) : list string :=
  match s with
  | EmptyString => [EmptyString]
  | String c s' =>
      if Ascii.eqb c sep then EmptyString :: Split s' sep
      else match Split s' sep with
           | x :: r => String c x :: r
           | [] => [String c EmptyString]
           end
  end.

(** [strings.Join(elems, sep)]. *)
Fixpoint Join (elems : list string) (sep : string) : string :=
  match elems with
  | [] => EmptyString
  | [x] => x
  | x :: r => (x +:+ sep +:+ Join r sep)%string
  end.

(** White space as [unicode.IsSpace] has it, in its UTF-8 encoding: the
    six ASCII characters, U+0085 and U+00A0 in two bytes, and U+1680,
    U+2000 to U+200A, U+2028, U+2029, U+202F, U+205F and U+3000 in three. *)
Definition asciiSpace (c : byte) : bool :=
  let z := Z_of_byte c in
  ((9 <=? z) && (z <=? 13)) || (z =? 32).

Definition space2 (a b : byte) : bool :=
  (Z_of_byte a =? 194) && ((Z_of_byte b =? 133) || (Z_of_byte b =? 160)).

Definition space3 (a b c : byte) : bool :=
  let x := Z_of_byte a in
  let y := Z_of_byte b in
  let z := Z_of_byte c in
  ((x =? 225) && (y =? 154) && (z =? 128))
  || ((x =? 226) && (y =? 128)
      && (((128 <=? z) && (z <=? 138)) || (z =? 168) || (z =? 169) || (z =? 175)))
  || ((x =? 226) && (y =? 129) && (z =? 159))
  || ((x =? 227) && (y =? 128) && (z =? 128)).

(** White space removed at the front of a list of bytes, given the tests
    for an encoding of two and of three bytes. *)
Fixpoint trim (p2 : byte -> byte -> bool) (p3 : byte -> byte -> byte -> bool)
    (s : list byte) : list byte :=
  match s with
  | [] => []
  | a :: s1 =>
      if asciiSpace a then trim p2 p3 s1
      else match s1 with
           | [] => s
           | b :: s2 =>
               if p2 a b then trim p2 p3 s2
               else match s2 with
                    | [] => s
                    | c :: s3 => if p3 a b c then trim p2 p3 s3 else s
                    end
           end
  end.

(** Leading white space removed. *)
Definition trimLeft (s : list byte) : list byte := trim space2 space3 s.

(** Trailing white space removed, on the reversed string: the bytes of an
    encoding come last byte first. *)
Definition trimRight (r : list byte) : list byte :=
  trim (fun c b => space2 b c) (fun c b a => space3 a b c) r.

(** [strings.TrimSpace(s)]. *)
Definition TrimSpace (s : string) : string :=
  string_of_list_ascii
    (rev (trimRight (rev (trimLeft (list_ascii_of_string s))))).

(** The list starts with white space. *)
Definition lead (p2 : byte -> byte -> bool) (p3 : byte -> byte -> byte -> bool)
    (s : list byte) : bool :=
  match s with
  | [] => false
  | a :: s1 =>
      asciiSpace a
      || match s1 with
         | [] => false
         | b :: s2 =>
             p2 a b || match s2 with [] => false | c :: _ => p3 a b c end
         end
  end.

(** A string of ASCII white space. *)
Fixpoint spaces (s : string) : bool :=
  match s with
  | EmptyString => true
  | String c s' => asciiSpace c && spaces s'
  end.

End Strings.

(** ** Values of [map[string]interface{}] as [encoding/json] writes them *)

#[warnings="-register-all"] Inductive JSON : Type :=
| JString (s : string)
| JNumber (z : Z)
| JBool (b : bool)
| JArray (l : list JSON)
| JObject (m : gmap string JSON).

(** A map literal. *)
Definition object (fields : list (string * JSON)) : gmap string JSON :=
  list_to_map fields.

(** A [[]string]. *)
Definition stringArray (l : list string) : JSON := JArray (JString <$> l).

(** The member [k] of an object. *)
Definition member (k : string) (j : JSON) : option JSON :=
  match j with
  | JObject m => m !! k
  | _ => None
  end.

(** ** internal/xray: the engine manager (manager.go) *)

Module XrayManager.

(** A [*core.Instance] and a parsed configuration, by handle. *)
Definition Instance := N.
Definition PbConfig := N.

(** The [Manager] struct: [cfg] points into the configuration of the
    agent, so that [Start] sees the fields [Agent.Start] has assigned. *)
Record Manager := {
  cfg : XrayConfig;
  instance : option Instance
}.

Inductive Event : Type :=
| EvSetenv (key value : string)
| EvWriteFile (path data : string) (r : option error)
| EvMkdirAll (path : string) (r : option error)
| EvLoadJSONConfig (data : string) (r : result PbConfig)
| EvNew (c : PbConfig) (r : result Instance)
| EvInstanceStart (i : Instance) (r : option error)
| EvCancel
| EvInstanceClose (i : Instance) (r : option error)
| EvAgentCancel.

(** [json.MarshalIndent] and [filepath.Dir] are functions of their
    argument; the other answers may depend on what happened before. *)
Record Env := {
  json_MarshalIndent : JSON -> result string;
  filepath_Dir : string -> string;
  os_WriteFile : list Event -> string -> string -> option error;
  os_MkdirAll : list Event -> string -> option error;
  serial_LoadJSONConfig : list Event -> string -> result PbConfig;
  core_New : list Event -> PbConfig -> result Instance;
  instance_Start : list Event -> Instance -> option error;
  instance_Close : list Event -> Instance -> option error
}.

Definition P (A : Type) : Type := Prog Manager Event A.

#[local] Instance P_ret : MRet P := @prog_ret Manager Event.
#[local] Instance P_bind : MBind P := @prog_bind Manager Event.

Definition NewManager (cfg : XrayConfig) : Manager :=
  {| cfg := cfg; instance := None |}.

Definition buildOutbounds : list JSON :=
  [JObject (object [("protocol", JString "freedom");
                    ("tag", JString "direct")])].

(** The loops [for i := range names { names[i] = strings.TrimSpace(names[i]) }]
    over the comma-separated fields. *)
Definition trimmedFields (s : string) : list string :=
  Strings.TrimSpace <$> Strings.Split s ","%char.

Definition buildRealityStream (cfg : XrayConfig) : gmap string JSON :=
  let serverNames := trimmedFields (RealityServerNames cfg) in
  let shortIds := trimmedFields (RealityShortIds cfg) in
  object
    [("network", JString "tcp");
     ("security", JString "reality");
     ("realitySettings",
      JObject (object
        [("show", JBool false);
         ("dest", JString (RealityDest cfg));
         ("xver", JNumber 0);
         ("serverNames", stringArray serverNames);
         ("privateKey", JString (RealityPrivateKey cfg));
         ("shortIds", stringArray shortIds)]))].

Definition buildProxyInbound (cfg : XrayConfig) : gmap string JSON :=
  let inbound :=
    object [("tag", JString (InboundTag cfg));
            ("port", JNumber (ListenPort cfg));
            ("protocol", JString (Protocol cfg));
            ("listen", JString (ListenAddress cfg))] in
  let inbound :=
    if bool_decide (Protocol cfg = "vless"%string) then
      <["settings" := JObject (object [("clients", JArray []);
                                       ("decryption", JString "none")])]> inbound
    else if bool_decide (Protocol cfg = "vmess"%string) then
      <["settings" := JObject (object [("clients", JArray [])])]> inbound
    else
      <["settings" := JObject (object [("clients", JArray []);
                                       ("decryption", JString "none")])]> inbound in
  if RealityEnabled cfg then
    <["streamSettings" := JObject (buildRealityStream cfg)]> inbound
  else inbound.

(** [buildProxyInbound] returns a map made by a literal, which is never
    nil: the second inbound is always appended. *)
Definition buildInbounds (cfg : XrayConfig) : list JSON :=
  let inbounds :=
    [JObject (object
       [("tag", JString "api");
        ("listen", JString (APIAddress cfg));
        ("port", JNumber (APIPort cfg));
        ("protocol", JString "dokodemo-door");
        ("settings", JObject (object [("address", JString (APIAddress cfg))]))])] in
  let proxyInbound := buildProxyInbound cfg in
  inbounds ++ [JObject proxyInbound].

Definition buildConfig (cfg : XrayConfig) : gmap string JSON :=
  object
    [("log", JObject (object [("loglevel", JString "warning")]));
     ("api", JObject (object
        [("tag", JString "api");
         ("services", stringArray ["HandlerService"; "StatsService"]%string)]));
     ("stats", JObject (object []));
     ("policy", JObject (object
        [("levels", JObject (object
            [("0", JObject (object [("statsUserUplink", JBool true);
                                    ("statsUserDownlink", JBool true)]))]));
         ("system", JObject (object [("statsInboundUplink", JBool true);
                                     ("statsInboundDownlink", JBool true)]))]));
     ("inbounds", JArray (buildInbounds cfg));
     ("outbounds", JArray buildOutbounds);
     ("routing", JObject (object
        [("domainStrategy", JString "AsIs");
         ("rules", JArray
            [JObject (object [("type", JString "field");
                              ("inboundTag", stringArray ["api"%string]);
                              ("outboundTag", JString "api")])])]))].

Section Program.

Context (env : Env).

Definition generateConfigJSON (m : Manager) : result string :=
  json_MarshalIndent env (JObject (buildConfig (cfg m))).

Definition Start : P (option error) :=
  m ← prog_get;
  (if bool_decide (GeoIPPath (cfg m) <> ""%string) then
     let assetDir := filepath_Dir env (GeoIPPath (cfg m)) in
     prog_emit (EvSetenv "XRAY_LOCATION_ASSET" assetDir)
   else mret tt);;
  match generateConfigJSON m with
  | Err err => mret (Some ("failed to generate config: " +:+ err)%string)
  | Ok configJSON =>
      let tempConfigPath := "/tmp/xray-config.json"%string in
      r ← prog_call (fun h => os_WriteFile env h tempConfigPath configJSON)
                    (EvWriteFile tempConfigPath configJSON);
      match r with
      | Some err => mret (Some ("failed to save config: " +:+ err)%string)
      | None =>
          (if bool_decide (ConfigPath (cfg m) <> ""%string) then
             _ ← prog_call (fun h => os_MkdirAll env h "/etc/xpanel-agent")
                           (EvMkdirAll "/etc/xpanel-agent");
             _ ← prog_call
                   (fun h => os_WriteFile env h (ConfigPath (cfg m)) configJSON)
                   (EvWriteFile (ConfigPath (cfg m)) configJSON);
             mret tt
           else mret tt);;
          pb ← prog_call (fun h => serial_LoadJSONConfig env h configJSON)
                         (EvLoadJSONConfig configJSON);
          match pb with
          | Err err => mret (Some ("failed to load config: " +:+ err)%string)
          | Ok pbConfig =>
              i ← prog_call (fun h => core_New env h pbConfig) (EvNew pbConfig);
              match i with
              | Err err =>
                  mret (Some ("failed to create xray instance: " +:+ err)%string)
              | Ok instance =>
                  prog_put {| cfg := cfg m; instance := Some instance |};;
                  r ← prog_call (fun h => instance_Start env h instance)
                                (EvInstanceStart instance);
                  match r with
                  | Some err =>
                      mret (Some ("failed to start xray: " +:+ err)%string)
                  | None => mret None
                  end
              end
          end
      end
  end.

Definition Stop : P (option error) :=
  m ← prog_get;
  match instance m with
  | None => mret None
  | Some i =>
      prog_emit EvCancel;;
      r ← prog_call (fun h => instance_Close env h i) (EvInstanceClose i);
      match r with
      | Some err => mret (Some ("failed to stop xray: " +:+ err)%string)
      | None => mret None
      end
  end.

Definition IsRunning (m : Manager) : bool :=
  bool_decide (instance m <> None).

(** [Agent.Stop] (agent.go): the context of the agent is cancelled, the
    manager is stopped, and its error goes to the log only. *)
Definition Agent_Stop : P (option error) :=
  prog_emit EvAgentCancel;;
  _ ← Stop;
  mret None.

End Program.

(** The fields of the configuration that [buildConfig] reads. *)
Definition same_engine_fields (c c' : XrayConfig) : Prop :=
  APIAddress c = APIAddress c' /\ APIPort c = APIPort c'
  /\ Protocol c = Protocol c' /\ ListenAddress c = ListenAddress c'
  /\ ListenPort c = ListenPort c' /\ InboundTag c = InboundTag c'
  /\ RealityEnabled c = RealityEnabled c'
  /\ (RealityEnabled c = true ->
      RealityDest c = RealityDest c'
      /\ RealityServerNames c = RealityServerNames c'
      /\ RealityPrivateKey c = RealityPrivateKey c'
      /\ RealityShortIds c = RealityShortIds c').

(** The number of separators in a string. *)
Fixpoint count (sep : ascii) (s : string) : nat :=
  match s with
  | EmptyString => 0%nat
  | String c s' => ((if Ascii.eqb c sep then 1 else 0) + count sep s')%nat
  end.

(** A string of separators and ASCII white space only. *)
Fixpoint blank (s : string) : bool :=
  match s with
  | EmptyString => true
  | String c s' => (Ascii.eqb c ","%char || Strings.asciiSpace c) && blank s'
  end.

End XrayManager.

(** ** internal/xray: the geo data files (GeoDataManager) *)

Module GeoData.

Definition Hour : Duration := 60 * Minute.

Definition GeoIPURL : string :=
  "https://github.com/Loyalsoldier/v2ray-rules-dat/releases/latest/download/geoip.dat".
Definition GeoSiteURL : string :=
  "https://github.com/Loyalsoldier/v2ray-rules-dat/releases/latest/download/geosite.dat".
Definition GeoDataUpdateInterval : Duration := 24 * Hour.

Record GeoDataManager := {
  geoIPPath : string;
  geoSitePath : string
}.

Definition NewGeoDataManager (geoIPPath geoSitePath : string) : GeoDataManager :=
  {| geoIPPath := geoIPPath; geoSitePath := geoSitePath |}.

(** The answer of [os.Stat]: the modification time of the file, an error
    that [os.IsNotExist] recognises, or another error. *)
Inductive StatResult : Type :=
| StatOk (ModTime : Time)
| StatNotExist (err : error)
| StatErr (err : error).

(** What the code reads of an [*http.Response]. *)
Record Response := {
  StatusCode : Z
}.

Inductive Event : Type :=
| EvMkdirAll (dir : string) (r : option error)
| EvStat (path : string) (r : StatResult)
| EvNow (t : Time)
| EvGet (url : string) (r : result Response)
| EvBodyClose (url : string)
| EvCreate (path : string) (r : option error)
| EvCopy (path url : string) (r : result Z)
| EvClose (path : string)
| EvRename (oldpath newpath : string) (r : option error)
| EvRemove (path : string).

Record Env := {
  filepath_Dir : string -> string;
  os_MkdirAll : list Event -> string -> option error;
  os_Stat : list Event -> string -> StatResult;
  time_Now : list Event -> Time;
  http_Get : list Event -> string -> result Response;
  os_Create : list Event -> string -> option error;
  io_Copy : list Event -> string -> string -> result Z;
  os_Rename : list Event -> string -> string -> option error
}.

(** The manager has no mutable state. *)
Definition P (A : Type) : Type := Prog unit Event A.

#[local] Instance P_ret : MRet P := @prog_ret unit Event.
#[local] Instance P_bind : MBind P := @prog_bind unit Event.

Section Program.

Context (env : Env).

(** [downloadFile]; the deferred [resp.Body.Close()] runs when the function
    returns, once the request has succeeded. *)
Definition downloadFile (filePath downloadURL name : string) : P (option error) :=
  resp ← prog_call (fun h => http_Get env h downloadURL) (EvGet downloadURL);
  match resp with
  | Err err =>
      mret (Some ("failed to download " +:+ name +:+ ": " +:+ err)%string)
  | Ok resp =>
      r ← (if bool_decide (StatusCode resp <> 200) then
             mret (Some ("failed to download " +:+ name +:+ ": HTTP "
                         +:+ itoa (StatusCode resp))%string)
           else
             let tmpFile := (filePath +:+ ".tmp")%string in
             out ← prog_call (fun h => os_Create env h tmpFile) (EvCreate tmpFile);
             match out with
             | Some err =>
                 mret (Some ("failed to create temp file for " +:+ name
                             +:+ ": " +:+ err)%string)
             | None =>
                 written ← prog_call (fun h => io_Copy env h tmpFile downloadURL)
                                     (EvCopy tmpFile downloadURL);
                 prog_emit (EvClose tmpFile);;
                 match written with
                 | Err err =>
                     prog_emit (EvRemove tmpFile);;
                     mret (Some ("failed to write " +:+ name +:+ ": " +:+ err)%string)
                 | Ok _ =>
                     err ← prog_call (fun h => os_Rename env h tmpFile filePath)
                                     (EvRename tmpFile filePath);
                     match err with
                     | Some err =>
                         prog_emit (EvRemove tmpFile);;
                         mret (Some ("failed to finalize " +:+ name
                                     +:+ ": " +:+ err)%string)
                     | None => mret None
                     end
                 end
             end);
      prog_emit (EvBodyClose downloadURL);;
      mret r
  end.

(** [time.Since(t)]. *)
Definition Since (t : Time) : P Duration :=
  now ← prog_call (time_Now env) EvNow;
  mret (Sub now t).

Definition ensureFile (filePath downloadURL name : string) : P (option error) :=
  st ← prog_call (fun h => os_Stat env h filePath) (EvStat filePath);
  match st with
  | StatOk modTime =>
      age ← Since modTime;
      if age <? GeoDataUpdateInterval then mret None
      else downloadFile filePath downloadURL name
  | StatErr err =>
      mret (Some ("failed to stat " +:+ name +:+ ": " +:+ err)%string)
  | StatNotExist _ => downloadFile filePath downloadURL name
  end.

Definition EnsureDataFiles (m : GeoDataManager) : P (option error) :=
  let dir := filepath_Dir env (geoIPPath m) in
  r ← prog_call (fun h => os_MkdirAll env h dir) (EvMkdirAll dir);
  match r with
  | Some err =>
      mret (Some ("failed to create geo data directory: " +:+ err)%string)
  | None =>
      r ← ensureFile (geoIPPath m) GeoIPURL "geoip.dat";
      match r with
      | Some err => mret (Some err)
      | None =>
          r ← ensureFile (geoSitePath m) GeoSiteURL "geosite.dat";
          match r with
          | Some err => mret (Some err)
          | None => mret None
          end
      end
  end.

Definition GetAssetDir (m : GeoDataManager) : string :=
  filepath_Dir env (geoIPPath m).

End Program.

(** The file an event reads, creates, writes, renames or removes. *)
Definition touches (path : string) (e : Event) : Prop :=
  match e with
  | EvStat p _ | EvCreate p _ | EvCopy p _ _ | EvClose p | EvRemove p => p = path
  | EvRename old new _ => old = path \/ new = path
  | EvMkdirAll _ _ | EvNow _ | EvGet _ _ | EvBodyClose _ => False
  end.

(** The file at [path] is in place after the events [evs]: it was found
    younger than the update interval, or a complete download was renamed
    onto it. *)
Definition in_place (path : string) (evs : list Event) : Prop :=
  (exists pre modTime now post,
     evs = pre ++ EvStat path (StatOk modTime) :: EvNow now :: post
     /\ Sub now modTime < GeoDataUpdateInterval)
  \/ EvRename (path +:+ ".tmp") path None ∈ evs.

End GeoData.

(** ** config: the configuration file (config.go) *)

Module ConfigFile.

(** The part of the configuration that the agent logic reads. *)
Definition agentConfig (id : N) (name : string) (x : XrayConfig) : Config :=
  {| Node_ID := id; Node_Name := name; Xray := x |}.

Record NodeConfig := {
  ID : N;
  Name : string
}.

Record PanelConfig := {
  URL : string;
  APIKey : string;
  Timeout : Duration
}.

Record FilesConfig := {
  TLSCert : string;
  TLSKey : string;
  GeoIP : string;
  GeoSite : string;
  XrayConfigFile : string;
  RealityKey : string
}.

Record IntervalConfig := {
  Heartbeat : Duration;
  UserSync : Duration;
  TrafficReport : Duration;
  ActivityReport : Duration
}.

Record LoggingConfig := {
  Level : string;
  Format : string
}.

(** The complete [Config] struct. *)
Record Config := {
  Node : NodeConfig;
  Panel : PanelConfig;
  Files : FilesConfig;
  Xray : XrayConfig;
  Intervals : IntervalConfig;
  Logging : LoggingConfig
}.

(** What [yaml.Unmarshal] can set in a zero [Config]: the fields with a
    YAML key.  Of [XrayConfig] these are [api_address] and [api_port]; the
    others carry the tag [yaml:"-"] and stay zero. *)
Record Document := {
  d_Node : NodeConfig;
  d_Panel : PanelConfig;
  d_Files : FilesConfig;
  d_APIAddress : string;
  d_APIPort : Z;
  d_Intervals : IntervalConfig;
  d_Logging : LoggingConfig
}.

Record Env := {
  os_ReadFile : string -> result string;
  yaml_Unmarshal : string -> result Document
}.

(** [if v == 0 { v = d }] and [if s == "" { s = d }]. *)
Definition orDuration (d v : Duration) : Duration :=
  if bool_decide (v = 0) then d else v.
Definition orString (d s : string) : string :=
  if bool_decide (s = ""%string) then d else s.

Section Program.

Context (env : Env).

Definition Load (path : string) : result Config :=
  match os_ReadFile env path with
  | Err err => Err err
  | Ok data =>
      match yaml_Unmarshal env data with
      | Err err => Err err
      | Ok d =>
          let files := d_Files d in
          Ok {| Node := d_Node d;
                Panel :=
                  {| URL := URL (d_Panel d);
                     APIKey := APIKey (d_Panel d);
                     Timeout := orDuration (10 * Second) (Timeout (d_Panel d)) |};
                Files := files;
                Xray :=
                  {| APIAddress := d_APIAddress d;
                     APIPort := d_APIPort d;
                     Protocol := "";
                     ListenAddress := "0.0.0.0";
                     ListenPort := 0;
                     TLSEnabled := false;
                     CertFile := TLSCert files;
                     KeyFile := TLSKey files;
                     SNI := "";
                     InboundTag := "";
                     GeoIPPath := GeoIP files;
                     GeoSitePath := GeoSite files;
                     ConfigPath := XrayConfigFile files;
                     RealityEnabled := false;
                     RealityDest := "";
                     RealityServerNames := "";
                     RealityPrivateKey := "";
                     RealityPublicKey := "";
                     RealityShortIds := "";
                     RealityKeyPath :=
                       if bool_decide (RealityKey files <> ""%string)
                       then RealityKey files
                       else "reality_private.key"%string |};
                Intervals :=
                  {| Heartbeat :=
                       orDuration (30 * Second) (Heartbeat (d_Intervals d));
                     UserSync :=
                       orDuration (5 * Minute) (UserSync (d_Intervals d));
                     TrafficReport :=
                       orDuration (1 * Minute) (TrafficReport (d_Intervals d));
                     ActivityReport :=
                       orDuration (30 * Second) (ActivityReport (d_Intervals d)) |};
                Logging :=
                  {| Level := orString "info" (Level (d_Logging d));
                     Format := orString "json" (Format (d_Logging d)) |} |}
      end
  end.

End Program.

(** [NewAgent] (agent.go) for a loaded configuration. *)
Definition NewAgent (cfg : Config) : Agent :=
  {| cfg := agentConfig (ID (Node cfg)) (Name (Node cfg)) (Xray cfg);
     xrayAPI := None;
     currentUsers := ∅;
     activityCache := ∅;
     realityKeys := None |}.

(** The four intervals and the timeout. *)
Definition durations (cfg : Config) : list Duration :=
  [Timeout (Panel cfg); Heartbeat (Intervals cfg); UserSync (Intervals cfg);
   TrafficReport (Intervals cfg); ActivityReport (Intervals cfg)].

Definition documentDurations (d : Document) : list Duration :=
  [Timeout (d_Panel d); Heartbeat (d_Intervals d); UserSync (d_Intervals d);
   TrafficReport (d_Intervals d); ActivityReport (d_Intervals d)].

Definition defaultDurations : list Duration :=
  [10 * Second; 30 * Second; 5 * Minute; 1 * Minute; 30 * Second].

(** A file that sets the node and the API endpoint only. *)
Definition minimalDocument : Document :=
  {| d_Node := {| ID := 1; Name := "node-1" |};
     d_Panel := {| URL := "https://panel.example.com"; APIKey := "";
                   Timeout := 0 |};
     d_Files := {| TLSCert := ""; TLSKey := ""; GeoIP := ""; GeoSite := "";
                   XrayConfigFile := ""; RealityKey := "" |};
     d_APIAddress := "127.0.0.1";
     d_APIPort := 10085;
     d_Intervals := {| Heartbeat := 0; UserSync := 0; TrafficReport := -1;
                       ActivityReport := 0 |};
     d_Logging := {| Level := ""; Format := "" |} |}.

Definition minimalFile : Env :=
  {| os_ReadFile := fun _ => Ok "node: {id: 1}"%string;
     yaml_Unmarshal := fun _ => Ok minimalDocument |}.

End ConfigFile.

(** ** internal/models: the heartbeat *)

(** A [float64], by the 64 bits of its IEEE 754 encoding: the zero value
    is 0. *)
Definition float64 := Z.

Record HeartbeatRequest := {
  hb_NodeID : N;
  hb_Status : string;
  hb_CurrentUsers : Z;
  hb_CPUUsage : float64;
  hb_MemoryUsage : float64;
  hb_Uptime : Z;
  hb_Timestamp : Time;
  hb_RealityPublicKey : string
}.

(** ** internal/panel: the controller client (client.go, node_config.go) *)

Module PanelClient.

Record Client := {
  baseURL : string;
  apiKey : string;
  timeout : Duration
}.

Definition NewClient (baseURL apiKey : string) (timeout : Duration) : Client :=
  {| baseURL := baseURL; apiKey := apiKey; timeout := timeout |}.

(** The request bodies the agent sends. *)
Inductive Payload : Type :=
| Heartbeat (r : HeartbeatRequest)
| Traffic (r : TrafficReportRequest)
| Activity (r : ActivityReportRequest).

Record UserSyncResponse := {
  us_Success : bool;
  us_Users : list UserConfig
}.

Record NodeConfigResponse := {
  nr_Success : bool;
  nr_Node : NodeConfig
}.

Record Request := {
  Method : string;
  URL : string;
  Header : gmap string string;
  Body : option string
}.

(** What the code reads of an [*http.Response] before its body. *)
Record Response := {
  StatusCode : Z
}.

Inductive Event : Type :=
| EvDo (req : Request) (r : result Response)
| EvReadAll (body : string)
| EvDecodeUserSync (r : result UserSyncResponse)
| EvDecodeNodeConfig (r : result NodeConfigResponse)
| EvBodyClose.

(** [json.Marshal] and [http.NewRequest] are functions of their
    arguments; the exchange with the controller and the reading of the
    response body are not. *)
Record Env := {
  json_Marshal : Payload -> result string;
  http_NewRequest : string -> string -> option error;
  http_Do : list Event -> Request -> result Response;
  io_ReadAll : list Event -> string;
  json_DecodeUserSync : list Event -> result UserSyncResponse;
  json_DecodeNodeConfig : list Event -> result NodeConfigResponse
}.

(** The client is not modified by its methods. *)
Definition P (A : Type) : Type := Prog Client Event A.

#[local] Instance P_ret : MRet P := @prog_ret Client Event.
#[local] Instance P_bind : MBind P := @prog_bind Client Event.

Section Program.

Context (env : Env).

(** [doRequest].  [respBody] is nil or points to a response structure of
    type [R]: [decode] is the decoding into it, and the result carries the
    structure as the caller finds it when [doRequest] returns nil ([zero]
    when nothing was decoded). *)
Definition doRequest {R : Type} (zero : R) (method url : string)
    (reqBody : option Payload) (decode : option (P (result R)))
    : P (result R) :=
  c ← prog_get;
  match match reqBody with
        | Some p =>
            match json_Marshal env p with
            | Err err => Err ("failed to marshal request: " +:+ err)%string
            | Ok jsonData => Ok (Some jsonData)
            end
        | None => Ok None
        end with
  | Err err => mret (Err err)
  | Ok body =>
      match http_NewRequest env method url with
      | Some err => mret (Err ("failed to create request: " +:+ err)%string)
      | None =>
          let header := {[ "Content-Type"%string := "application/json"%string ]} in
          let header :=
            if bool_decide (apiKey c <> ""%string)
            then <["X-API-Key"%string := apiKey c]> header else header in
          let req := {| Method := method; URL := url; Header := header;
                        Body := body |} in
          resp ← prog_call (fun h => http_Do env h req) (EvDo req);
          match resp with
          | Err err => mret (Err ("request failed: " +:+ err)%string)
          | Ok resp =>
              r ← (if bool_decide (StatusCode resp < 200 \/ StatusCode resp >= 300)
                   then
                     bodyBytes ← prog_call (io_ReadAll env) EvReadAll;
                     mret (Err ("panel API error (status "
                                +:+ itoa (StatusCode resp) +:+ "): "
                                +:+ bodyBytes)%string)
                   else
                     match decode with
                     | Some decode =>
                         d ← decode;
                         match d with
                         | Err err =>
                             mret (Err ("failed to decode response: "
                                        +:+ err)%string)
                         | Ok v => mret (Ok v)
                         end
                     | None => mret (Ok zero)
                     end);
              prog_emit EvBodyClose;;
              mret r
          end
      end
  end.

Definition errorOf {R : Type} (r : result R) : option error :=
  match r with
  | Err err => Some err
  | Ok _ => None
  end.

Definition SendHeartbeat (heartbeat : HeartbeatRequest) : P (option error) :=
  c ← prog_get;
  let url := (baseURL c +:+ "/api/v1/node-agent/heartbeat")%string in
  r ← doRequest tt "POST" url (Some (Heartbeat heartbeat)) None;
  mret (errorOf r).

Definition FetchUserSync (nodeID : N) : P (result (list UserConfig)) :=
  c ← prog_get;
  let url := (baseURL c +:+ "/api/v1/node-agent/" +:+ utoa nodeID
              +:+ "/sync")%string in
  r ← doRequest {| us_Success := false; us_Users := [] |} "GET" url None
        (Some (prog_call (json_DecodeUserSync env) EvDecodeUserSync));
  match r with
  | Err err => mret (Err err)
  | Ok response =>
      if negb (us_Success response) then mret (Err "sync request failed"%string)
      else mret (Ok (us_Users response))
  end.

Definition ReportTraffic (report : TrafficReportRequest) : P (option error) :=
  c ← prog_get;
  let url := (baseURL c +:+ "/api/v1/node-agent/traffic")%string in
  r ← doRequest tt "POST" url (Some (Traffic report)) None;
  mret (errorOf r).

Definition ReportActivity (report : ActivityReportRequest) : P (option error) :=
  c ← prog_get;
  let url := (baseURL c +:+ "/api/v1/node-agent/activity")%string in
  r ← doRequest tt "POST" url (Some (Activity report)) None;
  mret (errorOf r).

(** The zero [NodeConfig]. *)
Definition zeroNodeConfig : NodeConfig :=
  {| nc_ID := 0; nc_Name := ""; nc_Address := ""; nc_Port := 0;
     nc_Protocol := ""; nc_TLSEnabled := false; nc_SNI := "";
     nc_InboundTag := ""; nc_APIEndpoint := ""; nc_APIPort := 0;
     nc_RealityEnabled := false; nc_RealityDest := "";
     nc_RealityServerNames := ""; nc_RealityPrivateKey := "";
     nc_RealityPublicKey := ""; nc_RealityShortIds := "" |}.

Definition FetchNodeConfig (nodeID : N) : P (result NodeConfig) :=
  c ← prog_get;
  let url := (baseURL c +:+ "/api/v1/node-agent/" +:+ utoa nodeID
              +:+ "/config")%string in
  r ← doRequest {| nr_Success := false; nr_Node := zeroNodeConfig |} "GET" url
        None (Some (prog_call (json_DecodeNodeConfig env) EvDecodeNodeConfig));
  match r with
  | Err err => mret (Err err)
  | Ok response =>
      if negb (nr_Success response)
      then mret (Err "failed to fetch node config"%string)
      else mret (Ok (nr_Node response))
  end.

End Program.

(** The request [doRequest] builds. *)
Definition request (c : Client) (method url : string) (body : option string)
    : Request :=
  {| Method := method; URL := url;
     Header :=
       if bool_decide (apiKey c <> ""%string)
       then <["X-API-Key"%string := apiKey c]>
              {[ "Content-Type"%string := "application/json"%string ]}
       else {[ "Content-Type"%string := "application/json"%string ]};
     Body := body |}.

(** The answer has a status from 200 to 299. *)
Definition accepted (resp : Response) : Prop :=
  200 <= StatusCode resp < 300.

(** The error for any other status. *)
Definition statusError (resp : Response) (body : string) : error :=
  ("panel API error (status " +:+ itoa (StatusCode resp) +:+ "): "
   +:+ body)%string.

Definition is_exchange (e : Event) : bool :=
  match e with EvDo _ _ => true | _ => false end.

(** The body of a request: nothing, or the serialised payload. *)
Definition marshalled (env : Env) (reqBody : option Payload) : result (option string) :=
  match reqBody with
  | Some p =>
      match json_Marshal env p with
      | Err err => Err ("failed to marshal request: " +:+ err)%string
      | Ok jsonData => Ok (Some jsonData)
      end
  | None => Ok None
  end.

(** What a POST of [payload] to [url] comes to: the client is unchanged;
    there is at most one exchange, and none unless the payload could be
    serialised; the request is a POST of the serialised payload with the
    headers of the client; the result is nil exactly for an answer with a
    status from 200 to 299, after which the body is closed; any other
    status is an error that quotes the status and the body. *)
Definition post_outcome (env : Env) (c : Client) (url : string)
    (payload : Payload) (out : option error * Client * list Event) : Prop :=
  let evs := prog_events out in
  prog_state out = c
  /\ (forall req r, EvDo req r ∈ evs ->
        exists jsonData post,
          json_Marshal env payload = Ok jsonData
          /\ req = request c "POST" url (Some jsonData)
          /\ evs = EvDo req r :: post
          /\ Forall (fun e => is_exchange e = false) post)
  /\ (prog_value out = None <->
      exists req resp,
        evs = [EvDo req (Ok resp); EvBodyClose] /\ accepted resp)
  /\ (forall req resp, EvDo req (Ok resp) ∈ evs -> ~ accepted resp ->
        exists body,
          evs = [EvDo req (Ok resp); EvReadAll body; EvBodyClose]
          /\ prog_value out = Some (statusError resp body))
  /\ (forall req err, EvDo req (Err err) ∈ evs ->
        prog_value out = Some ("request failed: " +:+ err)%string).

End PanelClient.

(** ** internal/agent: the heartbeat and [Stop] (agent.go) *)

Module Heartbeat.

Inductive Event : Type :=
| EvCPUPercent (r : list float64)
| EvVirtualMemory (r : option float64)
| EvUptime (r : Z)
| EvNow (t : Time)
| EvSendHeartbeat (heartbeat : HeartbeatRequest) (r : option error).

(** The metrics come with an error that [sendHeartbeat] drops: what is
    left is the slice of CPU percentages, the memory statistics (their
    [UsedPercent]) or nil, and the uptime as a [uint64]. *)
Record Env := {
  cpu_Percent : list Event -> list float64;
  mem_VirtualMemory : list Event -> option float64;
  host_Uptime : list Event -> Z;
  time_Now : list Event -> Time;
  panel_SendHeartbeat : list Event -> HeartbeatRequest -> option error
}.

Definition P (A : Type) : Type := Prog Agent Event A.

#[local] Instance P_ret : MRet P := @prog_ret Agent Event.
#[local] Instance P_bind : MBind P := @prog_bind Agent Event.

Section Program.

Context (env : Env).

Definition sendHeartbeat : P (option error) :=
  cpuPercent ← prog_call (cpu_Percent env) EvCPUPercent;
  memInfo ← prog_call (mem_VirtualMemory env) EvVirtualMemory;
  uptime ← prog_call (host_Uptime env) EvUptime;
  let cpuUsage := match cpuPercent with x :: _ => x | [] => 0 end in
  let memUsage := match memInfo with Some used => used | None => 0 end in
  a ← prog_get;
  let userCount := Z.of_nat (size (currentUsers a)) in
  now ← prog_call (time_Now env) EvNow;
  let heartbeat :=
    {| hb_NodeID := Node_ID (cfg a);
       hb_Status := "online";
       hb_CurrentUsers := userCount;
       hb_CPUUsage := cpuUsage;
       hb_MemoryUsage := memUsage;
       hb_Uptime := wrap64 uptime;
       hb_Timestamp := now;
       hb_RealityPublicKey :=
         match realityKeys a with
         | Some keys => PublicKey keys
         | None => ""
         end |} in
  err ← prog_call (fun h => panel_SendHeartbeat env h heartbeat)
                  (EvSendHeartbeat heartbeat);
  match err with
  | Some err => mret (Some err)
  | None => mret None
  end.

End Program.

End Heartbeat.

(** * Proofs *)

(** ** Running computations *)

(** Unfold the plumbing of [M]. *)
Ltac msimpl :=
  cbv beta iota delta [mbind M_bind mret M_ret call emit
                         getAgent setAgent getFS setFS] in *.

Lemma run_bind {A B : Type} (m : M A) (k : A -> M B) (w : World) (h : Trace) :
  (m ≫= k) w h =
  let '(a, w1, e1) := m w h in
  let '(b, w2, e2) := k a w1 (h ++ e1) in
  (b, w2, e1 ++ e2).
Proof. reflexivity. Qed.

Lemma out_value_bind {A B : Type} (m : M A) (k : A -> M B) w h :
  out_value ((m ≫= k) w h)
  = out_value (k (out_value (m w h)) (out_world (m w h)) (h ++ out_events (m w h))).
Proof.
  rewrite run_bind. destruct (m w h) as [[a w1] e1].
  unfold out_value, out_world, out_events. cbn [fst snd].
  by destruct (k a w1 (h ++ e1)) as [[b w2] e2].
Qed.

Lemma out_world_bind {A B : Type} (m : M A) (k : A -> M B) w h :
  out_world ((m ≫= k) w h)
  = out_world (k (out_value (m w h)) (out_world (m w h)) (h ++ out_events (m w h))).
Proof.
  rewrite run_bind. destruct (m w h) as [[a w1] e1].
  unfold out_value, out_world, out_events. cbn [fst snd].
  by destruct (k a w1 (h ++ e1)) as [[b w2] e2].
Qed.

Lemma out_events_bind {A B : Type} (m : M A) (k : A -> M B) w h :
  out_events ((m ≫= k) w h)
  = out_events (m w h)
    ++ out_events (k (out_value (m w h)) (out_world (m w h)) (h ++ out_events (m w h))).
Proof.
  rewrite run_bind. destruct (m w h) as [[a w1] e1].
  unfold out_value, out_world, out_events. cbn [fst snd].
  by destruct (k a w1 (h ++ e1)) as [[b w2] e2].
Qed.

Lemma run_forM_cons {A : Type} (x : A) (l : list A) (body : A -> M unit) w h :
  forM_ (x :: l) body w h =
  let '(_, w1, e1) := body x w h in
  let '(b, w2, e2) := forM_ l body w1 (h ++ e1) in
  (b, w2, e1 ++ e2).
Proof. reflexivity. Qed.

Lemma run_foldM_cons {A B : Type} (x : A) (l : list A) (body : B -> A -> M B) acc w h :
  foldM body acc (x :: l) w h =
  let '(acc', w1, e1) := body acc x w h in
  let '(b, w2, e2) := foldM body acc' l w1 (h ++ e1) in
  (b, w2, e1 ++ e2).
Proof. reflexivity. Qed.

Lemma rangeMap_run env {V : Type} site (m : gmap string V) w h :
  exists l, rangeMap env site m w h = (l, w, []) /\ l ≡ₚ map_to_list m.
Proof.
  eexists. split; [reflexivity|]. apply merge_sort_Permutation.
Qed.

(** ** Reconciliation *)

Lemma panelUsersOf_snoc users u :
  panelUsersOf (users ++ [u]) = <[uc_Email u := u]> (panelUsersOf users).
Proof. unfold panelUsersOf. by rewrite foldl_app. Qed.

Lemma dom_panelUsersOf users : dom (panelUsersOf users) = identifiers users.
Proof.
  unfold identifiers.
  induction users as [|u users IH] using rev_ind.
  - unfold panelUsersOf. simpl. by rewrite dom_empty_L.
  - rewrite panelUsersOf_snoc, dom_insert_L, IH, fmap_app, list_to_set_app_L.
    simpl. by rewrite (right_id_L ∅ (∪)), (comm_L (∪)).
Qed.

(** One step of the first loop. *)
Lemma addMissing_run env p w h :
  (is_Some (currentUsers (agent w) !! p.1) /\
   addMissing env p w h = (tt, w, []))
  \/ (currentUsers (agent w) !! p.1 = None /\
      exists u r, addMissing env p w h =
        (tt,
         match r with
         | Some _ => w
         | None => {| agent := set_currentUsers (<[p.1 := p.2]> (currentUsers (agent w)))
                                 (agent w);
                      fs := fs w |}
         end,
         [EvAddUser u r])).
Proof.
  unfold addMissing, getAgent. rewrite run_bind.
  destruct (currentUsers (agent w) !! p.1) as [v|] eqn:E.
  - left. split; [by eexists|]. by destruct w.
  - right. split; [done|].
    unfold AddUser, call. rewrite run_bind.
    destruct (xray_AddUser env (h ++ []) _) as [e|] eqn:R.
    + by eexists _, (Some e).
    + by eexists _, None.
Qed.

Lemma addLoop_noop env entries w h :
  (forall p, p ∈ entries -> is_Some (currentUsers (agent w) !! p.1)) ->
  forM_ entries (addMissing env) w h = (tt, w, []).
Proof.
  revert h. induction entries as [|p entries IH]; intros h Hin; [done|].
  rewrite run_forM_cons.
  destruct (addMissing_run env p w h) as [[_ ->]|[Hn _]].
  - rewrite IH; [done|]. intros q Hq. apply Hin. by right.
  - destruct (Hin p) as [v Hv]; [by left|]. congruence.
Qed.

Lemma addLoop_spec env entries : forall w h,
  let out := forM_ entries (addMissing env) w h in
  Forall (fun e => add_failed e = false) (out_events out) ->
  currentUsers (agent (out_world out))
  = currentUsers (agent w) ∪ list_to_map entries.
Proof.
  induction entries as [|p entries IH]; intros w h; simpl.
  - intros _. by rewrite (right_id_L ∅ (∪)).
  - change ((addMissing env p ≫= λ _, forM_ entries (addMissing env)) w h)
      with (forM_ (p :: entries) (addMissing env) w h).
    rewrite run_forM_cons.
    destruct (addMissing_run env p w h) as [[[v Hv] ->]|[Hn (u & r & ->)]].
    + specialize (IH w (h ++ [])).
      destruct (forM_ entries (addMissing env) w (h ++ [])) as [[[] w2] e2].
      unfold out_world, out_events in *. simpl in *.
      intros Hf. rewrite (IH Hf).
      apply map_eq. intros k. rewrite !lookup_union.
      destruct (decide (p.1 = k)) as [<-|Hne].
      * rewrite lookup_insert_eq, Hv. by destruct (list_to_map entries !! p.1).
      * by rewrite lookup_insert_ne.
    + match goal with
      | |- context [forM_ entries (addMissing env) ?w1 ?h1] =>
          specialize (IH w1 h1);
          destruct (forM_ entries (addMissing env) w1 h1) as [[[] w2] e2]
      end.
      unfold out_world, out_events in *. simpl in *.
      intros Hf. apply Forall_cons in Hf as [Hr Hf].
      destruct r as [e|]; [done|]. rewrite (IH Hf). simpl.
      apply map_eq. intros k. rewrite !lookup_union.
      destruct (decide (p.1 = k)) as [<-|Hne].
      * rewrite !lookup_insert_eq, Hn. by destruct (list_to_map entries !! p.1).
      * by rewrite !lookup_insert_ne.
Qed.

(** Only engine add calls leave the first loop. *)
Lemma addLoop_events env entries : forall w h,
  Forall (fun e => exists u r, e = EvAddUser u r)
         (out_events (forM_ entries (addMissing env) w h)).
Proof.
  induction entries as [|p entries IH]; intros w h; [by constructor|].
  rewrite run_forM_cons.
  destruct (addMissing_run env p w h) as [[_ ->]|[_ (u & r & ->)]].
  - specialize (IH w (h ++ [])).
    destruct (forM_ entries (addMissing env) w (h ++ [])) as [[[] w2] e2]. done.
  - match goal with
    | |- context [forM_ entries (addMissing env) ?w1 ?h1] =>
        specialize (IH w1 h1);
        destruct (forM_ entries (addMissing env) w1 h1) as [[[] w2] e2]
    end.
    simpl in *. constructor; [by eexists _, _|done].
Qed.

(** One step of the second loop. *)
Lemma removeStale_run env panelUsers p w h :
  (is_Some (panelUsers !! p.1) /\
   removeStale env panelUsers p w h = (tt, w, []))
  \/ (panelUsers !! p.1 = None /\
      exists r, removeStale env panelUsers p w h =
        (tt,
         match r with
         | Some _ => w
         | None => {| agent := set_currentUsers (delete p.1 (currentUsers (agent w)))
                                 (agent w);
                      fs := fs w |}
         end,
         [EvRemoveUser p.1 r])).
Proof.
  unfold removeStale.
  destruct (panelUsers !! p.1) as [v|] eqn:E.
  - left. split; [by eexists|]. done.
  - right. split; [done|].
    unfold RemoveUser, call. rewrite run_bind.
    destruct (xray_RemoveUser env h p.1) as [e|] eqn:R.
    + by exists (Some e).
    + by exists None.
Qed.

Lemma removeLoop_noop env panelUsers entries w h :
  (forall p, p ∈ entries -> is_Some (panelUsers !! p.1)) ->
  forM_ entries (removeStale env panelUsers) w h = (tt, w, []).
Proof.
  revert h. induction entries as [|p entries IH]; intros h Hin; [done|].
  rewrite run_forM_cons.
  destruct (removeStale_run env panelUsers p w h) as [[_ ->]|[Hn _]].
  - rewrite IH; [done|]. intros q Hq. apply Hin. by right.
  - destruct (Hin p) as [v Hv]; [by left|]. congruence.
Qed.

Lemma removeLoop_spec env panelUsers entries : forall w h k,
  let out := forM_ entries (removeStale env panelUsers) w h in
  Forall (fun e => remove_failed e = false) (out_events out) ->
  currentUsers (agent (out_world out)) !! k
  = if decide (k ∈ entries.*1 /\ panelUsers !! k = None) then None
    else currentUsers (agent w) !! k.
Proof.
  induction entries as [|p entries IH]; intros w h k.
  - intros out _. subst out. by rewrite decide_False by (rewrite elem_of_nil; tauto).
  - intros out. subst out. rewrite run_forM_cons.
    destruct (removeStale_run env panelUsers p w h) as [[[v Hv] ->]|[Hn (r & ->)]].
    + specialize (IH w (h ++ []) k).
      destruct (forM_ entries (removeStale env panelUsers) w (h ++ [])) as [[[] w2] e2].
      unfold out_world, out_events in *. cbn [fst snd app] in *.
      intros Hf. rewrite (IH Hf), fmap_cons.
      repeat case_decide; try done; exfalso;
        rewrite ?elem_of_cons in *; intuition congruence.
    + match goal with
      | |- context [forM_ entries (removeStale env panelUsers) ?w1 ?h1] =>
          specialize (IH w1 h1 k);
          destruct (forM_ entries (removeStale env panelUsers) w1 h1) as [[[] w2] e2]
      end.
      unfold out_world, out_events in *. cbn [fst snd app] in *.
      intros Hf. apply Forall_cons in Hf as [Hr Hf].
      destruct r as [e|]; [done|]. rewrite (IH Hf), fmap_cons.
      cbn [agent currentUsers set_currentUsers].
      destruct (decide (p.1 = k)) as [<-|Hne].
      * rewrite lookup_delete_eq.
        repeat case_decide; try done; exfalso;
          rewrite ?elem_of_cons in *; intuition congruence.
      * rewrite lookup_delete_ne by done.
        repeat case_decide; try done; exfalso;
          rewrite ?elem_of_cons in *; intuition congruence.
Qed.

(** Only engine remove calls leave the second loop. *)
Lemma removeLoop_events env panelUsers entries : forall w h,
  Forall (fun e => exists m r, e = EvRemoveUser m r)
         (out_events (forM_ entries (removeStale env panelUsers) w h)).
Proof.
  induction entries as [|p entries IH]; intros w h; [by constructor|].
  rewrite run_forM_cons.
  destruct (removeStale_run env panelUsers p w h) as [[_ ->]|[_ (r & ->)]].
  - specialize (IH w (h ++ [])).
    destruct (forM_ entries (removeStale env panelUsers) w (h ++ [])) as [[[] w2] e2]. done.
  - match goal with
    | |- context [forM_ entries (removeStale env panelUsers) ?w1 ?h1] =>
        specialize (IH w1 h1);
        destruct (forM_ entries (removeStale env panelUsers) w1 h1) as [[[] w2] e2]
    end.
    unfold out_events in *. simpl in *. constructor; [by eexists _, _|done].
Qed.

Lemma syncUsers_fetch_failed env w h e :
  panel_FetchUserSync env h (Node_ID (cfg (agent w))) = Err e ->
  syncUsers env w h
  = (Some e, w, [EvFetchUserSync (Node_ID (cfg (agent w))) (Err e)]).
Proof.
  intros H. unfold syncUsers, getAgent, FetchUserSync, call.
  rewrite !run_bind. rewrite app_nil_r, H. reflexivity.
Qed.

(** A pass whose fetch succeeded is the two loops, one after the other. *)
Lemma syncUsers_fetched env w h users :
  panel_FetchUserSync env h (Node_ID (cfg (agent w))) = Ok users ->
  exists entries current h1 h2,
    entries ≡ₚ map_to_list (panelUsersOf users) /\
    let o1 := forM_ entries (addMissing env) w h1 in
    current ≡ₚ map_to_list (currentUsers (agent (out_world o1))) /\
    let o2 := forM_ current (removeStale env (panelUsersOf users)) (out_world o1) h2 in
    syncUsers env w h
    = (None, out_world o2,
       EvFetchUserSync (Node_ID (cfg (agent w))) (Ok users)
         :: out_events o1 ++ out_events o2).
Proof.
  intros H. unfold syncUsers, getAgent, FetchUserSync, call, rangeMap.
  rewrite !run_bind. rewrite app_nil_r, H. rewrite !run_bind.
  match goal with
  | |- context [forM_ ?l (addMissing env) ?w1 ?h1] =>
      exists l; destruct (forM_ l (addMissing env) w1 h1) as [[[] w2] e2] eqn:E1
  end.
  rewrite !run_bind.
  match goal with
  | |- context [forM_ ?l (removeStale env ?p) ?w1 ?h1] =>
      exists l; destruct (forM_ l (removeStale env p) w1 h1) as [[[] w3] e3] eqn:E2
  end.
  eexists _, _. split; [apply merge_sort_Permutation|].
  rewrite E1. unfold out_world, out_events. simpl.
  split; [apply merge_sort_Permutation|].
  rewrite E2. simpl. by rewrite app_nil_r.
Qed.

Lemma list_to_map_range {V : Type} (m : gmap string V) (l : list (string * V)) :
  l ≡ₚ map_to_list m -> list_to_map l = m.
Proof.
  intros Hp. transitivity (list_to_map (map_to_list m) : gmap string V).
  - apply list_to_map_proper; [|done].
    rewrite Hp. apply NoDup_fst_map_to_list.
  - apply list_to_map_to_list.
Qed.

Lemma elem_of_range {V : Type} (m : gmap string V) (l : list (string * V)) p :
  l ≡ₚ map_to_list m -> p ∈ l -> m !! p.1 = Some p.2.
Proof.
  intros Hp Hin. rewrite Hp in Hin. destruct p as [k v].
  by apply elem_of_map_to_list.
Qed.

Lemma elem_of_range_keys {V : Type} (m : gmap string V) (l : list (string * V)) k :
  l ≡ₚ map_to_list m -> k ∈ l.*1 <-> is_Some (m !! k).
Proof.
  intros Hp. rewrite Hp. split.
  - intros Hin. apply list_elem_of_fmap in Hin as ([k' v] & -> & Hin).
    apply elem_of_map_to_list in Hin. by eexists.
  - intros [v Hv]. apply list_elem_of_fmap. exists (k, v). split; [done|].
    by apply elem_of_map_to_list.
Qed.

(** What a pass without failed engine calls leaves in [currentUsers],
    whatever it was before: the entries of the fetched set, an identity
    already provisioned keeping its old record. *)
Lemma syncUsers_pass_lookup env w h users :
  panel_FetchUserSync env h (Node_ID (cfg (agent w))) = Ok users ->
  let out := syncUsers env w h in
  Forall (fun e => add_failed e = false /\ remove_failed e = false) (out_events out) ->
  forall k,
    currentUsers (agent (out_world out)) !! k
    = match panelUsersOf users !! k with
      | Some v => Some (default v (currentUsers (agent w) !! k))
      | None => None
      end.
Proof.
  intros Hfetch out Hok k. subst out.
  destruct (syncUsers_fetched env w h users Hfetch)
    as (entries & current & h1 & h2 & Hentries & Hcurrent & Hrun).
  cbv zeta in Hcurrent, Hrun. rewrite Hrun in *.
  unfold out_world, out_events in Hok |- *. cbn [fst snd] in Hok |- *.
  apply Forall_cons in Hok as [_ Hok]. apply Forall_app in Hok as [Hok1 Hok2].
  pose proof (addLoop_spec env entries w h1) as Hadd. cbv zeta in Hadd.
  rewrite (list_to_map_range _ _ Hentries) in Hadd.
  pose proof (removeLoop_spec env (panelUsersOf users) current
                (out_world (forM_ entries (addMissing env) w h1)) h2 k) as Hrem.
  cbv zeta in Hrem. unfold out_world, out_events in *.
  rewrite Hrem by (eapply Forall_impl; [exact Hok2|]; simpl; tauto).
  assert (Hcur1 : currentUsers (agent (forM_ entries (addMissing env) w h1).1.2)
                  = currentUsers (agent w) ∪ panelUsersOf users).
  { apply Hadd. eapply Forall_impl; [exact Hok1|]. simpl. tauto. }
  pose proof (elem_of_range_keys _ _ k Hcurrent) as Hkeys.
  rewrite Hcur1 in Hkeys |- *. rewrite lookup_union in Hkeys |- *.
  destruct (panelUsersOf users !! k) as [v|] eqn:Hp.
  - rewrite decide_False by (intros [_ ?]; done).
    by destruct (currentUsers (agent w) !! k).
  - case_decide as Hd; [done|].
    destruct (currentUsers (agent w) !! k) as [v0|] eqn:Hc; [|done].
    exfalso. apply Hd. split; [|done]. apply Hkeys. by eexists.
Qed.

Lemma syncUsers_pass_dom env w h users :
  panel_FetchUserSync env h (Node_ID (cfg (agent w))) = Ok users ->
  let out := syncUsers env w h in
  Forall (fun e => add_failed e = false /\ remove_failed e = false) (out_events out) ->
  dom (currentUsers (agent (out_world out))) = identifiers users.
Proof.
  intros Hfetch out Hok. rewrite <- dom_panelUsersOf.
  apply set_eq. intros k. rewrite !elem_of_dom.
  subst out. rewrite (syncUsers_pass_lookup env w h users Hfetch Hok k).
  destruct (panelUsersOf users !! k); [|done].
  split; intros _; by eexists.
Qed.

(** A pass over a desired set with the identifiers already provisioned. *)
Lemma syncUsers_in_sync env w h users :
  panel_FetchUserSync env h (Node_ID (cfg (agent w))) = Ok users ->
  dom (currentUsers (agent w)) = identifiers users ->
  syncUsers env w h
  = (None, w, [EvFetchUserSync (Node_ID (cfg (agent w))) (Ok users)]).
Proof.
  intros Hfetch Hdom.
  destruct (syncUsers_fetched env w h users Hfetch)
    as (entries & current & h1 & h2 & Hentries & Hcurrent & Hrun).
  cbv zeta in Hcurrent, Hrun. rewrite Hrun. clear Hrun.
  rewrite <- dom_panelUsersOf in Hdom.
  assert (Hnoop : forM_ entries (addMissing env) w h1 = (tt, w, [])).
  { apply addLoop_noop. intros p Hp.
    apply elem_of_dom. rewrite Hdom. apply elem_of_dom.
    rewrite (elem_of_range _ _ _ Hentries Hp). by eexists. }
  rewrite Hnoop in *. unfold out_world, out_events in *. cbn [fst snd] in *.
  rewrite removeLoop_noop; [done|].
  intros p Hp. apply elem_of_dom. rewrite <- Hdom. apply elem_of_dom.
  rewrite (elem_of_range _ _ _ Hcurrent Hp). by eexists.
Qed.

(** C9. Reconciliation fetch-failure atomicity: when the fetch of the
    desired identity set fails, [syncUsers] returns that failure, issues no
    engine add or remove call, and leaves the agent (in particular
    [currentUsers], the ProvisionedSet) exactly as it was. *)
Theorem syncUsers_fetch_failure_atomic env w h e :
  panel_FetchUserSync env h (Node_ID (cfg (agent w))) = Err e ->
  let out := syncUsers env w h in
  out_value out = Some e
  /\ Forall (fun ev => is_engine_call ev = false) (out_events out)
  /\ currentUsers (agent (out_world out)) = currentUsers (agent w)
  /\ out_world out = w.
Proof.
  intros Hfetch out. subst out.
  rewrite (syncUsers_fetch_failed env w h e Hfetch).
  repeat split. by repeat constructor.
Qed.

(** C1. Convergence of reconciliation: starting from an empty
    [currentUsers], a pass that fetched the desired set [users] and in which
    no engine add call failed ends with the identifiers of [currentUsers]
    equal to the identifiers of [users] (and each identifier mapped to its
    fetched record). *)
Theorem syncUsers_convergence env w h users :
  panel_FetchUserSync env h (Node_ID (cfg (agent w))) = Ok users ->
  currentUsers (agent w) = ∅ ->
  let out := syncUsers env w h in
  Forall (fun e => add_failed e = false) (out_events out) ->
  out_value out = None
  /\ dom (currentUsers (agent (out_world out))) = identifiers users
  /\ currentUsers (agent (out_world out)) = panelUsersOf users.
Proof.
  intros Hfetch Hempty out Hok. subst out.
  destruct (syncUsers_fetched env w h users Hfetch)
    as (entries & current & h1 & h2 & Hentries & Hcurrent & Hrun).
  cbv zeta in Hcurrent, Hrun. rewrite Hrun in *. clear Hrun.
  unfold out_value, out_world, out_events in *. cbn [fst snd] in *.
  apply Forall_cons in Hok as [_ Hok]. apply Forall_app in Hok as [Hok1 _].
  pose proof (addLoop_spec env entries w h1) as Hadd. cbv zeta in Hadd.
  unfold out_world, out_events in Hadd. specialize (Hadd Hok1).
  rewrite (list_to_map_range _ _ Hentries), Hempty, (left_id_L ∅ (∪)) in Hadd.
  rewrite removeLoop_noop.
  - cbn [fst snd]. rewrite Hadd. by rewrite dom_panelUsersOf.
  - intros p Hp. rewrite <- Hadd.
    rewrite (elem_of_range _ _ _ Hcurrent Hp). by eexists.
Qed.

(** C2. Idempotence of reconciliation: take any state, run a pass that
    fetched [users] and in which every engine call succeeded.  From then on,
    as long as [currentUsers] is what that pass left (whatever else happened
    in between), a pass whose fetch returns a set [users'] with the same
    identifiers issues no add and no remove call (its only event is the
    fetch) and leaves [currentUsers], and the whole world, unchanged. *)
Theorem syncUsers_idempotent env w h users w2 h2 users' :
  panel_FetchUserSync env h (Node_ID (cfg (agent w))) = Ok users ->
  let out1 := syncUsers env w h in
  Forall (fun e => add_failed e = false /\ remove_failed e = false)
         (out_events out1) ->
  currentUsers (agent w2) = currentUsers (agent (out_world out1)) ->
  panel_FetchUserSync env h2 (Node_ID (cfg (agent w2))) = Ok users' ->
  identifiers users' = identifiers users ->
  let out2 := syncUsers env w2 h2 in
  out_value out2 = None
  /\ Forall (fun ev => is_engine_call ev = false) (out_events out2)
  /\ out_events out2 = [EvFetchUserSync (Node_ID (cfg (agent w2))) (Ok users')]
  /\ currentUsers (agent (out_world out2)) = currentUsers (agent w2)
  /\ out_world out2 = w2.
Proof.
  intros Hfetch out1 Hok Hsame Hfetch' Hids out2. subst out2.
  pose proof (syncUsers_pass_dom env w h users Hfetch Hok) as Hdom.
  fold out1 in Hdom. rewrite <- Hids, <- Hsame in Hdom.
  rewrite (syncUsers_in_sync env _ _ users' Hfetch' Hdom).
  repeat split. by repeat constructor.
Qed.

(** ** Traffic report *)

Lemma collectUser_run env acc p w h :
  exists evs,
    collectUser env acc p w h = (acc ++ omap qualifies evs, w, evs)
    /\ omap queried evs = [p.1]
    /\ omap was_reset evs = tr_UserEmail <$> omap qualifies evs
    /\ Forall (fun e => is_panel_call e = false) evs.
Proof.
  unfold collectUser, GetUserStats, ResetUserStats, call. rewrite run_bind.
  destruct (xray_GetUserStats env h p.1) as [stats|e] eqn:R.
  - destruct ((0 <? UploadBytes stats) || (0 <? DownloadBytes stats)) eqn:Hpos.
    + rewrite run_bind.
      exists [EvGetUserStats p.1 (Ok stats);
              EvResetUserStats p.1
                (xray_ResetUserStats env (h ++ [EvGetUserStats p.1 (Ok stats)]) p.1)].
      cbn [omap list_omap app qualifies queried was_reset fmap list_fmap].
      rewrite Hpos. repeat split. by repeat constructor.
    + exists [EvGetUserStats p.1 (Ok stats)].
      cbn [omap list_omap app qualifies queried was_reset fmap list_fmap].
      rewrite Hpos, app_nil_r. repeat split. by repeat constructor.
  - exists [EvGetUserStats p.1 (Err e)].
    cbn [omap list_omap app qualifies queried was_reset fmap list_fmap].
    rewrite app_nil_r. repeat split. by repeat constructor.
Qed.

Lemma collectLoop_spec env entries : forall acc w h,
  exists evs,
    foldM (collectUser env) acc entries w h = (acc ++ omap qualifies evs, w, evs)
    /\ omap queried evs = entries.*1
    /\ omap was_reset evs = tr_UserEmail <$> omap qualifies evs
    /\ Forall (fun e => is_panel_call e = false) evs.
Proof.
  induction entries as [|p entries IH]; intros acc w h.
  - exists []. simpl. rewrite app_nil_r. repeat split. constructor.
  - rewrite run_foldM_cons.
    destruct (collectUser_run env acc p w h) as (e1 & -> & Hq1 & Hr1 & Hp1).
    destruct (IH (acc ++ omap qualifies e1) w (h ++ e1)) as (e2 & -> & Hq2 & Hr2 & Hp2).
    exists (e1 ++ e2). rewrite !omap_app, fmap_app, Hq1, Hq2, Hr1, Hr2, app_assoc.
    repeat split. by apply Forall_app.
Qed.

Lemma collectTraffic_spec env w h :
  exists entries evs,
    entries ≡ₚ map_to_list (currentUsers (agent w))
    /\ collectTraffic env w h = (omap qualifies evs, w, evs)
    /\ omap queried evs = entries.*1
    /\ omap was_reset evs = tr_UserEmail <$> omap qualifies evs
    /\ Forall (fun e => is_panel_call e = false) evs.
Proof.
  unfold collectTraffic, getAgent, rangeMap. rewrite !run_bind.
  match goal with
  | |- context [foldM (collectUser env) [] ?l ?w1 ?h1] =>
      exists l; destruct (collectLoop_spec env l [] w1 h1) as (evs & -> & Hq & Hr & Hp)
  end.
  exists evs. split; [apply merge_sort_Permutation|]. done.
Qed.

Lemma elem_of_omap_qualifies (evs : list Event) (email : string) :
  email ∈ tr_UserEmail <$> omap qualifies evs
  <-> exists stats, EvGetUserStats email (Ok stats) ∈ evs
                    /\ (0 < UploadBytes stats \/ 0 < DownloadBytes stats).
Proof.
  rewrite list_elem_of_fmap. split.
  - intros (t & -> & Ht). apply list_elem_of_omap in Ht as (e & He & Hq).
    destruct e as [| | | | | |m [stats|]| | | | | | | | | | |]; try done. simpl in Hq.
    destruct ((0 <? UploadBytes stats) || (0 <? DownloadBytes stats)) eqn:Hpos; [|done].
    inversion Hq; subst. simpl. exists stats. split; [done|].
    apply orb_true_iff in Hpos as [?%Z.ltb_lt|?%Z.ltb_lt]; [by left|by right].
  - intros (stats & He & Hpos).
    exists {| tr_UserEmail := email; tr_UploadBytes := UploadBytes stats;
              tr_DownloadBytes := DownloadBytes stats |}.
    split; [done|]. apply list_elem_of_omap. eexists. split; [exact He|].
    simpl. replace ((0 <? UploadBytes stats) || (0 <? DownloadBytes stats)) with true; [done|].
    symmetry. apply orb_true_iff. destruct Hpos as [?%Z.ltb_lt|?%Z.ltb_lt]; [by left|by right].
Qed.

Lemma reportTraffic_run env w h :
  exists entries evs0,
    entries ≡ₚ map_to_list (currentUsers (agent w))
    /\ omap queried evs0 = entries.*1
    /\ omap was_reset evs0 = tr_UserEmail <$> omap qualifies evs0
    /\ Forall (fun e => is_panel_call e = false) evs0
    /\ (currentUsers (agent w) = ∅ -> evs0 = [])
    /\ ((omap qualifies evs0 = [] /\ reportTraffic env w h = (None, w, evs0))
        \/ (omap qualifies evs0 <> [] /\
            exists t r,
              reportTraffic env w h
              = (r, w,
                 evs0 ++ [EvNow t;
                          EvReportTraffic
                            {| trr_NodeID := Node_ID (cfg (agent w));
                               trr_Traffic := omap qualifies evs0;
                               trr_Timestamp := t |} r]))).
Proof.
  unfold reportTraffic, getAgent. rewrite run_bind.
  case_decide as Hsize.
  - apply map_size_empty_iff in Hsize.
    exists [], []. rewrite Hsize, map_to_list_empty.
    repeat split; try done. by left.
  - destruct (collectTraffic_spec env w (h ++ []))
      as (entries & evs0 & Hentries & Hrun & Hq & Hr & Hp).
    exists entries, evs0. repeat (split; [done|]).
    split. { intros Hempty. by apply map_size_non_empty_iff in Hsize. }
    rewrite run_bind, Hrun.
    destruct (omap qualifies evs0) as [|t0 traffic] eqn:Htraffic.
    + left. split; [done|]. simpl. by rewrite app_nil_r.
    + right. split; [done|].
      unfold Now, ReportTraffic, call. rewrite !run_bind.
      eexists _, _. reflexivity.
Qed.

(** C10. Traffic-report inclusion and reset.  Let [evs] be the trace of one
    [reportTraffic] tick and [included] the entries of the queries in it
    that succeeded with a strictly positive upload or download counter.
    - every provisioned identity is queried, once, and nothing else is;
    - the counter resets issued are those of the included identities;
    - a request that reaches the controller carries exactly [included],
      and one is sent when [included] is not empty;
    - when [included] is empty, and in particular when no identity is
      provisioned (then the trace itself is empty), nothing is sent to the
      controller and the tick returns no error. *)
Theorem reportTraffic_inclusion_and_reset env w h :
  let out := reportTraffic env w h in
  let evs := out_events out in
  let included := omap qualifies evs in
  (forall email, email ∈ omap queried evs
                 <-> is_Some (currentUsers (agent w) !! email))
  /\ NoDup (omap queried evs)
  /\ (forall email, email ∈ tr_UserEmail <$> included
        <-> exists stats, EvGetUserStats email (Ok stats) ∈ evs
                          /\ (0 < UploadBytes stats \/ 0 < DownloadBytes stats))
  /\ omap was_reset evs = tr_UserEmail <$> included
  /\ (forall req r, EvReportTraffic req r ∈ evs -> trr_Traffic req = included)
  /\ (included <> [] -> exists req r, EvReportTraffic req r ∈ evs)
  /\ (included = [] ->
        Forall (fun e => is_panel_call e = false) evs /\ out_value out = None)
  /\ (currentUsers (agent w) = ∅ -> evs = []).
Proof.
  intros out evs included. subst included evs out.
  destruct (reportTraffic_run env w h)
    as (entries & evs0 & Hentries & Hq & Hr & Hp & Hempty & Hrun).
  assert (Hsame : omap queried (out_events (reportTraffic env w h)) = entries.*1
                  /\ omap qualifies (out_events (reportTraffic env w h))
                     = omap qualifies evs0
                  /\ omap was_reset (out_events (reportTraffic env w h))
                     = omap was_reset evs0).
  { destruct Hrun as [[_ ->]|[_ (t & r & ->)]]; unfold out_events; cbn [snd].
    - done.
    - rewrite !omap_app. cbn [omap list_omap queried qualifies was_reset].
      by rewrite !app_nil_r. }
  destruct Hsame as (Hq' & Hi' & Hr').
  rewrite Hq', Hi', Hr'.
  split; [|split; [|split; [|split; [done|]]]].
  - intros email. by apply elem_of_range_keys.
  - rewrite Hentries. apply NoDup_fst_map_to_list.
  - intros email. rewrite <- Hi'. apply elem_of_omap_qualifies.
  - assert (Hnot : forall req r, EvReportTraffic req r ∉ evs0).
    { intros req r Hin. rewrite Forall_forall in Hp. by specialize (Hp _ Hin). }
    destruct Hrun as [[Hnil ->]|[Hcons (t & r & ->)]];
      unfold out_events, out_value; cbn [fst snd].
    + split; [intros req r Hin; by apply Hnot in Hin|].
      split; [done|]. split; [done|]. exact Hempty.
    + split.
      { intros req r' Hin. apply elem_of_app in Hin as [Hin|Hin].
        - by apply Hnot in Hin.
        - apply elem_of_cons in Hin as [Hin|Hin]; [done|].
          apply list_elem_of_singleton in Hin. by inversion Hin. }
      split.
      { intros _. eexists _, r. apply elem_of_app. right.
        apply elem_of_cons. right. apply list_elem_of_singleton. reflexivity. }
      split; [done|].
      intros Hm. apply Hempty in Hm. subst evs0. done.
Qed.

(** ** Activity tracking *)

Lemma wrap64_small z : minInt64 <= z <= maxInt64 -> wrap64 z = z.
Proof.
  unfold wrap64, minInt64, maxInt64. intros Hz.
  rewrite Z.mod_small; lia.
Qed.

Lemma sampled_app email evs1 evs2 :
  sampled email (evs1 ++ evs2)
  = match sampled email evs1 with
    | Some stats => Some stats
    | None => sampled email evs2
    end.
Proof.
  induction evs1 as [|e evs1 IH]; [done|].
  destruct e as [| | | | | |m [stats|]| | | | | | | | | | |]; simpl; try done.
  by case_decide.
Qed.

Lemma sampled_not_queried email evs :
  email ∉ omap queried evs -> sampled email evs = None.
Proof.
  induction evs as [|e evs IH]; [done|].
  destruct e as [| | | | | |m [stats|]| | | | | | | | | | |]; simpl; try done.
  - rewrite not_elem_of_cons. intros [Hne Hnot]. rewrite decide_False by done. auto.
  - rewrite not_elem_of_cons. intros [Hne Hnot]. auto.
Qed.

Lemma sampled_unique email stats evs :
  NoDup (omap queried evs) ->
  EvGetUserStats email (Ok stats) ∈ evs ->
  sampled email evs = Some stats.
Proof.
  induction evs as [|e evs IH]; intros Hnd Hin; [by inversion Hin|].
  apply elem_of_cons in Hin as [<-|Hin].
  - simpl. by rewrite decide_True.
  - destruct e as [| | | | | |m r| | | | | | | | | | |]; simpl in *; try by apply IH.
    apply NoDup_cons in Hnd as [Hnot Hnd].
    assert (m <> email).
    { intros ->. apply Hnot. apply list_elem_of_omap. by eexists. }
    destruct r; [rewrite decide_False by done|]; by apply IH.
Qed.

Lemma trackUser_run env now active p w h :
  exists r,
    trackUser env now active p w h
    = (match r with
       | Ok stats =>
           if (observe now p.1 stats (activityCache (agent w) !! p.1)).2
           then {[ p.1 ]} ∪ active else active
       | Err _ => active
       end,
       match r with
       | Ok stats =>
           {| agent := set_activityCache
                         (<[p.1 := (observe now p.1 stats
                                      (activityCache (agent w) !! p.1)).1]>
                            (activityCache (agent w)))
                         (agent w);
              fs := fs w |}
       | Err _ => w
       end,
       [EvGetUserStats p.1 r]).
Proof.
  unfold trackUser, GetUserStats, call. rewrite run_bind.
  exists (xray_GetUserStats env h p.1).
  destruct (xray_GetUserStats env h p.1) as [stats|e]; [|done].
  unfold getAgent. rewrite run_bind.
  destruct (observe now p.1 stats (activityCache (agent w) !! p.1)) as [st act].
  reflexivity.
Qed.

Lemma trackLoop_spec env now entries :
  NoDup entries.*1 ->
  forall active w h,
    let out := foldM (trackUser env now) active entries w h in
    omap queried (out_events out) = entries.*1
    /\ currentUsers (agent (out_world out)) = currentUsers (agent w)
    /\ forall email,
         activityCache (agent (out_world out)) !! email
         = match sampled email (out_events out) with
           | Some stats =>
               Some (observe now email stats (activityCache (agent w) !! email)).1
           | None => activityCache (agent w) !! email
           end.
Proof.
  induction entries as [|p entries IH]; intros Hnd active w h out; subst out.
  - done.
  - rewrite fmap_cons in Hnd. apply NoDup_cons in Hnd as [Hnot Hnd].
    rewrite run_foldM_cons.
    destruct (trackUser_run env now active p w h) as (r & ->).
    match goal with
    | |- context [foldM (trackUser env now) ?a1 entries ?w1 ?h1] =>
        destruct (IH Hnd a1 w1 h1) as (Hq & Hcur & Hcache);
        destruct (foldM (trackUser env now) a1 entries w1 h1) as [[a2 w2] e2]
    end.
    unfold out_world, out_events in *. cbn [fst snd] in *.
    split; [by rewrite fmap_cons; cbn; rewrite Hq|].
    split; [rewrite Hcur; by destruct r|].
    intros email. rewrite Hcache. cbn [app sampled].
    destruct r as [stats|e].
    + cbn [agent activityCache set_activityCache].
      case_decide as Heq.
      * subst email. rewrite sampled_not_queried by (by rewrite Hq).
        by rewrite lookup_insert_eq.
      * by rewrite lookup_insert_ne.
    + done.
Qed.

Lemma trackActivity_run env w h :
  (currentUsers (agent w) = ∅ /\ trackActivity env w h = (∅, w, []))
  \/ exists entries evs active w',
       entries ≡ₚ map_to_list (currentUsers (agent w))
       /\ foldM (trackUser env (time_Now env h)) ∅ entries w
            (h ++ [EvNow (time_Now env h)]) = (active, w', evs)
       /\ trackActivity env w h = (active, w', EvNow (time_Now env h) :: evs).
Proof.
  unfold trackActivity, getAgent. rewrite run_bind.
  case_decide as Hsize.
  - left. by apply map_size_empty_iff in Hsize.
  - right. unfold Now, call, rangeMap. rewrite !run_bind, !app_nil_r.
    match goal with
    | |- context [foldM (trackUser env ?n) ∅ ?l ?w1 ?h1] =>
        exists l; destruct (foldM (trackUser env n) ∅ l w1 h1) as [[a2 w2] e2] eqn:E
    end.
    exists e2, a2, w2. split; [apply merge_sort_Permutation|]. done.
Qed.

(** The activity cache after a tick of [trackActivity], entry by entry. *)
Lemma trackActivity_cache env w h email :
  let out := trackActivity env w h in
  NoDup (omap queried (out_events out))
  /\ currentUsers (agent (out_world out)) = currentUsers (agent w)
  /\ activityCache (agent (out_world out)) !! email
     = match sampled email (out_events out) with
       | Some stats =>
           Some (observe (time_Now env h) email stats
                   (activityCache (agent w) !! email)).1
       | None => activityCache (agent w) !! email
       end.
Proof.
  intros out. subst out.
  destruct (trackActivity_run env w h)
    as [[_ ->]|(entries & evs & active & w' & Hentries & Hloop & ->)].
  - split; [constructor|done].
  - assert (Hnd : NoDup entries.*1) by (rewrite Hentries; apply NoDup_fst_map_to_list).
    destruct (trackLoop_spec env (time_Now env h) entries Hnd ∅ w
                (h ++ [EvNow (time_Now env h)])) as (Hq & Hcur & Hcache).
    rewrite Hloop in Hq, Hcur, Hcache.
    unfold out_world, out_events in *. cbn [fst snd omap list_omap queried sampled] in *.
    split; [by rewrite Hq|]. split; [done|]. apply Hcache.
Qed.

Lemma observe_baseline now email stats cached :
  LastUplink (observe now email stats cached).1 = UploadBytes stats
  /\ LastDownlink (observe now email stats cached).1 = DownloadBytes stats.
Proof.
  unfold observe.
  by destruct ((0 <? wrap64 _) || (0 <? wrap64 _)).
Qed.

Lemma observe_first now email stats :
  observe now email stats None
  = ({| Email := email; LastSeen := 0;
        LastUplink := UploadBytes stats; LastDownlink := DownloadBytes stats;
        IsActive := false |}, false).
Proof.
  unfold observe. cbn [LastUplink LastDownlink]. by rewrite !Z.sub_diag.
Qed.

Lemma observe_delta now email stats st :
  IsActive (observe now email stats (Some st)).1 = true
  <-> 0 < wrap64 (UploadBytes stats - LastUplink st)
      \/ 0 < wrap64 (DownloadBytes stats - LastDownlink st).
Proof.
  unfold observe. rewrite <- !Z.ltb_lt, <- orb_true_iff.
  by destruct ((0 <? wrap64 _) || (0 <? wrap64 _)).
Qed.

Lemma observe_same now email stats st :
  UploadBytes stats = LastUplink st ->
  DownloadBytes stats = LastDownlink st ->
  IsActive (observe now email stats (Some st)).1 = false
  /\ LastSeen (observe now email stats (Some st)).1 = LastSeen st.
Proof.
  intros Hu Hd. unfold observe. by rewrite Hu, Hd, !Z.sub_diag.
Qed.

Lemma observe_more now email stats st :
  is_counter (LastUplink st) -> is_counter (LastDownlink st) ->
  is_counter (UploadBytes stats) -> is_counter (DownloadBytes stats) ->
  LastUplink st < UploadBytes stats \/ LastDownlink st < DownloadBytes stats ->
  IsActive (observe now email stats (Some st)).1 = true
  /\ LastSeen (observe now email stats (Some st)).1 = now.
Proof.
  unfold is_counter. intros Hlu Hld Hu Hd Hmore. unfold observe.
  rewrite !wrap64_small by (unfold minInt64, maxInt64 in *; lia).
  replace ((0 <? UploadBytes stats - LastUplink st)
           || (0 <? DownloadBytes stats - LastDownlink st)) with true; [done|].
  symmetry. apply orb_true_iff.
  destruct Hmore; [left|right]; apply Z.ltb_lt; lia.
Qed.

(** C5. Activity delta semantics.  Take one tick of [trackActivity], read
    at clock value [now], in which the counter query of [email] succeeded
    with [stats].  Afterwards the cache holds a record for [email] whose
    baseline counters are those of [stats], in every case.  If a record [st]
    existed before: [IsActive] holds exactly when one of the two [int64]
    deltas is positive; a sample equal to its baseline gives [IsActive = false]
    and leaves [LastSeen] as it was; a sample with the upload or the
    download counter strictly above the baseline gives [IsActive = true] and
    [LastSeen = now] (the counters being byte counts, non-negative [int64]
    values).  If no record existed, the new one has the sampled counters as
    baseline, [IsActive = false] and the zero [LastSeen]. *)
Theorem trackActivity_delta_semantics env w h email stats :
  let out := trackActivity env w h in
  let now := time_Now env h in
  EvGetUserStats email (Ok stats) ∈ out_events out ->
  exists st',
    activityCache (agent (out_world out)) !! email = Some st'
    /\ LastUplink st' = UploadBytes stats
    /\ LastDownlink st' = DownloadBytes stats
    /\ match activityCache (agent w) !! email with
       | Some st =>
           (IsActive st' = true
            <-> 0 < wrap64 (UploadBytes stats - LastUplink st)
                \/ 0 < wrap64 (DownloadBytes stats - LastDownlink st))
           /\ (UploadBytes stats = LastUplink st ->
               DownloadBytes stats = LastDownlink st ->
               IsActive st' = false /\ LastSeen st' = LastSeen st)
           /\ (is_counter (LastUplink st) -> is_counter (LastDownlink st) ->
               is_counter (UploadBytes stats) -> is_counter (DownloadBytes stats) ->
               LastUplink st < UploadBytes stats
               \/ LastDownlink st < DownloadBytes stats ->
               IsActive st' = true /\ LastSeen st' = now)
       | None =>
           st' = {| Email := email; LastSeen := 0;
                    LastUplink := UploadBytes stats;
                    LastDownlink := DownloadBytes stats;
                    IsActive := false |}
       end.
Proof.
  intros out now Hin. subst out now.
  destruct (trackActivity_cache env w h email) as (Hnd & _ & Hcache).
  rewrite (sampled_unique email stats _ Hnd Hin) in Hcache.
  eexists. split; [exact Hcache|].
  split; [apply observe_baseline|]. split; [apply observe_baseline|].
  destruct (activityCache (agent w) !! email) as [st|].
  - split; [apply observe_delta|]. split; [apply observe_same|apply observe_more].
  - by rewrite observe_first.
Qed.

(** ** Activity report *)

Lemma isOnline_iff now st :
  isOnline now st = true
  <-> IsActive st = true \/ now - LastSeen st < 2 * Minute.
Proof.
  unfold isOnline, Sub, minInt64, maxInt64, Minute, Second.
  rewrite orb_true_iff, Z.ltb_lt.
  repeat case_match; rewrite ?Z.ltb_lt, ?Z.ltb_ge in *; split; intros [?|?]; auto; lia.
Qed.

Lemma reportUser_run env activities p w h :
  (LastSeen p.2 = 0 /\ reportUser env activities p w h = (activities, w, []))
  \/ (LastSeen p.2 <> 0 /\
      exists report,
        out_value (reportUser env activities p w h) = activities ++ [report]
        /\ reports (time_Now env h) p.2 report).
Proof.
  unfold reportUser. cbv zeta. case_decide as Hseen; [by left|]. right.
  split; [done|]. unfold reports. rewrite run_bind.
  destruct (IsActive p.2) eqn:Hact.
  - unfold isOnline. rewrite Hact. cbn [orb].
    unfold mret at 1, M_ret. cbn [ar_IsOnline]. cbn iota beta.
    unfold GetOnlineIPs, call. rewrite run_bind.
    destruct (xray_GetOnlineIPs env (h ++ []) (Email p.2)) as [ips|e].
    + case_decide.
      * unfold rangeMap. rewrite run_bind. eexists. split; [reflexivity|done].
      * eexists. split; [reflexivity|done].
    + eexists. split; [reflexivity|done].
  - unfold Now, call. rewrite run_bind.
    unfold mret at 1, M_ret. cbn [ar_IsOnline]. cbn iota beta.
    destruct (isOnline (time_Now env h) p.2) eqn:Hon.
    + unfold GetOnlineIPs, call. rewrite run_bind.
      destruct (xray_GetOnlineIPs env _ (Email p.2)) as [ips|e].
      * case_decide.
        -- unfold rangeMap. rewrite run_bind. eexists. split; [reflexivity|done].
        -- eexists. split; [reflexivity|done].
      * eexists. split; [reflexivity|done].
    + eexists. split; [reflexivity|done].
Qed.

(** The reporting loop: one entry for each record that has been seen, in the
    order of the visit, each read at a clock value of the tick. *)
Lemma reportLoop_spec env entries : forall activities w h,
  exists new,
    out_value (foldM (reportUser env) activities entries w h) = activities ++ new
    /\ Forall2 (fun p report => exists pre, reports (time_Now env (h ++ pre)) p.2 report)
         (filter (fun p => LastSeen p.2 <> 0) entries) new.
Proof.
  induction entries as [|p entries IH]; intros activities w h.
  - exists []. split; [by rewrite app_nil_r|constructor].
  - rewrite run_foldM_cons.
    destruct (reportUser_run env activities p w h)
      as [[Hzero ->]|[Hseen (report & Hval & Hrep)]].
    + destruct (IH activities w (h ++ [])) as (new & Hnew & Hall).
      destruct (foldM (reportUser env) activities entries w (h ++ [])) as [[v w2] e2].
      exists new. split; [exact Hnew|].
      rewrite filter_cons_False by (intros ?; done).
      rewrite app_nil_r in Hall. exact Hall.
    + destruct (reportUser env activities p w h) as [[acts w1] e1].
      unfold out_value in Hval. cbn [fst] in Hval. subst acts.
      destruct (IH (activities ++ [report]) w1 (h ++ e1)) as (new & Hnew & Hall).
      destruct (foldM (reportUser env) (activities ++ [report]) entries w1 (h ++ e1))
        as [[v w2] e2].
      unfold out_value in *. cbn [fst] in *.
      exists (report :: new). split; [by rewrite Hnew, <- app_assoc|].
      rewrite filter_cons_True by done. constructor.
      * exists []. by rewrite app_nil_r.
      * eapply Forall2_impl; [exact Hall|].
        intros q rq (pre & Hq). exists (e1 ++ pre). by rewrite app_assoc.
Qed.

(** The entry of one record.  [reportUser] is the body of the reporting loop
    of [reportActivity], run for each cached record; [now] is the clock at
    that point.  For a record that has been seen, one report entry is
    appended, and it is marked online exactly when [IsActive] holds or
    [now - LastSeen] is strictly below two minutes. *)
Lemma reportUser_online_threshold env activities p w h :
  let st := p.2 in
  let now := time_Now env h in
  LastSeen st <> 0 ->
  exists report,
    out_value (reportUser env activities p w h) = activities ++ [report]
    /\ ar_Email report = Email st
    /\ ar_LastSeen report = LastSeen st
    /\ 2 * Minute = 120 * Second
    /\ (ar_IsOnline report = true
        <-> IsActive st = true \/ now - LastSeen st < 120 * Second)
    /\ (IsActive st = false -> now - LastSeen st = 90 * Second ->
        ar_IsOnline report = true)
    /\ (IsActive st = false -> now - LastSeen st = 150 * Second ->
        ar_IsOnline report = false).
Proof.
  intros st now Hseen. subst st now.
  destruct (reportUser_run env activities p w h)
    as [[Hzero _]|[_ (report & Hval & Hemail & Hseen' & Hon)]]; [done|].
  exists report. repeat (split; [done|]).
  assert (Hiff : ar_IsOnline report = true
                 <-> IsActive p.2 = true \/ time_Now env h - LastSeen p.2 < 120 * Second).
  { rewrite Hon. apply isOnline_iff. }
  split; [exact Hiff|]. split.
  - intros _ H90. apply Hiff. right. rewrite H90. unfold Second. lia.
  - intros Hidle H150. apply not_true_is_false. intros Htrue.
    apply Hiff in Htrue as [Htrue|Hlt]; [congruence|].
    rewrite H150 in Hlt. unfold Second in Hlt. lia.
Qed.

(** ** The request of the activity report *)

Lemma emits_ret {A : Type} P (a : A) : emits P (mret a).
Proof. intros w h. constructor. Qed.

Lemma emits_bind {A B : Type} P (m : M A) (k : A -> M B) :
  emits P m -> (forall a, emits P (k a)) -> emits P (m ≫= k).
Proof.
  intros Hm Hk w h. rewrite out_events_bind. apply Forall_app. split; [apply Hm|apply Hk].
Qed.

Lemma emits_call {R : Type} P (oracle : Trace -> R) (ev : R -> Event) :
  (forall r, P (ev r)) -> emits P (call oracle ev).
Proof. intros Hev w h. by repeat constructor. Qed.

Lemma emits_getAgent P : emits P getAgent.
Proof. intros w h. constructor. Qed.

Lemma emits_setAgent P a : emits P (setAgent a).
Proof. intros w h. constructor. Qed.

Lemma emits_rangeMap env {V : Type} P site (m : gmap string V) :
  emits P (rangeMap env site m).
Proof. intros w h. constructor. Qed.

Lemma emits_foldM {A B : Type} P (body : B -> A -> M B) (l : list A) :
  (forall acc x, emits P (body acc x)) -> forall acc, emits P (foldM body acc l).
Proof.
  intros Hbody. induction l as [|x l IH]; intros acc.
  - apply emits_ret.
  - apply emits_bind; [apply Hbody|]. intros acc'. apply IH.
Qed.

Ltac emits_step :=
  first [ apply emits_ret | apply emits_getAgent | apply emits_setAgent
        | apply emits_rangeMap
        | apply emits_call; intros ?; reflexivity
        | apply emits_bind; [|intros ?] ].

Lemma trackActivity_no_panel_call env :
  emits (fun e => is_panel_call e = false) (trackActivity env).
Proof.
  unfold trackActivity, Now. apply emits_bind; [apply emits_getAgent|]. intros a.
  case_decide; [apply emits_ret|].
  apply emits_bind; [emits_step|]. intros now.
  apply emits_bind; [emits_step|]. intros entries.
  apply emits_foldM. intros acc p. unfold trackUser, GetUserStats.
  apply emits_bind; [emits_step|]. intros [stats|e]; [|apply emits_ret].
  apply emits_bind; [emits_step|]. intros a'.
  destruct (observe now p.1 stats (activityCache a' !! p.1)). repeat emits_step.
Qed.

Lemma reportUser_no_panel_call env activities p :
  emits (fun e => is_panel_call e = false) (reportUser env activities p).
Proof.
  unfold reportUser, Now, GetOnlineIPs. cbv zeta.
  case_decide; [apply emits_ret|].
  apply emits_bind.
  { destruct (IsActive p.2); repeat emits_step. }
  intros online. destruct online; cbn [ar_IsOnline]; [|apply emits_ret].
  apply emits_bind; [emits_step|]. intros [ips|e]; [|apply emits_ret].
  case_decide; repeat emits_step.
Qed.

(** The request a tick sends carries what the reporting loop collected: the
    entries appended by [reportUser] for the cached records, visited once
    each after [trackActivity] has updated them. *)
Lemma reportActivity_request env w h :
  let tracked := trackActivity env w h in
  exists entries,
    entries ≡ₚ map_to_list (activityCache (agent (out_world tracked)))
    /\ forall req r,
         EvReportActivity req r ∈ out_events (reportActivity env w h) ->
         arr_Users req
         = out_value (foldM (reportUser env) [] entries (out_world tracked)
                        (h ++ out_events tracked)).
Proof.
  intros tracked. subst tracked.
  remember (reportActivity env w h) as out eqn:Hout.
  unfold reportActivity in Hout. rewrite run_bind in Hout.
  pose proof (trackActivity_no_panel_call env w h) as Htrack.
  destruct (trackActivity env w h) as [[active w1] e1].
  unfold out_events in Htrack. cbn [snd] in Htrack.
  change (out_world (active, w1, e1)) with w1.
  change (out_events (active, w1, e1)) with e1.
  unfold getAgent, rangeMap in Hout. rewrite !run_bind in Hout.
  rewrite !app_nil_r in Hout.
  match type of Hout with
  | context [foldM (reportUser env) [] ?l w1 (h ++ e1)] =>
      exists l;
      pose proof (emits_foldM _ (reportUser env) l
                    (fun acc x => reportUser_no_panel_call env acc x) [] w1 (h ++ e1))
        as Hloop;
      destruct (foldM (reportUser env) [] l w1 (h ++ e1)) as [[activities w2] e2]
  end.
  split; [apply merge_sort_Permutation|].
  unfold out_value, out_events in *. cbn [fst snd] in *.
  assert (Hnot : forall evs req r,
            Forall (fun e => is_panel_call e = false) evs ->
            EvReportActivity req r ∉ evs).
  { intros evs req r Hq Hin. rewrite Forall_forall in Hq. by specialize (Hq _ Hin). }
  intros req r Hin. destruct activities as [|a0 activities].
  - subst out. cbn in Hin. rewrite app_nil_r in Hin.
    apply elem_of_app in Hin as [Hin|Hin]; by apply Hnot in Hin.
  - unfold Now, ReportActivity, call in Hout. rewrite !run_bind in Hout.
    subst out. cbn in Hin.
    apply elem_of_app in Hin as [Hin|Hin]; [by apply Hnot in Hin|].
    apply elem_of_app in Hin as [Hin|Hin]; [by apply Hnot in Hin|].
    apply elem_of_cons in Hin as [Hin|Hin]; [done|].
    apply list_elem_of_singleton in Hin. by inversion Hin.
Qed.

(** The activity report of a tick, entry by entry: the records of the cache
    as [trackActivity] left it, those that have been seen, each with its
    online flag computed from a clock value read during the tick. *)
Lemma reportActivity_entries env w h req r :
  EvReportActivity req r ∈ out_events (reportActivity env w h) ->
  exists entries,
    entries ≡ₚ map_to_list
                 (activityCache (agent (out_world (trackActivity env w h))))
    /\ Forall2 (fun p report =>
                  exists pre, reports (time_Now env (h ++ pre)) p.2 report)
         (filter (fun p => LastSeen p.2 <> 0) entries) (arr_Users req).
Proof.
  intros Hin.
  destruct (reportActivity_request env w h) as (entries & Hentries & Hreq).
  exists entries. split; [exact Hentries|].
  rewrite (Hreq req r Hin).
  destruct (reportLoop_spec env entries [] (out_world (trackActivity env w h))
              (h ++ out_events (trackActivity env w h))) as (new & -> & Hall).
  cbn [app]. eapply Forall2_impl; [exact Hall|].
  intros p report (pre & Hp). exists (out_events (trackActivity env w h) ++ pre).
  by rewrite app_assoc.
Qed.

(** ** Base64: the decoder inverts the encoder *)

Lemma lor_add x y k :
  0 <= k -> x mod 2 ^ k = 0 -> 0 <= y < 2 ^ k -> Z.lor x y = x + y.
Proof.
  intros Hk Hx Hy.
  assert (Hland : Z.land x y = 0).
  { apply Z.bits_inj'. intros n Hn. rewrite Z.land_spec, Z.bits_0.
    destruct (Z.lt_ge_cases n k) as [Hlt|Hge].
    - rewrite <- (Z.mod_pow2_bits_low x k n) by lia. rewrite Hx, Z.bits_0. done.
    - rewrite <- (Z.mod_small y (2 ^ k)) by lia.
      rewrite Z.mod_pow2_bits_high by lia. apply andb_false_r. }
  rewrite <- Z.lxor_lor by done. symmetry. by apply Z.add_nocarry_lxor.
Qed.

Lemma shl x k : 0 <= k -> Z.shiftl x k = x * 2 ^ k.
Proof. intros. by apply Z.shiftl_mul_pow2. Qed.

Lemma land63 x : Z.land x 63 = x mod 64.
Proof. change 63 with (Z.ones 6). by rewrite Z.land_ones. Qed.
Lemma land255 x : Z.land x 255 = x mod 256.
Proof. change 255 with (Z.ones 8). by rewrite Z.land_ones. Qed.

Ltac dlia := Z.to_euclidean_division_equations; lia.

Ltac arith := rewrite ?Z.shiftl_mul_pow2, ?Z.shiftr_div_pow2, ?land63, ?land255 by lia;
  change (2 ^ 6) with 64; change (2 ^ 8) with 256; change (2 ^ 12) with 4096;
  change (2 ^ 16) with 65536; change (2 ^ 18) with 262144.

Lemma pack3 A B C :
  0 <= A < 256 -> 0 <= B < 256 -> 0 <= C < 256 ->
  Z.lor (Z.lor (Z.shiftl A 16) (Z.shiftl B 8)) C = A * 65536 + B * 256 + C.
Proof.
  intros. arith.
  rewrite (lor_add (A * 65536) (B * 256) 16) by (change (2^16) with 65536; dlia).
  rewrite (lor_add _ C 8) by (change (2^8) with 256; dlia). done.
Qed.

Lemma unpack4 d0 d1 d2 d3 :
  0 <= d0 < 64 -> 0 <= d1 < 64 -> 0 <= d2 < 64 -> 0 <= d3 < 64 ->
  Z.lor (Z.lor (Z.lor (Z.shiftl d0 18) (Z.shiftl d1 12)) (Z.shiftl d2 6)) d3
  = d0 * 262144 + d1 * 4096 + d2 * 64 + d3.
Proof.
  intros. arith.
  rewrite (lor_add (d0 * 262144) (d1 * 4096) 18) by (change (2^18) with 262144; dlia).
  rewrite (lor_add _ (d2 * 64) 12) by (change (2^12) with 4096; dlia).
  rewrite (lor_add _ d3 6) by (change (2^6) with 64; dlia). done.
Qed.

Lemma Z_of_byte_range c : 0 <= Z_of_byte c < 256.
Proof.
  unfold Z_of_byte. pose proof (N_ascii_bounded c). lia.
Qed.

Lemma byte_of_Z_of_byte c z : z mod 256 = Z_of_byte c -> byte_of_Z z = c.
Proof.
  unfold byte_of_Z, Z_of_byte. rewrite land255. intros ->.
  by rewrite N2Z.id, ascii_N_embedding.
Qed.

Lemma decode_encode_digit d :
  0 <= d < 64 ->
  Base64.decodeDigit (Base64.encodeDigit d) = Some d
  /\ Base64.is_newline (Base64.encodeDigit d) = false.
Proof.
  intros Hd. rewrite <- (Z2Nat.id d) by lia.
  assert (Hn : (Z.to_nat d < 64)%nat) by lia.
  generalize dependent (Z.to_nat d). clear d Hd. intros n Hn.
  do 64 (destruct n as [|n]; [by vm_compute|]). lia.
Qed.

Lemma quantum3 a b c :
  let val := Z.lor (Z.lor (Z.shiftl (Z_of_byte a) 16) (Z.shiftl (Z_of_byte b) 8))
                   (Z_of_byte c) in
  let d0 := Z.land (Z.shiftr val 18) 63 in
  let d1 := Z.land (Z.shiftr val 12) 63 in
  let d2 := Z.land (Z.shiftr val 6) 63 in
  let d3 := Z.land val 63 in
  let val' := Z.lor (Z.lor (Z.lor (Z.shiftl d0 18) (Z.shiftl d1 12)) (Z.shiftl d2 6)) d3 in
  (0 <= d0 < 64 /\ 0 <= d1 < 64 /\ 0 <= d2 < 64 /\ 0 <= d3 < 64)
  /\ byte_of_Z (Z.shiftr val' 16) = a
  /\ byte_of_Z (Z.shiftr val' 8) = b
  /\ byte_of_Z val' = c.
Proof.
  intros val d0 d1 d2 d3 val'.
  pose proof (Z_of_byte_range a). pose proof (Z_of_byte_range b).
  pose proof (Z_of_byte_range c).
  assert (Hval : val = Z_of_byte a * 65536 + Z_of_byte b * 256 + Z_of_byte c)
    by (by apply pack3).
  assert (Hd : 0 <= d0 < 64 /\ 0 <= d1 < 64 /\ 0 <= d2 < 64 /\ 0 <= d3 < 64).
  { subst d0 d1 d2 d3. arith. dlia. }
  split; [done|]. destruct Hd as (Hd0 & Hd1 & Hd2 & Hd3).
  assert (Hval' : val' = val).
  { subst val'. rewrite unpack4 by done. clear Hd0 Hd1 Hd2 Hd3.
    subst d0 d1 d2 d3. arith. rewrite Hval. dlia. }
  rewrite Hval', Hval.
  repeat split; apply byte_of_Z_of_byte; arith; dlia.
Qed.

Lemma pack2 A B :
  0 <= A < 256 -> 0 <= B < 256 ->
  Z.lor (Z.shiftl A 16) (Z.shiftl B 8) = A * 65536 + B * 256.
Proof.
  intros. arith.
  by rewrite (lor_add (A * 65536) (B * 256) 16) by (change (2^16) with 65536; dlia).
Qed.

Lemma unpack3 d0 d1 d2 :
  0 <= d0 < 64 -> 0 <= d1 < 64 -> 0 <= d2 < 64 ->
  Z.lor (Z.lor (Z.shiftl d0 18) (Z.shiftl d1 12)) (Z.shiftl d2 6)
  = d0 * 262144 + d1 * 4096 + d2 * 64.
Proof.
  intros. arith.
  rewrite (lor_add (d0 * 262144) (d1 * 4096) 18) by (change (2^18) with 262144; dlia).
  by rewrite (lor_add _ (d2 * 64) 12) by (change (2^12) with 4096; dlia).
Qed.

Lemma unpack2 d0 d1 :
  0 <= d0 < 64 -> 0 <= d1 < 64 ->
  Z.lor (Z.shiftl d0 18) (Z.shiftl d1 12) = d0 * 262144 + d1 * 4096.
Proof.
  intros. arith.
  by rewrite (lor_add (d0 * 262144) (d1 * 4096) 18) by (change (2^18) with 262144; dlia).
Qed.

Lemma quantum2 a b :
  let val := Z.lor (Z.shiftl (Z_of_byte a) 16) (Z.shiftl (Z_of_byte b) 8) in
  let d0 := Z.land (Z.shiftr val 18) 63 in
  let d1 := Z.land (Z.shiftr val 12) 63 in
  let d2 := Z.land (Z.shiftr val 6) 63 in
  let val' := Z.lor (Z.lor (Z.shiftl d0 18) (Z.shiftl d1 12)) (Z.shiftl d2 6) in
  (0 <= d0 < 64 /\ 0 <= d1 < 64 /\ 0 <= d2 < 64)
  /\ byte_of_Z (Z.shiftr val' 16) = a
  /\ byte_of_Z (Z.shiftr val' 8) = b.
Proof.
  intros val d0 d1 d2 val'.
  pose proof (Z_of_byte_range a). pose proof (Z_of_byte_range b).
  assert (Hval : val = Z_of_byte a * 65536 + Z_of_byte b * 256)
    by (by apply pack2).
  assert (Hd : 0 <= d0 < 64 /\ 0 <= d1 < 64 /\ 0 <= d2 < 64).
  { subst d0 d1 d2. arith. dlia. }
  split; [done|]. destruct Hd as (Hd0 & Hd1 & Hd2).
  assert (Hval' : val' = val).
  { subst val'. rewrite unpack3 by done. clear Hd0 Hd1 Hd2.
    subst d0 d1 d2. arith. rewrite Hval. dlia. }
  rewrite Hval', Hval.
  repeat split; apply byte_of_Z_of_byte; arith; dlia.
Qed.

Lemma quantum1 a :
  let val := Z.shiftl (Z_of_byte a) 16 in
  let d0 := Z.land (Z.shiftr val 18) 63 in
  let d1 := Z.land (Z.shiftr val 12) 63 in
  let val' := Z.lor (Z.shiftl d0 18) (Z.shiftl d1 12) in
  (0 <= d0 < 64 /\ 0 <= d1 < 64)
  /\ byte_of_Z (Z.shiftr val' 16) = a.
Proof.
  intros val d0 d1 val'.
  pose proof (Z_of_byte_range a).
  assert (Hval : val = Z_of_byte a * 65536) by (subst val; by arith).
  assert (Hd : 0 <= d0 < 64 /\ 0 <= d1 < 64).
  { subst d0 d1. arith. dlia. }
  split; [done|]. destruct Hd as (Hd0 & Hd1).
  assert (Hval' : val' = val).
  { subst val'. rewrite unpack2 by done. clear Hd0 Hd1.
    subst d0 d1. arith. rewrite Hval. dlia. }
  rewrite Hval', Hval.
  apply byte_of_Z_of_byte; arith; dlia.
Qed.

Lemma list_ind3 {A : Type} (P : list A -> Prop) :
  P [] -> (forall a, P [a]) -> (forall a b, P [a; b]) ->
  (forall a b c l, P l -> P (a :: b :: c :: l)) ->
  forall l, P l.
Proof.
  intros H0 H1 H2 H3 l.
  assert (H : P l /\ (forall a, P (a :: l)) /\ (forall a b, P (a :: b :: l))).
  { induction l as [|x l (IH0 & IH1 & IH2)]; [done|].
    repeat split; auto. }
  apply H.
Qed.

Lemma digits_cons d s :
  0 <= d < 64 ->
  Base64.digits (Base64.encodeDigit d :: s)
  = match Base64.digits s with Some ds => Some (d :: ds) | None => None end.
Proof.
  intros Hd. destruct (decode_encode_digit d Hd) as [Hdec Hnl].
  simpl. by rewrite Hnl, Hdec.
Qed.

Lemma decode_encode_quanta src :
  exists ds, Base64.digits (Base64.Encode src) = Some ds
             /\ Base64.decodeQuanta ds = Some src.
Proof.
  induction src as [|a|a b|a b c src (ds & Hds & Hq)] using list_ind3.
  - by exists [].
  - destruct (quantum1 a) as ((Hd0 & Hd1) & Ha).
    eexists. cbn [Base64.Encode]. rewrite !digits_cons by done.
    split; [reflexivity|]. cbn [Base64.decodeQuanta]. by rewrite Ha.
  - destruct (quantum2 a b) as ((Hd0 & Hd1 & Hd2) & Ha & Hb).
    eexists. cbn [Base64.Encode]. rewrite !digits_cons by done.
    split; [reflexivity|]. cbn [Base64.decodeQuanta]. by rewrite Ha, Hb.
  - destruct (quantum3 a b c) as ((Hd0 & Hd1 & Hd2 & Hd3) & Ha & Hb & Hc).
    eexists. cbn [Base64.Encode]. rewrite !digits_cons by done. rewrite Hds.
    split; [reflexivity|]. cbn [Base64.decodeQuanta]. by rewrite Hq, Ha, Hb, Hc.
Qed.

(** Decoding what the encoder produced gives the bytes back. *)
Lemma DecodeString_EncodeToString src :
  Base64.DecodeString (Base64.EncodeToString src) = Some src.
Proof.
  unfold Base64.DecodeString, Base64.EncodeToString.
  rewrite list_ascii_of_string_of_list_ascii.
  destruct (decode_encode_quanta src) as (ds & -> & Hq). done.
Qed.

(** ** Key manager *)

Lemma length_array32 src : length (array32 src) = 32%nat.
Proof. apply length_resize. Qed.

Lemma array32_id src : length src = 32%nat -> array32 src = src.
Proof. intros H. unfold array32. by apply resize_all_alt. Qed.

(** A successful [generateAndSaveKeys]: the key pair comes from a 32-byte
    private key whose encoding is now stored at [keyPath]. *)
Lemma generateAndSaveKeys_ok env keyPath w h res w' evs :
  generateAndSaveKeys env keyPath w h = (Some res, true, None, w', evs) ->
  exists privateKey,
    length privateKey = 32%nat
    /\ res = {| PrivateKey := Base64.EncodeToString privateKey;
                PublicKey := Base64.EncodeToString (ScalarBaseMult env privateKey) |}
    /\ files (fs w') !! keyPath = Some (PrivateKey res)
    /\ dirs (fs w') = dirs (fs w).
Proof.
  unfold generateAndSaveKeys, GenerateRealityKeypair, WriteFile.
  msimpl.
  destruct (rand_Read env h) as [bytes|e]; [|done].
  destruct (os_WriteFile env _ keyPath) as [e|]; [done|].
  intros [= <- <- <-].
  eexists. split; [|split; [reflexivity|]].
  - by rewrite !length_alter, length_array32.
  - cbn. by rewrite lookup_insert_eq.
Qed.

Lemma MkdirAll_run env dir w h :
  exists w1 e1,
    (MkdirAll env dir w h = (None, w1, e1)
     /\ dir ∈ dirs (fs w1) /\ files (fs w1) = files (fs w))
    \/ exists e, MkdirAll env dir w h = (Some e, w1, e1).
Proof.
  unfold MkdirAll. msimpl.
  case_decide as Hin.
  - eexists _, _. left. split; [reflexivity|done].
  - destruct (os_MkdirAll env _ dir) as [e|].
    + eexists _, _. right. by eexists.
    + eexists _, _. left. split; [reflexivity|]. cbn. split; [|done].
      apply elem_of_union. left. by apply elem_of_singleton.
Qed.

Lemma LoadOrCreateRealityKeys_created env keyPath w h res w' evs :
  LoadOrCreateRealityKeys env keyPath w h = (Some res, true, None, w', evs) ->
  exists privateKey,
    length privateKey = 32%nat
    /\ res = {| PrivateKey := Base64.EncodeToString privateKey;
                PublicKey := Base64.EncodeToString (ScalarBaseMult env privateKey) |}
    /\ files (fs w') !! keyPath = Some (PrivateKey res)
    /\ filepath_Dir env keyPath ∈ dirs (fs w').
Proof.
  unfold LoadOrCreateRealityKeys. cbv zeta.
  set (dir := filepath_Dir env keyPath).
  rewrite run_bind.
  destruct (MkdirAll_run env dir w h) as (w1 & e1 & [(-> & Hdir & _)|(e & ->)]);
    [|done].
  unfold ReadFile. msimpl.
  assert (Hgen : forall h' e0,
    (let '(b, w2, e2) :=
       let '(b, w2, e2) := generateAndSaveKeys env keyPath w1 h' in
       (b, w2, e0 ++ e2) in
     (b, w2, e1 ++ e2)) = (Some res, true, None, w', evs) ->
    exists privateKey,
      length privateKey = 32%nat
      /\ res = {| PrivateKey := Base64.EncodeToString privateKey;
                  PublicKey := Base64.EncodeToString (ScalarBaseMult env privateKey) |}
      /\ files (fs w') !! keyPath = Some (PrivateKey res)
      /\ dir ∈ dirs (fs w')).
  { intros h' e0.
    destruct (generateAndSaveKeys env keyPath w1 h') as [[v w2] e2] eqn:Hrun.
    intros [= -> <- <-].
    destruct (generateAndSaveKeys_ok env keyPath w1 h' res w2 e2 Hrun)
      as (pk & Hlen & Hres & Hfile & Hdirs).
    exists pk. by rewrite Hdirs. }
  destruct (files (fs w1) !! keyPath) as [privateKeyStr|]; [|apply Hgen].
  destruct (Base64.DecodeString privateKeyStr) as [privateKey|]; [|apply Hgen].
  case_decide; [done|apply Hgen].
Qed.

(** Loading a stored key: nothing is written, no event is emitted. *)
Lemma LoadOrCreateRealityKeys_existing env keyPath w h privateKey :
  filepath_Dir env keyPath ∈ dirs (fs w) ->
  files (fs w) !! keyPath = Some (Base64.EncodeToString privateKey) ->
  length privateKey = 32%nat ->
  LoadOrCreateRealityKeys env keyPath w h
  = (Some {| PrivateKey := Base64.EncodeToString privateKey;
             PublicKey := Base64.EncodeToString (ScalarBaseMult env privateKey) |},
     false, None, w, []).
Proof.
  intros Hdir Hfile Hlen.
  unfold LoadOrCreateRealityKeys, MkdirAll, ReadFile, getFS. rewrite !run_bind.
  rewrite decide_True by done.
  unfold mret at 1, M_ret. cbn iota beta. rewrite !run_bind.
  unfold mret at 1, M_ret. cbn iota beta.
  rewrite Hfile, DecodeString_EncodeToString, decide_True by done.
  by rewrite array32_id.
Qed.

(** C7. Keypair round-trip: if a call of [LoadOrCreateRealityKeys] generated
    and persisted a fresh key pair ([isNew = true], no error), a second call
    on the same path, with the file system as the first call left it,
    returns [isNew = false], no error, and a key pair whose public key (and
    private key) is identical to the first one; it writes nothing. *)
Theorem LoadOrCreateRealityKeys_roundtrip env keyPath w h keys1 :
  let out1 := LoadOrCreateRealityKeys env keyPath w h in
  out_value out1 = (Some keys1, true, None) ->
  let out2 := LoadOrCreateRealityKeys env keyPath (out_world out1)
                (h ++ out_events out1) in
  exists keys2,
    out_value out2 = (Some keys2, false, None)
    /\ PublicKey keys2 = PublicKey keys1
    /\ PrivateKey keys2 = PrivateKey keys1
    /\ out_world out2 = out_world out1
    /\ out_events out2 = [].
Proof.
  intros out1 Hnew out2. subst out2 out1.
  destruct (LoadOrCreateRealityKeys env keyPath w h) as [[v w'] evs] eqn:Hrun.
  unfold out_value, out_world, out_events in *. cbn [fst snd] in *. subst v.
  destruct (LoadOrCreateRealityKeys_created env keyPath w h keys1 w' evs Hrun)
    as (pk & Hlen & Hkeys & Hfile & Hdir).
  rewrite Hkeys in Hfile. cbn [PrivateKey] in Hfile.
  rewrite (LoadOrCreateRealityKeys_existing env keyPath _ _ pk Hdir Hfile Hlen).
  eexists. split; [reflexivity|]. by rewrite Hkeys.
Qed.

(** ** Garbage collection of the activity cache *)

Lemma readonly_ret {A : Type} (a : A) : readonly (mret a).
Proof. by intros w h. Qed.

Lemma readonly_bind {A B : Type} (m : M A) (k : A -> M B) :
  readonly m -> (forall a, readonly (k a)) -> readonly (m ≫= k).
Proof.
  intros Hm Hk w h. rewrite out_world_bind, Hm. apply Hk.
Qed.

Lemma readonly_call {R : Type} (oracle : Trace -> R) (ev : R -> Event) :
  readonly (call oracle ev).
Proof. by intros w h. Qed.

Lemma readonly_getAgent : readonly getAgent.
Proof. by intros w h. Qed.

Lemma readonly_rangeMap env {V : Type} site (m : gmap string V) :
  readonly (rangeMap env site m).
Proof. by intros w h. Qed.

Lemma readonly_foldM {A B : Type} (body : B -> A -> M B) (l : list A) :
  (forall acc x, readonly (body acc x)) -> forall acc, readonly (foldM body acc l).
Proof.
  intros Hbody. induction l as [|x l IH]; intros acc.
  - apply readonly_ret.
  - apply readonly_bind; [apply Hbody|]. intros acc'. apply IH.
Qed.

Ltac readonly_step :=
  first [ apply readonly_ret | apply readonly_call | apply readonly_getAgent
        | apply readonly_rangeMap
        | apply readonly_bind; [|intros ?] ].

Lemma readonly_reportUser env activities p : readonly (reportUser env activities p).
Proof.
  unfold reportUser, Now, GetOnlineIPs. cbv zeta.
  case_decide; [apply readonly_ret|].
  apply readonly_bind.
  { destruct (IsActive p.2); repeat readonly_step. }
  intros online. destruct online; cbn [ar_IsOnline]; [|apply readonly_ret].
  apply readonly_bind; [apply readonly_call|]. intros [ips|e]; [|apply readonly_ret].
  case_decide; repeat readonly_step.
Qed.

(** The reporting half of [reportActivity] changes nothing: the world after a
    tick is the world [trackActivity] left. *)
Lemma reportActivity_world env w h :
  out_world (reportActivity env w h) = out_world (trackActivity env w h).
Proof.
  unfold reportActivity. rewrite out_world_bind.
  set (w1 := out_world (trackActivity env w h)).
  generalize (h ++ out_events (trackActivity env w h)).
  generalize (out_value (trackActivity env w h)). intros active h1.
  revert w1 h1. apply readonly_bind; [apply readonly_getAgent|]. intros a.
  apply readonly_bind; [apply readonly_rangeMap|]. intros entries.
  apply readonly_bind; [apply readonly_foldM; intros; apply readonly_reportUser|].
  intros [|report activities]; [apply readonly_ret|].
  unfold Now, ReportActivity. repeat readonly_step.
Qed.

Lemma trackActivity_queried env w h email :
  email ∈ omap queried (out_events (trackActivity env w h))
  <-> is_Some (currentUsers (agent w) !! email).
Proof.
  destruct (trackActivity_run env w h)
    as [[Hempty ->]|(entries & evs & active & w' & Hentries & Hloop & ->)].
  - unfold out_events. cbn. rewrite Hempty, lookup_empty.
    split; [by intros ?%elem_of_nil|by intros [? ?]].
  - assert (Hnd : NoDup entries.*1) by (rewrite Hentries; apply NoDup_fst_map_to_list).
    destruct (trackLoop_spec env (time_Now env h) entries Hnd ∅ w
                (h ++ [EvNow (time_Now env h)])) as (Hq & _).
    rewrite Hloop in Hq. unfold out_events in *. cbn [snd omap list_omap queried] in *.
    rewrite Hq. by apply elem_of_range_keys.
Qed.

(** A tick never removes a record: the record of an identity that is not
    provisioned is exactly what it was, tick after tick. *)
Lemma reportActivity_keeps_records env w h email :
  currentUsers (agent w) !! email = None ->
  activityCache (agent (out_world (reportActivity env w h))) !! email
  = activityCache (agent w) !! email
  /\ currentUsers (agent (out_world (reportActivity env w h))) !! email = None.
Proof.
  intros Hgone. rewrite reportActivity_world.
  destruct (trackActivity_cache env w h email) as (_ & Hcur & Hcache).
  rewrite Hcur, Hcache. split; [|done].
  rewrite sampled_not_queried; [done|].
  rewrite trackActivity_queried, Hgone. by intros [? ?].
Qed.

Lemma dropIfGone_run p w h :
  dropIfGone p w h
  = (tt,
     match currentUsers (agent w) !! p.1 with
     | Some _ => w
     | None => {| agent := set_activityCache (delete p.1 (activityCache (agent w)))
                             (agent w);
                  fs := fs w |}
     end, []).
Proof.
  unfold dropIfGone. msimpl. destruct (currentUsers (agent w) !! p.1); [|done].
  by destruct w.
Qed.

Lemma cleanupLoop_spec entries : forall w h email,
  let out := forM_ entries dropIfGone w h in
  currentUsers (agent (out_world out)) = currentUsers (agent w)
  /\ activityCache (agent (out_world out)) !! email
     = if decide (email ∈ entries.*1 /\ currentUsers (agent w) !! email = None)
       then None else activityCache (agent w) !! email.
Proof.
  induction entries as [|p entries IH]; intros w h email out; subst out.
  - split; [done|]. by rewrite decide_False by (rewrite elem_of_nil; tauto).
  - rewrite run_forM_cons, dropIfGone_run.
    match goal with
    | |- context [forM_ entries dropIfGone ?w1 ?h1] =>
        destruct (IH w1 h1 email) as [Hcur Hcache];
        destruct (forM_ entries dropIfGone w1 h1) as [[[] w2] e2]
    end.
    unfold out_world in *. cbn [fst snd] in *. rewrite Hcur, Hcache, fmap_cons.
    destruct (currentUsers (agent w) !! p.1) as [u|] eqn:Hp.
    + split; [done|].
      repeat case_decide; try done; exfalso;
        rewrite ?elem_of_cons in *; intuition congruence.
    + cbn [agent currentUsers activityCache set_activityCache]. split; [done|].
      destruct (decide (p.1 = email)) as [<-|Hne].
      * rewrite lookup_delete_eq.
        repeat case_decide; try done; exfalso;
          rewrite ?elem_of_cons in *; intuition congruence.
      * rewrite lookup_delete_ne by done.
        repeat case_decide; try done; exfalso;
          rewrite ?elem_of_cons in *; intuition congruence.
Qed.

(** What [cleanupActivityCache] does when it runs: it keeps exactly the
    records of provisioned identities.  No tick calls it. *)
Lemma cleanupActivityCache_spec env w h email :
  let out := cleanupActivityCache env w h in
  activityCache (agent (out_world out)) !! email
  = match currentUsers (agent w) !! email with
    | Some _ => activityCache (agent w) !! email
    | None => None
    end.
Proof.
  intros out. subst out. unfold cleanupActivityCache, rangeMap. msimpl.
  match goal with
  | |- context [forM_ ?l dropIfGone ?w1 ?h1] =>
      destruct (cleanupLoop_spec l w1 h1 email) as [_ Hcache];
      assert (Hl : l ≡ₚ map_to_list (activityCache (agent w)))
        by apply merge_sort_Permutation;
      destruct (forM_ l dropIfGone w1 h1) as [[[] w2] e2]
  end.
  unfold out_world in *. cbn [fst snd] in *. rewrite Hcache.
  pose proof (elem_of_range_keys _ _ email Hl) as Hkeys.
  destruct (currentUsers (agent w) !! email) as [u|].
  - by rewrite decide_False by (intros [_ ?]; done).
  - case_decide as Hd; [done|].
    destruct (activityCache (agent w) !! email) eqn:Hc; [|done].
    exfalso. apply Hd. split; [|done]. apply Hkeys. by eexists.
Qed.

(** ** Start-up *)

Lemma generateAndSaveKeys_frame env keyPath w h :
  agent (out_world (generateAndSaveKeys env keyPath w h)) = agent w
  /\ Forall (fun e => is_key_event e = true)
            (out_events (generateAndSaveKeys env keyPath w h)).
Proof.
  unfold generateAndSaveKeys, GenerateRealityKeypair, WriteFile. msimpl.
  destruct (rand_Read env h) as [bytes|e].
  - destruct (os_WriteFile env _ keyPath) as [e|];
      (split; [done|by repeat constructor]).
  - split; [done|by repeat constructor].
Qed.

Lemma LoadOrCreateRealityKeys_frame env keyPath w h :
  agent (out_world (LoadOrCreateRealityKeys env keyPath w h)) = agent w
  /\ Forall (fun e => is_key_event e = true)
            (out_events (LoadOrCreateRealityKeys env keyPath w h)).
Proof.
  unfold LoadOrCreateRealityKeys. cbv zeta.
  set (dir := filepath_Dir env keyPath).
  rewrite out_world_bind, out_events_bind.
  assert (Hmk : agent (out_world (MkdirAll env dir w h)) = agent w
                /\ Forall (fun e => is_key_event e = true)
                          (out_events (MkdirAll env dir w h))).
  { unfold MkdirAll. msimpl. case_decide; [by split|].
    destruct (os_MkdirAll env _ dir); (split; [done|by repeat constructor]). }
  destruct Hmk as [Hmk1 Hmk2].
  destruct (MkdirAll env dir w h) as [[d w1] e1].
  unfold out_value, out_world, out_events in *. cbn [fst snd] in *.
  destruct d as [e|]; [by rewrite app_nil_r|].
  unfold ReadFile. msimpl.
  assert (Hgen : forall h' e0,
    agent (let '(b, w2, e2) := generateAndSaveKeys env keyPath w1 h' in
           (b, w2, e0 ++ e2)).1.2 = agent w
    /\ Forall (fun e => is_key_event e = true)
         (e1 ++ (let '(b, w2, e2) := generateAndSaveKeys env keyPath w1 h' in
                 (b, w2, [] ++ e2)).2)).
  { intros h' e0. destruct (generateAndSaveKeys_frame env keyPath w1 h') as [Ha He].
    destruct (generateAndSaveKeys env keyPath w1 h') as [[v w2] e2].
    unfold out_world, out_events in *. cbn [fst snd app] in *.
    split; [congruence|by apply Forall_app]. }
  destruct (files (fs w1) !! keyPath) as [privateKeyStr|]; [|apply Hgen].
  destruct (Base64.DecodeString privateKeyStr) as [privateKey|]; [|apply Hgen].
  case_decide; [|apply Hgen]. cbn. by rewrite app_nil_r.
Qed.

Lemma initRealityKeys_frame env w h :
  cfg (agent (out_world (initRealityKeys env w h))) = cfg (agent w)
  /\ currentUsers (agent (out_world (initRealityKeys env w h))) = currentUsers (agent w)
  /\ Forall (fun e => is_key_event e = true)
            (out_events (initRealityKeys env w h)).
Proof.
  unfold initRealityKeys. cbv zeta.
  rewrite !out_world_bind, !out_events_bind.
  change (out_value (getAgent w h)) with (agent w).
  change (out_world (getAgent w h)) with w.
  change (out_events (getAgent w h)) with (@nil Event).
  cbn beta.
  match goal with
  | |- context [LoadOrCreateRealityKeys env ?k w ?h1] =>
      destruct (LoadOrCreateRealityKeys_frame env k w h1) as [Ha He];
      destruct (LoadOrCreateRealityKeys env k w h1) as [[res w1] e1]
  end.
  unfold out_value, out_world, out_events in *. cbn [fst snd app] in *.
  destruct res.2 as [e|]; msimpl; cbn; rewrite app_nil_r; [by rewrite Ha|done].
Qed.

Lemma forM_addMissing_cfg env entries : forall w h,
  cfg (agent (out_world (forM_ entries (addMissing env) w h))) = cfg (agent w).
Proof.
  induction entries as [|p entries IH]; intros w h; [done|].
  rewrite run_forM_cons.
  destruct (addMissing_run env p w h) as [[_ ->]|[_ (u & r & ->)]].
  - specialize (IH w (h ++ [])).
    by destruct (forM_ entries (addMissing env) w (h ++ [])) as [[[] w2] e2].
  - match goal with
    | |- context [forM_ entries (addMissing env) ?w1 ?h1] =>
        specialize (IH w1 h1);
        destruct (forM_ entries (addMissing env) w1 h1) as [[[] w2] e2]
    end.
    unfold out_world in *. cbn [fst snd] in *. rewrite IH. by destruct r.
Qed.

Lemma forM_removeStale_cfg env panelUsers entries : forall w h,
  cfg (agent (out_world (forM_ entries (removeStale env panelUsers) w h)))
  = cfg (agent w).
Proof.
  induction entries as [|p entries IH]; intros w h; [done|].
  rewrite run_forM_cons.
  destruct (removeStale_run env panelUsers p w h) as [[_ ->]|[_ (r & ->)]].
  - specialize (IH w (h ++ [])).
    by destruct (forM_ entries (removeStale env panelUsers) w (h ++ [])) as [[[] w2] e2].
  - match goal with
    | |- context [forM_ entries (removeStale env panelUsers) ?w1 ?h1] =>
        specialize (IH w1 h1);
        destruct (forM_ entries (removeStale env panelUsers) w1 h1) as [[[] w2] e2]
    end.
    unfold out_world in *. cbn [fst snd] in *. rewrite IH. by destruct r.
Qed.

(** A reconciliation pass leaves the configuration alone and talks only to
    the controller's sync endpoint and to the engine's user table. *)
Lemma syncUsers_frame env w h :
  cfg (agent (out_world (syncUsers env w h))) = cfg (agent w)
  /\ Forall (fun e => is_config_fetch e = false /\ is_engine_start e = false)
            (out_events (syncUsers env w h)).
Proof.
  destruct (panel_FetchUserSync env h (Node_ID (cfg (agent w)))) as [users|e] eqn:Hf.
  - destruct (syncUsers_fetched env w h users Hf)
      as (entries & current & h1 & h2 & _ & _ & Hrun).
    cbv zeta in Hrun. rewrite Hrun. unfold out_world at 1, out_events at 1.
    cbn [fst snd]. split.
    + by rewrite forM_removeStale_cfg, forM_addMissing_cfg.
    + constructor; [done|]. apply Forall_app. split.
      * eapply Forall_impl; [apply addLoop_events|].
        by intros ? (u & r & ->).
      * eapply Forall_impl; [apply removeLoop_events|].
        by intros ? (u & r & ->).
  - rewrite (syncUsers_fetch_failed env w h e Hf). split; [done|].
    by repeat constructor.
Qed.

Lemma resolveConfig_run fetched w h :
  exists res w2,
    resolveConfig fetched w h = (res, w2, [])
    /\ Node_ID (cfg (agent w2)) = Node_ID (cfg (agent w))
    /\ match fetched with
       | Err _ =>
           res = None
           /\ Xray (cfg (agent w2))
              = (if decide (InboundTag (Xray (cfg (agent w))) = ""%string)
                 then set_InboundTag "inbound-vless" (Xray (cfg (agent w)))
                 else Xray (cfg (agent w)))
       | Ok nc =>
           nc_RealityEnabled nc = true ->
           (nc_RealityDest nc = ""%string -> res = Some err_RealityDest)
           /\ (nc_RealityDest nc <> ""%string ->
               nc_RealityServerNames nc = ""%string ->
               res = Some err_RealityServerNames)
           /\ (nc_RealityDest nc <> ""%string ->
               nc_RealityServerNames nc <> ""%string ->
               nc_RealityShortIds nc = ""%string ->
               res = Some err_RealityShortIds)
       end.
Proof.
  unfold resolveConfig, applyReality, assign.
  destruct fetched as [nc|e].
  - msimpl. cbn [agent cfg Xray set_Xray InboundTag set_InboundTag set_SNI
                   set_TLSEnabled set_ListenPort set_Protocol realityKeys].
    destruct (nc_RealityEnabled nc) eqn:Hre.
    + repeat case_decide; msimpl;
        cbn [agent cfg Xray set_Xray realityKeys];
        try destruct (realityKeys (agent w)); try destruct (0 <? nc_APIPort nc);
        msimpl;
        eexists _, _; (split; [reflexivity|]); (split; [done|]);
        intros _; repeat split; intros; congruence.
    + repeat case_decide; msimpl; destruct (0 <? nc_APIPort nc); msimpl;
        eexists _, _; (split; [reflexivity|]); (split; [done|]); intros; congruence.
  - msimpl. case_decide; msimpl; eexists _, _; (split; [reflexivity|]);
      (split; [done|]); split; try done.
Qed.

(** [launch] starts the engine once, with the configuration it finds, and
    its result is the result of that start. *)
Lemma launch_run env w h :
  exists pre r post,
    out_events (launch env w h)
    = pre ++ EvManagerStart (Xray (cfg (agent w))) r :: post
    /\ Forall quiet pre /\ Forall quiet post
    /\ out_value (launch env w h) = r
    /\ cfg (agent (out_world (launch env w h))) = cfg (agent w).
Proof.
  unfold launch, xrayManager_Start. msimpl.
  cbn [agent cfg Xray set_xrayAPI].
  assert (Hquiet : forall e1, Forall quiet e1 ->
            Forall quiet (EvSleep (2 * Second)
                            :: e1 ++ [EvGo "heartbeatLoop"; EvGo "userSyncLoop";
                                      EvGo "trafficReportLoop"; EvGo "activityLoop"])).
  { intros e1 He1. constructor; [done|]. apply Forall_app. split; [done|].
    by repeat constructor. }
  case_decide as Hgeo.
  - destruct (geo_EnsureDataFiles env _) as [e|]; cbn [app].
    + destruct (manager_Start env _ _) as [e'|].
      * exists [EvEnsureDataFiles (Some e)], (Some e'), []. cbn.
        repeat split; by repeat constructor.
      * match goal with
        | |- context [syncUsers env ?W ?H] =>
            destruct (syncUsers_frame env W H) as [Hc He];
            destruct (syncUsers env W H) as [[v w3] e1]
        end.
        unfold out_value, out_world, out_events in *. cbn [fst snd app] in *.
        exists [EvEnsureDataFiles (Some e)], None. eexists.
        split; [reflexivity|]. split; [by repeat constructor|].
        split; [by apply Hquiet|done].
    + destruct (manager_Start env _ _) as [e'|].
      * exists [EvEnsureDataFiles None; EvStartAutoUpdate], (Some e'), []. cbn.
        repeat split; by repeat constructor.
      * match goal with
        | |- context [syncUsers env ?W ?H] =>
            destruct (syncUsers_frame env W H) as [Hc He];
            destruct (syncUsers env W H) as [[v w3] e1]
        end.
        unfold out_value, out_world, out_events in *. cbn [fst snd app] in *.
        exists [EvEnsureDataFiles None; EvStartAutoUpdate], None. eexists.
        split; [reflexivity|]. split; [by repeat constructor|].
        split; [by apply Hquiet|done].
  - cbn [app]. destruct (manager_Start env _ _) as [e'|].
    + exists [], (Some e'), []. cbn. repeat split; by repeat constructor.
    + match goal with
      | |- context [syncUsers env ?W ?H] =>
          destruct (syncUsers_frame env W H) as [Hc He];
          destruct (syncUsers env W H) as [[v w3] e1]
      end.
      unfold out_value, out_world, out_events in *. cbn [fst snd app] in *.
      exists [], None. eexists.
      split; [reflexivity|]. split; [constructor|].
      split; [by apply Hquiet|done].
Qed.

(** [Start], block by block. *)
Lemma Start_run env w h :
  exists e1 w1 fetched res w2 h2 h3,
    Forall (fun e => is_key_event e = true) e1
    /\ cfg (agent w1) = cfg (agent w)
    /\ resolveConfig fetched w1 h2 = (res, w2, [])
    /\ Start env w h
       = match res with
         | Some e =>
             (Some e, w2, e1 ++ [EvFetchNodeConfig (Node_ID (cfg (agent w))) fetched])
         | None =>
             (out_value (launch env w2 h3), out_world (launch env w2 h3),
              e1 ++ EvFetchNodeConfig (Node_ID (cfg (agent w))) fetched
                 :: out_events (launch env w2 h3))
         end.
Proof.
  unfold Start. rewrite run_bind.
  destruct (initRealityKeys_frame env w h) as (Hcfg & _ & Hkey).
  destruct (initRealityKeys env w h) as [[r0 w1] e1].
  unfold out_world, out_events in Hcfg, Hkey. cbn [fst snd] in Hcfg, Hkey.
  unfold FetchNodeConfig. msimpl. rewrite Hcfg.
  match goal with
  | |- context [resolveConfig ?f w1 ?h2] =>
      destruct (resolveConfig_run f w1 h2) as (res & w2 & Hres & _);
      exists e1, w1, f, res, w2, h2
  end.
  rewrite Hres. destruct res as [e|].
  - exists h. repeat (split; [done|]). by rewrite !app_nil_r.
  - match goal with
    | |- context [launch env w2 ?h3] =>
        exists h3; destruct (launch env w2 h3) as [[v w3] e3]
    end.
    repeat (split; [done|]). unfold out_value, out_world, out_events.
    cbn [fst snd app]. by rewrite !app_nil_r.
Qed.

Lemma key_event_not_fetch e1 id r :
  Forall (fun e => is_key_event e = true) e1 -> EvFetchNodeConfig id r ∉ e1.
Proof.
  intros Hk Hin. rewrite Forall_forall in Hk. by specialize (Hk _ Hin).
Qed.


Lemma quiet_not_fetch evs id r : Forall quiet evs -> EvFetchNodeConfig id r ∉ evs.
Proof.
  intros Hq Hin. rewrite Forall_forall in Hq. by destruct (Hq _ Hin).
Qed.


(** The one configuration fetch of a start-up decides what the trace shows. *)
Lemma Start_fetched env w h id fetched :
  EvFetchNodeConfig id fetched ∈ out_events (Start env w h) ->
  exists e1 w1 res w2 h2 h3,
    Forall (fun e => is_key_event e = true) e1
    /\ cfg (agent w1) = cfg (agent w)
    /\ resolveConfig fetched w1 h2 = (res, w2, [])
    /\ Start env w h
       = match res with
         | Some e =>
             (Some e, w2, e1 ++ [EvFetchNodeConfig (Node_ID (cfg (agent w))) fetched])
         | None =>
             (out_value (launch env w2 h3), out_world (launch env w2 h3),
              e1 ++ EvFetchNodeConfig (Node_ID (cfg (agent w))) fetched
                 :: out_events (launch env w2 h3))
         end.
Proof.
  intros Hin.
  destruct (Start_run env w h)
    as (e1 & w1 & fetched' & res & w2 & h2 & h3 & Hkey & Hcfg & Hres & Hrun).
  assert (fetched' = fetched) as ->; [|by exists e1, w1, res, w2, h2, h3].
  rewrite Hrun in Hin. destruct res as [e|];
    unfold out_events in Hin; cbn [snd] in Hin;
    apply elem_of_app in Hin as [Hin|Hin];
    try (by apply key_event_not_fetch in Hin).
  - apply list_elem_of_singleton in Hin. by inversion Hin.
  - apply elem_of_cons in Hin as [Hin|Hin]; [by inversion Hin|].
    destruct (launch_run env w2 h3) as (pre & r & post & Hev & Hpre & Hpost & _).
    unfold out_events in Hev. rewrite Hev in Hin.
    apply elem_of_app in Hin as [Hin|Hin]; [by apply quiet_not_fetch in Hin|].
    apply elem_of_cons in Hin as [Hin|Hin]; [done|by apply quiet_not_fetch in Hin].
Qed.

(** C8. Fatal configuration error: if the node configuration served by the
    controller has Reality enabled and an empty destination, an empty
    server-name set or an empty short-identifier set, [Start] returns the
    error that names the missing field (the destination first) and the
    engine start is never called. *)
Theorem Start_reality_misconfigured env w h id nodeConfig :
  let out := Start env w h in
  EvFetchNodeConfig id (Ok nodeConfig) ∈ out_events out ->
  nc_RealityEnabled nodeConfig = true ->
  nc_RealityDest nodeConfig = ""%string
  \/ nc_RealityServerNames nodeConfig = ""%string
  \/ nc_RealityShortIds nodeConfig = ""%string ->
  (exists e, out_value out = Some e
             /\ e ∈ [err_RealityDest; err_RealityServerNames; err_RealityShortIds])
  /\ (nc_RealityDest nodeConfig = ""%string -> out_value out = Some err_RealityDest)
  /\ Forall (fun ev => is_engine_start ev = false) (out_events out).
Proof.
  intros out Hin Hre Hmissing. subst out.
  destruct (Start_fetched env w h id (Ok nodeConfig) Hin)
    as (e1 & w1 & res & w2 & h2 & h3 & Hkey & Hcfg & Hres & Hrun).
  destruct (resolveConfig_run (Ok nodeConfig) w1 h2)
    as (res' & w2' & Hres' & _ & Hcases).
  rewrite Hres in Hres'. injection Hres' as <- <-.
  destruct (Hcases Hre) as (Hdest & Hnames & Hids).
  assert (Herr : exists e, res = Some e
            /\ e ∈ [err_RealityDest; err_RealityServerNames; err_RealityShortIds]
            /\ (nc_RealityDest nodeConfig = ""%string -> e = err_RealityDest)).
  { destruct (decide (nc_RealityDest nodeConfig = ""%string)) as [Hd|Hd].
    { eexists. split; [by apply Hdest|]. split; [by left|done]. }
    destruct (decide (nc_RealityServerNames nodeConfig = ""%string)) as [Hn|Hn].
    { eexists. split; [by apply Hnames|]. split; [by right; left|done]. }
    destruct Hmissing as [?|[?|Hs]]; [done|done|].
    eexists. split; [by apply Hids|]. split; [by right; right; left|done]. }
  destruct Herr as (e & -> & Hmem & Hfirst).
  rewrite Hrun. unfold out_value, out_events. cbn [fst snd].
  split; [by exists e|]. split; [by intros ->%Hfirst|].
  apply Forall_app. split.
  - eapply Forall_impl; [exact Hkey|]. by intros [].
  - by repeat constructor.
Qed.


(** ** The theorems at concrete inputs *)

Ltac solve_elem_of :=
  vm_compute; repeat first [apply list_elem_of_here | apply list_elem_of_further].

Example Base64_known_answers :
  Base64.EncodeToString (list_ascii_of_string "foobar") = "Zm9vYmFy"%string
  /\ Base64.EncodeToString (list_ascii_of_string "fo") = "Zm8"%string
  /\ Base64.DecodeString "Zm9vYg" = Some (list_ascii_of_string "foob")
  /\ Base64.DecodeString "Z" = None
  /\ Base64.DecodeString "Zm8=" = None.
Proof. repeat split; reflexivity. Qed.

Lemma syncUsers_fetch_failure_atomic_witness :
  out_value (syncUsers syncDownEnv carolWorld []) = Some "sync request failed"%string
  /\ Forall (fun ev => is_engine_call ev = false)
            (out_events (syncUsers syncDownEnv carolWorld []))
  /\ currentUsers (agent (out_world (syncUsers syncDownEnv carolWorld [])))
     = currentUsers (agent carolWorld)
  /\ out_world (syncUsers syncDownEnv carolWorld []) = carolWorld.
Proof.
  apply (syncUsers_fetch_failure_atomic syncDownEnv carolWorld []
           "sync request failed"%string).
  reflexivity.
Defined.

Lemma syncUsers_convergence_witness :
  out_value (syncUsers onlineEnv newWorld []) = None
  /\ dom (currentUsers (agent (out_world (syncUsers onlineEnv newWorld []))))
     = identifiers [alice; bob]
  /\ currentUsers (agent (out_world (syncUsers onlineEnv newWorld [])))
     = panelUsersOf [alice; bob].
Proof.
  apply (syncUsers_convergence onlineEnv newWorld [] [alice; bob]).
  - reflexivity.
  - reflexivity.
  - vm_compute. repeat constructor.
Defined.

Lemma syncUsers_idempotent_witness :
  let out1 := syncUsers onlineEnv carolWorld [] in
  let out2 := syncUsers onlineEnv (out_world out1) (out_events out1) in
  out_value out2 = None
  /\ Forall (fun ev => is_engine_call ev = false) (out_events out2)
  /\ out_events out2 = [EvFetchUserSync 1 (Ok [bob; alice])]
  /\ currentUsers (agent (out_world out2)) = currentUsers (agent (out_world out1))
  /\ out_world out2 = out_world out1.
Proof.
  apply (syncUsers_idempotent onlineEnv carolWorld [] [alice; bob]
           (out_world (syncUsers onlineEnv carolWorld []))
           (out_events (syncUsers onlineEnv carolWorld [])) [bob; alice]).
  - reflexivity.
  - vm_compute. repeat constructor.
  - reflexivity.
  - reflexivity.
  - vm_compute. reflexivity.
Defined.

Lemma trackActivity_delta_semantics_witness :
  let out := trackActivity onlineEnv trackedWorld [] in
  exists st',
    activityCache (agent (out_world out)) !! "alice@example.com"%string = Some st'
    /\ LastUplink st' = 150 /\ LastDownlink st' = 50
    /\ IsActive st' = true /\ LastSeen st' = 1000 * Second.
Proof.
  intros out.
  destruct (trackActivity_delta_semantics onlineEnv trackedWorld []
              "alice@example.com"%string
              {| UploadBytes := 150; DownloadBytes := 50 |})
    as (st' & Hcache & Hup & Hdown & Hcase).
  - solve_elem_of.
  - exists st'. split; [exact Hcache|]. split; [exact Hup|]. split; [exact Hdown|].
    change (activityCache (agent trackedWorld) !! "alice@example.com"%string)
      with (Some aliceBaseline) in Hcase.
    destruct Hcase as (_ & _ & Hmore).
    apply Hmore; unfold is_counter, maxInt64; simpl; lia.
Defined.

Lemma LoadOrCreateRealityKeys_roundtrip_witness :
  let out1 := LoadOrCreateRealityKeys onlineEnv "reality_private.key" newWorld [] in
  let out2 := LoadOrCreateRealityKeys onlineEnv "reality_private.key"
                (out_world out1) ([] ++ out_events out1) in
  exists keys1 keys2,
    out_value out1 = (Some keys1, true, None)
    /\ out_value out2 = (Some keys2, false, None)
    /\ PublicKey keys2 = PublicKey keys1.
Proof.
  intros out1 out2.
  destruct (out_value out1) as [[[keys1|] isNew] err] eqn:Hfirst;
    [|by vm_compute in Hfirst].
  assert (Hnew : out_value out1 = (Some keys1, true, None)).
  { rewrite Hfirst. vm_compute in Hfirst. by injection Hfirst as <- <- <-. }
  destruct (LoadOrCreateRealityKeys_roundtrip onlineEnv "reality_private.key"
              newWorld [] keys1 Hnew)
    as (keys2 & Hsecond & Hpub & _).
  exists keys1, keys2. rewrite Hfirst in Hnew. by repeat split.
Defined.

Lemma Start_reality_misconfigured_witness :
  out_value (Start realityEnv newWorld []) = Some err_RealityDest
  /\ Forall (fun ev => is_engine_start ev = false)
            (out_events (Start realityEnv newWorld [])).
Proof.
  destruct (Start_reality_misconfigured realityEnv newWorld [] 1%N
              (realityNodeConfig ""))
    as (_ & Hdest & Hnostart).
  - solve_elem_of.
  - reflexivity.
  - left. reflexivity.
  - split; [by apply Hdest|exact Hnostart].
Defined.



(** C4 (the code departs from it). After a tick of [reportActivity] the
    record of an identity that has left [currentUsers] is still in the
    activity cache, unchanged: in [staleWorld], whatever the environment
    answers, [alice] is not provisioned and her record stays.  The tick never
    calls [cleanupActivityCache], the function that would drop it
    ([cleanupActivityCache_spec]). *)
Theorem reportActivity_leaves_stale_record env h :
  let out := reportActivity env staleWorld h in
  currentUsers (agent (out_world out)) !! "alice@example.com"%string = None
  /\ activityCache (agent (out_world out)) !! "alice@example.com"%string
     = Some aliceBaseline.
Proof.
  intros out. subst out.
  destruct (reportActivity_keeps_records env staleWorld h "alice@example.com"%string)
    as [Hcache Hcur]; [reflexivity|].
  split; [exact Hcur|]. rewrite Hcache. reflexivity.
Qed.

(** * The loops, once more *)

(** ** Reconciliation *)

Lemma panelUsersOf_lookup users k :
  panelUsersOf users !! k = last_entry k users.
Proof.
  unfold last_entry.
  induction users as [|u users IH] using rev_ind; [done|].
  rewrite panelUsersOf_snoc, filter_app.
  destruct (decide (uc_Email u = k)) as [<-|Hne].
  - rewrite lookup_insert_eq, filter_cons_True by done.
    rewrite filter_nil. by rewrite last_snoc.
  - rewrite lookup_insert_ne by done.
    rewrite filter_cons_False by done. rewrite filter_nil, app_nil_r. exact IH.
Qed.

Lemma panelUsersOf_email users k v :
  panelUsersOf users !! k = Some v -> uc_Email v = k.
Proof.
  rewrite panelUsersOf_lookup. unfold last_entry. intros Hl.
  apply last_Some_elem_of in Hl. by apply list_elem_of_filter in Hl as [? _].
Qed.

Lemma world_eta w : {| agent := agent w; fs := fs w |} = w.
Proof. by destruct w. Qed.

Lemma agent_eta a : set_currentUsers (currentUsers a) a = a.
Proof. by destruct a. Qed.

Lemma filter_ext_in {A : Type} (P Q : A -> Prop)
    `{forall x, Decision (P x)} `{forall x, Decision (Q x)} (l : list A) :
  (forall x, x ∈ l -> P x <-> Q x) -> filter P l = filter Q l.
Proof.
  induction l as [|x l IH]; intros Hl; [done|].
  assert (Hx : P x <-> Q x) by (apply Hl; by left).
  assert (Hrest : filter P l = filter Q l).
  { apply IH. intros y Hy. apply Hl. by right. }
  destruct (decide (P x)) as [HP|HP].
  - rewrite !filter_cons_True by tauto. by rewrite Hrest.
  - rewrite !filter_cons_False by tauto. done.
Qed.

Lemma addMissing_absent env p w h :
  currentUsers (agent w) !! p.1 = None ->
  exists r,
    addMissing env p w h
    = (tt,
       match r with
       | Some _ => w
       | None => {| agent := set_currentUsers (<[p.1 := p.2]> (currentUsers (agent w)))
                               (agent w);
                    fs := fs w |}
       end,
       [EvAddUser {| xu_Email := uc_Email p.2; xu_UUID := uc_UUID p.2; xu_Level := 0;
                     xu_Protocol := Protocol (Xray (cfg (agent w)));
                     xu_Flow := if RealityEnabled (Xray (cfg (agent w)))
                                then "xtls-rprx-vision"%string else ""%string |} r]).
Proof.
  intros Hn. unfold addMissing, getAgent. rewrite run_bind. rewrite Hn.
  unfold AddUser, call. rewrite run_bind.
  destruct (xray_AddUser env (h ++ []) _) as [e|] eqn:R.
  - by exists (Some e).
  - by exists None.
Qed.

Lemma added_requested (evs : list Event) k :
  k ∈ omap added evs -> k ∈ xu_Email <$> omap add_request evs.
Proof.
  induction evs as [|e evs IH]; [done|].
  destruct e as [| | | |u [err|]| | | | | | | | | | | | |]; cbn; try exact IH.
  - intros Hk. right. by apply IH.
  - rewrite !elem_of_cons. intros [->|Hk]; [by left|right; by apply IH].
Qed.

Lemma removed_requested (evs : list Event) k :
  k ∈ omap removed evs -> k ∈ omap remove_request evs.
Proof.
  induction evs as [|e evs IH]; [done|].
  destruct e as [| | | | |m [err|]| | | | | | | | | | | |]; cbn; try exact IH.
  - intros Hk. right. by apply IH.
  - rewrite !elem_of_cons. intros [->|Hk]; [by left|right; by apply IH].
Qed.

(** The calls of the first loop: one for each entry whose identifier is not
    provisioned, in the order of the iteration. *)
Lemma addLoop_requests env entries :
  NoDup entries.*1 ->
  forall w h,
    let out := forM_ entries (addMissing env) w h in
    omap add_request (out_events out)
    = (fun p => {| xu_Email := uc_Email p.2; xu_UUID := uc_UUID p.2; xu_Level := 0;
                   xu_Protocol := Protocol (Xray (cfg (agent w)));
                   xu_Flow := if RealityEnabled (Xray (cfg (agent w)))
                              then "xtls-rprx-vision"%string else ""%string |})
      <$> filter (fun p => currentUsers (agent w) !! p.1 = None) entries.
Proof.
  induction entries as [|p entries IH]; intros Hnd w h out; subst out; [done|].
  rewrite fmap_cons in Hnd. apply NoDup_cons in Hnd as [Hp Hnd].
  rewrite run_forM_cons.
  destruct (currentUsers (agent w) !! p.1) as [v|] eqn:Hv.
  - destruct (addMissing_run env p w h) as [[_ ->]|[Hn _]]; [|congruence].
    specialize (IH Hnd w (h ++ [])). cbv zeta in IH.
    destruct (forM_ entries (addMissing env) w (h ++ [])) as [[[] w2] e2].
    unfold out_events in *. cbn [fst snd app] in *.
    rewrite IH. rewrite filter_cons_False; [done|]. by rewrite Hv.
  - destruct (addMissing_absent env p w h Hv) as (r & ->).
    match goal with
    | |- context [forM_ entries (addMissing env) ?w1 ?h1] =>
        specialize (IH Hnd w1 h1); cbv zeta in IH;
        destruct (forM_ entries (addMissing env) w1 h1) as [[[] w2] e2]
    end.
    unfold out_events in *. cbn [fst snd app omap list_omap add_request] in *.
    rewrite IH. rewrite (filter_cons_True _ p) by done. rewrite fmap_cons.
    f_equal. destruct r as [e|]; [done|].
    cbn [agent cfg set_currentUsers currentUsers]. f_equal.
    apply filter_ext_in. intros q Hq.
    rewrite lookup_insert_ne; [done|]. intros Heq. apply Hp. rewrite Heq.
    apply list_elem_of_fmap. by exists q.
Qed.

(** The state the first loop leaves. *)
Lemma addLoop_outcome env entries :
  NoDup entries.*1 ->
  Forall (fun p => uc_Email p.2 = p.1) entries ->
  forall w h,
    let out := forM_ entries (addMissing env) w h in
    (forall k,
       currentUsers (agent (out_world out)) !! k
       = match currentUsers (agent w) !! k with
         | Some v => Some v
         | None => if decide (k ∈ omap added (out_events out))
                   then (list_to_map entries : gmap string UserConfig) !! k else None
         end)
    /\ out_world out
       = {| agent := set_currentUsers (currentUsers (agent (out_world out))) (agent w);
            fs := fs w |}.
Proof.
  induction entries as [|p entries IH]; intros Hnd Hkey w h out; subst out.
  - cbn. unfold out_world, out_events; cbn. split.
    + intros k. by destruct (currentUsers (agent w) !! k).
    + by rewrite agent_eta, world_eta.
  - pose proof (addLoop_requests env (p :: entries) Hnd w h) as Hreq.
    cbv zeta in Hreq.
    rewrite fmap_cons in Hnd. apply NoDup_cons in Hnd as [Hp Hnd].
    apply Forall_cons in Hkey as [Hk Hkey].
    rewrite run_forM_cons in Hreq |- *.
    destruct (currentUsers (agent w) !! p.1) as [v|] eqn:Hv.
    + destruct (addMissing_run env p w h) as [[_ Hrun]|[Hn _]]; [|congruence].
      rewrite Hrun in *. clear Hrun.
      destruct (IH Hnd Hkey w (h ++ [])) as (IH1 & IH4).
      destruct (forM_ entries (addMissing env) w (h ++ [])) as [[[] w2] e2].
      unfold out_world, out_events in *. cbn [fst snd app] in *.
      split; [|exact IH4].
      intros k. rewrite IH1. destruct (currentUsers (agent w) !! k) eqn:Hc; [done|].
      case_decide as Hd; [|done]. cbn. rewrite lookup_insert_ne; [done|].
      intros <-. congruence.
    + destruct (addMissing_absent env p w h Hv) as (r & Hrun).
      rewrite Hrun in *. clear Hrun.
      match goal with
      | |- context [forM_ entries (addMissing env) ?w1 ?h1] =>
          destruct (IH Hnd Hkey w1 h1) as (IH1 & IH4);
          pose proof (addLoop_requests env entries Hnd w1 h1) as Hreq';
          cbv zeta in Hreq';
          destruct (forM_ entries (addMissing env) w1 h1) as [[[] w2] e2]
      end.
      unfold out_world, out_events in *. cbn [fst snd app] in *.
      assert (Hfresh : p.1 ∉ omap added e2).
      { intros Hin. apply added_requested in Hin. rewrite Hreq' in Hin.
        apply Hp. apply list_elem_of_fmap in Hin as (u & -> & Hin).
        apply list_elem_of_fmap in Hin as (q & -> & Hin).
        apply list_elem_of_filter in Hin as [_ Hin]. cbn.
        apply list_elem_of_fmap. exists q. split; [|done].
        by eapply (proj1 (Forall_forall _ _) Hkey). }
      destruct r as [e|].
      * split; [|exact IH4].
        intros k. rewrite IH1. cbn [omap list_omap added].
        destruct (currentUsers (agent w) !! k) eqn:Hc; [done|].
        case_decide as Hd; [|done]. cbn. rewrite lookup_insert_ne; [done|].
        intros <-. done.
      * cbn [agent currentUsers set_currentUsers cfg] in *. split.
        -- intros k. rewrite IH1. cbn [omap list_omap added xu_Email].
           rewrite Hk.
           destruct (decide (p.1 = k)) as [<-|Hne].
           ++ rewrite lookup_insert_eq, Hv.
              rewrite decide_True by (by left). cbn. by rewrite lookup_insert_eq.
           ++ rewrite lookup_insert_ne by done.
              destruct (currentUsers (agent w) !! k) eqn:Hc; [done|].
              cbn. rewrite lookup_insert_ne by done.
              repeat case_decide; try done; exfalso;
                rewrite ?elem_of_cons in *; intuition congruence.
        -- rewrite IH4 at 1. cbn. by destruct (agent w).
Qed.

Lemma removeStale_absent env panelUsers p w h :
  panelUsers !! p.1 = None ->
  exists r,
    removeStale env panelUsers p w h
    = (tt,
       match r with
       | Some _ => w
       | None => {| agent := set_currentUsers (delete p.1 (currentUsers (agent w)))
                               (agent w);
                    fs := fs w |}
       end,
       [EvRemoveUser p.1 r]).
Proof.
  intros Hn.
  destruct (removeStale_run env panelUsers p w h) as [[[v Hv] _]|[_ Hrun]];
    [congruence|exact Hrun].
Qed.

(** The calls and the state of the second loop. *)
Lemma removeLoop_outcome env panelUsers entries : forall w h,
  let out := forM_ entries (removeStale env panelUsers) w h in
  omap remove_request (out_events out)
  = filter (fun k => panelUsers !! k = None) entries.*1
  /\ (forall k,
        currentUsers (agent (out_world out)) !! k
        = if decide (k ∈ omap removed (out_events out)) then None
          else currentUsers (agent w) !! k)
  /\ out_world out
     = {| agent := set_currentUsers (currentUsers (agent (out_world out))) (agent w);
          fs := fs w |}.
Proof.
  induction entries as [|p entries IH]; intros w h out; subst out.
  - cbn. unfold out_world, out_events; cbn. split; [done|]. split.
    + intros k. rewrite decide_False; [done|]. apply not_elem_of_nil.
    + by rewrite agent_eta, world_eta.
  - rewrite run_forM_cons, fmap_cons.
    destruct (panelUsers !! p.1) as [v|] eqn:Hv.
    + destruct (removeStale_run env panelUsers p w h) as [[_ ->]|[Hn _]]; [|congruence].
      destruct (IH w (h ++ [])) as (IH1 & IH2 & IH3).
      destruct (forM_ entries (removeStale env panelUsers) w (h ++ [])) as [[[] w2] e2].
      unfold out_world, out_events in *. cbn [fst snd app] in *.
      rewrite filter_cons_False by (by rewrite Hv). done.
    + destruct (removeStale_absent env panelUsers p w h Hv) as (r & ->).
      match goal with
      | |- context [forM_ entries (removeStale env panelUsers) ?w1 ?h1] =>
          destruct (IH w1 h1) as (IH1 & IH2 & IH3);
          destruct (forM_ entries (removeStale env panelUsers) w1 h1) as [[[] w2] e2]
      end.
      unfold out_world, out_events in *.
      cbn [fst snd app omap list_omap remove_request] in *.
      rewrite filter_cons_True by done. split; [by rewrite IH1|].
      destruct r as [e|]; cbn [omap list_omap removed]; [by split|].
      cbn [agent currentUsers set_currentUsers cfg] in *. split.
      * intros k. rewrite IH2.
        destruct (decide (p.1 = k)) as [<-|Hne].
        -- rewrite lookup_delete_eq. rewrite (decide_True (P := p.1 ∈ p.1 :: _)) by (by left).
           by case_decide.
        -- rewrite lookup_delete_ne by done.
           repeat case_decide; try done; exfalso;
             rewrite ?elem_of_cons in *; intuition congruence.
      * rewrite IH3 at 1. cbn. by destruct (agent w).
Qed.

Lemma omap_added_removes (evs : list Event) :
  Forall (fun e => exists m r, e = EvRemoveUser m r) evs ->
  omap added evs = [] /\ omap add_request evs = [].
Proof.
  induction 1 as [|e evs (m & r & ->) _ [IH1 IH2]]; [done|]. cbn. by rewrite IH1, IH2.
Qed.

Lemma omap_removed_adds (evs : list Event) :
  Forall (fun e => exists u r, e = EvAddUser u r) evs ->
  omap removed evs = [] /\ omap remove_request evs = [].
Proof.
  induction 1 as [|e evs (u & r & ->) _ [IH1 IH2]]; [done|]. cbn.
  rewrite IH1, IH2. by destruct r.
Qed.

(** A pass whose fetch succeeded, step by step. *)
Lemma syncUsers_pass env w h users :
  panel_FetchUserSync env h (Node_ID (cfg (agent w))) = Ok users ->
  exists adds removes w1 w2,
    syncUsers env w h
    = (None, w2, EvFetchUserSync (Node_ID (cfg (agent w))) (Ok users) :: adds ++ removes)
    /\ Forall (fun e => exists u r, e = EvAddUser u r) adds
    /\ Forall (fun e => exists m r, e = EvRemoveUser m r) removes
    /\ (exists entries,
          entries ≡ₚ map_to_list (panelUsersOf users)
          /\ omap add_request adds
             = (fun p => {| xu_Email := uc_Email p.2; xu_UUID := uc_UUID p.2;
                            xu_Level := 0;
                            xu_Protocol := Protocol (Xray (cfg (agent w)));
                            xu_Flow := if RealityEnabled (Xray (cfg (agent w)))
                                       then "xtls-rprx-vision"%string
                                       else ""%string |})
               <$> filter (fun p => currentUsers (agent w) !! p.1 = None) entries)
    /\ (forall k,
          currentUsers (agent w1) !! k
          = match currentUsers (agent w) !! k with
            | Some v => Some v
            | None => if decide (k ∈ omap added adds)
                      then panelUsersOf users !! k else None
            end)
    /\ (exists current,
          current ≡ₚ map_to_list (currentUsers (agent w1))
          /\ omap remove_request removes
             = filter (fun k => panelUsersOf users !! k = None) current.*1)
    /\ (forall k,
          currentUsers (agent w2) !! k
          = if decide (k ∈ omap removed removes) then None
            else currentUsers (agent w1) !! k)
    /\ w2 = {| agent := set_currentUsers (currentUsers (agent w2)) (agent w);
               fs := fs w |}.
Proof.
  intros Hfetch.
  destruct (syncUsers_fetched env w h users Hfetch)
    as (entries & current & h1 & h2 & Hentries & Hcurrent & Hrun).
  cbv zeta in Hcurrent, Hrun.
  assert (Hnd : NoDup entries.*1).
  { rewrite Hentries. apply NoDup_fst_map_to_list. }
  assert (Hkey : Forall (fun p => uc_Email p.2 = p.1) entries).
  { apply Forall_forall. intros p Hp.
    eapply panelUsersOf_email, elem_of_range; [exact Hentries|exact Hp]. }
  pose proof (addLoop_events env entries w h1) as Hadds.
  pose proof (addLoop_requests env entries Hnd w h1) as Hreq.
  destruct (addLoop_outcome env entries Hnd Hkey w h1) as (Hst1 & Hw1).
  rewrite (list_to_map_range _ _ Hentries) in Hst1.
  set (o1 := forM_ entries (addMissing env) w h1) in *.
  pose proof (removeLoop_events env (panelUsersOf users) current (out_world o1) h2)
    as Hrems.
  destruct (removeLoop_outcome env (panelUsersOf users) current (out_world o1) h2)
    as (Hreq2 & Hst2 & Hw2).
  set (o2 := forM_ current (removeStale env (panelUsersOf users)) (out_world o1) h2) in *.
  exists (out_events o1), (out_events o2), (out_world o1), (out_world o2).
  split; [exact Hrun|]. split; [exact Hadds|]. split; [exact Hrems|].
  split; [exists entries; split; [exact Hentries|exact Hreq]|]. split; [exact Hst1|].
  split; [exists current; split; [exact Hcurrent|exact Hreq2]|]. split; [exact Hst2|].
  rewrite Hw2 at 1. f_equal.
  - rewrite Hw1. reflexivity.
  - rewrite Hw1. reflexivity.
Qed.

Lemma NoDup_fst_filter {V : Type} (P : string * V -> Prop)
    `{forall p, Decision (P p)} (l : list (string * V)) :
  NoDup l.*1 -> NoDup (filter P l).*1.
Proof.
  intros Hnd. eapply sublist_NoDup; [exact Hnd|].
  apply fmap_sublist, sublist_filter.
Qed.

(** X1. The engine calls of a pass. When the fetch succeeds, the events of
    [syncUsers] are the fetch, then the add requests, then the remove
    requests. There is one add request for every fetched identifier that is
    not provisioned, and no other; it carries the UUID of the last fetched
    entry with that identifier, level 0, the protocol of the configuration,
    and the flow "xtls-rprx-vision" exactly when Reality is enabled. There is
    one remove request for every provisioned identifier that was not fetched,
    and no other. *)
Theorem syncUsers_engine_calls env w h users :
  panel_FetchUserSync env h (Node_ID (cfg (agent w))) = Ok users ->
  exists adds removes,
    out_events (syncUsers env w h)
    = EvFetchUserSync (Node_ID (cfg (agent w))) (Ok users) :: adds ++ removes
    /\ Forall (is_add_for (Xray (cfg (agent w))) users) adds
    /\ xu_Email <$> omap add_request adds
       ≡ₚ elements (identifiers users ∖ dom (currentUsers (agent w)))
    /\ Forall is_remove removes
    /\ omap remove_request removes
       ≡ₚ elements (dom (currentUsers (agent w)) ∖ identifiers users).
Proof.
  intros Hfetch.
  destruct (syncUsers_pass env w h users Hfetch)
    as (adds & removes & w1 & w2 & Hrun & Hadds & Hrems
        & (entries & Hentries & Hreq) & Hst1 & (current & Hcurrent & Hreq2) & _ & _).
  exists adds, removes. rewrite Hrun. split; [reflexivity|].
  assert (Hnd : NoDup entries.*1).
  { rewrite Hentries. apply NoDup_fst_map_to_list. }
  assert (Hkey : forall p, p ∈ entries ->
                  panelUsersOf users !! p.1 = Some p.2 /\ uc_Email p.2 = p.1).
  { intros p Hp. pose proof (elem_of_range _ _ _ Hentries Hp) as Hl.
    split; [exact Hl|]. by eapply panelUsersOf_email. }
  split; [|split; [|split; [exact Hrems|]]].
  - apply Forall_forall. intros e He.
    destruct (proj1 (Forall_forall _ _) Hadds e He) as (u & r & ->).
    assert (Hu : u ∈ omap add_request adds).
    { apply list_elem_of_omap. by exists (EvAddUser u r). }
    rewrite Hreq in Hu. apply list_elem_of_fmap in Hu as (p & -> & Hp).
    apply list_elem_of_filter in Hp as [_ Hp].
    destruct (Hkey p Hp) as [Hl Hk].
    eexists _, r, p.2. split; [reflexivity|]. cbn.
    rewrite Hk, <- panelUsersOf_lookup. done.
  - rewrite Hreq, <- list_fmap_compose.
    assert (Heq : (xu_Email ∘ (fun p : string * UserConfig =>
                     {| xu_Email := uc_Email p.2; xu_UUID := uc_UUID p.2; xu_Level := 0;
                        xu_Protocol := Protocol (Xray (cfg (agent w)));
                        xu_Flow := if RealityEnabled (Xray (cfg (agent w)))
                                   then "xtls-rprx-vision"%string else ""%string |}))
                  <$> filter (fun p => currentUsers (agent w) !! p.1 = None) entries
                  = (filter (fun p => currentUsers (agent w) !! p.1 = None) entries).*1).
    { apply Forall_fmap_ext_1, Forall_forall. intros p Hp.
      apply list_elem_of_filter in Hp as [_ Hp]. cbn. by apply Hkey. }
    rewrite Heq. apply NoDup_Permutation.
    + by apply NoDup_fst_filter.
    + apply NoDup_elements.
    + intros k. rewrite elem_of_elements, elem_of_difference, <- dom_panelUsersOf.
      rewrite !elem_of_dom, list_elem_of_fmap. split.
      * intros (p & -> & Hp). apply list_elem_of_filter in Hp as [Hn Hp].
        split; [by rewrite (proj1 (Hkey p Hp))|]. rewrite Hn. by intros [? ?].
      * intros [[v Hv] Hn]. exists (k, v). split; [done|].
        apply list_elem_of_filter. split.
        -- cbn. by apply eq_None_not_Some.
        -- rewrite Hentries. by apply elem_of_map_to_list.
  - rewrite Hreq2. apply NoDup_Permutation.
    + apply NoDup_filter. rewrite Hcurrent. apply NoDup_fst_map_to_list.
    + apply NoDup_elements.
    + intros k. rewrite elem_of_elements, elem_of_difference, <- dom_panelUsersOf.
      rewrite !elem_of_dom, list_elem_of_filter.
      rewrite (elem_of_range_keys _ _ k Hcurrent), Hst1.
      destruct (currentUsers (agent w) !! k) as [v|] eqn:Hc.
      * rewrite eq_None_not_Some. split; [intros [? _]; split; [by eexists|done]|].
        intros [_ ?]. split; [done|by eexists].
      * split.
        -- intros [Hn [v Hv]]. case_decide; [|done]. rewrite Hn in Hv. done.
        -- intros [[v Hv] _]. done.
Qed.

Lemma omap_added_pass users id adds removes :
  Forall (fun e => exists u r, e = EvAddUser u r) adds ->
  Forall (fun e => exists m r, e = EvRemoveUser m r) removes ->
  omap added (EvFetchUserSync id (Ok users) :: adds ++ removes) = omap added adds
  /\ omap removed (EvFetchUserSync id (Ok users) :: adds ++ removes)
     = omap removed removes.
Proof.
  intros Ha Hr. cbn [omap list_omap added removed]. rewrite !omap_app.
  rewrite (proj1 (omap_added_removes _ Hr)), (proj1 (omap_removed_adds _ Ha)).
  by rewrite app_nil_r.
Qed.

(** X2. What a pass leaves when engine calls fail. After a successful fetch
    [syncUsers] returns nil whatever the engine answered. An identifier that
    was provisioned and is still listed keeps its old record; one that is no
    longer listed is dropped only if its removal succeeded; a listed
    identifier that was not provisioned is recorded, with the last fetched
    entry, only if its add succeeded. Nothing else of the agent or of the file
    system changes. *)
Theorem syncUsers_partial_failure env w h users :
  panel_FetchUserSync env h (Node_ID (cfg (agent w))) = Ok users ->
  let out := syncUsers env w h in
  let a' := agent (out_world out) in
  out_value out = None
  /\ (forall k,
        currentUsers a' !! k
        = match currentUsers (agent w) !! k, last_entry k users with
          | Some v, Some _ => Some v
          | Some v, None =>
              if decide (k ∈ omap removed (out_events out)) then None else Some v
          | None, Some u =>
              if decide (k ∈ omap added (out_events out)) then Some u else None
          | None, None => None
          end)
  /\ cfg a' = cfg (agent w)
  /\ activityCache a' = activityCache (agent w)
  /\ realityKeys a' = realityKeys (agent w)
  /\ xrayAPI a' = xrayAPI (agent w)
  /\ fs (out_world out) = fs w.
Proof.
  intros Hfetch out a'. subst a' out.
  destruct (syncUsers_pass env w h users Hfetch)
    as (adds & removes & w1 & w2 & Hrun & Hadds & Hrems
        & _ & Hst1 & (current & Hcurrent & Hreq2) & Hst2 & Hw2).
  rewrite Hrun. unfold out_value, out_world, out_events. cbn [fst snd].
  destruct (omap_added_pass users (Node_ID (cfg (agent w))) adds removes Hadds Hrems)
    as [-> ->].
  split; [reflexivity|]. split.
  - intros k. rewrite Hst2, Hst1, <- panelUsersOf_lookup.
    assert (Hkeep : is_Some (panelUsersOf users !! k) -> k ∉ omap removed removes).
    { intros [v Hv] Hin. apply removed_requested in Hin. rewrite Hreq2 in Hin.
      apply list_elem_of_filter in Hin as [Hn _]. congruence. }
    destruct (currentUsers (agent w) !! k) as [v|] eqn:Hc;
      destruct (panelUsersOf users !! k) as [u|] eqn:Hp.
    + rewrite decide_False; [done|]. apply Hkeep. by eexists.
    + done.
    + rewrite (decide_False (P := k ∈ omap removed removes)); [done|].
      apply Hkeep. by eexists.
    + repeat case_decide; done.
  - rewrite Hw2. repeat split.
Qed.

Lemma syncUsers_partial_failure_witness :
  let out := syncUsers rejectBobEnv carolWorld [] in
  currentUsers (agent (out_world out)) !! "alice@example.com"%string = Some alice
  /\ currentUsers (agent (out_world out)) !! "bob@example.com"%string = None
  /\ currentUsers (agent (out_world out)) !! "carol@example.com"%string = Some carol.
Proof.
  intros out.
  destruct (syncUsers_partial_failure rejectBobEnv carolWorld [] [alice; bob])
    as (_ & Hst & _); [reflexivity|].
  fold out in Hst. rewrite !Hst. vm_compute. done.
Defined.

(** X3. Convergence from any provisioned set. If the fetch succeeds and no
    engine call of the pass fails, the provisioned identifiers after the pass
    are exactly the fetched ones, whatever was provisioned before; an
    identifier that was already provisioned keeps its old record, a new one
    gets the last fetched entry with its identifier. *)
Theorem syncUsers_converges_from_any_state env w h users :
  panel_FetchUserSync env h (Node_ID (cfg (agent w))) = Ok users ->
  let out := syncUsers env w h in
  Forall (fun e => add_failed e = false /\ remove_failed e = false) (out_events out) ->
  dom (currentUsers (agent (out_world out))) = identifiers users
  /\ forall k,
       currentUsers (agent (out_world out)) !! k
       = match last_entry k users with
         | Some u => Some (default u (currentUsers (agent w) !! k))
         | None => None
         end.
Proof.
  intros Hfetch out Hok. split.
  - exact (syncUsers_pass_dom env w h users Hfetch Hok).
  - intros k. rewrite <- panelUsersOf_lookup.
    exact (syncUsers_pass_lookup env w h users Hfetch Hok k).
Qed.

Lemma syncUsers_converges_from_any_state_witness :
  let out := syncUsers onlineEnv carolWorld [] in
  dom (currentUsers (agent (out_world out))) = identifiers [alice; bob]
  /\ forall k,
       currentUsers (agent (out_world out)) !! k
       = match last_entry k [alice; bob] with
         | Some u => Some (default u (currentUsers (agent carolWorld) !! k))
         | None => None
         end.
Proof.
  apply (syncUsers_converges_from_any_state onlineEnv carolWorld [] [alice; bob]).
  - reflexivity.
  - vm_compute. repeat constructor.
Defined.

Lemma syncUsers_engine_calls_witness :
  exists adds removes,
    out_events (syncUsers rejectBobEnv carolWorld [])
    = EvFetchUserSync 1 (Ok [alice; bob]) :: adds ++ removes
    /\ Forall (is_add_for localXray [alice; bob]) adds
    /\ xu_Email <$> omap add_request adds
       ≡ₚ elements (identifiers [alice; bob] ∖ dom (currentUsers (agent carolWorld)))
    /\ Forall is_remove removes
    /\ omap remove_request removes
       ≡ₚ elements (dom (currentUsers (agent carolWorld)) ∖ identifiers [alice; bob]).
Proof.
  apply (syncUsers_engine_calls rejectBobEnv carolWorld [] [alice; bob]).
  reflexivity.
Defined.

(** ** Activity *)

Lemma set_activityCache_eta a : set_activityCache (activityCache a) a = a.
Proof. by destruct a. Qed.

Lemma observe_flag now email stats cached :
  (observe now email stats cached).2 = IsActive (observe now email stats cached).1.
Proof. unfold observe. by destruct ((0 <? wrap64 _) || (0 <? wrap64 _)). Qed.

(** The set the tracking loop returns, and what it leaves untouched. *)
Lemma trackLoop_active env now entries :
  NoDup entries.*1 ->
  forall active w h,
    let out := foldM (trackUser env now) active entries w h in
    (forall k,
       k ∈ out_value out
       <-> k ∈ active
           \/ exists stats,
                sampled k (out_events out) = Some stats
                /\ (observe now k stats (activityCache (agent w) !! k)).2 = true)
    /\ Forall (fun e => exists email r, e = EvGetUserStats email r) (out_events out)
    /\ out_world out
       = {| agent := set_activityCache (activityCache (agent (out_world out))) (agent w);
            fs := fs w |}.
Proof.
  induction entries as [|p entries IH]; intros Hnd active w h out; subst out.
  - unfold out_value, out_world, out_events. cbn. split; [|split; [constructor|]].
    + intros k. split; [by left|]. by intros [?|(? & ? & _)].
    + by rewrite set_activityCache_eta, world_eta.
  - pose proof (trackLoop_spec env now entries) as Hspec.
    rewrite fmap_cons in Hnd. apply NoDup_cons in Hnd as [Hnot Hnd].
    rewrite run_foldM_cons.
    destruct (trackUser_run env now active p w h) as (r & ->).
    match goal with
    | |- context [foldM (trackUser env now) ?a1 entries ?w1 ?h1] =>
        destruct (IH Hnd a1 w1 h1) as (Hact & Hevs & Hw);
        destruct (Hspec Hnd a1 w1 h1) as (Hq & _ & _);
        destruct (foldM (trackUser env now) a1 entries w1 h1) as [[a2 w2] e2]
    end.
    unfold out_value, out_world, out_events in *. cbn [fst snd app] in *.
    assert (Hfresh : sampled p.1 e2 = None).
    { apply sampled_not_queried. by rewrite Hq. }
    split; [|split].
    + intros k. rewrite Hact. cbn [sampled]. destruct r as [stats|e].
      * cbn [agent activityCache set_activityCache].
        destruct (decide (p.1 = k)) as [<-|Hne].
        -- rewrite Hfresh.
           destruct (observe now p.1 stats (activityCache (agent w) !! p.1)).2 eqn:Hf.
           ++ split; [intros _; right; by exists stats|].
              intros _. left. apply elem_of_union_l. by apply elem_of_singleton.
           ++ split.
              ** intros [?|(? & ? & _)]; [by left|done].
              ** intros [?|(s & [= <-] & ?)]; [by left|congruence].
        -- rewrite lookup_insert_ne by done.
           destruct (observe now p.1 stats (activityCache (agent w) !! p.1)).2.
           ++ rewrite elem_of_union, elem_of_singleton. intuition congruence.
           ++ done.
      * done.
    + constructor; [by eexists _, _|exact Hevs].
    + rewrite Hw at 1. destruct r as [stats|e]; [|done]. reflexivity.
Qed.

Lemma trackActivity_empty env w h :
  currentUsers (agent w) = ∅ -> trackActivity env w h = (∅, w, []).
Proof.
  intros Hempty. unfold trackActivity, getAgent. rewrite run_bind.
  rewrite decide_True; [done|]. by rewrite Hempty.
Qed.

(** X4. What a tick of [trackActivity] touches and returns. Only the activity
    cache changes. A record is created or updated only for identities whose
    counters could be read, and these are provisioned identities; every other
    record is left as it was and none is removed. The identities returned as
    active are those that were sampled and whose record is now marked active.
    With nothing provisioned the tick does nothing, not even read the clock;
    otherwise it reads the clock once and then only queries counters. *)
Theorem trackActivity_effect env w h :
  let out := trackActivity env w h in
  let evs := out_events out in
  let cache' := activityCache (agent (out_world out)) in
  out_world out = {| agent := set_activityCache cache' (agent w); fs := fs w |}
  /\ (forall k, sampled k evs = None -> cache' !! k = activityCache (agent w) !! k)
  /\ (forall k, is_Some (cache' !! k)
                <-> is_Some (activityCache (agent w) !! k) \/ is_Some (sampled k evs))
  /\ (forall k, k ∈ out_value out
                <-> is_Some (sampled k evs)
                    /\ exists st, cache' !! k = Some st /\ IsActive st = true)
  /\ (forall k stats, sampled k evs = Some stats ->
                      is_Some (currentUsers (agent w) !! k))
  /\ (currentUsers (agent w) = ∅ -> evs = [] /\ out_value out = ∅)
  /\ (currentUsers (agent w) <> ∅ ->
      exists queries,
        evs = EvNow (time_Now env h) :: queries
        /\ Forall (fun e => exists email r, e = EvGetUserStats email r) queries).
Proof.
  intros out evs cache'. subst cache' evs out.
  pose proof (fun k => trackActivity_cache env w h k) as Hcache.
  pose proof (fun k => trackActivity_queried env w h k) as Hqueried.
  cbv zeta in Hcache.
  destruct (trackActivity_run env w h)
    as [[Hempty Hrun]|(entries & evs & active & w' & Hentries & Hloop & Hrun)].
  - rewrite Hrun in *. unfold out_value, out_world, out_events in *. cbn [fst snd] in *.
    split; [by rewrite set_activityCache_eta, world_eta|].
    split; [done|]. split; [intros k; cbn; split; [by left|by intros [?|[? ?]]]|].
    split; [intros k; cbn; split; [done|by intros [[? ?] _]]|].
    split; [done|]. split; [done|]. intros Hne. done.
  - assert (Hnd : NoDup entries.*1) by (rewrite Hentries; apply NoDup_fst_map_to_list).
    destruct (trackLoop_active env (time_Now env h) entries Hnd ∅ w
                (h ++ [EvNow (time_Now env h)])) as (Hact & Hevs & Hw).
    rewrite Hloop in Hact, Hevs, Hw.
    rewrite Hrun in *.
    unfold out_value, out_world, out_events in *.
    cbn [fst snd omap list_omap queried sampled] in *.
    split; [exact Hw|].
    split; [intros k Hk; destruct (Hcache k) as (_ & _ & ->); by rewrite Hk|].
    split.
    { intros k. destruct (Hcache k) as (_ & _ & ->).
      destruct (sampled k evs) as [stats|].
      - split; [intros _; right; by eexists|intros _; by eexists].
      - split; [by left|]. by intros [?|[? ?]]. }
    split.
    { intros k. rewrite Hact. destruct (Hcache k) as (_ & _ & ->).
      split.
      - intros [Hk|(stats & Hs & Hflag)]; [by apply elem_of_empty in Hk|].
        rewrite Hs. split; [by eexists|]. eexists. split; [reflexivity|].
        by rewrite <- observe_flag.
      - intros [[stats Hs] (st & Hst & Hactive)]. right. exists stats.
        split; [done|]. rewrite Hs in Hst. injection Hst as <-.
        by rewrite observe_flag. }
    split.
    { intros k stats Hs. apply Hqueried.
      destruct (decide (k ∈ omap queried evs)) as [|Hn]; [done|].
      by rewrite (sampled_not_queried k evs Hn) in Hs. }
    split.
    { intros Hempty. rewrite (trackActivity_empty env w h Hempty) in Hrun. done. }
    intros _. exists evs. done.
Qed.

Lemma devices_of_mono pre evs post report :
  devices_of evs report -> devices_of (pre ++ evs ++ post) report.
Proof.
  intros (Hc & Hnd & Hon). split; [done|]. split; [done|].
  destruct (ar_IsOnline report); [|done].
  destruct Hon as (r & Hin & Hr). exists r. split; [|done].
  rewrite !elem_of_app. auto.
Qed.

Lemma reportUser_full env activities p w h :
  exists new evs,
    reportUser env activities p w h = (activities ++ new, w, evs)
    /\ Forall (devices_of evs) new
    /\ omap is_ip_query evs
       = ar_Email <$> filter (fun report => ar_IsOnline report = true) new
    /\ Forall (fun e => is_panel_call e = false) evs
    /\ (LastSeen p.2 = 0 -> new = [] /\ evs = [])
    /\ (LastSeen p.2 <> 0 ->
        exists report, new = [report] /\ reports (time_Now env h) p.2 report).
Proof.
  destruct (reportUser_run env activities p w h)
    as [[Hzero Hrun]|[Hseen (report & Hval & Hrep)]].
  { exists [], []. rewrite Hrun, app_nil_r. repeat split; try done; constructor. }
  assert (Hgoal : exists report' evs,
             reportUser env activities p w h = (activities ++ [report'], w, evs)
             /\ devices_of evs report'
             /\ omap is_ip_query evs
                = ar_Email <$> filter (fun report => ar_IsOnline report = true) [report']).
  { clear Hval Hrep.
    unfold reportUser. cbv zeta. rewrite decide_False by done.
    rewrite run_bind.
    assert (Hdev : forall (ips : gmap string Z) (l : list (string * Z)),
               l ≡ₚ map_to_list ips ->
               NoDup l.*1 /\ forall ip, ip ∈ l.*1 <-> is_Some (ips !! ip)).
    { intros ips l Hl. split.
      - rewrite Hl. apply NoDup_fst_map_to_list.
      - intros ip. by apply elem_of_range_keys. }
    assert (Hnone : forall ips : gmap string Z, ¬ (0 < size ips)%nat ->
               forall ip, ip ∈ @nil string <-> is_Some (ips !! ip)).
    { intros ips Hsize ip. split; [by intros ?%elem_of_nil|].
      intros [v Hv]. exfalso. apply Hsize.
      destruct (decide (size ips = 0%nat)) as [Hz|]; [|lia].
      apply map_size_empty_iff in Hz. by rewrite Hz in Hv. }
    destruct (IsActive p.2) eqn:Hact.
    - unfold mret at 1, M_ret. cbn [ar_IsOnline]. cbn iota beta.
      unfold GetOnlineIPs, call. rewrite run_bind.
      destruct (xray_GetOnlineIPs env (h ++ []) (Email p.2)) as [ips|e] eqn:Hr.
      + case_decide as Hsize.
        * unfold rangeMap. rewrite run_bind.
          match goal with
          | |- context [@merge_sort _ ?R ?D (map_to_list ips)] =>
              destruct (Hdev ips (@merge_sort _ R D (map_to_list ips)))
                as [Hnd Hmem]; [apply merge_sort_Permutation|]
          end.
          eexists _, _. split; [reflexivity|]. split; [|done].
          split; [done|]. split; [exact Hnd|]. cbn.
          exists (Ok ips). split; [by left|exact Hmem].
        * eexists _, _. split; [reflexivity|]. split; [|done].
          split; [done|]. split; [constructor|]. cbn.
          exists (Ok ips). split; [by left|by apply Hnone].
      + eexists _, _. split; [reflexivity|]. split; [|done].
        split; [done|]. split; [constructor|]. cbn.
        exists (Err e). split; [by left|done].
    - unfold Now, call. rewrite run_bind.
      unfold mret at 1, M_ret. cbn [ar_IsOnline]. cbn iota beta.
      destruct (isOnline (time_Now env h) p.2) eqn:Hon.
      + unfold GetOnlineIPs, call. rewrite run_bind.
        destruct (xray_GetOnlineIPs env _ (Email p.2)) as [ips|e] eqn:Hr.
        * case_decide as Hsize.
          -- unfold rangeMap. rewrite run_bind.
             match goal with
             | |- context [@merge_sort _ ?R ?D (map_to_list ips)] =>
                 destruct (Hdev ips (@merge_sort _ R D (map_to_list ips)))
                   as [Hnd Hmem]; [apply merge_sort_Permutation|]
             end.
             eexists _, _. split; [reflexivity|]. split; [|done].
             split; [done|]. split; [exact Hnd|]. cbn.
             exists (Ok ips). split; [right; by left|exact Hmem].
          -- eexists _, _. split; [reflexivity|]. split; [|done].
             split; [done|]. split; [constructor|]. cbn.
             exists (Ok ips). split; [right; by left|by apply Hnone].
        * eexists _, _. split; [reflexivity|]. split; [|done].
          split; [done|]. split; [constructor|]. cbn.
          exists (Err e). split; [right; by left|done].
      + eexists _, _. split; [reflexivity|]. split; [|done].
        split; [done|]. split; [constructor|]. done. }
  destruct Hgoal as (report' & evs & Hrun & Hdev & Hq).
  pose proof (reportUser_no_panel_call env activities p w h) as Hquiet.
  rewrite Hrun in Hquiet. unfold out_events in Hquiet. cbn [snd] in Hquiet.
  exists [report'], evs. split; [exact Hrun|]. split; [by constructor|].
  split; [exact Hq|]. split; [exact Hquiet|]. split; [done|]. intros _.
  exists report'. split; [done|].
  rewrite Hrun in Hval. unfold out_value in Hval. cbn [fst] in Hval.
  apply app_inv_head in Hval. by injection Hval as ->.
Qed.

Lemma reportLoop_full env entries : forall activities w h,
  exists new evs,
    foldM (reportUser env) activities entries w h = (activities ++ new, w, evs)
    /\ Forall (devices_of evs) new
    /\ omap is_ip_query evs
       = ar_Email <$> filter (fun report => ar_IsOnline report = true) new
    /\ Forall (fun e => is_panel_call e = false) evs
    /\ (new = [] -> evs = [])
    /\ Forall2 (fun p report => exists pre, reports (time_Now env (h ++ pre)) p.2 report)
         (filter (fun p => LastSeen p.2 <> 0) entries) new.
Proof.
  induction entries as [|p entries IH]; intros activities w h.
  - exists [], []. cbn. rewrite app_nil_r. repeat split; constructor.
  - rewrite run_foldM_cons.
    destruct (reportUser_full env activities p w h)
      as (new1 & e1 & -> & Hdev1 & Hq1 & Hquiet1 & Hzero & Hseen).
    destruct (IH (activities ++ new1) w (h ++ e1))
      as (new2 & e2 & -> & Hdev2 & Hq2 & Hquiet2 & Hnil2 & Hall).
    exists (new1 ++ new2), (e1 ++ e2). split; [by rewrite app_assoc|].
    split.
    { apply Forall_app. split.
      - eapply Forall_impl; [exact Hdev1|]. intros r Hr.
        by apply (devices_of_mono [] e1 e2).
      - eapply Forall_impl; [exact Hdev2|]. intros r Hr.
        pose proof (devices_of_mono e1 e2 [] r Hr) as Hm. by rewrite app_nil_r in Hm. }
    split; [by rewrite omap_app, filter_app, fmap_app, Hq1, Hq2|].
    split; [by apply Forall_app|].
    destruct (decide (LastSeen p.2 = 0)) as [Hz|Hnz].
    + destruct (Hzero Hz) as [-> ->]. cbn [app].
      split; [exact Hnil2|].
      rewrite filter_cons_False by (intros ?; done).
      rewrite app_nil_r in Hall. exact Hall.
    + destruct (Hseen Hnz) as (report & -> & Hrep). cbn [app].
      split; [done|].
      rewrite filter_cons_True by done. constructor.
      * exists []. by rewrite app_nil_r.
      * eapply Forall2_impl; [exact Hall|].
        intros q rq (pre & Hq). exists (e1 ++ pre). by rewrite app_assoc.
Qed.

(** A tick of [reportActivity], step by step. *)
Lemma reportActivity_run env w h :
  exists active w1 e1 entries new e2,
    trackActivity env w h = (active, w1, e1)
    /\ entries ≡ₚ map_to_list (activityCache (agent w1))
    /\ foldM (reportUser env) [] entries w1 (h ++ e1) = (new, w1, e2)
    /\ match new with
       | [] => reportActivity env w h = (None, w1, e1 ++ e2)
       | _ :: _ =>
           exists t r,
             reportActivity env w h
             = (r, w1,
                e1 ++ e2 ++
                [EvNow t;
                 EvReportActivity {| arr_NodeID := Node_ID (cfg (agent w1));
                                     arr_Users := new; arr_Timestamp := t |} r])
       end.
Proof.
  unfold reportActivity. rewrite run_bind.
  destruct (trackActivity env w h) as [[active w1] e1].
  exists active, w1, e1.
  unfold getAgent, rangeMap. rewrite !run_bind. rewrite !app_nil_r.
  match goal with
  | |- context [foldM (reportUser env) [] ?l w1 (h ++ e1)] =>
      exists l;
      destruct (reportLoop_full env l [] w1 (h ++ e1)) as (new & e2 & Hloop & _)
  end.
  cbn [app] in Hloop. rewrite Hloop. exists new, e2.
  split; [done|]. split; [apply merge_sort_Permutation|]. split; [done|].
  destruct new as [|report new].
  { cbn. by rewrite app_nil_r. }
  unfold Now, ReportActivity, call. rewrite !run_bind. cbn.
  eexists _, _. reflexivity.
Qed.

Lemma trackActivity_frame env w h :
  let out := trackActivity env w h in
  out_world out
  = {| agent := set_activityCache (activityCache (agent (out_world out))) (agent w);
       fs := fs w |}.
Proof.
  intros out. subst out.
  destruct (trackActivity_run env w h)
    as [[Hempty ->]|(entries & evs & active & w' & Hentries & Hloop & ->)].
  - unfold out_world. cbn. by rewrite set_activityCache_eta, world_eta.
  - assert (Hnd : NoDup entries.*1) by (rewrite Hentries; apply NoDup_fst_map_to_list).
    destruct (trackLoop_active env (time_Now env h) entries Hnd ∅ w
                (h ++ [EvNow (time_Now env h)])) as (_ & _ & Hw).
    rewrite Hloop in Hw. exact Hw.
Qed.

Lemma trackActivity_events env w h :
  Forall (fun e => omap is_ip_query [e] = [] /\ is_panel_call e = false)
         (out_events (trackActivity env w h)).
Proof.
  destruct (trackActivity_run env w h)
    as [[Hempty ->]|(entries & evs & active & w' & Hentries & Hloop & ->)].
  - constructor.
  - assert (Hnd : NoDup entries.*1) by (rewrite Hentries; apply NoDup_fst_map_to_list).
    destruct (trackLoop_active env (time_Now env h) entries Hnd ∅ w
                (h ++ [EvNow (time_Now env h)])) as (_ & Hevs & _).
    rewrite Hloop in Hevs. unfold out_events in *. cbn [snd] in *.
    constructor; [done|]. eapply Forall_impl; [exact Hevs|].
    by intros e (email & r & ->).
Qed.

Lemma omap_nil_Forall {A B : Type} (f : A -> option B) (l : list A) :
  Forall (fun x => omap f [x] = []) l -> omap f l = [].
Proof.
  induction 1 as [|x l Hx _ IH]; [done|]. cbn in *. by destruct (f x).
Qed.

Lemma not_panel_call_report (evs : list Event) req r :
  Forall (fun e => is_panel_call e = false) evs -> EvReportActivity req r ∉ evs.
Proof. intros Hq Hin. rewrite Forall_forall in Hq. by specialize (Hq _ Hin). Qed.

(** X6. The device lists of an activity report. In every report that is sent,
    the device count of an entry is the length of its address list, which has
    no duplicates; an entry that is not online lists no address; an online
    entry went with a query of the engine for its identifier and lists exactly
    the addresses of the answer, or none if the query failed. The engine is
    asked for addresses once per online entry, in the order of the report, and
    for no one else. *)
Theorem reportActivity_device_lists env w h req r :
  let evs := out_events (reportActivity env w h) in
  EvReportActivity req r ∈ evs ->
  Forall (devices_of evs) (arr_Users req)
  /\ omap is_ip_query evs
     = ar_Email <$> filter (fun report => ar_IsOnline report = true) (arr_Users req).
Proof.
  intros evs Hin. subst evs.
  destruct (reportActivity_run env w h)
    as (active & w1 & e1 & entries & new & e2 & Htrack & Hentries & Hloop & Hrun).
  pose proof (trackActivity_events env w h) as Hevs. rewrite Htrack in Hevs.
  unfold out_events in Hevs. cbn [snd] in Hevs.
  assert (Hq1 : Forall (fun e => is_panel_call e = false) e1)
    by (eapply Forall_impl; [exact Hevs|]; by intros e [_ ?]).
  assert (Hip1 : omap is_ip_query e1 = []).
  { apply omap_nil_Forall. eapply Forall_impl; [exact Hevs|]. by intros e [? _]. }
  destruct (reportLoop_full env entries [] w1 (h ++ e1))
    as (new' & e2' & Hloop' & Hdev & Hq & Hquiet & _ & _).
  rewrite Hloop in Hloop'. injection Hloop' as <- <-.
  destruct new as [|report new].
  - rewrite Hrun in Hin. unfold out_events in Hin. cbn [snd] in Hin.
    apply elem_of_app in Hin as [Hin|Hin]; by apply not_panel_call_report in Hin.
  - destruct Hrun as (t & r' & Hrun). rewrite Hrun in Hin |- *.
    unfold out_events in *. cbn [snd] in *.
    apply elem_of_app in Hin as [Hin|Hin]; [by apply not_panel_call_report in Hin|].
    apply elem_of_app in Hin as [Hin|Hin]; [by apply not_panel_call_report in Hin|].
    apply elem_of_cons in Hin as [Hin|Hin]; [done|].
    apply list_elem_of_singleton in Hin. injection Hin as -> ->.
    cbn [arr_Users]. split.
    + eapply Forall_impl; [exact Hdev|]. intros x Hx. by apply devices_of_mono.
    + rewrite !omap_app, Hip1, Hq. cbn. by rewrite app_nil_r.
Qed.

Lemma reportActivity_device_lists_witness :
  let evs := out_events (reportActivity devicesEnv trackedWorld []) in
  Forall (devices_of evs) (arr_Users aliceOnTwoDevices)
  /\ omap is_ip_query evs = ["alice@example.com"%string].
Proof.
  apply (reportActivity_device_lists devicesEnv trackedWorld [] aliceOnTwoDevices
           (Some "request failed: timeout"%string)).
  vm_compute. repeat first [apply list_elem_of_here | apply list_elem_of_further].
Defined.

(** X5. What a tick of [reportActivity] sends and returns. The tick leaves the
    agent as [trackActivity] alone would. If no record has ever been seen
    active (every [LastSeen] is zero) nothing is sent and the result is nil.
    Otherwise exactly one report is sent, as the last event, right after a
    reading of the clock: it names the node, is stamped with that reading, and
    lists each record with a non-zero [LastSeen] once, with its identifier and
    its [LastSeen]; the result of the tick is the answer of the controller. *)
Theorem reportActivity_outcome env w h :
  let out := reportActivity env w h in
  let cache' := activityCache (agent (out_world out)) in
  let seen := filter (fun p => LastSeen p.2 <> 0) (map_to_list cache') in
  out_world out = out_world (trackActivity env w h)
  /\ (seen = [] ->
      out_value out = None
      /\ Forall (fun e => is_panel_call e = false) (out_events out))
  /\ (seen <> [] ->
      exists pre t req r,
        out_events out = pre ++ [EvNow t; EvReportActivity req r]
        /\ Forall (fun e => is_panel_call e = false) pre
        /\ out_value out = r
        /\ arr_NodeID req = Node_ID (cfg (agent w))
        /\ arr_Timestamp req = t
        /\ (fun report => (ar_Email report, ar_LastSeen report)) <$> arr_Users req
           ≡ₚ (fun p => (Email p.2, LastSeen p.2)) <$> seen).
Proof.
  intros out cache' seen. subst seen cache' out.
  destruct (reportActivity_run env w h)
    as (active & w1 & e1 & entries & new & e2 & Htrack & Hentries & Hloop & Hrun).
  pose proof (trackActivity_events env w h) as Hevs.
  pose proof (trackActivity_frame env w h) as Hframe. cbv zeta in Hframe.
  rewrite Htrack in Hevs, Hframe |- *.
  unfold out_events, out_world in Hevs, Hframe. cbn [fst snd] in Hevs, Hframe.
  assert (Hq1 : Forall (fun e => is_panel_call e = false) e1)
    by (eapply Forall_impl; [exact Hevs|]; by intros e [_ ?]).
  destruct (reportLoop_full env entries [] w1 (h ++ e1))
    as (new' & e2' & Hloop' & _ & _ & Hquiet & _ & Hall).
  rewrite Hloop in Hloop'. injection Hloop' as <- <-.
  assert (Hw : out_world (reportActivity env w h) = w1).
  { destruct new; [by rewrite Hrun|]. destruct Hrun as (t & r & ->). done. }
  rewrite Hw. change (out_world (active, w1, e1)) with w1.
  assert (Hperm : (fun report => (ar_Email report, ar_LastSeen report)) <$> new
                  ≡ₚ (fun p : string * UserActivityState => (Email p.2, LastSeen p.2))
                     <$> filter (fun p => LastSeen p.2 <> 0)
                           (map_to_list (activityCache (agent w1)))).
  { rewrite <- Hentries.
    assert (Heq : (fun report => (ar_Email report, ar_LastSeen report)) <$> new
                  = (fun p : string * UserActivityState => (Email p.2, LastSeen p.2))
                    <$> filter (fun p => LastSeen p.2 <> 0) entries).
    { clear -Hall. induction Hall as [|p report l k (pre & He & Hl & _) _ IH]; [done|].
      rewrite !fmap_cons, IH, He, Hl. done. }
    by rewrite Heq. }
  split; [done|]. split.
  - intros Hnone. rewrite Hnone in Hperm. cbn in Hperm.
    apply Permutation_nil_r in Hperm. apply fmap_nil_inv in Hperm. subst new.
    rewrite Hrun. unfold out_value, out_events. cbn [fst snd].
    split; [done|]. by apply Forall_app.
  - intros Hsome. destruct new as [|report new].
    + exfalso. apply Hsome. cbn in Hperm. symmetry in Hperm.
      apply Permutation_nil_r in Hperm. by apply fmap_nil_inv in Hperm.
    + destruct Hrun as (t & r & ->). unfold out_value, out_events. cbn [fst snd].
      eexists (e1 ++ e2), t, _, r. split; [by rewrite <- app_assoc|].
      split; [by apply Forall_app|]. split; [done|]. cbn [arr_NodeID arr_Timestamp arr_Users].
      split; [by rewrite Hframe|]. split; [done|]. exact Hperm.
Qed.

(** For a record that is not marked active, the first thing [reportUser] does
    is to read the clock. *)
Lemma reportUser_clock env activities p w h :
  LastSeen p.2 <> 0 -> IsActive p.2 = false ->
  exists post,
    out_events (reportUser env activities p w h) = EvNow (time_Now env h) :: post.
Proof.
  intros Hseen Hidle. unfold reportUser. cbv zeta.
  rewrite decide_False by done. rewrite Hidle.
  rewrite out_events_bind. unfold Now at 1, call at 1.
  rewrite out_events_bind. unfold out_events at 1. cbn [snd app].
  eexists. reflexivity.
Qed.

(** The reporting loop, with the place of each entry in the trace: the entry
    of a record is computed from the clock as it stands after some prefix of
    the events of the loop, and for a record that is not marked active the
    next event is that reading of the clock. *)
Lemma reportLoop_clock env entries : forall activities w h,
  let out := foldM (reportUser env) activities entries w h in
  exists new,
    out_value out = activities ++ new
    /\ Forall2 (fun p report =>
                  exists pre post,
                    out_events out = pre ++ post
                    /\ reports (time_Now env (h ++ pre)) p.2 report
                    /\ (IsActive p.2 = false ->
                        exists post', post = EvNow (time_Now env (h ++ pre)) :: post'))
         (filter (fun p => LastSeen p.2 <> 0) entries) new.
Proof.
  induction entries as [|p entries IH]; intros activities w h out; subst out.
  - exists []. split; [by rewrite app_nil_r|constructor].
  - rewrite run_foldM_cons.
    destruct (reportUser_run env activities p w h)
      as [[Hzero ->]|[Hseen (report & Hval & Hrep)]].
    + destruct (IH activities w (h ++ [])) as (new & Hnew & Hall).
      destruct (foldM (reportUser env) activities entries w (h ++ [])) as [[v w2] e2].
      exists new. split; [exact Hnew|].
      rewrite filter_cons_False by (intros ?; done).
      rewrite app_nil_r in Hall. exact Hall.
    + pose proof (reportUser_clock env activities p w h Hseen) as Hclock.
      destruct (reportUser env activities p w h) as [[acts w1] e1].
      unfold out_value in Hval. cbn [fst] in Hval. subst acts.
      unfold out_events in Hclock. cbn [snd] in Hclock.
      destruct (IH (activities ++ [report]) w1 (h ++ e1)) as (new & Hnew & Hall).
      destruct (foldM (reportUser env) (activities ++ [report]) entries w1 (h ++ e1))
        as [[v w2] e2].
      unfold out_value, out_events in *. cbn [fst snd] in *.
      exists (report :: new). split; [by rewrite Hnew, <- app_assoc|].
      rewrite filter_cons_True by done. constructor.
      * exists [], (e1 ++ e2). split; [done|]. rewrite app_nil_r. split; [done|].
        intros Hidle. destruct (Hclock Hidle) as (post & ->). by eexists.
      * eapply Forall2_impl; [exact Hall|].
        intros q rq (pre & post & -> & Hq & Hnow).
        exists (e1 ++ pre), post. rewrite !app_assoc. done.
Qed.

(** C6. Online threshold, on the periodic activity report. Whenever a tick of
    [reportActivity] sends a report to the controller, the entries of the
    request are, in order, the records of the cache as [trackActivity] left
    it in this tick that have been seen. The entry of a record is marked
    online exactly when the record is active in this tick or [now - LastSeen]
    is strictly below two minutes, that is 120 seconds, where [now] is the
    clock as it stood after a prefix of the events of the tick; for a record
    that is not active, the next event of the tick is that reading of the
    clock. So an idle record last seen 90 seconds before the reading is
    reported online, and one last seen 150 seconds before it is reported
    offline. *)
Theorem reportActivity_online_threshold env w h req r :
  let out := reportActivity env w h in
  let cache' := activityCache (agent (out_world (trackActivity env w h))) in
  EvReportActivity req r ∈ out_events out ->
  2 * Minute = 120 * Second
  /\ activityCache (agent (out_world out)) = cache'
  /\ exists entries,
       entries ≡ₚ filter (fun p => LastSeen p.2 <> 0) (map_to_list cache')
       /\ Forall2 (fun p report =>
                     let st := p.2 in
                     exists pre post,
                       let now := time_Now env (h ++ pre) in
                       out_events out = pre ++ post
                       /\ (IsActive st = false ->
                           exists post', post = EvNow now :: post')
                       /\ ar_Email report = Email st
                       /\ ar_LastSeen report = LastSeen st
                       /\ (ar_IsOnline report = true
                           <-> IsActive st = true
                               \/ now - LastSeen st < 120 * Second)
                       /\ (IsActive st = false ->
                           now - LastSeen st = 90 * Second ->
                           ar_IsOnline report = true)
                       /\ (IsActive st = false ->
                           now - LastSeen st = 150 * Second ->
                           ar_IsOnline report = false))
            entries (arr_Users req).
Proof.
  intros out cache' Hin. subst out cache'.
  split; [done|]. split; [by rewrite reportActivity_world|].
  destruct (reportActivity_run env w h)
    as (active & w1 & e1 & entries & new & e2 & Htrack & Hentries & Hloop & Hrun).
  pose proof (trackActivity_events env w h) as Hevs. rewrite Htrack in Hevs.
  unfold out_events in Hevs. cbn [snd] in Hevs.
  assert (Hq1 : Forall (fun e => is_panel_call e = false) e1)
    by (eapply Forall_impl; [exact Hevs|]; by intros e [_ ?]).
  destruct (reportLoop_full env entries [] w1 (h ++ e1))
    as (new' & e2' & Hloop' & _ & _ & Hquiet & _ & _).
  rewrite Hloop in Hloop'. injection Hloop' as <- <-.
  destruct (reportLoop_clock env entries [] w1 (h ++ e1)) as (new' & Hval & Hall).
  rewrite Hloop in Hval, Hall. unfold out_value, out_events in Hval, Hall.
  cbn [fst snd app] in Hval, Hall. subst new'.
  rewrite Htrack. change (out_world (active, w1, e1)) with w1.
  exists (filter (fun p => LastSeen p.2 <> 0) entries).
  split; [by rewrite Hentries|].
  destruct new as [|report new].
  { rewrite Hrun in Hin. unfold out_events in Hin. cbn [snd] in Hin.
    apply elem_of_app in Hin as [Hin|Hin]; by apply not_panel_call_report in Hin. }
  destruct Hrun as (t & r' & Hrun). rewrite Hrun in Hin |- *.
  unfold out_events in *. cbn [snd] in *.
  apply elem_of_app in Hin as [Hin|Hin]; [by apply not_panel_call_report in Hin|].
  apply elem_of_app in Hin as [Hin|Hin]; [by apply not_panel_call_report in Hin|].
  apply elem_of_cons in Hin as [Hin|Hin]; [done|].
  apply list_elem_of_singleton in Hin. injection Hin as -> ->.
  cbn [arr_Users]. eapply Forall2_impl; [exact Hall|].
  intros p rp (pre & post & -> & (Hemail & Hseen & Hon) & Hnow). cbv zeta.
  exists (e1 ++ pre),
    (post ++ [EvNow t;
              EvReportActivity {| arr_NodeID := Node_ID (cfg (agent w1));
                                  arr_Users := report :: new;
                                  arr_Timestamp := t |} r']).
  rewrite (app_assoc h e1 pre) in *.
  set (now := time_Now env ((h ++ e1) ++ pre)) in *.
  assert (Hiff : ar_IsOnline rp = true
                 <-> IsActive p.2 = true \/ now - LastSeen p.2 < 120 * Second).
  { rewrite Hon. apply isOnline_iff. }
  split; [by rewrite <- !app_assoc|]. split.
  { intros Hidle. destruct (Hnow Hidle) as (post' & ->). by eexists. }
  split; [done|]. split; [done|]. split; [exact Hiff|]. split.
  - intros _ H90. apply Hiff. right. rewrite H90. unfold Second. lia.
  - intros Hidle H150. apply not_true_is_false. intros Htrue.
    apply Hiff in Htrue as [Htrue|Hlt]; [congruence|].
    rewrite H150 in Hlt. unfold Second in Hlt. lia.
Qed.

Lemma reportActivity_online_threshold_witness :
  let out := reportActivity idleEnv idleWorld [] in
  EvReportActivity idleReport None ∈ out_events out
  /\ exists entries,
       entries ≡ₚ map_to_list (activityCache (agent idleWorld))
       /\ Forall2 (fun p report =>
                     ar_Email report = Email p.2
                     /\ (ar_IsOnline report = true
                         <-> 1000 * Second - LastSeen p.2 < 120 * Second))
            entries (arr_Users idleReport).
Proof.
  intros out. subst out.
  assert (Hin : EvReportActivity idleReport None
                ∈ out_events (reportActivity idleEnv idleWorld []))
    by solve_elem_of.
  split; [exact Hin|].
  destruct (reportActivity_online_threshold idleEnv idleWorld [] idleReport None Hin)
    as (_ & _ & entries & Hentries & Hall).
  assert (Hcache : filter (fun p : string * UserActivityState => LastSeen p.2 <> 0)
                     (map_to_list
                        (activityCache
                           (agent (out_world (trackActivity idleEnv idleWorld [])))))
                   = map_to_list (activityCache (agent idleWorld)))
    by (vm_compute; reflexivity).
  rewrite Hcache in Hentries. exists entries. split; [exact Hentries|].
  assert (Hidle : Forall (fun p : string * UserActivityState => IsActive p.2 = false)
                    entries).
  { rewrite Hentries. vm_compute. repeat constructor. }
  clear Hentries Hcache Hin.
  induction Hall as [|p report l k Hp _ IH]; [constructor|].
  apply Forall_cons in Hidle as [Hp0 Hidle]. constructor; [|by apply IH].
  destruct Hp as (pre & post & _ & _ & Hemail & _ & Hiff & _).
  split; [exact Hemail|].
  change (time_Now idleEnv ([] ++ pre)) with (1000 * Second) in Hiff.
  rewrite Hiff, Hp0. split; [by intros [?|?]|by right].
Defined.

Lemma cleanupLoop_frame entries : forall w h,
  let out := forM_ entries dropIfGone w h in
  out_world out
  = {| agent := set_activityCache (activityCache (agent (out_world out))) (agent w);
       fs := fs w |}
  /\ out_events out = [].
Proof.
  induction entries as [|p entries IH]; intros w h out; subst out.
  - unfold out_world, out_events. cbn. by rewrite set_activityCache_eta, world_eta.
  - rewrite run_forM_cons, dropIfGone_run.
    match goal with
    | |- context [forM_ entries dropIfGone ?w1 ?h1] =>
        destruct (IH w1 h1) as (Hw & Hev);
        destruct (forM_ entries dropIfGone w1 h1) as [[[] w2] e2]
    end.
    unfold out_world, out_events in *. cbn [fst snd app] in *.
    split; [|exact Hev]. rewrite Hw at 1.
    by destruct (currentUsers (agent w) !! p.1).
Qed.

Lemma cleanupActivityCache_run env w h :
  exists cache',
    cleanupActivityCache env w h
    = (tt, {| agent := set_activityCache cache' (agent w); fs := fs w |}, [])
    /\ forall k,
         cache' !! k
         = match currentUsers (agent w) !! k with
           | Some _ => activityCache (agent w) !! k
           | None => None
           end.
Proof.
  pose proof (fun k => cleanupActivityCache_spec env w h k) as Hspec.
  cbv zeta in Hspec. revert Hspec.
  unfold cleanupActivityCache, getAgent, rangeMap. rewrite !run_bind.
  match goal with
  | |- context [forM_ ?l dropIfGone ?w1 ?h1] =>
      destruct (cleanupLoop_frame l w1 h1) as (Hw & Hev);
      destruct (forM_ l dropIfGone w1 h1) as [[[] w2] e2]
  end.
  unfold out_world, out_events in *. cbn [fst snd app] in *. subst e2.
  intros Hspec. exists (activityCache (agent w2)). split; [by rewrite Hw at 1|].
  exact Hspec.
Qed.

(** X7. [cleanupActivityCache] keeps the records of provisioned identifiers,
    unchanged, and drops all others, so that afterwards every record belongs
    to a provisioned identifier. It touches nothing else, calls no one, and
    does nothing at all when the cache was already within the provisioned set.
    Run after [reportActivity] it restores that invariant without losing a
    record of a provisioned identifier. *)
Theorem cleanupActivityCache_restores_invariant env w h :
  let out := cleanupActivityCache env w h in
  let a' := agent (out_world out) in
  (forall k,
     activityCache a' !! k
     = match currentUsers (agent w) !! k with
       | Some _ => activityCache (agent w) !! k
       | None => None
       end)
  /\ dom (activityCache a') ⊆ dom (currentUsers a')
  /\ out_world out = {| agent := set_activityCache (activityCache a') (agent w);
                        fs := fs w |}
  /\ out_events out = []
  /\ (dom (activityCache (agent w)) ⊆ dom (currentUsers (agent w)) -> out_world out = w)
  /\ let reported := reportActivity env w h in
     let cleaned := cleanupActivityCache env (out_world reported)
                      (h ++ out_events reported) in
     dom (activityCache (agent (out_world cleaned)))
     ⊆ dom (currentUsers (agent (out_world cleaned)))
     /\ currentUsers (agent (out_world cleaned)) = currentUsers (agent w)
     /\ forall k,
          is_Some (currentUsers (agent w) !! k) ->
          activityCache (agent (out_world cleaned)) !! k
          = activityCache (agent (out_world reported)) !! k.
Proof.
  assert (Hinv : forall w h,
    let a' := agent (out_world (cleanupActivityCache env w h)) in
    dom (activityCache a') ⊆ dom (currentUsers a')).
  { intros w0 h0 a'. subst a'.
    destruct (cleanupActivityCache_run env w0 h0) as (cache' & -> & Hc).
    unfold out_world. cbn. intros k. rewrite !elem_of_dom, Hc.
    destruct (currentUsers (agent w0) !! k); [by eexists|by intros [? ?]]. }
  intros out a'. subst a' out.
  split; [intros k; apply cleanupActivityCache_spec|].
  split; [apply Hinv|].
  destruct (cleanupActivityCache_run env w h) as (cache' & Hrun & Hc).
  split; [by rewrite Hrun|]. split; [by rewrite Hrun|]. split.
  - intros Hsub. rewrite Hrun. unfold out_world. cbn.
    assert (Heq : cache' = activityCache (agent w)).
    { apply map_eq. intros k. rewrite Hc.
      destruct (currentUsers (agent w) !! k) eqn:Hk; [done|].
      symmetry. apply not_elem_of_dom. intros Hin. apply Hsub in Hin.
      apply elem_of_dom in Hin as [? ?]. congruence. }
    by rewrite Heq, set_activityCache_eta, world_eta.
  - split; [apply Hinv|].
    assert (Hcur : currentUsers (agent (out_world (reportActivity env w h)))
                   = currentUsers (agent w)).
    { rewrite reportActivity_world.
      by destruct (trackActivity_cache env w h "") as (_ & ? & _). }
    destruct (cleanupActivityCache_run env (out_world (reportActivity env w h))
                (h ++ out_events (reportActivity env w h))) as (c2 & -> & Hc2).
    unfold out_world at 1 3. cbn [fst snd agent currentUsers activityCache
                                   set_activityCache].
    split; [exact Hcur|]. intros k [v Hv]. by rewrite Hc2, Hcur, Hv.
Qed.

(** ** Traffic and keys *)

(** X8. The traffic report is the last step of the tick. [reportTraffic] never
    changes the agent. When a report is sent it is the last event, right after
    the reading of the clock that stamps it; it names the node and is not
    empty; before it, with no call to the controller in between, a reset of
    the counters was requested for exactly the reported identities, in the
    order of the report; the result of the tick is the answer of the
    controller. *)
Theorem reportTraffic_resets_before_report env w h :
  let out := reportTraffic env w h in
  out_world out = w
  /\ forall req r,
       EvReportTraffic req r ∈ out_events out ->
       exists pre t,
         out_events out = pre ++ [EvNow t; EvReportTraffic req r]
         /\ Forall (fun e => is_panel_call e = false) pre
         /\ omap was_reset pre = tr_UserEmail <$> trr_Traffic req
         /\ trr_Traffic req <> []
         /\ trr_NodeID req = Node_ID (cfg (agent w))
         /\ trr_Timestamp req = t
         /\ out_value out = r.
Proof.
  intros out. subst out.
  destruct (reportTraffic_run env w h)
    as (entries & evs0 & _ & _ & Hreset & Hquiet & _ & Hrun).
  assert (Hnot : forall req r, EvReportTraffic req r ∉ evs0).
  { intros req r Hin. rewrite Forall_forall in Hquiet. by specialize (Hquiet _ Hin). }
  destruct Hrun as [[Hnone ->]|[Hsome (t & r & ->)]].
  - split; [done|]. intros req r Hin. by apply Hnot in Hin.
  - split; [done|]. intros req r' Hin. unfold out_events in Hin. cbn [snd] in Hin.
    apply elem_of_app in Hin as [Hin|Hin]; [by apply Hnot in Hin|].
    apply elem_of_cons in Hin as [Hin|Hin]; [done|].
    apply list_elem_of_singleton in Hin. injection Hin as -> ->.
    exists evs0, t. unfold out_events, out_value. cbn.
    repeat split; try done.
Qed.

Lemma band_248 b : Z.land (Z_of_byte (band 248 b)) 7 = 0.
Proof. destruct b as [[] [] [] [] [] [] [] []]; reflexivity. Qed.

Lemma band_127_bor_64 b :
  Z.land (Z_of_byte (bor 64 (band 127 b))) 128 = 0
  /\ Z.land (Z_of_byte (bor 64 (band 127 b))) 64 = 64.
Proof. destruct b as [[] [] [] [] [] [] [] []]; split; reflexivity. Qed.

Lemma length_Encode src :
  length (Base64.Encode src) = ((4 * length src + 2) / 3)%nat.
Proof.
  induction src as [|a|a b|a b c l IH] using list_ind3; try reflexivity.
  cbn [Base64.Encode length]. rewrite IH.
  replace (4 * S (S (S (length l))) + 2)%nat with ((4 * length l + 2) + 4 * 3)%nat by lia.
  rewrite Nat.div_add by lia. lia.
Qed.

Lemma length_string_of_list_ascii l :
  String.length (string_of_list_ascii l) = length l.
Proof. induction l as [|c l IH]; [done|]. cbn. by rewrite IH. Qed.

Lemma length_EncodeToString src :
  String.length (Base64.EncodeToString src) = ((4 * length src + 2) / 3)%nat.
Proof. unfold Base64.EncodeToString. by rewrite length_string_of_list_ascii, length_Encode. Qed.

Lemma clamp_clamped (bytes : list byte) :
  let k := alter (bor 64) 31%nat (alter (band 127) 31%nat
             (alter (band 248) 0%nat (array32 bytes))) in
  length k = 32%nat /\ clamped k.
Proof.
  intros k. subst k.
  pose proof (length_array32 bytes) as Hlen.
  split; [by rewrite !length_alter|].
  destruct (lookup_lt_is_Some_2 (array32 bytes) 0) as [b0 Hb0]; [lia|].
  destruct (lookup_lt_is_Some_2 (array32 bytes) 31) as [b31 Hb31]; [lia|].
  exists (band 248 b0), (bor 64 (band 127 b31)).
  split; [|split; [|split; [apply band_248|apply band_127_bor_64]]].
  - rewrite !list_lookup_alter_ne by done. by rewrite list_lookup_alter_eq, Hb0.
  - rewrite !list_lookup_alter_eq. rewrite list_lookup_alter_ne by done. by rewrite Hb31.
Qed.

Lemma GenerateRealityKeypair_shape env w h keys :
  out_value (GenerateRealityKeypair env w h) = Ok keys ->
  exists k,
    length k = 32%nat
    /\ Base64.DecodeString (PrivateKey keys) = Some k
    /\ PublicKey keys = Base64.EncodeToString (ScalarBaseMult env k).
Proof.
  unfold GenerateRealityKeypair, call. rewrite run_bind.
  destruct (rand_Read env h) as [bytes|e]; [|done].
  unfold out_value. cbn [fst snd mret M_ret]. intros [= <-].
  destruct (clamp_clamped bytes) as [Hlen _]. cbv zeta in Hlen.
  eexists. split; [exact Hlen|]. cbn [PrivateKey PublicKey].
  split; [apply DecodeString_EncodeToString|done].
Qed.

(** X9. A generated key pair. When [GenerateRealityKeypair] succeeds it has
    read the entropy source once and changed nothing. The private key is the
    unpadded URL-safe base64 text, 43 characters long, of 32 bytes clamped as
    X25519 requires (the three low bits of the first byte clear, the top bit
    of the last byte clear and the bit below it set), and the public key is
    the text, also of 43 characters, of the curve's base point multiplied by
    those bytes. *)
Theorem GenerateRealityKeypair_clamped env w h keys :
  out_value (GenerateRealityKeypair env w h) = Ok keys ->
  exists k,
    length k = 32%nat
    /\ clamped k
    /\ Base64.DecodeString (PrivateKey keys) = Some k
    /\ PublicKey keys = Base64.EncodeToString (ScalarBaseMult env k)
    /\ String.length (PrivateKey keys) = 43%nat
    /\ String.length (PublicKey keys) = 43%nat
    /\ out_world (GenerateRealityKeypair env w h) = w
    /\ exists bytes, out_events (GenerateRealityKeypair env w h) = [EvRandRead (Ok bytes)].
Proof.
  unfold GenerateRealityKeypair, call. rewrite run_bind.
  destruct (rand_Read env h) as [bytes|e]; [|done].
  unfold out_value, out_world, out_events. cbn [fst snd mret M_ret].
  intros [= <-].
  destruct (clamp_clamped bytes) as [Hlen Hclamped]. cbv zeta in Hlen, Hclamped.
  eexists. split; [exact Hlen|]. split; [exact Hclamped|].
  cbn [PrivateKey PublicKey].
  split; [apply DecodeString_EncodeToString|]. split; [done|].
  rewrite !length_EncodeToString, Hlen. unfold ScalarBaseMult. rewrite length_array32.
  repeat split. by exists bytes.
Qed.

Lemma GenerateRealityKeypair_clamped_witness :
  exists keys k,
    out_value (GenerateRealityKeypair onlineEnv newWorld []) = Ok keys
    /\ clamped k
    /\ Base64.DecodeString (PrivateKey keys) = Some k
    /\ String.length (PrivateKey keys) = 43%nat.
Proof.
  destruct (out_value (GenerateRealityKeypair onlineEnv newWorld [])) as [keys|e] eqn:Hrun;
    [|by vm_compute in Hrun].
  destruct (GenerateRealityKeypair_clamped onlineEnv newWorld [] keys Hrun)
    as (k & _ & Hclamped & Hdec & _ & Hlen & _).
  by exists keys, k.
Defined.

Lemma MkdirAll_cases env dir w h :
  (dir ∈ dirs (fs w) /\ MkdirAll env dir w h = (None, w, []))
  \/ ((dir ∉ dirs (fs w)) /\
      exists e, os_MkdirAll env h dir = Some e
                /\ MkdirAll env dir w h = (Some e, w, [EvMkdirAll dir (Some e)]))
  \/ ((dir ∉ dirs (fs w)) /\ os_MkdirAll env h dir = None
      /\ MkdirAll env dir w h
         = (None,
            {| agent := agent w;
               fs := {| files := files (fs w); dirs := {[ dir ]} ∪ dirs (fs w) |} |},
            [EvMkdirAll dir None])).
Proof.
  unfold MkdirAll, getFS, call. rewrite run_bind.
  case_decide as Hin; [left; split; [done|]; by destruct w|]. right.
  rewrite run_bind. rewrite app_nil_r.
  destruct (os_MkdirAll env h dir) as [e|] eqn:Hr.
  - left. split; [done|]. exists e. split; [done|]. by destruct w.
  - right. split; [done|]. split; [done|]. reflexivity.
Qed.

Lemma generateAndSaveKeys_cases env keyPath w h :
  (exists e0,
     rand_Read env h = Err e0
     /\ generateAndSaveKeys env keyPath w h
        = (None, true,
           Some ("failed to generate Reality keypair: "
                 +:+ ("failed to generate random bytes: " +:+ e0)),
           w, [EvRandRead (Err e0)]))
  \/ (exists bytes keys,
        rand_Read env h = Ok bytes
        /\ out_value (GenerateRealityKeypair env w h) = Ok keys
        /\ ((exists e0,
               generateAndSaveKeys env keyPath w h
               = (None, true, Some ("failed to save private key: " +:+ e0), w,
                  [EvRandRead (Ok bytes); EvWriteFile keyPath (PrivateKey keys) (Some e0)]))
            \/ generateAndSaveKeys env keyPath w h
               = (Some keys, true, None,
                  {| agent := agent w;
                     fs := {| files := <[keyPath := PrivateKey keys]> (files (fs w));
                              dirs := dirs (fs w) |} |},
                  [EvRandRead (Ok bytes); EvWriteFile keyPath (PrivateKey keys) None]))).
Proof.
  unfold generateAndSaveKeys, GenerateRealityKeypair, WriteFile, out_value.
  msimpl.
  destruct (rand_Read env h) as [bytes|e0].
  - right. eexists bytes, _. split; [done|]. split; [reflexivity|].
    cbn [fst snd PrivateKey].
    destruct (os_WriteFile env _ keyPath) as [e0|].
    + left. exists e0. by destruct w.
    + right. reflexivity.
  - left. exists e0. split; [done|]. by destruct w.
Qed.

(** After the directory step, a stored key that decodes to 32 bytes is
    returned as it is. *)
Lemma LoadOrCreateRealityKeys_load env keyPath w h content k :
  files (fs w) !! keyPath = Some content ->
  Base64.DecodeString content = Some k ->
  length k = 32%nat ->
  forall w1 e1,
    MkdirAll env (filepath_Dir env keyPath) w h = (None, w1, e1) ->
    files (fs w1) = files (fs w) ->
    LoadOrCreateRealityKeys env keyPath w h
    = (Some {| PrivateKey := content;
               PublicKey := Base64.EncodeToString (ScalarBaseMult env k) |},
       false, None, w1, e1).
Proof.
  intros Hfile Hdec Hlen w1 e1 Hmk Hfiles.
  unfold LoadOrCreateRealityKeys. cbv zeta. rewrite run_bind, Hmk.
  unfold ReadFile, getFS. rewrite !run_bind.
  unfold mret at 1, M_ret. cbn iota beta.
  rewrite Hfiles, Hfile, Hdec, decide_True by done. rewrite array32_id by done.
  cbn. by rewrite app_nil_r.
Qed.

(** X10. Loading a stored key. If the directory of the key path exists or can
    be created, and the file at the key path holds text that decodes to
    exactly 32 bytes, [LoadOrCreateRealityKeys] returns that text, as it
    stands in the file, as the private key, and as public key the text of the
    base point multiplied by the decoded bytes; it reports the key as not new,
    changes no file and nothing of the agent, and at most creates the
    directory. *)
Theorem LoadOrCreateRealityKeys_loads_verbatim env keyPath w h content k :
  let dir := filepath_Dir env keyPath in
  dir ∈ dirs (fs w) \/ os_MkdirAll env h dir = None ->
  files (fs w) !! keyPath = Some content ->
  Base64.DecodeString content = Some k ->
  length k = 32%nat ->
  let out := LoadOrCreateRealityKeys env keyPath w h in
  out_value out
  = (Some {| PrivateKey := content;
             PublicKey := Base64.EncodeToString (ScalarBaseMult env k) |},
     false, None)
  /\ files (fs (out_world out)) = files (fs w)
  /\ agent (out_world out) = agent w
  /\ Forall is_mkdir (out_events out).
Proof.
  intros dir Hdir Hfile Hdec Hlen out. subst out.
  destruct (MkdirAll_cases env dir w h)
    as [[_ Hmk]|[(Hn & e & Hfail & _)|(_ & _ & Hmk)]].
  - rewrite (LoadOrCreateRealityKeys_load env keyPath w h content k
               Hfile Hdec Hlen _ _ Hmk eq_refl).
    repeat split. constructor.
  - destruct Hdir as [Hdir|Hdir]; [done|congruence].
  - rewrite (LoadOrCreateRealityKeys_load env keyPath w h content k
               Hfile Hdec Hlen _ _ Hmk eq_refl).
    repeat split. constructor; [by eexists _, _|constructor].
Qed.

Lemma LoadOrCreateRealityKeys_loads_verbatim_witness :
  exists keys,
    out_value (LoadOrCreateRealityKeys onlineEnv "reality_private.key" keyFileWorld [])
    = (Some keys, false, None)
    /\ String.length (PrivateKey keys) = 44%nat
    /\ String.length (PublicKey keys) = 43%nat.
Proof.
  destruct (LoadOrCreateRealityKeys_loads_verbatim onlineEnv "reality_private.key"
              keyFileWorld []
              (String.append (Base64.EncodeToString (replicate 32 "k"%char))
                             (String "010"%char EmptyString))
              (replicate 32 "k"%char))
    as (Hval & _).
  - left. vm_compute. reflexivity.
  - reflexivity.
  - vm_compute. reflexivity.
  - reflexivity.
  - eexists. split; [exact Hval|]. split; reflexivity.
Defined.

(** When the stored key is missing or unusable, the call is the directory
    step followed by [generateAndSaveKeys]. *)
Lemma LoadOrCreateRealityKeys_generate env keyPath w h :
  match files (fs w) !! keyPath with
  | Some content =>
      match Base64.DecodeString content with
      | Some k => length k <> 32%nat
      | None => True
      end
  | None => True
  end ->
  forall w1 e1,
    MkdirAll env (filepath_Dir env keyPath) w h = (None, w1, e1) ->
    files (fs w1) = files (fs w) ->
    LoadOrCreateRealityKeys env keyPath w h
    = (out_value (generateAndSaveKeys env keyPath w1 (h ++ e1)),
       out_world (generateAndSaveKeys env keyPath w1 (h ++ e1)),
       e1 ++ out_events (generateAndSaveKeys env keyPath w1 (h ++ e1))).
Proof.
  intros Hbad w1 e1 Hmk Hfiles.
  unfold LoadOrCreateRealityKeys. cbv zeta. rewrite run_bind, Hmk.
  unfold ReadFile, getFS. rewrite !run_bind.
  unfold mret at 1, M_ret. cbn iota beta. rewrite Hfiles, app_nil_r.
  assert (Hgen : forall m : M (option RealityKeys * bool * option string),
            m = generateAndSaveKeys env keyPath ->
            (let '(b, w2, e2) := let '(b, w2, e2) := m w1 (h ++ e1) in (b, w2, [] ++ e2) in
             (b, w2, e1 ++ e2))
            = (out_value (generateAndSaveKeys env keyPath w1 (h ++ e1)),
               out_world (generateAndSaveKeys env keyPath w1 (h ++ e1)),
               e1 ++ out_events (generateAndSaveKeys env keyPath w1 (h ++ e1)))).
  { intros m ->. by destruct (generateAndSaveKeys env keyPath w1 (h ++ e1)) as [[v w2] e2]. }
  destruct (files (fs w) !! keyPath) as [content|]; [|by apply Hgen].
  destruct (Base64.DecodeString content) as [k|]; [|by apply Hgen].
  rewrite decide_False by done. by apply Hgen.
Qed.

(** X11. A key file that does not hold a 32-byte key is replaced. If the file
    at the key path holds text that does not decode to 32 bytes and
    [LoadOrCreateRealityKeys] succeeds, the key pair it returns is new: the
    private key differs from the old content, decodes to 32 bytes of which the
    public key is the image, and has been written to the key path, where it
    replaces the old content. *)
Theorem LoadOrCreateRealityKeys_replaces_invalid env keyPath w h content keys isNew :
  files (fs w) !! keyPath = Some content ->
  (forall k, Base64.DecodeString content = Some k -> length k <> 32%nat) ->
  let out := LoadOrCreateRealityKeys env keyPath w h in
  out_value out = (Some keys, isNew, None) ->
  isNew = true
  /\ files (fs (out_world out)) = <[keyPath := PrivateKey keys]> (files (fs w))
  /\ PrivateKey keys <> content
  /\ (exists k, Base64.DecodeString (PrivateKey keys) = Some k /\ length k = 32%nat
                /\ PublicKey keys = Base64.EncodeToString (ScalarBaseMult env k))
  /\ EvWriteFile keyPath (PrivateKey keys) None ∈ out_events out.
Proof.
  intros Hfile Hbad out. subst out.
  assert (Hbad' : match files (fs w) !! keyPath with
                  | Some content =>
                      match Base64.DecodeString content with
                      | Some k => length k <> 32%nat
                      | None => True
                      end
                  | None => True
                  end).
  { rewrite Hfile. destruct (Base64.DecodeString content) as [k|] eqn:Hk; [|done].
    by apply Hbad. }
  assert (Hgen : forall w1 e1,
    MkdirAll env (filepath_Dir env keyPath) w h = (None, w1, e1) ->
    files (fs w1) = files (fs w) ->
    out_value (LoadOrCreateRealityKeys env keyPath w h) = (Some keys, isNew, None) ->
    isNew = true
    /\ files (fs (out_world (LoadOrCreateRealityKeys env keyPath w h)))
       = <[keyPath := PrivateKey keys]> (files (fs w))
    /\ PrivateKey keys <> content
    /\ (exists k, Base64.DecodeString (PrivateKey keys) = Some k /\ length k = 32%nat
                  /\ PublicKey keys = Base64.EncodeToString (ScalarBaseMult env k))
    /\ EvWriteFile keyPath (PrivateKey keys) None
       ∈ out_events (LoadOrCreateRealityKeys env keyPath w h)).
  { intros w1 e1 Hmk Hfiles.
    rewrite (LoadOrCreateRealityKeys_generate env keyPath w h Hbad' w1 e1 Hmk Hfiles).
    unfold out_value at 1, out_world at 1, out_events at 1. cbn [fst snd].
    destruct (generateAndSaveKeys_cases env keyPath w1 (h ++ e1))
      as [(e0 & _ & ->)|(bytes & keys' & _ & Hkeys & [(e0 & ->)| ->])]; [done|done|].
    unfold out_value at 1, out_world at 1, out_events at 1. cbn [fst snd].
    intros [= -> <-].
    destruct (GenerateRealityKeypair_shape env w1 (h ++ e1) keys Hkeys)
      as (k & Hlen & Hdec & Hpub).
    split; [done|]. split; [cbn; by rewrite Hfiles|]. split.
    - intros Heq. rewrite Heq in Hdec. by apply (Hbad k).
    - split; [by exists k|]. apply elem_of_app. right. right. by left. }
  destruct (MkdirAll_cases env (filepath_Dir env keyPath) w h)
    as [[_ Hmk]|[(_ & e & _ & Hmk)|(_ & _ & Hmk)]].
  - by apply (Hgen _ _ Hmk).
  - unfold LoadOrCreateRealityKeys. cbv zeta. rewrite run_bind, Hmk. done.
  - by apply (Hgen _ _ Hmk).
Qed.

Lemma LoadOrCreateRealityKeys_replaces_invalid_witness :
  exists keys,
    out_value (LoadOrCreateRealityKeys onlineEnv "reality_private.key" badKeyWorld [])
    = (Some keys, true, None)
    /\ files (fs (out_world (LoadOrCreateRealityKeys onlineEnv "reality_private.key"
                               badKeyWorld [])))
       !! "reality_private.key"%string = Some (PrivateKey keys)
    /\ PrivateKey keys <> "not-a-key"%string.
Proof.
  destruct (out_value (LoadOrCreateRealityKeys onlineEnv "reality_private.key"
                         badKeyWorld [])) as [[[keys|] isNew] [err|]] eqn:Hrun;
    try by vm_compute in Hrun.
  destruct (LoadOrCreateRealityKeys_replaces_invalid onlineEnv "reality_private.key"
              badKeyWorld [] "not-a-key"%string keys isNew)
    as (-> & Hfiles & Hne & _).
  - reflexivity.
  - intros k Hk. by vm_compute in Hk.
  - exact Hrun.
  - exists keys. split; [done|]. split; [|exact Hne].
    rewrite Hfiles. apply lookup_insert_eq.
Defined.

(** X12. The failures of [LoadOrCreateRealityKeys]. A key pair is returned
    exactly when there is no error. An error is one of three: the directory
    could not be created (then nothing else was tried, nothing changed, and
    the key is reported as not new), the entropy source failed, or the private
    key could not be written; in the last two cases the failure is the last
    event and the key is reported as new. *)
Theorem LoadOrCreateRealityKeys_failure env keyPath w h :
  let out := LoadOrCreateRealityKeys env keyPath w h in
  let dir := filepath_Dir env keyPath in
  let keys := (out_value out).1.1 in
  let isNew := (out_value out).1.2 in
  let err := (out_value out).2 in
  (is_Some keys <-> err = None)
  /\ forall e,
       err = Some e ->
       (isNew = false
        /\ exists e0,
             e = "failed to create key directory: " +:+ e0
             /\ out_events out = [EvMkdirAll dir (Some e0)]
             /\ out_world out = w)
       \/ (isNew = true
           /\ exists e0,
                (e = "failed to generate Reality keypair: "
                     +:+ ("failed to generate random bytes: " +:+ e0)
                 /\ last (out_events out) = Some (EvRandRead (Err e0)))
                \/ (e = "failed to save private key: " +:+ e0
                    /\ exists data,
                         last (out_events out) = Some (EvWriteFile keyPath data (Some e0)))).
Proof.
  intros out dir keys isNew err. subst keys isNew err out.
  assert (Hgen : forall w1 e1,
    let g := generateAndSaveKeys env keyPath w1 (h ++ e1) in
    (is_Some (out_value g).1.1 <-> (out_value g).2 = None)
    /\ forall e,
         (out_value g).2 = Some e ->
         (out_value g).1.2 = true
         /\ exists e0,
              (e = "failed to generate Reality keypair: "
                   +:+ ("failed to generate random bytes: " +:+ e0)
               /\ last (e1 ++ out_events g) = Some (EvRandRead (Err e0)))
              \/ (e = "failed to save private key: " +:+ e0
                  /\ exists data,
                       last (e1 ++ out_events g)
                       = Some (EvWriteFile keyPath data (Some e0)))).
  { intros w1 e1 g. subst g.
    destruct (generateAndSaveKeys_cases env keyPath w1 (h ++ e1))
      as [(e0 & _ & ->)|(bytes & ks & _ & _ & [(e0 & ->)| ->])];
      unfold out_value, out_events; cbn [fst snd].
    - split; [split; [by intros [? ?]|done]|]. intros e [= <-]. split; [done|].
      exists e0. left. split; [done|]. by rewrite last_app.
    - split; [split; [by intros [? ?]|done]|]. intros e [= <-]. split; [done|].
      exists e0. right. split; [done|]. eexists. by rewrite last_app.
    - split; [split; [done|by eexists]|]. done. }
  destruct (MkdirAll_cases env dir w h)
    as [[_ Hmk]|[(_ & e0 & _ & Hmk)|(_ & _ & Hmk)]].
  2: { unfold LoadOrCreateRealityKeys. cbv zeta. fold dir. rewrite run_bind, Hmk.
       unfold out_value, out_world, out_events. cbn [fst snd mret M_ret app].
       split; [split; [by intros [? ?]|done]|]. intros e [= <-]. left.
       split; [done|]. by exists e0. }
  all: destruct (files (fs w) !! keyPath) as [content|] eqn:Hfile.
  all: try destruct (Base64.DecodeString content) as [k|] eqn:Hdec.
  all: try destruct (decide (length k = 32%nat)) as [Hlen|Hlen].
  all: try (rewrite (LoadOrCreateRealityKeys_load env keyPath w h content k
                       Hfile Hdec Hlen _ _ Hmk eq_refl);
            unfold out_value; cbn [fst snd];
            split; [split; [done|by eexists]|done]).
  all: assert (Hbad : match files (fs w) !! keyPath with
                      | Some content =>
                          match Base64.DecodeString content with
                          | Some k => length k <> 32%nat
                          | None => True
                          end
                      | None => True
                      end) by (by rewrite Hfile, ?Hdec).
  all: rewrite (LoadOrCreateRealityKeys_generate env keyPath w h Hbad _ _ Hmk eq_refl).
  all: match goal with
       | |- context [generateAndSaveKeys _ _ ?w1 (_ ++ ?e1)] =>
           destruct (Hgen w1 e1) as [Hiff Herr]
       end.
  all: unfold out_value at 1 2 3 4, out_events at 1 2; cbn [fst snd].
  all: split; [exact Hiff|]; intros e He; right; by apply Herr.
Qed.

(** A call that returns no error returns a key pair whose private key is
    what the key file holds afterwards. *)
Lemma LoadOrCreateRealityKeys_stored env keyPath w h :
  let out := LoadOrCreateRealityKeys env keyPath w h in
  (out_value out).2 = None ->
  exists keys,
    (out_value out).1.1 = Some keys
    /\ files (fs (out_world out)) !! keyPath = Some (PrivateKey keys).
Proof.
  intros out. subst out.
  destruct (MkdirAll_cases env (filepath_Dir env keyPath) w h)
    as [[_ Hmk]|[(_ & e0 & _ & Hmk)|(_ & _ & Hmk)]].
  2: { unfold LoadOrCreateRealityKeys. cbv zeta. rewrite run_bind, Hmk. done. }
  all: destruct (files (fs w) !! keyPath) as [content|] eqn:Hfile.
  all: try destruct (Base64.DecodeString content) as [k|] eqn:Hdec.
  all: try destruct (decide (length k = 32%nat)) as [Hlen|Hlen].
  all: try (rewrite (LoadOrCreateRealityKeys_load env keyPath w h content k
                       Hfile Hdec Hlen _ _ Hmk eq_refl);
            unfold out_value, out_world; cbn [fst snd];
            intros _; eexists; split; [reflexivity|exact Hfile]).
  all: assert (Hbad : match files (fs w) !! keyPath with
                      | Some content =>
                          match Base64.DecodeString content with
                          | Some k => length k <> 32%nat
                          | None => True
                          end
                      | None => True
                      end) by (by rewrite Hfile, ?Hdec).
  all: rewrite (LoadOrCreateRealityKeys_generate env keyPath w h Hbad _ _ Hmk eq_refl).
  all: match goal with
       | |- context [generateAndSaveKeys _ _ ?w1 (_ ++ ?e1)] =>
           destruct (generateAndSaveKeys_cases env keyPath w1 (h ++ e1))
             as [(e0 & _ & ->)|(bytes & ks & _ & _ & [(e0 & ->)| ->])]
       end.
  all: unfold out_value, out_world; cbn [fst snd]; try done.
  all: intros _; exists ks; split; [done|]; cbn; apply lookup_insert_eq.
Qed.

(** ** Start-up *)

Lemma initRealityKeys_run env w h :
  let keyPath := effectiveKeyPath (Xray (cfg (agent w))) in
  let loaded := LoadOrCreateRealityKeys env keyPath w h in
  initRealityKeys env w h
  = ((out_value loaded).2,
     match (out_value loaded).2 with
     | Some _ => out_world loaded
     | None => {| agent := set_realityKeys (out_value loaded).1.1 (agent w);
                  fs := fs (out_world loaded) |}
     end,
     out_events loaded).
Proof.
  intros keyPath loaded. subst loaded keyPath.
  unfold initRealityKeys, getAgent, effectiveKeyPath. cbv zeta. rewrite !run_bind.
  cbn [app].
  destruct (LoadOrCreateRealityKeys env _ w (h ++ [])) as [[res w1] e1] eqn:Hrun.
  rewrite app_nil_r in Hrun. rewrite Hrun.
  unfold out_value, out_world, out_events. cbn [fst snd].
  destruct res.2 as [e|]; msimpl; cbn; by rewrite app_nil_r.
Qed.

Lemma resolveConfig_panel nc w h :
  let x := Xray (cfg (agent w)) in
  exists res x',
    resolveConfig (Ok nc) w h
    = (res, {| agent := set_Xray x' (agent w); fs := fs w |}, [])
    /\ same_local_fields x x'
    /\ panel_fields nc x'
    /\ (res = None <-> (nc_RealityEnabled nc = true -> reality_complete nc))
    /\ match res with
       | Some _ => same_reality_fields x x' /\ APIPort x' = APIPort x
       | None =>
           APIPort x' = (if 0 <? nc_APIPort nc then nc_APIPort nc else APIPort x)
           /\ RealityEnabled x' = nc_RealityEnabled nc
           /\ if nc_RealityEnabled nc
              then RealityDest x' = nc_RealityDest nc
                   /\ RealityServerNames x' = nc_RealityServerNames nc
                   /\ RealityShortIds x' = nc_RealityShortIds nc
                   /\ match realityKeys (agent w) with
                      | Some keys => RealityPrivateKey x' = PrivateKey keys
                                     /\ RealityPublicKey x' = PublicKey keys
                      | None => RealityPrivateKey x' = nc_RealityPrivateKey nc
                                /\ RealityPublicKey x' = nc_RealityPublicKey nc
                      end
              else RealityDest x' = RealityDest x
                   /\ RealityServerNames x' = RealityServerNames x
                   /\ RealityPrivateKey x' = RealityPrivateKey x
                   /\ RealityPublicKey x' = RealityPublicKey x
                   /\ RealityShortIds x' = RealityShortIds x
       end.
Proof.
  intros x. subst x.
  unfold resolveConfig, applyReality, assign, same_local_fields, panel_fields,
    same_reality_fields, reality_complete.
  msimpl. cbn [agent cfg Xray set_Xray InboundTag set_InboundTag set_SNI
                 set_TLSEnabled set_ListenPort set_Protocol realityKeys fs].
  destruct (nc_RealityEnabled nc) eqn:Hre.
  - repeat case_decide; msimpl;
      cbn [agent cfg Xray set_Xray realityKeys fs];
      try destruct (realityKeys (agent w)); try destruct (0 <? nc_APIPort nc);
      msimpl; cbn [agent cfg Xray set_Xray realityKeys fs];
      eexists _, _; (split; [reflexivity|]); cbn;
      repeat split; try done; try tauto; try (intros; congruence).
  - repeat case_decide; msimpl; destruct (0 <? nc_APIPort nc); msimpl;
      cbn [agent cfg Xray set_Xray realityKeys fs];
      eexists _, _; (split; [reflexivity|]); cbn;
      repeat split; try done; try tauto; try (intros; congruence).
Qed.

(** [launch], step by step. *)
Lemma launch_cases env w h :
  let c := Xray (cfg (agent w)) in
  let w' := {| agent := set_xrayAPI (Some (apiClientOf c)) (agent w); fs := fs w |} in
  exists geo r,
    (GeoIPPath c = ""%string \/ GeoSitePath c = ""%string -> geo = [])
    /\ (GeoIPPath c <> ""%string -> GeoSitePath c <> ""%string ->
        (exists e, geo = [EvEnsureDataFiles (Some e)])
        \/ geo = [EvEnsureDataFiles None; EvStartAutoUpdate])
    /\ match r with
       | Some e =>
           launch env w h = (Some e, w', geo ++ [EvManagerStart c (Some e)])
       | None =>
           exists hs,
             launch env w h
             = (None, out_world (syncUsers env w' hs),
                geo ++ EvManagerStart c None :: EvSleep (2 * Second)
                    :: out_events (syncUsers env w' hs) ++ loops)
       end.
Proof.
  intros c w'. subst c w'.
  unfold launch, xrayManager_Start, apiClientOf, loops. msimpl.
  cbn [agent cfg Xray set_xrayAPI fs].
  case_decide as Hgeo.
  - destruct Hgeo as [Hip Hsite].
    destruct (geo_EnsureDataFiles env _) as [e|]; cbn [app].
    + destruct (manager_Start env _ _) as [e'|].
      * exists [EvEnsureDataFiles (Some e)], (Some e'). cbn.
        split; [by intros [?|?]|]. split; [intros _ _; left; by eexists|done].
      * match goal with
        | |- context [syncUsers env ?W ?H] =>
            exists [EvEnsureDataFiles (Some e)], None;
            split; [by intros [?|?]|];
            split; [intros _ _; left; by eexists|];
            exists H; destruct (syncUsers env W H) as [[v w3] e1]
        end.
        unfold out_world, out_events. cbn [fst snd app]. reflexivity.
    + destruct (manager_Start env _ _) as [e'|].
      * exists [EvEnsureDataFiles None; EvStartAutoUpdate], (Some e'). cbn.
        split; [by intros [?|?]|]. split; [intros _ _; by right|done].
      * match goal with
        | |- context [syncUsers env ?W ?H] =>
            exists [EvEnsureDataFiles None; EvStartAutoUpdate], None;
            split; [by intros [?|?]|];
            split; [intros _ _; by right|];
            exists H; destruct (syncUsers env W H) as [[v w3] e1]
        end.
        unfold out_world, out_events. cbn [fst snd app]. reflexivity.
  - cbn [app]. destruct (manager_Start env _ _) as [e'|].
    + exists [], (Some e'). cbn. split; [done|]. split; [|done].
      intros ? ?. exfalso. by apply Hgeo.
    + match goal with
      | |- context [syncUsers env ?W ?H] =>
          exists [], None;
          split; [done|];
          split; [intros ? ?; exfalso; by apply Hgeo|];
          exists H; destruct (syncUsers env W H) as [[v w3] e1]
      end.
      unfold out_world, out_events. cbn [fst snd app]. reflexivity.
Qed.

(** [Start], block by block, from the world the key step leaves. *)
Lemma Start_steps env w h :
  let init := initRealityKeys env w h in
  let w1 := out_world init in
  let id := Node_ID (cfg (agent w)) in
  exists fetched h2 h3,
    let resolved := resolveConfig fetched w1 h2 in
    Start env w h
    = match out_value resolved with
      | Some e =>
          (Some e, out_world resolved,
           out_events init ++ [EvFetchNodeConfig id fetched])
      | None =>
          (out_value (launch env (out_world resolved) h3),
           out_world (launch env (out_world resolved) h3),
           out_events init
             ++ EvFetchNodeConfig id fetched
             :: out_events (launch env (out_world resolved) h3))
      end.
Proof.
  intros init w1 id. subst id w1 init.
  unfold Start. rewrite run_bind.
  destruct (initRealityKeys_frame env w h) as (Hcfg & _ & _).
  destruct (initRealityKeys env w h) as [[r0 w1] e1].
  unfold out_world, out_events in Hcfg |- *. cbn [fst snd] in Hcfg |- *.
  unfold FetchNodeConfig. msimpl. rewrite Hcfg.
  match goal with
  | |- context [resolveConfig ?f w1 ?h2] =>
      destruct (resolveConfig_run f w1 h2) as (res & w2 & Hres & _);
      exists f, h2
  end.
  rewrite Hres. unfold out_value. cbn [fst snd]. destruct res as [e|].
  - exists h. by rewrite !app_nil_r.
  - match goal with
    | |- context [launch env w2 ?h3] =>
        exists h3; destruct (launch env w2 h3) as [[v w3] e3]
    end.
    cbn [fst snd app]. by rewrite !app_nil_r.
Qed.

Lemma syncUsers_world env w h :
  out_world (syncUsers env w h)
  = {| agent := set_currentUsers (currentUsers (agent (out_world (syncUsers env w h))))
                  (agent w);
       fs := fs w |}.
Proof.
  destruct (panel_FetchUserSync env h (Node_ID (cfg (agent w)))) as [users|e] eqn:Hf.
  - destruct (syncUsers_pass env w h users Hf)
      as (adds & removes & w1 & w2 & -> & _ & _ & _ & _ & _ & _ & Hw2).
    exact Hw2.
  - rewrite (syncUsers_fetch_failed env w h e Hf). unfold out_world. cbn.
    by rewrite agent_eta, world_eta.
Qed.

Lemma syncUsers_after_engine env w h :
  Forall (fun e => after_engine e = true) (out_events (syncUsers env w h)).
Proof.
  destruct (panel_FetchUserSync env h (Node_ID (cfg (agent w)))) as [users|e] eqn:Hf.
  - destruct (syncUsers_pass env w h users Hf)
      as (adds & removes & w1 & w2 & -> & Hadds & Hrems & _).
    unfold out_events. cbn [snd]. constructor; [done|]. apply Forall_app. split.
    + eapply Forall_impl; [exact Hadds|]. by intros ? (u & r & ->).
    + eapply Forall_impl; [exact Hrems|]. by intros ? (u & r & ->).
  - rewrite (syncUsers_fetch_failed env w h e Hf). by repeat constructor.
Qed.

(** The whole of [Start]: the world and the trace in each of its outcomes. *)
Lemma Start_trace env w h :
  let init := initRealityKeys env w h in
  let w1 := out_world init in
  let id := Node_ID (cfg (agent w)) in
  exists fetched h2 res x',
    resolveConfig fetched w1 h2
    = (res, {| agent := set_Xray x' (agent w1); fs := fs w1 |}, [])
    /\ match res with
       | Some e =>
           Start env w h
           = (Some e, {| agent := set_Xray x' (agent w1); fs := fs w1 |},
              out_events init ++ [EvFetchNodeConfig id fetched])
       | None =>
           let w3 := {| agent := set_xrayAPI (Some (apiClientOf x'))
                                   (set_Xray x' (agent w1));
                        fs := fs w1 |} in
           exists geo r,
             (GeoIPPath x' = ""%string \/ GeoSitePath x' = ""%string -> geo = [])
             /\ (GeoIPPath x' <> ""%string -> GeoSitePath x' <> ""%string ->
                 (exists e, geo = [EvEnsureDataFiles (Some e)])
                 \/ geo = [EvEnsureDataFiles None; EvStartAutoUpdate])
             /\ match r with
                | Some e =>
                    Start env w h
                    = (Some e, w3,
                       out_events init
                         ++ EvFetchNodeConfig id fetched
                         :: geo ++ [EvManagerStart x' (Some e)])
                | None =>
                    exists hs,
                      Start env w h
                      = (None, out_world (syncUsers env w3 hs),
                         out_events init
                           ++ EvFetchNodeConfig id fetched
                           :: geo ++ EvManagerStart x' None :: EvSleep (2 * Second)
                           :: out_events (syncUsers env w3 hs) ++ loops)
                end
       end.
Proof.
  intros init w1 id.
  destruct (Start_steps env w h) as (fetched & h2 & h3 & Hrun). cbv zeta in Hrun.
  fold init in Hrun. fold w1 in Hrun. fold id in Hrun.
  exists fetched, h2.
  assert (Hres : exists res x',
            resolveConfig fetched w1 h2
            = (res, {| agent := set_Xray x' (agent w1); fs := fs w1 |}, [])).
  { destruct fetched as [nc|e].
    - destruct (resolveConfig_panel nc w1 h2) as (res & x' & Hr & _). by exists res, x'.
    - unfold resolveConfig, assign. msimpl.
      case_decide; msimpl; [eexists _, _; reflexivity|].
      exists None, (Xray (cfg (agent w1))). cbn.
      by destruct w1 as [[[] ? ? ? ?] ?]. }
  destruct Hres as (res & x' & Hres). exists res, x'. split; [exact Hres|].
  rewrite Hres in Hrun. unfold out_value, out_world, out_events in Hrun |- *.
  cbn [fst snd] in Hrun |- *. destruct res as [e|]; [exact Hrun|].
  destruct (launch_cases env {| agent := set_Xray x' (agent w1); fs := fs w1 |} h3)
    as (geo & r & Hgeo1 & Hgeo2 & Hlaunch).
  cbn [agent cfg Xray set_Xray fs] in Hgeo1, Hgeo2, Hlaunch.
  exists geo, r. split; [exact Hgeo1|]. split; [exact Hgeo2|].
  destruct r as [e|].
  - rewrite Hlaunch in Hrun. exact Hrun.
  - destruct Hlaunch as (hs & Hlaunch). exists hs.
    unfold out_world, out_events in Hlaunch. rewrite Hlaunch in Hrun. exact Hrun.
Qed.

(** The trace of [Start] in one shape: key events, the configuration fetch,
    the geo data step, the engine start, and what follows a successful
    start. *)
Lemma Start_outline env w h :
  let out := Start env w h in
  let init := initRealityKeys env w h in
  let w1 := out_world init in
  let id := Node_ID (cfg (agent w)) in
  exists fetched h2 res x' geo starts rest,
    resolveConfig fetched w1 h2
    = (res, {| agent := set_Xray x' (agent w1); fs := fs w1 |}, [])
    /\ out_events out
       = out_events init ++ EvFetchNodeConfig id fetched :: geo ++ starts ++ rest
    /\ Forall (fun e => is_key_event e = true) (out_events init)
    /\ Forall (fun e => is_geo_event e = true) geo
    /\ Forall (fun e => after_engine e = true) rest
    /\ fs (out_world out) = fs w1
    /\ realityKeys (agent (out_world out)) = realityKeys (agent w1)
    /\ activityCache (agent (out_world out)) = activityCache (agent w1)
    /\ cfg (agent (out_world out))
       = {| Node_ID := Node_ID (cfg (agent w1)); Node_Name := Node_Name (cfg (agent w1));
            Xray := x' |}
    /\ match res with
       | Some e =>
           geo = [] /\ starts = [] /\ rest = [] /\ out_value out = Some e
           /\ xrayAPI (agent (out_world out)) = xrayAPI (agent w1)
           /\ currentUsers (agent (out_world out)) = currentUsers (agent w1)
       | None =>
           (GeoIPPath x' = ""%string \/ GeoSitePath x' = ""%string -> geo = [])
           /\ (GeoIPPath x' <> ""%string -> GeoSitePath x' <> ""%string ->
               (exists e, geo = [EvEnsureDataFiles (Some e)])
               \/ geo = [EvEnsureDataFiles None; EvStartAutoUpdate])
           /\ xrayAPI (agent (out_world out)) = Some (apiClientOf x')
           /\ exists r,
                starts = [EvManagerStart x' r] /\ out_value out = r
                /\ match r with
                   | Some _ =>
                       rest = []
                       /\ currentUsers (agent (out_world out)) = currentUsers (agent w1)
                   | None =>
                       exists w3 hs,
                         cfg (agent w3) = cfg (agent (out_world out))
                         /\ currentUsers (agent w3) = currentUsers (agent w1)
                         /\ out_world out = out_world (syncUsers env w3 hs)
                         /\ rest = EvSleep (2 * Second)
                                     :: out_events (syncUsers env w3 hs) ++ loops
                   end
       end.
Proof.
  intros out init w1 id. subst out.
  destruct (Start_trace env w h) as (fetched & h2 & res & x' & Hres & Hrun).
  cbv zeta in Hrun. fold init in Hrun. fold w1 in Hrun, Hres. fold id in Hrun.
  destruct (initRealityKeys_frame env w h) as (_ & _ & Hkey). fold init in Hkey.
  exists fetched, h2, res, x'.
  destruct res as [e|].
  - exists [], [], []. rewrite Hrun. unfold out_value, out_world, out_events.
    cbn [fst snd app]. repeat split; try done; constructor.
  - destruct Hrun as (geo & r & Hgeo1 & Hgeo2 & Hrun).
    assert (Hgeo : Forall (fun e => is_geo_event e = true) geo).
    { destruct (decide (GeoIPPath x' = ""%string)) as [Hip|Hip];
        [rewrite Hgeo1 by (by left); constructor|].
      destruct (decide (GeoSitePath x' = ""%string)) as [Hsite|Hsite];
        [rewrite Hgeo1 by (by right); constructor|].
      destruct (Hgeo2 Hip Hsite) as [[e ->]| ->]; by repeat constructor. }
    destruct r as [e|].
    + exists geo, [EvManagerStart x' (Some e)], []. rewrite Hrun.
      unfold out_value, out_world, out_events. cbn [fst snd app].
      split; [done|]. split; [done|]. split; [done|]. split; [done|].
      split; [constructor|]. split; [done|]. split; [done|]. split; [done|].
      split; [done|]. split; [done|]. split; [done|]. split; [done|].
      exists (Some e). done.
    + destruct Hrun as (hs & Hrun).
      exists geo, [EvManagerStart x' None],
        (EvSleep (2 * Second)
           :: out_events (syncUsers env
                {| agent := set_xrayAPI (Some (apiClientOf x')) (set_Xray x' (agent w1));
                   fs := fs w1 |} hs) ++ loops).
      rewrite Hrun.
      pose proof (syncUsers_world env
                    {| agent := set_xrayAPI (Some (apiClientOf x')) (set_Xray x' (agent w1));
                       fs := fs w1 |} hs) as Hw.
      pose proof (syncUsers_after_engine env
                    {| agent := set_xrayAPI (Some (apiClientOf x')) (set_Xray x' (agent w1));
                       fs := fs w1 |} hs) as Hsync.
      set (w3 := {| agent := set_xrayAPI (Some (apiClientOf x')) (set_Xray x' (agent w1));
                    fs := fs w1 |}) in *.
      unfold out_value, out_world, out_events in Hw, Hsync |- *. cbn [fst snd app].
      split; [done|]. split; [done|]. split; [done|]. split; [done|].
      split.
      { constructor; [done|]. apply Forall_app. split; [done|]. by repeat constructor. }
      split; [by rewrite Hw|]. split; [by rewrite Hw|]. split; [by rewrite Hw|].
      split; [by rewrite Hw|].
      split; [done|]. split; [done|]. split; [by rewrite Hw|].
      exists None. split; [done|]. split; [done|].
      exists w3, hs. split; [by rewrite Hw|]. done.
Qed.

Lemma Start_event_cases (ks geo starts rest : list Event) (f e : Event) :
  Forall (fun e => is_key_event e = true) ks ->
  Forall (fun e => is_geo_event e = true) geo ->
  Forall (fun e => after_engine e = true) rest ->
  e ∈ ks ++ f :: geo ++ starts ++ rest ->
  is_key_event e = true \/ e = f \/ is_geo_event e = true \/ e ∈ starts
  \/ after_engine e = true.
Proof.
  intros Hk Hg Hr Hin. rewrite Forall_forall in Hk, Hg, Hr.
  apply elem_of_app in Hin as [Hin|Hin]; [left; by apply Hk|].
  apply elem_of_cons in Hin as [Hin|Hin]; [right; by left|].
  apply elem_of_app in Hin as [Hin|Hin]; [right; right; left; by apply Hg|].
  apply elem_of_app in Hin as [Hin|Hin]; [right; right; right; by left|].
  right; right; right; right; by apply Hr.
Qed.

(** What the trace of [Start] says about the fetch and the engine start. *)
Lemma Start_shape env w h :
  let out := Start env w h in
  let w1 := out_world (initRealityKeys env w h) in
  exists fetched h2 res x',
    resolveConfig fetched w1 h2
    = (res, {| agent := set_Xray x' (agent w1); fs := fs w1 |}, [])
    /\ Xray (cfg (agent (out_world out))) = x'
    /\ (forall id f, EvFetchNodeConfig id f ∈ out_events out -> f = fetched)
    /\ (forall c r, EvManagerStart c r ∈ out_events out ->
                    res = None /\ c = x' /\ out_value out = r)
    /\ (res = None -> exists r, EvManagerStart x' r ∈ out_events out)
    /\ (forall e, res = Some e -> out_value out = Some e).
Proof.
  intros out w1.
  destruct (Start_outline env w h)
    as (fetched & h2 & res & x' & geo & starts & rest & Hres & Hevs & Hk & Hg & Hr
        & _ & _ & _ & Hcfg & Hcase).
  cbv zeta in Hres, Hevs, Hk, Hcfg, Hcase. fold out in Hevs, Hcfg, Hcase.
  fold w1 in Hres, Hcfg, Hcase.
  exists fetched, h2, res, x'. split; [exact Hres|]. split; [by rewrite Hcfg|].
  split.
  { intros id f Hin. rewrite Hevs in Hin.
    destruct (Start_event_cases _ _ _ _ _ _ Hk Hg Hr Hin) as [?|[Heq|[?|[Hs|?]]]];
      try done; [by injection Heq|].
    destruct res as [e|]; [destruct Hcase as (_ & -> & _); by apply elem_of_nil in Hs|].
    destruct Hcase as (_ & _ & _ & r & -> & _).
    apply list_elem_of_singleton in Hs. done. }
  split.
  { intros c r Hin. rewrite Hevs in Hin.
    destruct (Start_event_cases _ _ _ _ _ _ Hk Hg Hr Hin) as [?|[Heq|[?|[Hs|?]]]];
      try done.
    destruct res as [e|]; [destruct Hcase as (_ & -> & _); by apply elem_of_nil in Hs|].
    destruct Hcase as (_ & _ & _ & r' & -> & Hv & _).
    apply list_elem_of_singleton in Hs. injection Hs as -> ->. done. }
  split.
  { intros ->. destruct Hcase as (_ & _ & _ & r & -> & _). exists r.
    rewrite Hevs. apply elem_of_app. right. apply elem_of_cons. right.
    apply elem_of_app. right. apply elem_of_app. left. by left. }
  intros e ->. by destruct Hcase as (_ & _ & _ & ? & _).
Qed.

Lemma resolveConfig_tag fetched w h x' :
  resolveConfig fetched w h
  = (None, {| agent := set_Xray x' (agent w); fs := fs w |}, []) ->
  InboundTag x' <> ""%string.
Proof.
  intros Hres. destruct fetched as [nc|e].
  - destruct (resolveConfig_panel nc w h) as (res & x0 & Hr & _ & Hp & _).
    rewrite Hres in Hr. injection Hr as _ Hx. subst x0.
    destruct Hp as (_ & _ & _ & _ & ->). by case_decide.
  - destruct (resolveConfig_run (Err e) w h) as (res & w2 & Hr & _ & _ & Hx).
    rewrite Hres in Hr. injection Hr as _ <-. cbn in Hx. rewrite Hx.
    by case_decide.
Qed.

(** The engine and its API client get the same settings. *)
Lemma Start_api_client env w h c r :
  let out := Start env w h in
  EvManagerStart c r ∈ out_events out ->
  xrayAPI (agent (out_world out)) = Some (apiClientOf c)
  /\ Xray (cfg (agent (out_world out))) = c
  /\ InboundTag c <> ""%string
  /\ out_value out = r.
Proof.
  intros out Hin. subst out.
  destruct (Start_outline env w h)
    as (fetched & h2 & res & x' & geo & starts & rest & Hres & Hevs & Hk & Hg & Hr
        & _ & _ & _ & Hcfg & Hcase).
  cbv zeta in Hres, Hevs, Hk, Hcfg, Hcase.
  destruct (Start_shape env w h) as (f' & h2' & res' & x'' & _ & Hx & _ & Hstart & _).
  cbv zeta in Hx, Hstart. destruct (Hstart c r Hin) as (_ & -> & Hv).
  rewrite Hcfg in Hx. cbn in Hx. subst x''.
  rewrite Hevs in Hin.
  destruct (Start_event_cases _ _ _ _ _ _ Hk Hg Hr Hin) as [?|[Heq|[?|[Hs|?]]]];
    try done.
  destruct res as [e|]; [destruct Hcase as (_ & -> & _); by apply elem_of_nil in Hs|].
  destruct Hcase as (_ & _ & Hapi & _).
  split; [exact Hapi|]. split; [by rewrite Hcfg|]. split; [|exact Hv].
  by apply (resolveConfig_tag _ _ _ _ Hres).
Qed.

Lemma initRealityKeys_agent env w h :
  let init := initRealityKeys env w h in
  let keyPath := effectiveKeyPath (Xray (cfg (agent w))) in
  match out_value init with
  | Some _ => agent (out_world init) = agent w
  | None =>
      exists keys,
        agent (out_world init) = set_realityKeys (Some keys) (agent w)
        /\ files (fs (out_world init)) !! keyPath = Some (PrivateKey keys)
  end.
Proof.
  intros init keyPath. subst init.
  rewrite initRealityKeys_run. fold keyPath.
  destruct (LoadOrCreateRealityKeys_frame env keyPath w h) as [Hag _].
  pose proof (LoadOrCreateRealityKeys_stored env keyPath w h) as Hst. cbv zeta in Hst.
  unfold out_value at 1, out_world at 1 2. cbn [fst snd].
  destruct (out_value (LoadOrCreateRealityKeys env keyPath w h)).2 as [e|]; [done|].
  destruct (Hst eq_refl) as (keys & Hk & Hf). exists keys. cbn. by rewrite Hk.
Qed.

(** X13. The configuration of the controller, applied. When the fetch of the
    node configuration succeeds, [Start] leaves the local fields of the engine
    configuration (API address, listen address, file paths) as they were and
    takes protocol, port, TLS flag, SNI and inbound tag from the controller,
    the tag defaulting to "proxy" when empty; any engine start is called with
    the configuration the agent ends with. Unless Reality is enabled with an
    incomplete setting, the engine start is called, the API port is the
    controller's when positive, and the Reality flag is the controller's: when
    it is on, destination, server names and short ids are the controller's,
    when it is off, the local Reality fields are untouched. With Reality
    enabled but incomplete, the Reality fields and the API port stay as they
    were. *)
Theorem Start_panel_config_applied env w h id nc :
  let out := Start env w h in
  let x := Xray (cfg (agent w)) in
  let x' := Xray (cfg (agent (out_world out))) in
  EvFetchNodeConfig id (Ok nc) ∈ out_events out ->
  same_local_fields x x'
  /\ panel_fields nc x'
  /\ (forall c r, EvManagerStart c r ∈ out_events out -> c = x')
  /\ ((nc_RealityEnabled nc = true -> reality_complete nc) ->
      (exists r, EvManagerStart x' r ∈ out_events out)
      /\ APIPort x' = (if 0 <? nc_APIPort nc then nc_APIPort nc else APIPort x)
      /\ RealityEnabled x' = nc_RealityEnabled nc
      /\ if nc_RealityEnabled nc
         then RealityDest x' = nc_RealityDest nc
              /\ RealityServerNames x' = nc_RealityServerNames nc
              /\ RealityShortIds x' = nc_RealityShortIds nc
         else RealityDest x' = RealityDest x
              /\ RealityServerNames x' = RealityServerNames x
              /\ RealityPrivateKey x' = RealityPrivateKey x
              /\ RealityPublicKey x' = RealityPublicKey x
              /\ RealityShortIds x' = RealityShortIds x)
  /\ (nc_RealityEnabled nc = true -> ¬ reality_complete nc ->
      same_reality_fields x x' /\ APIPort x' = APIPort x).
Proof.
  intros out x x' Hin. subst x' x out.
  destruct (Start_shape env w h)
    as (fetched & h2 & res & x' & Hres & Hx & Hfetch & Hstart & Hsome & _).
  cbv zeta in Hres, Hx, Hfetch, Hstart, Hsome.
  pose proof (Hfetch _ _ Hin) as Hf. subst fetched. clear Hfetch. rewrite Hx.
  destruct (initRealityKeys_frame env w h) as (Hcfg & _ & _).
  destruct (resolveConfig_panel nc (out_world (initRealityKeys env w h)) h2)
    as (res0 & x0 & Hr & Hloc & Hpan & Hiff & Hcase).
  cbv zeta in Hloc, Hcase. rewrite Hres in Hr. injection Hr as <- <-.
  rewrite ?Hcfg in Hloc. rewrite ?Hcfg in Hcase.
  split; [exact Hloc|]. split; [exact Hpan|].
  split; [intros c r Hc; by destruct (Hstart c r Hc) as (_ & -> & _)|].
  split.
  - intros Hok. apply Hiff in Hok. subst res.
    split; [by apply Hsome|]. destruct Hcase as (Hport & Hre & Hrest).
    split; [exact Hport|]. split; [exact Hre|].
    destruct (nc_RealityEnabled nc); [|exact Hrest].
    by destruct Hrest as (? & ? & ? & _).
  - intros Hre Hbad. destruct res as [e|]; [exact Hcase|].
    exfalso. apply Hbad. by apply Hiff.
Qed.

Lemma Start_panel_config_applied_witness :
  let x' := Xray (cfg (agent (out_world (Start panelEnv newWorld [])))) in
  Protocol x' = "vless"%string /\ ListenPort x' = 443
  /\ InboundTag x' = "proxy"%string /\ APIPort x' = 10085
  /\ RealityEnabled x' = true /\ RealityDest x' = "www.example.com:443"%string.
Proof.
  intros x'.
  destruct (Start_panel_config_applied panelEnv newWorld [] 1%N
              (realityNodeConfig "www.example.com:443"))
    as (_ & (Hproto & Hport & _ & _ & Htag) & _ & Hok & _).
  - vm_compute. repeat first [apply list_elem_of_here | apply list_elem_of_further].
  - destruct Hok as (_ & Hapi & Hre & Hdest & _).
    { intros _. repeat split; discriminate. }
    repeat split; assumption.
Defined.

(** X14. Reality keys: the node's own key pair wins. When the controller
    enables Reality and the engine start is called, the key pair given to the
    engine is the one the agent holds: if the key step of start-up succeeded,
    the pair it loaded or created, whose private key is also what the key file
    holds; if it failed, the pair the agent already had, and only when it had
    none the pair sent by the controller. *)
Theorem Start_reality_uses_local_keys env w h id nc c r :
  let out := Start env w h in
  let keyPath := effectiveKeyPath (Xray (cfg (agent w))) in
  EvFetchNodeConfig id (Ok nc) ∈ out_events out ->
  nc_RealityEnabled nc = true ->
  EvManagerStart c r ∈ out_events out ->
  match out_value (initRealityKeys env w h) with
  | None =>
      exists keys,
        realityKeys (agent (out_world out)) = Some keys
        /\ RealityPrivateKey c = PrivateKey keys
        /\ RealityPublicKey c = PublicKey keys
        /\ files (fs (out_world out)) !! keyPath = Some (PrivateKey keys)
  | Some _ =>
      realityKeys (agent (out_world out)) = realityKeys (agent w)
      /\ match realityKeys (agent w) with
         | Some keys => RealityPrivateKey c = PrivateKey keys
                        /\ RealityPublicKey c = PublicKey keys
         | None => RealityPrivateKey c = nc_RealityPrivateKey nc
                   /\ RealityPublicKey c = nc_RealityPublicKey nc
         end
  end.
Proof.
  intros out keyPath Hin Hre Hstarted. subst out.
  destruct (Start_outline env w h)
    as (fetched & h2 & res & x' & geo & starts & rest & Hres & _ & _ & _ & _
        & Hfs & Hkeys & _ & _ & _).
  cbv zeta in Hres, Hfs, Hkeys.
  destruct (Start_shape env w h)
    as (fetched' & h2' & res' & x'' & Hres' & Hx & Hfetch & Hstart & _).
  cbv zeta in Hres', Hx, Hfetch, Hstart.
  pose proof (Hfetch _ _ Hin) as Hf. subst fetched'.
  destruct (Hstart c r Hstarted) as (-> & -> & _).
  destruct (resolveConfig_panel nc (out_world (initRealityKeys env w h)) h2')
    as (res0 & x0 & Hr & _ & _ & _ & Hcase).
  rewrite Hres' in Hr. injection Hr as <- <-.
  destruct Hcase as (_ & _ & Hreal). rewrite Hre in Hreal.
  destruct Hreal as (_ & _ & _ & Hk).
  pose proof (initRealityKeys_agent env w h) as Hinit. cbv zeta in Hinit.
  fold keyPath in Hinit. rewrite Hkeys, Hfs.
  destruct (out_value (initRealityKeys env w h)) as [e|].
  - rewrite Hinit in Hk |- *. split; [done|]. exact Hk.
  - destruct Hinit as (keys & Hag & Hfile). rewrite Hag in Hk |- *. cbn in Hk |- *.
    exists keys. by destruct Hk.
Qed.

Lemma Start_reality_uses_local_keys_witness :
  exists keys c,
    realityKeys (agent (out_world (Start panelEnv newWorld []))) = Some keys
    /\ EvManagerStart c None ∈ out_events (Start panelEnv newWorld [])
    /\ RealityPrivateKey c = PrivateKey keys
    /\ files (fs (out_world (Start panelEnv newWorld []))) !! "reality_private.key"%string
       = Some (PrivateKey keys)
    /\ PrivateKey keys <> nc_RealityPrivateKey (realityNodeConfig "www.example.com:443").
Proof.
  assert (Hstarted : EvManagerStart
                       (Xray (cfg (agent (out_world (Start panelEnv newWorld [])))))
                       None ∈ out_events (Start panelEnv newWorld [])).
  { vm_compute. repeat first [apply list_elem_of_here | apply list_elem_of_further]. }
  pose proof (Start_reality_uses_local_keys panelEnv newWorld [] 1%N
                (realityNodeConfig "www.example.com:443")
                (Xray (cfg (agent (out_world (Start panelEnv newWorld []))))) None)
    as Hthm.
  cbv zeta in Hthm.
  assert (Hinit : out_value (initRealityKeys panelEnv newWorld []) = None)
    by (vm_compute; reflexivity).
  rewrite Hinit in Hthm.
  destruct Hthm as (keys & Hk & Hpriv & _ & Hfile).
  - vm_compute. repeat first [apply list_elem_of_here | apply list_elem_of_further].
  - reflexivity.
  - exact Hstarted.
  - exists keys, (Xray (cfg (agent (out_world (Start panelEnv newWorld []))))).
    split; [exact Hk|]. split; [exact Hstarted|]. split; [exact Hpriv|].
    split; [exact Hfile|].
    rewrite <- Hpriv. vm_compute. discriminate.
Defined.

Lemma syncUsers_head env w h :
  exists r calls,
    out_events (syncUsers env w h)
    = EvFetchUserSync (Node_ID (cfg (agent w))) r :: calls
    /\ Forall (fun e => is_engine_call e = true) calls.
Proof.
  destruct (panel_FetchUserSync env h (Node_ID (cfg (agent w)))) as [users|e] eqn:Hf.
  - destruct (syncUsers_pass env w h users Hf)
      as (adds & removes & w1 & w2 & -> & Hadds & Hrems & _).
    exists (Ok users), (adds ++ removes). split; [done|]. apply Forall_app. split.
    + eapply Forall_impl; [exact Hadds|]. by intros ? (u & r & ->).
    + eapply Forall_impl; [exact Hrems|]. by intros ? (u & r & ->).
  - rewrite (syncUsers_fetch_failed env w h e Hf). exists (Err e), []. by split.
Qed.

(** The order of a start-up and its result. *)
Lemma Start_order env w h :
  let out := Start env w h in
  let evs := out_events out in
  (out_value out = None <-> exists c, EvManagerStart c None ∈ evs)
  /\ (out_value out = None ->
      exists pre c r calls,
        evs = pre ++ EvManagerStart c None :: EvSleep (2 * Second)
                  :: EvFetchUserSync (Node_ID (cfg (agent w))) r :: calls ++ loops
        /\ Forall (fun e => after_engine e = false /\ is_engine_start e = false) pre
        /\ Forall (fun e => is_engine_call e = true) calls)
  /\ (forall e, out_value out = Some e ->
        Forall (fun ev => after_engine ev = false) evs
        /\ currentUsers (agent (out_world out)) = currentUsers (agent w))
  /\ (forall c r c' r',
        EvManagerStart c r ∈ evs -> EvManagerStart c' r' ∈ evs -> c = c' /\ r = r').
Proof.
  intros out evs. subst evs out.
  destruct (Start_outline env w h)
    as (fetched & h2 & res & x' & geo & starts & rest & Hres & Hevs & Hk & Hg & Hr
        & _ & _ & _ & Hcfg & Hcase).
  cbv zeta in Hres, Hevs, Hk, Hcfg, Hcase.
  destruct (Start_shape env w h) as (_ & _ & res' & x'' & _ & _ & _ & Hstart & _).
  cbv zeta in Hstart.
  destruct (initRealityKeys_frame env w h) as (Hcfg1 & Hcur1 & _).
  assert (Hpre : Forall (fun e => after_engine e = false /\ is_engine_start e = false)
                   (out_events (initRealityKeys env w h)
                      ++ EvFetchNodeConfig (Node_ID (cfg (agent w))) fetched :: geo)).
  { apply Forall_app. split; [eapply Forall_impl; [exact Hk|]; by intros []|].
    constructor; [done|]. eapply Forall_impl; [exact Hg|]. by intros []. }
  split; [|split; [|split]].
  - split.
    + intros Hnone. destruct res as [e|].
      * destruct Hcase as (_ & _ & _ & Hv & _). congruence.
      * destruct Hcase as (_ & _ & _ & r & -> & Hv & _). rewrite Hnone in Hv. subst r.
        exists x'. rewrite Hevs. apply elem_of_app. right. apply elem_of_cons. right.
        apply elem_of_app. right. apply elem_of_app. left. by left.
    + intros [c Hc]. by destruct (Hstart c None Hc) as (_ & _ & ->).
  - intros Hnone. destruct res as [e|].
    + destruct Hcase as (_ & _ & _ & Hv & _). congruence.
    + destruct Hcase as (_ & _ & _ & r & -> & Hv & Hrest). rewrite Hnone in Hv. subst r.
      destruct Hrest as (w3 & hs & Hc3 & _ & _ & ->).
      destruct (syncUsers_head env w3 hs) as (r & calls & Hsync & Hcalls).
      exists (out_events (initRealityKeys env w h)
                ++ EvFetchNodeConfig (Node_ID (cfg (agent w))) fetched :: geo),
        x', r, calls.
      split; [|by split]. rewrite Hevs, Hsync, Hc3, Hcfg. cbn [Node_ID].
      rewrite Hcfg1. by rewrite <- !app_assoc.
  - intros e He. destruct res as [e0|].
    + destruct Hcase as (-> & -> & -> & _ & _ & Hcur). rewrite Hevs, Hcur, Hcur1.
      split; [|done]. cbn [app]. eapply Forall_impl; [exact Hpre|]. by intros ? [? _].
    + destruct Hcase as (_ & _ & _ & r & -> & Hv & Hrest). rewrite He in Hv. subst r.
      destruct Hrest as (-> & Hcur). rewrite Hevs, Hcur, Hcur1. split; [|done].
      rewrite app_nil_r.
      replace (out_events (initRealityKeys env w h)
                 ++ EvFetchNodeConfig (Node_ID (cfg (agent w))) fetched
                 :: geo ++ [EvManagerStart x' (Some e)])
        with ((out_events (initRealityKeys env w h)
                 ++ EvFetchNodeConfig (Node_ID (cfg (agent w))) fetched :: geo)
                ++ [EvManagerStart x' (Some e)])
        by (by rewrite <- app_assoc).
      apply Forall_app. split; [|by repeat constructor].
      eapply Forall_impl; [exact Hpre|]. by intros ? [? _].
  - intros c r c' r' Hc Hc'.
    destruct (Hstart c r Hc) as (_ & -> & <-).
    by destruct (Hstart c' r' Hc') as (_ & -> & <-).
Qed.

(** X15. The order of a start-up and its result. [Start] returns nil exactly
    when the engine start was called and succeeded. In that case the events
    are: the preparation, free of any engine start and of anything that
    belongs after it; the engine start; a pause of two seconds; the first
    reconciliation, made of its fetch and of engine calls only; and the launch
    of the four loops. When [Start] fails none of these later steps has
    happened and the provisioned set is unchanged. All engine starts of the
    trace agree; each is called with the configuration the agent ends with,
    which has a non-empty inbound tag, the API client of the agent is built
    from the same address, port and tag, and [Start] returns what the engine
    start returned. *)
Theorem Start_sequence env w h :
  let out := Start env w h in
  let evs := out_events out in
  (out_value out = None <-> exists c, EvManagerStart c None ∈ evs)
  /\ (out_value out = None ->
      exists pre c r calls,
        evs = pre ++ EvManagerStart c None :: EvSleep (2 * Second)
                  :: EvFetchUserSync (Node_ID (cfg (agent w))) r :: calls ++ loops
        /\ Forall (fun e => after_engine e = false /\ is_engine_start e = false) pre
        /\ Forall (fun e => is_engine_call e = true) calls)
  /\ (forall e, out_value out = Some e ->
        Forall (fun ev => after_engine ev = false) evs
        /\ currentUsers (agent (out_world out)) = currentUsers (agent w))
  /\ (forall c r c' r',
        EvManagerStart c r ∈ evs -> EvManagerStart c' r' ∈ evs -> c = c' /\ r = r')
  /\ (forall c r,
        EvManagerStart c r ∈ evs ->
        xrayAPI (agent (out_world out)) = Some (apiClientOf c)
        /\ Xray (cfg (agent (out_world out))) = c
        /\ InboundTag c <> ""%string
        /\ out_value out = r).
Proof.
  intros out evs. subst out evs.
  destruct (Start_order env w h) as (H1 & H2 & H3 & H4).
  split; [exact H1|]. split; [exact H2|]. split; [exact H3|].
  split; [exact H4|]. intros c r Hin. exact (Start_api_client env w h c r Hin).
Qed.

(** X16. The geo data step of a start-up. [Start] looks after the geo data
    files exactly when both paths are configured and start-up gets as far as
    the engine start; the automatic update is launched exactly when that step
    succeeded; and the step, followed by the launch of the update if it
    succeeded, comes immediately before the engine start, which is called
    whether the step succeeded or not. *)
Theorem Start_geo_data env w h :
  let out := Start env w h in
  let evs := out_events out in
  let x := Xray (cfg (agent w)) in
  ((exists r, EvEnsureDataFiles r ∈ evs)
   <-> (GeoIPPath x <> ""%string /\ GeoSitePath x <> ""%string
        /\ exists c r, EvManagerStart c r ∈ evs))
  /\ (EvStartAutoUpdate ∈ evs <-> EvEnsureDataFiles None ∈ evs)
  /\ (forall r, EvEnsureDataFiles r ∈ evs ->
        exists pre c r' post,
          evs = pre ++ EvEnsureDataFiles r
                    :: (if r is None then [EvStartAutoUpdate] else [])
                    ++ EvManagerStart c r' :: post).
Proof.
  intros out evs x. subst evs out x.
  destruct (Start_outline env w h)
    as (fetched & h2 & res & x' & geo & starts & rest & Hres & Hevs & Hk & Hg & Hr
        & _ & _ & _ & Hcfg & Hcase).
  cbv zeta in Hres, Hevs, Hk, Hcfg, Hcase.
  destruct (initRealityKeys_frame env w h) as (Hcfg1 & _ & _).
  assert (Hloc : GeoIPPath x' = GeoIPPath (Xray (cfg (agent w)))
                 /\ GeoSitePath x' = GeoSitePath (Xray (cfg (agent w)))).
  { rewrite <- Hcfg1. destruct fetched as [nc|e].
    - destruct (resolveConfig_panel nc (out_world (initRealityKeys env w h)) h2)
        as (res0 & x0 & Hr0 & Hloc & _).
      rewrite Hres in Hr0. injection Hr0 as <- <-.
      by destruct Hloc as (_ & _ & _ & _ & ? & ? & _).
    - destruct (resolveConfig_run (Err e) (out_world (initRealityKeys env w h)) h2)
        as (res0 & w2 & Hr0 & _ & _ & Hx).
      rewrite Hres in Hr0. injection Hr0 as <- <-. cbn in Hx. rewrite Hx.
      by case_decide. }
  destruct Hloc as [Hip Hsite]. rewrite <- Hip, <- Hsite.
  assert (Hin : forall e, is_geo_event e = true ->
                  e ∈ out_events (Start env w h) <-> e ∈ geo).
  { intros e He. rewrite Hevs. split.
    - intros Hin.
      destruct (Start_event_cases _ _ _ _ _ _ Hk Hg Hr Hin) as [?|[Heq|[?|[Hs|?]]]];
        try (by destruct e).
      + apply elem_of_app in Hin as [Hin|Hin].
        { rewrite Forall_forall in Hk. specialize (Hk _ Hin). by destruct e. }
        apply elem_of_cons in Hin as [->|Hin]; [done|].
        apply elem_of_app in Hin as [Hin|Hin]; [done|].
        apply elem_of_app in Hin as [Hin|Hin].
        * destruct res as [e0|].
          -- destruct Hcase as (_ & -> & _). by apply elem_of_nil in Hin.
          -- destruct Hcase as (_ & _ & _ & r & -> & _).
             apply list_elem_of_singleton in Hin. subst e. done.
        * rewrite Forall_forall in Hr. specialize (Hr _ Hin). by destruct e.
      + destruct res as [e0|].
        * destruct Hcase as (_ & -> & _). by apply elem_of_nil in Hs.
        * destruct Hcase as (_ & _ & _ & r & -> & _).
          apply list_elem_of_singleton in Hs. subst e. done.
    - intros Hin. apply elem_of_app. right. apply elem_of_cons. right.
      apply elem_of_app. by left. }
  assert (Hstarted : (exists c r, EvManagerStart c r ∈ out_events (Start env w h))
                     <-> res = None).
  { split.
    - intros (c & r & Hc). rewrite Hevs in Hc.
      destruct (Start_event_cases _ _ _ _ _ _ Hk Hg Hr Hc) as [?|[Heq|[?|[Hs|?]]]];
        try done.
      destruct res as [e0|]; [|done].
      destruct Hcase as (_ & -> & _). by apply elem_of_nil in Hs.
    - intros ->. destruct Hcase as (_ & _ & _ & r & -> & _). exists x', r.
      rewrite Hevs. apply elem_of_app. right. apply elem_of_cons. right.
      apply elem_of_app. right. apply elem_of_app. left. by left. }
  assert (Hgeo : geo = []
                 \/ (res = None /\ GeoIPPath x' <> ""%string /\ GeoSitePath x' <> ""%string
                     /\ ((exists e, geo = [EvEnsureDataFiles (Some e)])
                         \/ geo = [EvEnsureDataFiles None; EvStartAutoUpdate]))).
  { destruct res as [e0|]; [left; by destruct Hcase as (-> & _)|].
    destruct Hcase as (Hg1 & Hg2 & _).
    destruct (decide (GeoIPPath x' = ""%string)) as [Hi|Hi]; [left; apply Hg1; by left|].
    destruct (decide (GeoSitePath x' = ""%string)) as [Hs|Hs]; [left; apply Hg1; by right|].
    right. split; [done|]. split; [done|]. split; [done|]. by apply Hg2. }
  split; [|split].
  - rewrite Hstarted. split.
    + intros [r Hr']. apply Hin in Hr'; [|done].
      destruct Hgeo as [->|(-> & Hi & Hs & _)]; [by apply elem_of_nil in Hr'|done].
    + intros (Hi & Hs & ->). destruct Hcase as (_ & Hg2 & _).
      destruct (Hg2 Hi Hs) as [[e Hgeo']|Hgeo']; rewrite Hevs, Hgeo'.
      * exists (Some e). apply elem_of_app. right. apply elem_of_cons. right. by left.
      * exists None. apply elem_of_app. right. apply elem_of_cons. right. by left.
  - rewrite !Hin by done.
    destruct Hgeo as [->|(_ & _ & _ & [[e ->]| ->])].
    + split; by intros ?%elem_of_nil.
    + split; intros Hx%list_elem_of_singleton; done.
    + split; intros _; [by left|right; by left].
  - intros r Hr'. apply Hin in Hr'; [|done].
    destruct Hgeo as [->|(-> & _ & _ & Hgeo)]; [by apply elem_of_nil in Hr'|].
    destruct Hcase as (_ & _ & _ & r0 & -> & _).
    exists (out_events (initRealityKeys env w h)
              ++ [EvFetchNodeConfig (Node_ID (cfg (agent w))) fetched]), x', r0, rest.
    rewrite Hevs, <- app_assoc. cbn [app]. f_equal. f_equal.
    destruct Hgeo as [[e ->]| ->].
    + apply list_elem_of_singleton in Hr'. injection Hr' as ->. done.
    + apply elem_of_cons in Hr' as [Hr'|Hr']; [injection Hr' as ->; done|].
      apply list_elem_of_singleton in Hr'. done.
Qed.

(** * The collaborators *)

Ltac psimpl :=
  cbv beta iota delta [mbind mret prog_bind prog_ret prog_get prog_put
                         prog_call prog_emit] in *.

Module XrayAPI_facts.
Import XrayAPI.

Ltac unf := unfold P_bind, P_ret in *; psimpl.

Ltac run_method H :=
  unfold AddUser, RemoveUser, GetUserStats, ResetUserStats, GetOnlineIPs,
    GetAllOnlineUsers, Close, dial, Connect, target;
  unf; rewrite H; rewrite ?app_nil_r; cbn [app].






Lemma GetUserStats_run env email c h :
  let out := GetUserStats env email c h in
  (exists err,
     conn c = None
     /\ out = (Err ("failed to connect to xray API: " +:+ err)%string, c,
               [EvNewClient (target c) (Err err)]))
  \/ (exists cc pre up down,
        dialed c cc pre
        /\ out = (Ok {| UploadBytes := firstValue up;
                        DownloadBytes := firstValue down |},
                  set_conn (Some cc) c,
                  pre ++ queries cc email false up down)).
Proof.
  intros out. subst out. destruct (conn c) as [cc|] eqn:H.
  - right. exists cc, []. do 2 eexists. split; [by left|].
    run_method H. rewrite ?H. destruct c; cbn in *; subst. reflexivity.
  - run_method H. destruct (grpc_NewClient env h _) as [cc|err] eqn:Hd.
    + right. exists cc, [EvNewClient (target c) (Ok cc)]. do 2 eexists.
      split; [by right|]. reflexivity.
    + left. exists err. split; [done|reflexivity].
Qed.

Lemma ResetUserStats_run env email c h :
  let out := ResetUserStats env email c h in
  (exists err,
     conn c = None
     /\ out = (Some ("failed to connect to xray API: " +:+ err)%string, c,
               [EvNewClient (target c) (Err err)]))
  \/ (exists cc pre up down,
        dialed c cc pre
        /\ out = (match down with Err e => Some e | Ok _ => None end,
                  set_conn (Some cc) c,
                  pre ++ queries cc email true up down)).
Proof.
  intros out. subst out. destruct (conn c) as [cc|] eqn:H.
  - right. exists cc, [].
    exists (stats_QueryStats env h (Some cc)
              {| Pattern := uplink email; Reset_ := true |}).
    exists (stats_QueryStats env
              (h ++ [EvQueryStats (Some cc)
                       {| Pattern := uplink email; Reset_ := true |}
                       (stats_QueryStats env h (Some cc)
                          {| Pattern := uplink email; Reset_ := true |})])
              (Some cc) {| Pattern := downlink email; Reset_ := true |}).
    split; [by left|].
    run_method H. rewrite ?H. unfold queries.
    destruct (stats_QueryStats env (h ++ _) _ _);
      destruct c; cbn in *; subst; reflexivity.
  - run_method H. destruct (grpc_NewClient env h _) as [cc|err] eqn:Hd.
    + right. exists cc, [EvNewClient (target c) (Ok cc)].
      set (h1 := h ++ [EvNewClient (target c) (Ok cc)]).
      exists (stats_QueryStats env h1 (Some cc)
                {| Pattern := uplink email; Reset_ := true |}).
      exists (stats_QueryStats env
                (h1 ++ [EvQueryStats (Some cc)
                         {| Pattern := uplink email; Reset_ := true |}
                         (stats_QueryStats env h1 (Some cc)
                            {| Pattern := uplink email; Reset_ := true |})])
                (Some cc) {| Pattern := downlink email; Reset_ := true |}).
      split; [by right|].
      cbn [conn set_conn app]. unfold queries. subst h1. unfold target.
      rewrite ?app_nil_r.
      destruct (stats_QueryStats env ((h ++ _) ++ _) _ _); reflexivity.
    + left. exists err. split; [done|reflexivity].
Qed.

End XrayAPI_facts.

(** ** The engine API client *)


(** X18. [GetUserStats] and [ResetUserStats] fail when the client has no
    connection and the dial fails; otherwise each sends two queries, for
    the uplink and for the downlink counter of the identity, the first
    leaving them as they are and the second resetting them.
    [GetUserStats] then succeeds whatever the engine answers: a counter
    whose query failed, or matched nothing, is reported as zero.
    [ResetUserStats] returns the outcome of the downlink query alone: a
    failure to reset the uplink counter is not reported. *)
Theorem stats_queries_hide_failures env email c h :
  let get := XrayAPI.GetUserStats env email c h in
  let reset := XrayAPI.ResetUserStats env email c h in
  match prog_value get with
  | Err e =>
      exists err,
        XrayAPI.conn c = None
        /\ e = ("failed to connect to xray API: " +:+ err)%string
        /\ prog_events get = [XrayAPI.EvNewClient (XrayAPI.target c) (Err err)]
        /\ prog_state get = c
  | Ok stats =>
      exists cc pre up down,
        XrayAPI.dialed c cc pre
        /\ prog_events get = pre ++ XrayAPI.queries cc email false up down
        /\ XrayAPI.conn (prog_state get) = Some cc
        /\ UploadBytes stats
           = match up with Ok (s :: _) => XrayAPI.Value s | _ => 0 end
        /\ DownloadBytes stats
           = match down with Ok (s :: _) => XrayAPI.Value s | _ => 0 end
  end
  /\ ((exists err,
         XrayAPI.conn c = None
         /\ prog_value reset
            = Some ("failed to connect to xray API: " +:+ err)%string
         /\ prog_events reset = [XrayAPI.EvNewClient (XrayAPI.target c) (Err err)]
         /\ prog_state reset = c)
      \/ (exists cc pre up down,
            XrayAPI.dialed c cc pre
            /\ prog_events reset = pre ++ XrayAPI.queries cc email true up down
            /\ XrayAPI.conn (prog_state reset) = Some cc
            /\ prog_value reset
               = match down with Err e => Some e | Ok _ => None end)).
Proof.
  intros get reset. split.
  - destruct (XrayAPI_facts.GetUserStats_run env email c h)
      as [(err & Hc & Hout)|(cc & pre & up & down & Hd & Hout)];
      subst get; rewrite Hout; unfold prog_value, prog_events, prog_state;
      cbn [fst snd].
    + by exists err.
    + exists cc, pre, up, down. repeat split; done.
  - destruct (XrayAPI_facts.ResetUserStats_run env email c h)
      as [(err & Hc & Hout)|(cc & pre & up & down & Hd & Hout)];
      subst reset; rewrite Hout; unfold prog_value, prog_events, prog_state;
      cbn [fst snd].
    + left. by exists err.
    + right. exists cc, pre, up, down. repeat split; done.
Qed.

Module Strings_facts.
Import Strings.

Lemma Split_cons s sep : exists x r, Split s sep = x :: r.
Proof.
  induction s as [|c s IH]; cbn; [by eauto|].
  destruct (Ascii.eqb c sep); [by eauto|].
  destruct IH as (x & r & ->). by eauto.
Qed.

Lemma Join_cons_cons x y r sep :
  Join (x :: y :: r) sep = (x +:+ sep +:+ Join (y :: r) sep)%string.
Proof. reflexivity. Qed.

Lemma Join_String c x r sep :
  Join (String c x :: r) sep = String c (Join (x :: r) sep).
Proof. destruct r; reflexivity. Qed.

(** Joining the fields gives the string back. *)
Lemma Join_Split s sep : Join (Split s sep) (String sep EmptyString) = s.
Proof.
  induction s as [|c s IH]; [reflexivity|]. cbn [Split].
  destruct (Ascii.eqb_spec c sep) as [->|Hne].
  - destruct (Split_cons s sep) as (x & r & Hs). rewrite Hs in *.
    rewrite Join_cons_cons, IH. reflexivity.
  - destruct (Split_cons s sep) as (x & r & Hs). rewrite Hs in *.
    rewrite Join_String, IH. reflexivity.
Qed.

Lemma length_Split s sep :
  length (Split s sep) = S (XrayManager.count sep s).
Proof.
  induction s as [|c s IH]; [reflexivity|]. cbn [Split XrayManager.count].
  destruct (Ascii.eqb c sep); cbn [length]; [by rewrite IH|].
  destruct (Split_cons s sep) as (x & r & Hs). rewrite Hs in *.
  cbn [length] in *. by rewrite IH.
Qed.

Lemma trim_fixed p2 p3 s : lead p2 p3 s = false -> trim p2 p3 s = s.
Proof.
  destruct s as [|a [|b [|c s]]]; cbn; try done.
  - by intros ->%orb_false_elim%proj1.
  - intros [-> [-> _]%orb_false_elim]%orb_false_elim. done.
  - intros [-> [-> ->]%orb_false_elim]%orb_false_elim. done.
Qed.

Lemma trim_spec p2 p3 n s :
  (length s <= n)%nat ->
  lead p2 p3 (trim p2 p3 s) = false
  /\ exists k, trim p2 p3 s = drop k s.
Proof.
  revert s. induction n as [|n IH]; intros s Hn.
  { destruct s; [|cbn in Hn; lia]. split; [done|by exists 0%nat]. }
  destruct s as [|a s1]; [split; [done|by exists 0%nat]|].
  cbn [length] in Hn. cbn [trim].
  destruct (asciiSpace a) eqn:Ha.
  { destruct (IH s1 ltac:(lia)) as [H1 [k Hk]].
    split; [done|]. exists (S k). by rewrite Hk. }
  destruct s1 as [|b s2].
  { split; [cbn; by rewrite Ha|by exists 0%nat]. }
  cbn [length] in Hn.
  destruct (p2 a b) eqn:Hab.
  { destruct (IH s2 ltac:(lia)) as [H1 [k Hk]].
    split; [done|]. exists (S (S k)). by rewrite Hk. }
  destruct s2 as [|c s3].
  { split; [cbn; by rewrite Ha, Hab|by exists 0%nat]. }
  cbn [length] in Hn.
  destruct (p3 a b c) eqn:Habc.
  { destruct (IH s3 ltac:(lia)) as [H1 [k Hk]].
    split; [done|]. exists (S (S (S k))). by rewrite Hk. }
  split; [cbn; by rewrite Ha, Hab, Habc|by exists 0%nat].
Qed.

Lemma lead_take p2 p3 n s :
  lead p2 p3 s = false -> lead p2 p3 (take n s) = false.
Proof.
  destruct s as [|a [|b [|c s]]]; destruct n as [|[|[|n]]]; cbn; try done;
    destruct (asciiSpace a); cbn; try done;
    destruct (p2 a b); cbn; done.
Qed.

(** Trimming twice is trimming once: the result has no white space at
    either end. *)
Lemma TrimSpace_idemp s : TrimSpace (TrimSpace s) = TrimSpace s.
Proof.
  unfold TrimSpace. rewrite list_ascii_of_string_of_list_ascii.
  set (l1 := trimLeft (list_ascii_of_string s)).
  assert (lead space2 space3 l1 = false) as Hl1
    by (by apply (trim_spec _ _ (length (list_ascii_of_string s)))).
  destruct (trim_spec (fun c b => space2 b c) (fun c b a => space3 a b c)
              (length (rev l1)) (rev l1) ltac:(lia)) as [Hr [k Hk]].
  fold (trimRight (rev l1)) in Hr, Hk.
  assert (rev (trimRight (rev l1)) = take (length l1 - k) l1) as Hpre.
  { by rewrite Hk, skipn_rev, rev_involutive. }
  unfold trimLeft at 1. rewrite trim_fixed.
  - rewrite rev_involutive. unfold trimRight at 1. by rewrite trim_fixed.
  - rewrite Hpre. by apply lead_take.
Qed.

Lemma trimLeft_spaces s :
  spaces s = true -> trimLeft (list_ascii_of_string s) = [].
Proof.
  induction s as [|c s IH]; [done|]. cbn. intros [Hc Hs]%andb_prop.
  rewrite Hc. by apply IH.
Qed.

Lemma TrimSpace_spaces s : spaces s = true -> TrimSpace s = EmptyString.
Proof. intros H. unfold TrimSpace. by rewrite trimLeft_spaces. Qed.

Lemma Split_blank s :
  XrayManager.blank s = true ->
  Forall (fun f => spaces f = true) (Split s ","%char).
Proof.
  induction s as [|c s IH]; cbn; [by repeat constructor|].
  intros [Hc Hs]%andb_prop. specialize (IH Hs).
  destruct (Ascii.eqb_spec c ","%char) as [->|Hne].
  - by constructor.
  - cbn in Hc. destruct (Split_cons s ","%char) as (x & r & Hx).
    rewrite Hx in *. inversion IH; subst. constructor; [|done].
    cbn. by rewrite Hc.
Qed.

End Strings_facts.

Module XrayManager_facts.
Import XrayManager.

Ltac unf := unfold P_bind, P_ret in *; psimpl.

Lemma trimmedFields_length s :
  length (trimmedFields s) = S (count ","%char s).
Proof. unfold trimmedFields. by rewrite length_fmap, Strings_facts.length_Split. Qed.

Lemma trimmedFields_blank s :
  blank s = true -> Forall (fun n => n = EmptyString) (trimmedFields s).
Proof.
  intros H. unfold trimmedFields. apply Forall_fmap.
  eapply Forall_impl; [by apply Strings_facts.Split_blank|].
  intros f Hf. by apply Strings_facts.TrimSpace_spaces.
Qed.

Lemma buildConfig_ext c c' :
  same_engine_fields c c' -> buildConfig c = buildConfig c'.
Proof.
  intros (H1 & H2 & H3 & H4 & H5 & H6 & H7 & H8).
  unfold buildConfig, buildInbounds, buildProxyInbound.
  rewrite <- H1, <- H2, <- H3, <- H4, <- H5, <- H6, <- H7.
  destruct (RealityEnabled c) eqn:Hr; [|reflexivity].
  destruct (H8 eq_refl) as (E1 & E2 & E3 & E4).
  unfold buildRealityStream. by rewrite <- E1, <- E2, <- E3, <- E4.
Qed.

(** All the ways through [Start]. *)
Ltac start_norm := cbv beta iota; cbn [app]; rewrite ?app_nil_r.

Ltac start_cases env m h :=
  unfold Start, generateConfigJSON; unf;
  destruct (bool_decide (GeoIPPath (cfg m) <> ""%string)) eqn:Hgeo;
  start_norm;
  destruct (json_MarshalIndent env (JObject (buildConfig (cfg m))))
    as [data|merr] eqn:Hdata;
  start_norm;
  try match goal with
      | |- context [os_WriteFile env ?h1 "/tmp/xray-config.json" ?d] =>
          destruct (os_WriteFile env h1 "/tmp/xray-config.json" d)
            as [werr|] eqn:Hwrite
      end;
  start_norm;
  try match goal with
      | |- context [bool_decide (ConfigPath (cfg m) <> ""%string)] =>
          destruct (bool_decide (ConfigPath (cfg m) <> ""%string)) eqn:Hpath
      end;
  start_norm;
  try match goal with
      | |- context [serial_LoadJSONConfig env ?h1 ?d] =>
          destruct (serial_LoadJSONConfig env h1 d) as [pb|lerr] eqn:Hload
      end;
  start_norm;
  try match goal with
      | |- context [core_New env ?h1 ?p] =>
          destruct (core_New env h1 p) as [i|nerr] eqn:Hnew
      end;
  start_norm;
  try match goal with
      | |- context [instance_Start env ?h1 ?j] =>
          destruct (instance_Start env h1 j) as [serr|] eqn:Hstart
      end;
  start_norm;
  unfold prog_value, prog_state, prog_events; cbn [fst snd].

(** Membership in a list that is written out. *)
Ltac in_list H :=
  repeat (apply elem_of_cons in H as [H|H];
          [try discriminate H; try (injection H; intros; subst)|]);
  try (by apply elem_of_nil in H).

Ltac open_goal :=
  repeat match goal with
         | |- _ /\ _ => split
         | |- _ <-> _ => split
         | |- forall _, _ => intro
         | H : exists _, _ |- _ => destruct H
         end;
  try match goal with H : _ ∈ _ |- _ => in_list H end.

Lemma Stop_run env m h :
  Stop env m h =
  match instance m with
  | None => (None, m, [])
  | Some i =>
      (match instance_Close env (h ++ [EvCancel]) i with
       | Some err => Some ("failed to stop xray: " +:+ err)%string
       | None => None
       end, m, [EvCancel; EvInstanceClose i (instance_Close env (h ++ [EvCancel]) i)])
  end.
Proof.
  unfold Stop. unf. destruct (instance m) as [i|]; [|reflexivity].
  rewrite ?app_nil_r. cbn [app].
  by destruct (instance_Close env _ i).
Qed.

End XrayManager_facts.

(** ** The engine manager *)

(** X19. What [Manager.Start] hands to the engine is the serialisation of
    [buildConfig] for the configuration at that moment, and the same bytes
    go to the files.  The steps depend on each other in one direction only:
    the engine is started only after it was created, created only from the
    configuration that was loaded, and that is loaded only after the copy
    in /tmp was written; the copy at the configured path is written after
    the one in /tmp, its directory is always /etc/xpanel-agent, and its
    failure changes nothing.  [Start] returns nil exactly when the engine
    reported a successful start. *)
Theorem Manager_Start_steps env m h :
  let out := XrayManager.Start env m h in
  let evs := prog_events out in
  let x := XrayManager.cfg m in
  let tmp := "/tmp/xray-config.json"%string in
  let marshalled :=
    XrayManager.json_MarshalIndent env (JObject (XrayManager.buildConfig x)) in
  (forall path data r, XrayManager.EvWriteFile path data r ∈ evs ->
     marshalled = Ok data
     /\ (path = tmp
         \/ path = ConfigPath x /\ path <> EmptyString
            /\ XrayManager.EvWriteFile tmp data None ∈ evs))
  /\ (forall path r, XrayManager.EvMkdirAll path r ∈ evs ->
        path = "/etc/xpanel-agent"%string /\ ConfigPath x <> EmptyString
        /\ exists data r', XrayManager.EvLoadJSONConfig data r' ∈ evs)
  /\ (forall data r, XrayManager.EvLoadJSONConfig data r ∈ evs ->
        marshalled = Ok data
        /\ XrayManager.EvWriteFile tmp data None ∈ evs
        /\ (ConfigPath x <> EmptyString ->
            exists r', XrayManager.EvWriteFile (ConfigPath x) data r' ∈ evs))
  /\ (forall pb r, XrayManager.EvNew pb r ∈ evs ->
        exists data, XrayManager.EvLoadJSONConfig data (Ok pb) ∈ evs)
  /\ (forall i r, XrayManager.EvInstanceStart i r ∈ evs ->
        exists pb, XrayManager.EvNew pb (Ok i) ∈ evs)
  /\ (forall k v, XrayManager.EvSetenv k v ∈ evs ->
        k = "XRAY_LOCATION_ASSET"%string
        /\ v = XrayManager.filepath_Dir env (GeoIPPath x)
        /\ GeoIPPath x <> EmptyString)
  /\ (prog_value out = None <->
      exists i, XrayManager.EvInstanceStart i None ∈ evs).
Proof.
  intros out evs x tmp marshalled. subst evs x tmp marshalled.
  unfold prog_value, prog_events. subst out.
  destruct (XrayManager.Start env m h) as [[v s] evs] eqn:Hrun.
  cbn [fst snd]. revert Hrun.
  XrayManager_facts.start_cases env m h.
  all: intros [= <- <- <-].
  all: try apply bool_decide_eq_true_1 in Hgeo.
  all: try apply bool_decide_eq_true_1 in Hpath.
  all: try apply bool_decide_eq_false_1 in Hpath.
  all: XrayManager_facts.open_goal.
  all: try done.
  all: try (by left).
  all: try (right; repeat split; try done; rewrite !elem_of_cons; by eauto 10).
  all: try (eexists; rewrite !elem_of_cons; by eauto 10).
  all: try (do 2 eexists; rewrite !elem_of_cons; by eauto 10).
  all: try (rewrite !elem_of_cons; by eauto 10).
Qed.

(** X20. The manager keeps the engine instance from the moment it is
    created.  If the engine then fails to start, [Start] returns the error
    and [IsRunning] is true all the same; when no engine was created the
    manager is unchanged.  [Start] never closes an instance, also when it
    replaces one.  [Stop] does nothing on a manager without instance;
    otherwise it cancels the context and closes the instance, but does not
    forget it: [IsRunning] stays true after [Stop], and every further
    [Stop] closes the same instance again.  [Agent.Stop] cancels the
    context of the agent, stops the manager and returns nil whatever the
    manager returned. *)
Theorem Manager_instance_lifecycle env m h :
  let out := XrayManager.Start env m h in
  let evs := prog_events out in
  XrayManager.cfg (prog_state out) = XrayManager.cfg m
  /\ (forall pb i, XrayManager.EvNew pb (Ok i) ∈ evs ->
        XrayManager.instance (prog_state out) = Some i
        /\ XrayManager.IsRunning (prog_state out) = true)
  /\ (forall i e, XrayManager.EvInstanceStart i (Some e) ∈ evs ->
        prog_value out = Some ("failed to start xray: " +:+ e)%string
        /\ XrayManager.instance (prog_state out) = Some i)
  /\ ((forall pb i, XrayManager.EvNew pb (Ok i) ∈ evs -> False) ->
      prog_state out = m /\ exists e, prog_value out = Some e)
  /\ Forall (fun e => match e with
                      | XrayManager.EvCancel
                      | XrayManager.EvInstanceClose _ _
                      | XrayManager.EvAgentCancel => False
                      | _ => True
                      end) evs
  /\ (forall m' h',
        let out' := XrayManager.Agent_Stop env m' h' in
        prog_value out' = None
        /\ prog_state out' = m'
        /\ prog_events out'
           = XrayManager.EvAgentCancel
             :: prog_events (XrayManager.Stop env m'
                               (h' ++ [XrayManager.EvAgentCancel])))
  /\ (forall m' h',
        let out' := XrayManager.Stop env m' h' in
        prog_state out' = m'
        /\ match XrayManager.instance m' with
           | None => prog_value out' = None /\ prog_events out' = []
           | Some i =>
               exists r,
                 prog_events out'
                 = [XrayManager.EvCancel; XrayManager.EvInstanceClose i r]
                 /\ prog_value out'
                    = match r with
                      | Some err => Some ("failed to stop xray: " +:+ err)%string
                      | None => None
                      end
           end).
Proof.
  intros out evs. subst evs.
  unfold prog_value, prog_state, prog_events. subst out.
  repeat apply conj.
  6: { intros m' h'. cbv zeta. unfold XrayManager.Agent_Stop.
       XrayManager_facts.unf. rewrite ?app_nil_r.
       rewrite XrayManager_facts.Stop_run.
       destruct (XrayManager.instance m') as [i|]; cbn [fst snd app];
         rewrite ?app_nil_r; done. }
  6: { intros m' h'. cbv zeta. rewrite XrayManager_facts.Stop_run.
       destruct (XrayManager.instance m') as [i|]; cbn [fst snd]; [|done].
       split; [done|]. by eexists. }
  all: destruct (XrayManager.Start env m h) as [[v s] evs] eqn:Hrun;
       cbn [fst snd]; revert Hrun;
       XrayManager_facts.start_cases env m h; intros [= <- <- <-].
  all: XrayManager_facts.open_goal.
  all: try done.
  all: try (by eexists).
  all: try (by repeat constructor).
  all: try (exfalso;
            match goal with
            | H : forall _ _, _ ∈ _ -> False |- _ =>
                eapply H; rewrite !elem_of_cons; by eauto 10
            end).
Qed.

(** X21. The engine configuration is a function of the fields [APIAddress],
    [APIPort], [Protocol], [ListenAddress], [ListenPort], [InboundTag] and
    [RealityEnabled], and with Reality enabled of the destination, the
    server names, the private key and the short ids.  Nothing else reaches
    the engine: not [TLSEnabled], the certificate, the key file or the SNI,
    and not the Reality public key. *)
Theorem buildConfig_reads_engine_fields c c' :
  XrayManager.same_engine_fields c c' ->
  XrayManager.buildConfig c = XrayManager.buildConfig c'.
Proof. apply XrayManager_facts.buildConfig_ext. Qed.

(** X22. The Reality settings carry the private key and the destination of
    the configuration, and no public key.  The server names are the
    comma-separated fields of [RealityServerNames], each with the white
    space around it removed: as many names as there are commas, plus one,
    none with white space at either end.  Empty fields stay as empty names:
    a string of commas and blanks, which is not the empty string that
    start-up refuses, gives empty names only.  The same holds for the short
    ids. *)
Theorem buildRealityStream_names c :
  exists settings names ids,
    XrayManager.buildRealityStream c !! "realitySettings"
    = Some (JObject settings)
    /\ settings !! "privateKey" = Some (JString (RealityPrivateKey c))
    /\ settings !! "dest" = Some (JString (RealityDest c))
    /\ settings !! "publicKey" = None
    /\ settings !! "serverNames" = Some (stringArray names)
    /\ settings !! "shortIds" = Some (stringArray ids)
    /\ (exists fields,
          Strings.Join fields "," = RealityServerNames c
          /\ names = Strings.TrimSpace <$> fields)
    /\ (exists fields,
          Strings.Join fields "," = RealityShortIds c
          /\ ids = Strings.TrimSpace <$> fields)
    /\ length names = S (XrayManager.count ","%char (RealityServerNames c))
    /\ length ids = S (XrayManager.count ","%char (RealityShortIds c))
    /\ Forall (fun n => Strings.TrimSpace n = n) (names ++ ids)
    /\ (XrayManager.blank (RealityServerNames c) = true ->
        Forall (fun n => n = EmptyString) names)
    /\ (XrayManager.blank (RealityShortIds c) = true ->
        Forall (fun n => n = EmptyString) ids).
Proof.
  eexists. exists (XrayManager.trimmedFields (RealityServerNames c)).
  exists (XrayManager.trimmedFields (RealityShortIds c)).
  split; [reflexivity|]. repeat split; try reflexivity.
  - exists (Strings.Split (RealityServerNames c) ","%char).
    split; [apply Strings_facts.Join_Split|reflexivity].
  - exists (Strings.Split (RealityShortIds c) ","%char).
    split; [apply Strings_facts.Join_Split|reflexivity].
  - apply XrayManager_facts.trimmedFields_length.
  - apply XrayManager_facts.trimmedFields_length.
  - apply Forall_app; split; apply Forall_fmap, Forall_forall; intros;
      apply Strings_facts.TrimSpace_idemp.
  - apply XrayManager_facts.trimmedFields_blank.
  - apply XrayManager_facts.trimmedFields_blank.
Qed.

Lemma buildConfig_reads_engine_fields_witness :
  XrayManager.buildConfig
    (set_TLSEnabled true (set_SNI "node.example.com" localXray))
  = XrayManager.buildConfig localXray.
Proof.
  apply (buildConfig_reads_engine_fields
           (set_TLSEnabled true (set_SNI "node.example.com" localXray)) localXray).
  unfold XrayManager.same_engine_fields.
  repeat split; first [reflexivity | discriminate].
Defined.

Module GeoData_facts.
Import GeoData.

Ltac unf := unfold P_bind, P_ret in *; psimpl.

Ltac norm := cbv beta iota; cbn [app]; rewrite ?app_nil_r.

(** All the ways through [downloadFile]. *)
Ltac download_cases env :=
  unfold downloadFile; unf; norm;
  match goal with
  | |- context [http_Get env ?h1 ?u] =>
      destruct (http_Get env h1 u) as [resp|gerr] eqn:Hget
  end; norm;
  try match goal with
      | |- context [bool_decide (StatusCode ?r <> 200)] =>
          destruct (bool_decide (StatusCode r <> 200)) eqn:Hstatus
      end; norm;
  try match goal with
      | |- context [os_Create env ?h1 ?p] =>
          destruct (os_Create env h1 p) as [cerr|] eqn:Hcreate
      end; norm;
  try match goal with
      | |- context [io_Copy env ?h1 ?p ?u] =>
          destruct (io_Copy env h1 p u) as [written|werr] eqn:Hcopy
      end; norm;
  try match goal with
      | |- context [os_Rename env ?h1 ?p ?q] =>
          destruct (os_Rename env h1 p q) as [rerr|] eqn:Hrename
      end; norm.

Ltac in_list H :=
  repeat (apply elem_of_cons in H as [H|H];
          [try discriminate H; try (injection H; intros; subst)|]);
  try (by apply elem_of_nil in H).

Lemma append_tmp_ne (p : string) : (p +:+ ".tmp")%string <> p.
Proof.
  induction p as [|c p IH]; [done|]. cbn. intros [= H]. by apply IH.
Qed.

(** The shapes of a download. *)
Lemma downloadFile_run env filePath url name (u : unit) h :
  let tmp := (filePath +:+ ".tmp")%string in
  exists v evs,
    downloadFile env filePath url name u h = (v, u, evs)
    /\ ((exists err, evs = [EvGet url (Err err)] /\ v <> None)
        \/ (exists resp,
              StatusCode resp <> 200
              /\ evs = [EvGet url (Ok resp); EvBodyClose url] /\ v <> None)
        \/ (exists resp err,
              StatusCode resp = 200
              /\ evs = [EvGet url (Ok resp); EvCreate tmp (Some err);
                        EvBodyClose url] /\ v <> None)
        \/ (exists resp err,
              StatusCode resp = 200
              /\ evs = [EvGet url (Ok resp); EvCreate tmp None;
                        EvCopy tmp url (Err err); EvClose tmp; EvRemove tmp;
                        EvBodyClose url] /\ v <> None)
        \/ (exists resp n err,
              StatusCode resp = 200
              /\ evs = [EvGet url (Ok resp); EvCreate tmp None;
                        EvCopy tmp url (Ok n); EvClose tmp;
                        EvRename tmp filePath (Some err); EvRemove tmp;
                        EvBodyClose url] /\ v <> None)
        \/ (exists resp n,
              StatusCode resp = 200
              /\ evs = [EvGet url (Ok resp); EvCreate tmp None;
                        EvCopy tmp url (Ok n); EvClose tmp;
                        EvRename tmp filePath None; EvBodyClose url]
              /\ v = None)).
Proof.
  intros tmp. subst tmp. destruct u.
  download_cases env; do 2 eexists; (split; [reflexivity|]).
  all: try apply bool_decide_eq_true_1 in Hstatus.
  all: try (apply bool_decide_eq_false_1, dec_stable in Hstatus).
  all: repeat first [ solve [left; repeat eexists; done]
                    | solve [repeat eexists; done]
                    | right ].
Qed.

(** [ensureFile] is the check followed, or not, by a download. *)
Lemma ensureFile_run env filePath url name (u : unit) h :
  exists st,
    os_Stat env h filePath = st
    /\ match st with
       | StatErr err =>
           ensureFile env filePath url name u h
           = (Some ("failed to stat " +:+ name +:+ ": " +:+ err)%string, u,
              [EvStat filePath st])
       | StatNotExist _ =>
           let d := downloadFile env filePath url name u
                      (h ++ [EvStat filePath st]) in
           ensureFile env filePath url name u h
           = (prog_value d, u, EvStat filePath st :: prog_events d)
       | StatOk modTime =>
           exists now,
             time_Now env (h ++ [EvStat filePath st]) = now
             /\ if Sub now modTime <? GeoDataUpdateInterval then
                  ensureFile env filePath url name u h
                  = (None, u, [EvStat filePath st; EvNow now])
                else
                  let d := downloadFile env filePath url name u
                             (h ++ [EvStat filePath st; EvNow now]) in
                  ensureFile env filePath url name u h
                  = (prog_value d, u,
                     EvStat filePath st :: EvNow now :: prog_events d)
       end.
Proof.
  eexists. split; [reflexivity|].
  unfold ensureFile, Since. unf. norm.
  destruct (os_Stat env h filePath) as [modTime|err|err] eqn:Hst; norm.
  - eexists. split; [reflexivity|].
    destruct (Sub _ modTime <? GeoDataUpdateInterval) eqn:Hage; norm.
    + reflexivity.
    + cbv zeta. rewrite <- app_assoc. cbn [app].
      destruct (downloadFile_run env filePath url name u
                  (h ++ [EvStat filePath (StatOk modTime);
                         EvNow (time_Now env (h ++ [EvStat filePath (StatOk modTime)]))]))
        as (v & evs & -> & _).
      reflexivity.
  - cbv zeta.
    destruct (downloadFile_run env filePath url name u
                (h ++ [EvStat filePath (StatNotExist err)]))
      as (v & evs & -> & _).
    reflexivity.
  - by destruct u.
Qed.

Lemma in_place_app path pre evs post :
  in_place path evs -> in_place path (pre ++ evs ++ post).
Proof.
  intros [(p1 & mt & now & p2 & -> & Hage)|Hin].
  - left. exists (pre ++ p1), mt, now, (p2 ++ post). split; [|done].
    by rewrite <- !app_assoc.
  - right. rewrite !elem_of_app. by eauto.
Qed.

Lemma downloadFile_in_place env filePath url name u h :
  prog_value (downloadFile env filePath url name u h) = None ->
  EvRename (filePath +:+ ".tmp") filePath None
    ∈ prog_events (downloadFile env filePath url name u h).
Proof.
  destruct (downloadFile_run env filePath url name u h)
    as (v & evs & -> & Hcases).
  unfold prog_value, prog_events. cbn [fst snd]. intros ->.
  destruct Hcases as [(? & _ & H)|[(? & _ & _ & H)|[(? & ? & _ & _ & H)
    |[(? & ? & _ & _ & H)|[(? & ? & ? & _ & _ & H)|(? & ? & _ & -> & _)]]]]];
    try done.
  rewrite !elem_of_cons. by eauto 10.
Qed.

Lemma ensureFile_in_place env filePath url name u h :
  prog_value (ensureFile env filePath url name u h) = None ->
  in_place filePath (prog_events (ensureFile env filePath url name u h)).
Proof.
  destruct (ensureFile_run env filePath url name u h) as (st & Hst & Hrun).
  destruct st as [mt|err|err].
  - destruct Hrun as (now & Hnow & Hrun).
    destruct (Sub now mt <? GeoDataUpdateInterval) eqn:Hage.
    + rewrite Hrun. intros _. left. exists [], mt, now, [].
      split; [reflexivity|]. by apply Z.ltb_lt.
    + cbv zeta in Hrun. rewrite Hrun. unfold prog_value, prog_events.
      cbn [fst snd]. intros Hv. right.
      do 2 apply list_elem_of_further.
      by apply downloadFile_in_place.
  - cbv zeta in Hrun. rewrite Hrun. unfold prog_value, prog_events.
    cbn [fst snd]. intros Hv. right. apply list_elem_of_further.
    by apply downloadFile_in_place.
  - by rewrite Hrun.
Qed.

Lemma downloadFile_head env filePath url name u h :
  exists r rest,
    prog_events (downloadFile env filePath url name u h) = EvGet url r :: rest.
Proof.
  destruct (downloadFile_run env filePath url name u h)
    as (v & evs & -> & Hcases).
  unfold prog_events. cbn [snd].
  destruct Hcases as [(? & -> & _)|[(? & _ & -> & _)|[(? & ? & _ & -> & _)
    |[(? & ? & _ & -> & _)|[(? & ? & ? & _ & -> & _)|(? & ? & _ & -> & _)]]]]];
    by eauto.
Qed.

Lemma downloadFile_no_mkdir env filePath url name u h dir r :
  EvMkdirAll dir r ∈ prog_events (downloadFile env filePath url name u h) ->
  False.
Proof.
  destruct (downloadFile_run env filePath url name u h)
    as (v & evs & -> & Hcases).
  unfold prog_events. cbn [snd]. intros Hin.
  destruct Hcases as [(? & -> & _)|[(? & _ & -> & _)|[(? & ? & _ & -> & _)
    |[(? & ? & _ & -> & _)|[(? & ? & ? & _ & -> & _)|(? & ? & _ & -> & _)]]]]];
    in_list Hin.
Qed.

Lemma ensureFile_no_mkdir env filePath url name u h dir r :
  EvMkdirAll dir r ∈ prog_events (ensureFile env filePath url name u h) ->
  False.
Proof.
  destruct (ensureFile_run env filePath url name u h) as (st & Hst & Hrun).
  destruct st as [mt|err|err].
  - destruct Hrun as (now & Hnow & Hrun).
    destruct (Sub now mt <? GeoDataUpdateInterval) eqn:Hage.
    + rewrite Hrun. intros Hin. unfold prog_events in Hin. cbn [snd] in Hin.
      in_list Hin.
    + cbv zeta in Hrun. rewrite Hrun. unfold prog_events at 1. cbn [snd].
      intros Hin. do 2 (apply elem_of_cons in Hin as [Hin|Hin]; [done|]).
      by eapply downloadFile_no_mkdir.
  - cbv zeta in Hrun. rewrite Hrun. unfold prog_events at 1. cbn [snd].
    intros Hin. apply elem_of_cons in Hin as [Hin|Hin]; [done|].
    by eapply downloadFile_no_mkdir.
  - rewrite Hrun. intros Hin. unfold prog_events in Hin. cbn [snd] in Hin.
    in_list Hin.
Qed.

Lemma EnsureDataFiles_run env m (u : unit) h :
  let dir := filepath_Dir env (geoIPPath m) in
  let r := os_MkdirAll env h dir in
  let h1 := h ++ [EvMkdirAll dir r] in
  let ip := ensureFile env (geoIPPath m) GeoIPURL "geoip.dat" u h1 in
  let site := ensureFile env (geoSitePath m) GeoSiteURL "geosite.dat" u
                (h1 ++ prog_events ip) in
  EnsureDataFiles env m u h =
  match r with
  | Some err =>
      (Some ("failed to create geo data directory: " +:+ err)%string, u,
       [EvMkdirAll dir r])
  | None =>
      match prog_value ip with
      | Some err => (Some err, u, EvMkdirAll dir r :: prog_events ip)
      | None =>
          (prog_value site, u,
           EvMkdirAll dir r :: prog_events ip ++ prog_events site)
      end
  end.
Proof.
  intros dir r h1 ip site. subst dir r h1 ip site. destruct u.
  unfold EnsureDataFiles. unf. norm.
  destruct (os_MkdirAll env h _) as [err|] eqn:Hmk; norm; [done|].
  unfold prog_value, prog_events.
  destruct (ensureFile env (geoIPPath m) _ _ _ _) as [[v1 []] e1]; cbn [fst snd].
  destruct v1 as [err|]; norm; [done|].
  destruct (ensureFile env (geoSitePath m) _ _ _ _) as [[v2 []] e2]; cbn [fst snd].
  destruct v2 as [err|]; norm; reflexivity.
Qed.

End GeoData_facts.

(** ** The geo data files *)

(** X23. A download never opens the destination: the only call that names
    it is the final rename of the temporary file, which is issued only
    after a response with status 200, the creation of the temporary file
    and the complete copy of the body.  [downloadFile] returns nil exactly
    when that rename succeeded; a temporary file that was created is
    renamed onto the destination or removed; and once the request
    succeeded, closing the body is the last thing done. *)
Theorem downloadFile_atomic env filePath url name u h :
  let out := GeoData.downloadFile env filePath url name u h in
  let evs := prog_events out in
  let tmp := (filePath +:+ ".tmp")%string in
  (forall e, e ∈ evs -> GeoData.touches filePath e ->
     exists r, e = GeoData.EvRename tmp filePath r)
  /\ (forall r, GeoData.EvRename tmp filePath r ∈ evs ->
        exists resp n post,
          GeoData.StatusCode resp = 200
          /\ evs = [GeoData.EvGet url (Ok resp); GeoData.EvCreate tmp None;
                    GeoData.EvCopy tmp url (Ok n); GeoData.EvClose tmp;
                    GeoData.EvRename tmp filePath r] ++ post)
  /\ (prog_value out = None <-> GeoData.EvRename tmp filePath None ∈ evs)
  /\ (GeoData.EvCreate tmp None ∈ evs ->
        GeoData.EvRename tmp filePath None ∈ evs \/ GeoData.EvRemove tmp ∈ evs)
  /\ (forall resp, GeoData.EvGet url (Ok resp) ∈ evs ->
        last evs = Some (GeoData.EvBodyClose url)).
Proof.
  intros out evs tmp. subst out evs tmp.
  destruct (GeoData_facts.downloadFile_run env filePath url name u h)
    as (v & evs & -> & Hcases).
  unfold prog_value, prog_events. cbn [fst snd].
  pose proof (GeoData_facts.append_tmp_ne filePath) as Htmp.
  destruct Hcases as [(? & -> & Hv)|[(? & Hs & -> & Hv)|[(? & ? & Hs & -> & Hv)
    |[(? & ? & Hs & -> & Hv)|[(? & ? & ? & Hs & -> & Hv)|(? & ? & Hs & -> & ->)]]]]].
  all: repeat apply conj.
  all: try (intros e Hin Ht; GeoData_facts.in_list Hin; subst; cbn in Ht;
            try done; try (by destruct Ht); by eauto).
  all: try (intros r Hin; GeoData_facts.in_list Hin; by eauto 10).
  all: try (intros Hin; try done; GeoData_facts.in_list Hin).
  all: try (intros resp Hin; GeoData_facts.in_list Hin; reflexivity).
  all: try (rewrite !elem_of_cons; by eauto 10).
Qed.

(** X24. [ensureFile] looks at the file first.  An error of [os.Stat] other
    than a missing file is returned and nothing is downloaded.  A missing
    file is downloaded.  A file that exists is downloaded again only when
    its age, the time since its modification, has reached 24 hours; a file
    stamped in the future counts as fresh.  When [ensureFile] returns nil
    the file is in place: found fresh, or renamed from a complete
    download. *)
Theorem ensureFile_refresh_rule env filePath url name u h :
  let out := GeoData.ensureFile env filePath url name u h in
  let evs := prog_events out in
  (exists st rest,
     evs = GeoData.EvStat filePath st :: rest
     /\ match st with
        | GeoData.StatErr err =>
            rest = []
            /\ prog_value out
               = Some ("failed to stat " +:+ name +:+ ": " +:+ err)%string
        | GeoData.StatNotExist _ =>
            exists r rest', rest = GeoData.EvGet url r :: rest'
        | GeoData.StatOk modTime =>
            exists now rest',
              rest = GeoData.EvNow now :: rest'
              /\ (Sub now modTime < 24 * 3600 * Second ->
                  rest' = [] /\ prog_value out = None)
              /\ (24 * 3600 * Second <= Sub now modTime ->
                  exists r rest'', rest' = GeoData.EvGet url r :: rest'')
              /\ (now <= modTime -> rest' = [])
        end)
  /\ (prog_value out = None -> GeoData.in_place filePath evs).
Proof.
  intros out evs. subst out evs. split.
  2: { apply GeoData_facts.ensureFile_in_place. }
  destruct (GeoData_facts.ensureFile_run env filePath url name u h)
    as (st & Hst & Hrun).
  exists st. destruct st as [mt|err|err].
  - destruct Hrun as (now & Hnow & Hrun).
    assert (GeoData.GeoDataUpdateInterval = 24 * 3600 * Second) as Hint
      by reflexivity.
    destruct (Sub now mt <? GeoData.GeoDataUpdateInterval) eqn:Hage.
    + apply Z.ltb_lt in Hage. rewrite Hrun.
      unfold prog_value, prog_events. cbn [fst snd].
      eexists. split; [reflexivity|]. exists now, []. repeat split; try done.
      lia.
    + apply Z.ltb_ge in Hage. cbv zeta in Hrun. rewrite Hrun.
      unfold prog_value at 1 2, prog_events at 1. cbn [fst snd].
      eexists. split; [reflexivity|]. eexists now, _.
      split; [reflexivity|]. split; [lia|]. split.
      * intros _. apply GeoData_facts.downloadFile_head.
      * intros Hfuture. exfalso. unfold Sub in Hage.
        unfold minInt64, maxInt64 in Hage.
        repeat case_match; try lia;
          rewrite ?Z.ltb_lt, ?Z.ltb_ge in *; unfold Second in *; lia.
  - cbv zeta in Hrun. rewrite Hrun. unfold prog_events at 1. cbn [snd].
    eexists. split; [reflexivity|]. apply GeoData_facts.downloadFile_head.
  - rewrite Hrun. unfold prog_value, prog_events. cbn [fst snd].
    by eexists.
Qed.

(** X25. [EnsureDataFiles] creates one directory, that of the GeoIP path,
    and no other; if that fails nothing else is done.  It then checks the
    GeoIP file and, only if that went well, the GeoSite file, and returns
    the first error unchanged.  When it returns nil both files are in
    place. *)
Theorem EnsureDataFiles_result env m u h :
  let out := GeoData.EnsureDataFiles env m u h in
  let evs := prog_events out in
  let dir := GeoData.filepath_Dir env (GeoData.geoIPPath m) in
  (exists r rest,
     evs = GeoData.EvMkdirAll dir r :: rest
     /\ (forall dir' r', GeoData.EvMkdirAll dir' r' ∈ rest -> False)
     /\ (forall err, r = Some err ->
           rest = []
           /\ prog_value out
              = Some ("failed to create geo data directory: " +:+ err)%string)
     /\ (r = None ->
         let ip := GeoData.ensureFile env (GeoData.geoIPPath m)
                     GeoData.GeoIPURL "geoip.dat" u
                     (h ++ [GeoData.EvMkdirAll dir None]) in
         match prog_value ip with
         | Some err => rest = prog_events ip /\ prog_value out = Some err
         | None =>
             let site := GeoData.ensureFile env (GeoData.geoSitePath m)
                           GeoData.GeoSiteURL "geosite.dat" u
                           (h ++ GeoData.EvMkdirAll dir None :: prog_events ip) in
             rest = prog_events ip ++ prog_events site
             /\ prog_value out = prog_value site
         end))
  /\ (prog_value out = None ->
      GeoData.in_place (GeoData.geoIPPath m) evs
      /\ GeoData.in_place (GeoData.geoSitePath m) evs).
Proof.
  intros out evs dir. subst out evs dir.
  rewrite GeoData_facts.EnsureDataFiles_run. cbv zeta.
  set (dir := GeoData.filepath_Dir env (GeoData.geoIPPath m)).
  destruct (GeoData.os_MkdirAll env h dir) as [err|] eqn:Hmk.
  { unfold prog_value, prog_events. cbn [fst snd]. split; [|done].
    eexists _, []. split; [reflexivity|]. split; [|split].
    - intros ? ? Hin. by apply elem_of_nil in Hin.
    - by intros ? [= <-].
    - done. }
  set (ip := GeoData.ensureFile env (GeoData.geoIPPath m) _ _ u _).
  destruct (prog_value ip) as [err|] eqn:Hip.
  { unfold prog_value at 1 2, prog_events at 1 2. cbn [fst snd].
    split; [|done]. eexists None, _. split; [reflexivity|].
    split; [|split].
    - intros ? ? Hin. by eapply GeoData_facts.ensureFile_no_mkdir.
    - done.
    - done. }
  set (site := GeoData.ensureFile env (GeoData.geoSitePath m) _ _ u _).
  unfold prog_value at 1 2, prog_events at 1 2. cbn [fst snd]. split.
  - eexists None, _. split; [reflexivity|]. split; [|split].
    + intros ? ? [Hin|Hin]%elem_of_app;
        by eapply GeoData_facts.ensureFile_no_mkdir.
    + done.
    + intros _.
      replace (h ++ GeoData.EvMkdirAll dir None :: prog_events ip)
        with ((h ++ [GeoData.EvMkdirAll dir None]) ++ prog_events ip)
        by (by rewrite <- app_assoc).
      by fold site.
  - intros Hsite. split.
    + apply (GeoData_facts.in_place_app _ [GeoData.EvMkdirAll dir None]
               (prog_events ip) (prog_events site)).
      by apply GeoData_facts.ensureFile_in_place.
    + replace (GeoData.EvMkdirAll dir None :: prog_events ip ++ prog_events site)
        with ((GeoData.EvMkdirAll dir None :: prog_events ip)
                ++ prog_events site ++ []) by (by rewrite app_nil_r).
      apply GeoData_facts.in_place_app.
      by apply GeoData_facts.ensureFile_in_place.
Qed.

Module ConfigFile_facts.
Import ConfigFile.

Lemma Load_Xray env path cfg :
  Load env path = Ok cfg ->
  Protocol (Xray cfg) = ""%string /\ ListenPort (Xray cfg) = 0
  /\ InboundTag (Xray cfg) = ""%string /\ RealityEnabled (Xray cfg) = false
  /\ TLSEnabled (Xray cfg) = false
  /\ ListenAddress (Xray cfg) = "0.0.0.0"%string
  /\ RealityKeyPath (Xray cfg) <> ""%string.
Proof.
  unfold Load. destruct (os_ReadFile env path) as [data|e]; [|done].
  destruct (yaml_Unmarshal env data) as [d|e]; [|done].
  intros [= <-]. cbn. repeat split. by case_bool_decide.
Qed.

End ConfigFile_facts.

(** ** The configuration file *)

(** X26. [Load] does no validation: it succeeds whenever the file can be
    read and parsed.  In the configuration it returns the timeout and the
    four intervals are never zero: a zero or missing value is replaced by
    its default (10 s, 30 s, 5 min, 1 min, 30 s), while any other value,
    negative ones included, is kept as it is.  The log level and the log
    format are never empty, and neither is the path of the Reality key,
    which defaults to "reality_private.key".  The listen address is
    "0.0.0.0", the certificate, key, geo data and engine configuration paths
    come from the [files] section, and every field of the engine
    configuration that the panel owns is empty. *)
Theorem Load_defaults env path :
  match ConfigFile.Load env path with
  | Err e =>
      ConfigFile.os_ReadFile env path = Err e
      \/ exists data, ConfigFile.os_ReadFile env path = Ok data
                      /\ ConfigFile.yaml_Unmarshal env data = Err e
  | Ok cfg =>
      exists data d,
        ConfigFile.os_ReadFile env path = Ok data
        /\ ConfigFile.yaml_Unmarshal env data = Ok d
        /\ Forall (fun v => v <> 0) (ConfigFile.durations cfg)
        /\ Forall3 (fun v file default =>
                      v = if bool_decide (file = 0) then default else file)
             (ConfigFile.durations cfg) (ConfigFile.documentDurations d)
             ConfigFile.defaultDurations
        /\ ConfigFile.Level (ConfigFile.Logging cfg) <> ""%string
        /\ ConfigFile.Format (ConfigFile.Logging cfg) <> ""%string
        /\ RealityKeyPath (ConfigFile.Xray cfg) <> ""%string
        /\ (ConfigFile.RealityKey (ConfigFile.d_Files d) <> ""%string ->
            RealityKeyPath (ConfigFile.Xray cfg)
            = ConfigFile.RealityKey (ConfigFile.d_Files d))
        /\ ConfigFile.Node cfg = ConfigFile.d_Node d
        /\ ConfigFile.Files cfg = ConfigFile.d_Files d
        /\ ConfigFile.Xray cfg
           = {| APIAddress := ConfigFile.d_APIAddress d;
                APIPort := ConfigFile.d_APIPort d;
                Protocol := ""; ListenAddress := "0.0.0.0"; ListenPort := 0;
                TLSEnabled := false;
                CertFile := ConfigFile.TLSCert (ConfigFile.d_Files d);
                KeyFile := ConfigFile.TLSKey (ConfigFile.d_Files d);
                SNI := ""; InboundTag := "";
                GeoIPPath := ConfigFile.GeoIP (ConfigFile.d_Files d);
                GeoSitePath := ConfigFile.GeoSite (ConfigFile.d_Files d);
                ConfigPath := ConfigFile.XrayConfigFile (ConfigFile.d_Files d);
                RealityEnabled := false; RealityDest := "";
                RealityServerNames := ""; RealityPrivateKey := "";
                RealityPublicKey := ""; RealityShortIds := "";
                RealityKeyPath := RealityKeyPath (ConfigFile.Xray cfg) |}
  end.
Proof.
  unfold ConfigFile.Load.
  destruct (ConfigFile.os_ReadFile env path) as [data|e]; [|by left].
  destruct (ConfigFile.yaml_Unmarshal env data) as [d|e] eqn:Hd;
    [|right; by exists data].
  exists data, d. split; [done|]. split; [done|].
  unfold ConfigFile.durations, ConfigFile.documentDurations,
    ConfigFile.defaultDurations, ConfigFile.orDuration, ConfigFile.orString.
  cbn. repeat split.
  - repeat constructor; case_bool_decide; done.
  - repeat constructor.
  - by case_bool_decide.
  - by case_bool_decide.
  - by case_bool_decide.
  - intros H. by rewrite bool_decide_eq_true_2.
Qed.

(** X27. From the file to the engine: an agent made by [NewAgent] from a
    configuration that [Load] returned, and started while the controller
    cannot be reached, calls the engine start with an empty protocol, the
    port 0, the listen address "0.0.0.0", no Reality, and the inbound tag
    "inbound-vless".  The proxy inbound that the manager builds from it
    has the empty protocol name, the port 0 and no stream settings. *)
Theorem Load_then_Start_fallback fenv path loaded env fs h e :
  ConfigFile.Load fenv path = Ok loaded ->
  let w := {| agent := ConfigFile.NewAgent loaded; fs := fs |} in
  let evs := out_events (Start env w h) in
  EvFetchNodeConfig (ConfigFile.ID (ConfigFile.Node loaded)) (Err e) ∈ evs ->
  exists c r,
    EvManagerStart c r ∈ evs
    /\ c = set_InboundTag "inbound-vless" (ConfigFile.Xray loaded)
    /\ Protocol c = ""%string /\ ListenPort c = 0
    /\ ListenAddress c = "0.0.0.0"%string /\ RealityEnabled c = false
    /\ out_value (Start env w h) = r
    /\ exists api proxy,
         member "inbounds" (JObject (XrayManager.buildConfig c))
         = Some (JArray [api; proxy])
         /\ member "protocol" proxy = Some (JString "")
         /\ member "port" proxy = Some (JNumber 0)
         /\ member "tag" proxy = Some (JString "inbound-vless")
         /\ member "streamSettings" proxy = None.
Proof.
  intros Hload w evs Hin. subst evs.
  destruct (ConfigFile_facts.Load_Xray fenv path loaded Hload)
    as (Hp & Hport & Htag & Hre & Htls & Hla & Hkey).
  destruct (Start_fetched env w h _ (Err e) Hin)
    as (e1 & w1 & res & w2 & h2 & h3 & Hk & Hcfg & Hres & Hrun).
  destruct (resolveConfig_run (Err e) w1 h2)
    as (res' & w2' & Hres' & _ & Hnone & Hxray).
  rewrite Hres in Hres'. injection Hres' as <- <-. subst res.
  rewrite Hcfg in Hxray. subst w. cbn [agent cfg ConfigFile.NewAgent Xray
    ConfigFile.agentConfig] in Hxray.
  rewrite decide_True in Hxray by done.
  destruct (launch_run env w2 h3)
    as (pre & r & post & Hev & Hpre & Hpost & Hval & Hcfg').
  exists (set_InboundTag "inbound-vless" (ConfigFile.Xray loaded)), r.
  split.
  { rewrite Hrun. unfold out_events in *. cbn [snd]. rewrite Hev, Hxray.
    rewrite elem_of_app, elem_of_cons, elem_of_app, elem_of_cons.
    right. right. right. by left. }
  split; [done|].
  split; [by destruct (ConfigFile.Xray loaded)|].
  split; [by destruct (ConfigFile.Xray loaded)|].
  split; [by destruct (ConfigFile.Xray loaded)|].
  split; [by destruct (ConfigFile.Xray loaded)|].
  split; [by rewrite Hrun|].
  eexists. eexists. split; [reflexivity|].
  unfold XrayManager.buildProxyInbound.
  destruct (ConfigFile.Xray loaded); cbn in *; subst.
  repeat split; reflexivity.
Qed.

Lemma Load_then_Start_fallback_witness :
  exists c r,
    EvManagerStart c r ∈ out_events (Start onlineEnv newWorld [])
    /\ Protocol c = ""%string /\ ListenPort c = 0
    /\ out_value (Start onlineEnv newWorld []) = r.
Proof.
  destruct (Load_then_Start_fallback ConfigFile.minimalFile "config.yaml" _
              onlineEnv {| files := ∅; dirs := ∅ |} [] "controller unreachable"
              eq_refl)
    as (c & r & Hin & _ & Hp & Hport & _ & _ & Hv & _).
  - vm_compute. repeat first [apply list_elem_of_here | apply list_elem_of_further].
  - exists c, r. repeat split; assumption.
Defined.

Module PanelClient_facts.
Import PanelClient.

Ltac unf := unfold P_bind, P_ret in *; psimpl.
Ltac norm := cbv beta iota; cbn [app]; rewrite ?app_nil_r.

Lemma accepted_decide resp :
  bool_decide (StatusCode resp < 200 \/ StatusCode resp >= 300) = false
  <-> accepted resp.
Proof.
  unfold accepted. rewrite bool_decide_eq_false. lia.
Qed.

(** [doRequest] without a response structure. *)
Lemma doRequest_plain env method url reqBody c h :
  doRequest env tt method url reqBody None c h =
  match marshalled env reqBody with
  | Err err => (Err err, c, [])
  | Ok body =>
      match http_NewRequest env method url with
      | Some err => (Err ("failed to create request: " +:+ err)%string, c, [])
      | None =>
          let req := request c method url body in
          match http_Do env h req with
          | Err err =>
              (Err ("request failed: " +:+ err)%string, c, [EvDo req (Err err)])
          | Ok resp =>
              if bool_decide (StatusCode resp < 200 \/ StatusCode resp >= 300)
              then
                let b := io_ReadAll env (h ++ [EvDo req (Ok resp)]) in
                (Err (statusError resp b), c,
                 [EvDo req (Ok resp); EvReadAll b; EvBodyClose])
              else (Ok tt, c, [EvDo req (Ok resp); EvBodyClose])
          end
      end
  end.
Proof.
  unfold doRequest, marshalled, request, statusError. unf. norm.
  destruct reqBody as [p|]; [destruct (json_Marshal env p)|]; norm;
    try reflexivity.
  all: destruct (http_NewRequest env method url); norm; try reflexivity.
  all: destruct (http_Do env h _) as [resp|err]; norm; try reflexivity.
  all: destruct (bool_decide (StatusCode resp < 200 \/ _)); norm; reflexivity.
Qed.

(** [doRequest] decoding the answer with [oracle]. *)
Lemma doRequest_decode {R : Type} env (zero : R) method url
    (oracle : list Event -> result R) (ev : result R -> Event) c h :
  doRequest env zero method url None (Some (prog_call oracle ev)) c h =
  match http_NewRequest env method url with
  | Some err => (Err ("failed to create request: " +:+ err)%string, c, [])
  | None =>
      let req := request c method url None in
      match http_Do env h req with
      | Err err =>
          (Err ("request failed: " +:+ err)%string, c, [EvDo req (Err err)])
      | Ok resp =>
          if bool_decide (StatusCode resp < 200 \/ StatusCode resp >= 300)
          then
            let b := io_ReadAll env (h ++ [EvDo req (Ok resp)]) in
            (Err (statusError resp b), c,
             [EvDo req (Ok resp); EvReadAll b; EvBodyClose])
          else
            let d := oracle (h ++ [EvDo req (Ok resp)]) in
            (match d with
             | Err err => Err ("failed to decode response: " +:+ err)%string
             | Ok v => Ok v
             end, c, [EvDo req (Ok resp); ev d; EvBodyClose])
      end
  end.
Proof.
  unfold doRequest, request, statusError. unf. norm.
  destruct (http_NewRequest env method url); norm; try reflexivity.
  destruct (http_Do env h _) as [resp|err]; norm; try reflexivity.
  destruct (bool_decide (StatusCode resp < 200 \/ _)); norm; try reflexivity.
  by destruct (oracle _).
Qed.

Lemma post_run env c h :
  (forall hb,
     SendHeartbeat env hb c h
     = let '(r, c', evs) :=
         doRequest env tt "POST" (baseURL c +:+ "/api/v1/node-agent/heartbeat")
           (Some (Heartbeat hb)) None c h in
       (errorOf r, c', evs))
  /\ (forall report,
        ReportTraffic env report c h
        = let '(r, c', evs) :=
            doRequest env tt "POST" (baseURL c +:+ "/api/v1/node-agent/traffic")
              (Some (Traffic report)) None c h in
          (errorOf r, c', evs))
  /\ (forall report,
        ReportActivity env report c h
        = let '(r, c', evs) :=
            doRequest env tt "POST" (baseURL c +:+ "/api/v1/node-agent/activity")
              (Some (Activity report)) None c h in
          (errorOf r, c', evs)).
Proof.
  repeat split; intros;
    unfold SendHeartbeat, ReportTraffic, ReportActivity; unf;
    rewrite ?app_nil_r;
    match goal with
    | |- context [doRequest ?e ?z ?m ?u ?b ?d ?c ?h] =>
        destruct (doRequest e z m u b d c h) as [[r c'] evs]
    end; cbn [app]; by rewrite ?app_nil_r.
Qed.

Lemma FetchUserSync_run env nodeID c h :
  FetchUserSync env nodeID c h
  = let '(r, c', evs) :=
      doRequest env {| us_Success := false; us_Users := [] |} "GET"
        (baseURL c +:+ "/api/v1/node-agent/" +:+ utoa nodeID +:+ "/sync")
        None (Some (prog_call (json_DecodeUserSync env) EvDecodeUserSync)) c h in
    (match r with
     | Err err => Err err
     | Ok response =>
         if negb (us_Success response) then Err "sync request failed"%string
         else Ok (us_Users response)
     end, c', evs).
Proof.
  unfold FetchUserSync. unf. rewrite ?app_nil_r.
  match goal with
  | |- context [doRequest ?e ?z ?m ?u ?b ?d ?c ?h] =>
      destruct (doRequest e z m u b d c h) as [[r c'] evs]
  end.
  destruct r as [response|err]; [destruct (us_Success response)|];
    cbn [app negb]; by rewrite ?app_nil_r.
Qed.

Lemma FetchNodeConfig_run env nodeID c h :
  FetchNodeConfig env nodeID c h
  = let '(r, c', evs) :=
      doRequest env {| nr_Success := false; nr_Node := zeroNodeConfig |} "GET"
        (baseURL c +:+ "/api/v1/node-agent/" +:+ utoa nodeID +:+ "/config")
        None (Some (prog_call (json_DecodeNodeConfig env) EvDecodeNodeConfig))
        c h in
    (match r with
     | Err err => Err err
     | Ok response =>
         if negb (nr_Success response)
         then Err "failed to fetch node config"%string
         else Ok (nr_Node response)
     end, c', evs).
Proof.
  unfold FetchNodeConfig. unf. rewrite ?app_nil_r.
  match goal with
  | |- context [doRequest ?e ?z ?m ?u ?b ?d ?c ?h] =>
      destruct (doRequest e z m u b d c h) as [[r c'] evs]
  end.
  destruct r as [response|err]; [destruct (nr_Success response)|];
    cbn [app negb]; by rewrite ?app_nil_r.
Qed.

Ltac in_list H :=
  repeat (apply elem_of_cons in H as [H|H];
          [try discriminate H; try (injection H; intros; subst)|]);
  try (by apply elem_of_nil in H).

(** All the ways through a fetch. *)
Ltac fetch_cases env :=
  rewrite doRequest_decode;
  match goal with
  | |- context [http_NewRequest env ?m ?u] =>
      destruct (http_NewRequest env m u) as [nerr|]
  end; cbv zeta;
  try match goal with
      | |- context [http_Do env ?h1 ?q] =>
          destruct (http_Do env h1 q) as [resp|derr]
      end;
  try match goal with
      | |- context [bool_decide (StatusCode ?r < 200 \/ StatusCode ?r >= 300)] =>
          destruct (bool_decide (StatusCode r < 200 \/ StatusCode r >= 300))
            eqn:Hstatus;
          [apply bool_decide_eq_true in Hstatus
          |apply accepted_decide in Hstatus]
      end;
  try match goal with
      | |- context [json_DecodeUserSync env ?h1] =>
          destruct (json_DecodeUserSync env h1) as [response|jerr]
      | |- context [json_DecodeNodeConfig env ?h1] =>
          destruct (json_DecodeNodeConfig env h1) as [response|jerr]
      end;
  try match goal with
      | |- context [negb (us_Success ?r)] => destruct (us_Success r) eqn:Hsuccess
      | |- context [negb (nr_Success ?r)] => destruct (nr_Success r) eqn:Hsuccess
      end;
  unfold prog_value, prog_state, prog_events; cbn [fst snd negb].

End PanelClient_facts.

(** ** The controller client *)

(** X28. [SendHeartbeat], [ReportTraffic] and [ReportActivity] post their
    payload to /api/v1/node-agent/heartbeat, /traffic and /activity under
    the base address.  Each makes at most one exchange, with the header
    Content-Type and, only when an API key is configured, the header
    X-API-Key; each returns nil exactly when the controller answered with
    a status from 200 to 299, and an error that quotes the status and the
    body for any other status. *)
Theorem panel_posts env c h heartbeat traffic activity :
  PanelClient.post_outcome env c
    (PanelClient.baseURL c +:+ "/api/v1/node-agent/heartbeat")
    (PanelClient.Heartbeat heartbeat)
    (PanelClient.SendHeartbeat env heartbeat c h)
  /\ PanelClient.post_outcome env c
       (PanelClient.baseURL c +:+ "/api/v1/node-agent/traffic")
       (PanelClient.Traffic traffic)
       (PanelClient.ReportTraffic env traffic c h)
  /\ PanelClient.post_outcome env c
       (PanelClient.baseURL c +:+ "/api/v1/node-agent/activity")
       (PanelClient.Activity activity)
       (PanelClient.ReportActivity env activity c h)
  /\ (forall method url body,
        PanelClient.Header (PanelClient.request c method url body)
          !! "Content-Type"%string = Some "application/json"%string
        /\ PanelClient.Header (PanelClient.request c method url body)
             !! "X-API-Key"%string
           = if bool_decide (PanelClient.apiKey c = ""%string) then None
             else Some (PanelClient.apiKey c)).
Proof.
  assert (Hpost : forall url payload,
            PanelClient.post_outcome env c url payload
              (let '(r, c', evs) :=
                 PanelClient.doRequest env tt "POST" url (Some payload) None c h in
               (PanelClient.errorOf r, c', evs))).
  { intros url payload. rewrite PanelClient_facts.doRequest_plain.
    unfold PanelClient.post_outcome, PanelClient.marshalled.
    destruct (PanelClient.json_Marshal env payload) as [j|merr] eqn:Hm.
    2: { unfold prog_value, prog_state, prog_events. cbn.
         repeat split; try done.
         - intros ? ? Hin. by apply elem_of_nil in Hin.
         - by intros (? & ? & ? & _).
         - intros ? ? Hin. by apply elem_of_nil in Hin.
         - intros ? ? Hin. by apply elem_of_nil in Hin. }
    destruct (PanelClient.http_NewRequest env "POST" url) as [nerr|] eqn:Hn.
    { unfold prog_value, prog_state, prog_events. cbn.
      repeat split; try done.
      - intros ? ? Hin. by apply elem_of_nil in Hin.
      - by intros (? & ? & ? & _).
      - intros ? ? Hin. by apply elem_of_nil in Hin.
      - intros ? ? Hin. by apply elem_of_nil in Hin. }
    cbv zeta.
    destruct (PanelClient.http_Do env h _) as [resp|derr] eqn:Hd.
    2: { unfold prog_value, prog_state, prog_events. cbn.
         split; [done|]. split; [|split; [|split]].
         - intros req r Hin. apply list_elem_of_singleton in Hin.
           injection Hin as -> ->. exists j, []. by repeat split.
         - split; [done|]. by intros (? & ? & ? & _).
         - intros req resp Hin. apply list_elem_of_singleton in Hin. done.
         - intros req err Hin. apply list_elem_of_singleton in Hin.
           by injection Hin as _ ->. }
    destruct (bool_decide (PanelClient.StatusCode resp < 200 \/ _)) eqn:Hs.
    - apply bool_decide_eq_true in Hs.
      unfold prog_value, prog_state, prog_events. cbn.
      split; [done|]. split; [|split; [|split]].
      + intros req r Hin. apply elem_of_cons in Hin as [Hin|Hin].
        * injection Hin as -> ->. eexists j, _. repeat split.
          by repeat constructor.
        * apply elem_of_cons in Hin as [Hin|Hin]; [done|].
          by apply list_elem_of_singleton in Hin.
      + split; [done|]. intros (? & ? & Heq & Hacc).
        injection Heq as _ <-. unfold PanelClient.accepted in Hacc. lia.
      + intros req resp' Hin Hacc.
        apply elem_of_cons in Hin as [Hin|Hin].
        * injection Hin as -> ->. by eexists.
        * apply elem_of_cons in Hin as [Hin|Hin]; [done|].
          by apply list_elem_of_singleton in Hin.
      + intros req err Hin.
        apply elem_of_cons in Hin as [Hin|Hin]; [done|].
        apply elem_of_cons in Hin as [Hin|Hin]; [done|].
        by apply list_elem_of_singleton in Hin.
    - apply PanelClient_facts.accepted_decide in Hs.
      unfold prog_value, prog_state, prog_events. cbn.
      split; [done|]. split; [|split; [|split]].
      + intros req r Hin. apply elem_of_cons in Hin as [Hin|Hin].
        * injection Hin as -> ->. eexists j, _. repeat split.
          by repeat constructor.
        * by apply list_elem_of_singleton in Hin.
      + split; [|done]. intros _. by eexists _, resp.
      + intros req resp' Hin Hacc.
        apply elem_of_cons in Hin as [Hin|Hin].
        * injection Hin as _ ->. done.
        * by apply list_elem_of_singleton in Hin.
      + intros req err Hin.
        apply elem_of_cons in Hin as [Hin|Hin]; [done|].
        by apply list_elem_of_singleton in Hin. }
  destruct (PanelClient_facts.post_run env c h) as (H1 & H2 & H3).
  split; [|split; [|split]].
  - rewrite H1. apply (Hpost _ (PanelClient.Heartbeat heartbeat)).
  - rewrite H2. apply (Hpost _ (PanelClient.Traffic traffic)).
  - rewrite H3. apply (Hpost _ (PanelClient.Activity activity)).
  - intros method url body. unfold PanelClient.request. cbn [PanelClient.Header].
    destruct (decide (PanelClient.apiKey c = ""%string)) as [He|Hne].
    + rewrite bool_decide_eq_false_2 by (by intros ?).
      rewrite bool_decide_eq_true_2 by done. split; reflexivity.
    + rewrite bool_decide_eq_true_2 by done.
      rewrite bool_decide_eq_false_2 by done.
      split; [|by rewrite lookup_insert_eq].
      by rewrite lookup_insert_ne.
Qed.

(** X29. [FetchUserSync] and [FetchNodeConfig] each make one GET, without
    body, of /api/v1/node-agent/<node id>/sync and /config under the base
    address.  They return the users, or the node configuration, exactly
    when the controller answered with a status from 200 to 299, the body
    could be decoded, and the decoded [success] flag is true.  A decoded
    answer whose flag is false is an error ("sync request failed",
    "failed to fetch node config") whatever else it carries. *)
Theorem panel_fetches env c nodeID h :
  let sync := PanelClient.FetchUserSync env nodeID c h in
  let config := PanelClient.FetchNodeConfig env nodeID c h in
  let get path :=
    PanelClient.request c "GET"
      (PanelClient.baseURL c +:+ "/api/v1/node-agent/" +:+ utoa nodeID
       +:+ path) None in
  (prog_state sync = c /\ prog_state config = c)
  /\ (forall users,
        prog_value sync = Ok users <->
        exists resp response,
          prog_events sync
          = [PanelClient.EvDo (get "/sync"%string) (Ok resp);
             PanelClient.EvDecodeUserSync (Ok response);
             PanelClient.EvBodyClose]
          /\ PanelClient.accepted resp
          /\ PanelClient.us_Success response = true
          /\ PanelClient.us_Users response = users)
  /\ (forall node,
        prog_value config = Ok node <->
        exists resp response,
          prog_events config
          = [PanelClient.EvDo (get "/config"%string) (Ok resp);
             PanelClient.EvDecodeNodeConfig (Ok response);
             PanelClient.EvBodyClose]
          /\ PanelClient.accepted resp
          /\ PanelClient.nr_Success response = true
          /\ PanelClient.nr_Node response = node)
  /\ (forall response,
        PanelClient.EvDecodeUserSync (Ok response) ∈ prog_events sync ->
        PanelClient.us_Success response = false ->
        prog_value sync = Err "sync request failed"%string)
  /\ (forall response,
        PanelClient.EvDecodeNodeConfig (Ok response) ∈ prog_events config ->
        PanelClient.nr_Success response = false ->
        prog_value config = Err "failed to fetch node config"%string)
  /\ (forall req r, PanelClient.EvDo req r ∈ prog_events sync ->
        req = get "/sync"%string
        /\ length (filter (fun e => PanelClient.is_exchange e = true)
                     (prog_events sync)) = 1%nat)
  /\ (forall req r, PanelClient.EvDo req r ∈ prog_events config ->
        req = get "/config"%string
        /\ length (filter (fun e => PanelClient.is_exchange e = true)
                     (prog_events config)) = 1%nat).
Proof.
  intros sync config get. subst sync config get. cbv beta.
  rewrite PanelClient_facts.FetchUserSync_run,
    PanelClient_facts.FetchNodeConfig_run.
  split; [split; PanelClient_facts.fetch_cases env; reflexivity|].
  split; [|split; [|split; [|split; [|split]]]].
  - intros users. PanelClient_facts.fetch_cases env.
    all: split; [intros Hv; try discriminate Hv|
                 intros (? & ? & Hev & Hacc & Hs & Hu); try discriminate Hev].
    all: try (injection Hev as <- <-).
    all: try (unfold PanelClient.accepted in *; lia).
    all: try congruence.
    injection Hv as <-. by eexists _, _.
  - intros node. PanelClient_facts.fetch_cases env.
    all: split; [intros Hv; try discriminate Hv|
                 intros (? & ? & Hev & Hacc & Hs & Hu); try discriminate Hev].
    all: try (injection Hev as <- <-).
    all: try (unfold PanelClient.accepted in *; lia).
    all: try congruence.
    injection Hv as <-. by eexists _, _.
  - intros response'. PanelClient_facts.fetch_cases env.
    all: intros Hin Hs; PanelClient_facts.in_list Hin; congruence.
  - intros response'. PanelClient_facts.fetch_cases env.
    all: intros Hin Hs; PanelClient_facts.in_list Hin; congruence.
  - intros req r. PanelClient_facts.fetch_cases env.
    all: intros Hin; PanelClient_facts.in_list Hin; by split.
  - intros req r. PanelClient_facts.fetch_cases env.
    all: intros Hin; PanelClient_facts.in_list Hin; by split.
Qed.

Module Heartbeat_facts.
Import Heartbeat.

Ltac unf := unfold P_bind, P_ret in *; psimpl.

Lemma sendHeartbeat_run env a h :
  exists cpu memory uptime now r,
    sendHeartbeat env a h
    = (r, a,
       [EvCPUPercent cpu; EvVirtualMemory memory; EvUptime uptime; EvNow now;
        EvSendHeartbeat
          {| hb_NodeID := Node_ID (cfg a);
             hb_Status := "online";
             hb_CurrentUsers := Z.of_nat (size (currentUsers a));
             hb_CPUUsage := match cpu with x :: _ => x | [] => 0 end;
             hb_MemoryUsage := match memory with Some used => used | None => 0 end;
             hb_Uptime := wrap64 uptime;
             hb_Timestamp := now;
             hb_RealityPublicKey :=
               match realityKeys a with
               | Some keys => PublicKey keys
               | None => ""
               end |} r]).
Proof.
  do 5 eexists. unfold sendHeartbeat. unf. rewrite ?app_nil_r. cbn [app].
  match goal with
  | |- context [panel_SendHeartbeat env ?h1 ?q] =>
      destruct (panel_SendHeartbeat env h1 q) eqn:Hsend
  end; cbn [app]; rewrite <- Hsend; reflexivity.
Qed.

End Heartbeat_facts.

(** ** The heartbeat *)

(** X30. [sendHeartbeat] sends one heartbeat and returns what the controller
    answered, without changing the agent.  The heartbeat names the node,
    always says "online", counts the provisioned identities, and carries
    the public key of the Reality key pair when the agent holds one and
    the empty string otherwise.  Metrics that could not be read count as
    zero and never make the heartbeat fail.  In particular, right after
    a reconciliation pass in which no engine call failed, the count is
    the number of distinct identifiers the controller listed. *)
Theorem sendHeartbeat_report env a h :
  let out := Heartbeat.sendHeartbeat env a h in
  prog_state out = a
  /\ (exists pre heartbeat,
        prog_events out
        = pre ++ [Heartbeat.EvSendHeartbeat heartbeat (prog_value out)]
        /\ Forall (fun e => match e with
                            | Heartbeat.EvSendHeartbeat _ _ => False
                            | _ => True
                            end) pre
        /\ hb_NodeID heartbeat = Node_ID (cfg a)
        /\ hb_Status heartbeat = "online"%string
        /\ hb_CurrentUsers heartbeat = Z.of_nat (size (currentUsers a))
        /\ hb_RealityPublicKey heartbeat
           = match realityKeys a with
             | Some keys => PublicKey keys
             | None => ""%string
             end
        /\ (Heartbeat.EvCPUPercent [] ∈ pre -> hb_CPUUsage heartbeat = 0)
        /\ (Heartbeat.EvVirtualMemory None ∈ pre -> hb_MemoryUsage heartbeat = 0)
        /\ (forall t, Heartbeat.EvNow t ∈ pre -> hb_Timestamp heartbeat = t)
        /\ (forall u, Heartbeat.EvUptime u ∈ pre ->
              hb_Uptime heartbeat = wrap64 u))
  /\ (forall senv w h' users,
        a = agent (out_world (syncUsers senv w h')) ->
        panel_FetchUserSync senv h' (Node_ID (cfg (agent w))) = Ok users ->
        Forall (fun e => add_failed e = false /\ remove_failed e = false)
               (out_events (syncUsers senv w h')) ->
        exists heartbeat r,
          Heartbeat.EvSendHeartbeat heartbeat r ∈ prog_events out
          /\ hb_CurrentUsers heartbeat = Z.of_nat (size (identifiers users))).
Proof.
  intros out. subst out.
  destruct (Heartbeat_facts.sendHeartbeat_run env a h)
    as (cpu & memory & uptime & now & r & Hrun).
  rewrite Hrun. unfold prog_value, prog_state, prog_events. cbn [fst snd].
  split; [done|]. split.
  - eexists [_; _; _; _], _. split; [reflexivity|].
    split; [by repeat constructor|]. cbn.
    repeat split; try done.
    + intros Hin. repeat (apply elem_of_cons in Hin as [Hin|Hin];
                          [try discriminate Hin|]).
      * by injection Hin as <-.
      * by apply elem_of_nil in Hin.
    + intros Hin. repeat (apply elem_of_cons in Hin as [Hin|Hin];
                          [try discriminate Hin|]).
      * by injection Hin as <-.
      * by apply elem_of_nil in Hin.
    + intros t Hin. repeat (apply elem_of_cons in Hin as [Hin|Hin];
                            [try discriminate Hin|]).
      * by injection Hin as <-.
      * by apply elem_of_nil in Hin.
    + intros u Hin. repeat (apply elem_of_cons in Hin as [Hin|Hin];
                            [try discriminate Hin|]).
      * by injection Hin as <-.
      * by apply elem_of_nil in Hin.
  - intros senv w h' users Ha Hfetch Hok.
    eexists _, r. split.
    + rewrite !elem_of_cons. do 4 right. left. reflexivity.
    + cbn. rewrite Ha.
      rewrite <- (syncUsers_pass_dom senv w h' users Hfetch Hok).
      by rewrite size_dom.
Qed.
